(** * Employee database manager: a shallow embedding of v1, v2 and v3

    The three versions of the program (flat script [v1/employee_db.py],
    layered application [v2/...], HTTP service [v3/main.py]) share one
    table [employees(id, full_name, birth_date, gender)] held in SQLite.
    This development models

    - Python [str] values as lists of Unicode code points, with the
      string methods the program calls ([lower], [capitalize], [split],
      [join]);
    - dates as (year, month, day) records with CPython's ordinal
      arithmetic, [strptime] for the format [%Y-%m-%d], [isoformat];
    - the SQLite database as a record holding the optional table (a list
      of rows in rowid order) and the index catalogue (a finite map from
      index names to indexed expressions);
    - every operation of every version as a function from database
      states to results, exceptions being values of a sum type.

    Failures of the environment (a file that cannot be opened, a full
    disk) are not modelled: a statement fails only for the reason SQLite
    has on this schema, the missing table, and, where the answer of the
    program depends on it, for a parameter that the driver cannot
    encode.  The random generators and the clock are sequences given
    from outside. *)

From Stdlib Require Import ZArith NArith List Bool Lia Ascii String DecimalString Sorted Permutation.
From stdpp Require Import base decidable option list gmap strings.
Import ListNotations.

Local Open Scope N_scope.

(** ** Python strings *)

Module PyStr.

(** A Python [str] is a sequence of Unicode code points; a lone
    surrogate is one of them. *)
Abbreviation codepoint := N (only parsing).
Abbreviation str := (list N) (only parsing).

(** An ASCII literal as a [str]. *)
Definition u (s : string) : str :=
  List.map N_of_ascii (list_ascii_of_string s).

Definition in_range (lo hi c : N) : bool := (lo <=? c) && (c <=? hi).

(** The first entry of a table for a code point. *)
Definition lookup {A} (c : N) (table : list (N * A)) : option A :=
  match List.find (fun e => fst e =? c) table with
  | Some e => Some (snd e)
  | None => None
  end.

(** The case mappings of the Unicode Character Database, version 14.0,
    which is the one of CPython 3.11.  The simple mappings of
    UnicodeData.txt are pairs of code points; the mappings of
    SpecialCasing.txt to more than one character are kept apart, as in
    CPython's table of extended cases.  A code point in neither table is
    its own mapping. *)
Definition simple_lowercase : list (N * N) :=
  [
  (0x41, 0x61); (0x42, 0x62); (0x43, 0x63); (0x44, 0x64); (0x45, 0x65);
   (0x46, 0x66); (0x47, 0x67); (0x48, 0x68); (0x49, 0x69); (0x4A, 0x6A);
   (0x4B, 0x6B); (0x4C, 0x6C); (0x4D, 0x6D); (0x4E, 0x6E); (0x4F, 0x6F);
   (0x50, 0x70); (0x51, 0x71); (0x52, 0x72); (0x53, 0x73); (0x54, 0x74);
   (0x55, 0x75); (0x56, 0x76); (0x57, 0x77); (0x58, 0x78); (0x59, 0x79);
   (0x5A, 0x7A); (0xC0, 0xE0); (0xC1, 0xE1); (0xC2, 0xE2); (0xC3, 0xE3);
   (0xC4, 0xE4); (0xC5, 0xE5); (0xC6, 0xE6); (0xC7, 0xE7); (0xC8, 0xE8);
   (0xC9, 0xE9); (0xCA, 0xEA); (0xCB, 0xEB); (0xCC, 0xEC); (0xCD, 0xED);
   (0xCE, 0xEE); (0xCF, 0xEF); (0xD0, 0xF0); (0xD1, 0xF1); (0xD2, 0xF2);
   (0xD3, 0xF3); (0xD4, 0xF4); (0xD5, 0xF5); (0xD6, 0xF6); (0xD8, 0xF8);
   (0xD9, 0xF9); (0xDA, 0xFA); (0xDB, 0xFB); (0xDC, 0xFC); (0xDD, 0xFD);
   (0xDE, 0xFE); (0x100, 0x101); (0x102, 0x103); (0x104, 0x105);
   (0x106, 0x107); (0x108, 0x109); (0x10A, 0x10B); (0x10C, 0x10D);
   (0x10E, 0x10F); (0x110, 0x111); (0x112, 0x113); (0x114, 0x115);
   (0x116, 0x117); (0x118, 0x119); (0x11A, 0x11B); (0x11C, 0x11D);
   (0x11E, 0x11F); (0x120, 0x121); (0x122, 0x123); (0x124, 0x125);
   (0x126, 0x127); (0x128, 0x129); (0x12A, 0x12B); (0x12C, 0x12D);
   (0x12E, 0x12F); (0x132, 0x133); (0x134, 0x135); (0x136, 0x137);
   (0x139, 0x13A); (0x13B, 0x13C); (0x13D, 0x13E); (0x13F, 0x140);
   (0x141, 0x142); (0x143, 0x144); (0x145, 0x146); (0x147, 0x148);
   (0x14A, 0x14B); (0x14C, 0x14D); (0x14E, 0x14F); (0x150, 0x151);
   (0x152, 0x153); (0x154, 0x155); (0x156, 0x157); (0x158, 0x159);
   (0x15A, 0x15B); (0x15C, 0x15D); (0x15E, 0x15F); (0x160, 0x161);
   (0x162, 0x163); (0x164, 0x165); (0x166, 0x167); (0x168, 0x169);
   (0x16A, 0x16B); (0x16C, 0x16D); (0x16E, 0x16F); (0x170, 0x171);
   (0x172, 0x173); (0x174, 0x175); (0x176, 0x177); (0x178, 0xFF);
   (0x179, 0x17A); (0x17B, 0x17C); (0x17D, 0x17E); (0x181, 0x253);
   (0x182, 0x183); (0x184, 0x185); (0x186, 0x254); (0x187, 0x188);
   (0x189, 0x256); (0x18A, 0x257); (0x18B, 0x18C); (0x18E, 0x1DD);
   (0x18F, 0x259); (0x190, 0x25B); (0x191, 0x192); (0x193, 0x260);
   (0x194, 0x263); (0x196, 0x269); (0x197, 0x268); (0x198, 0x199);
   (0x19C, 0x26F); (0x19D, 0x272); (0x19F, 0x275); (0x1A0, 0x1A1);
   (0x1A2, 0x1A3); (0x1A4, 0x1A5); (0x1A6, 0x280); (0x1A7, 0x1A8);
   (0x1A9, 0x283); (0x1AC, 0x1AD); (0x1AE, 0x288); (0x1AF, 0x1B0);
   (0x1B1, 0x28A); (0x1B2, 0x28B); (0x1B3, 0x1B4); (0x1B5, 0x1B6);
   (0x1B7, 0x292); (0x1B8, 0x1B9); (0x1BC, 0x1BD); (0x1C4, 0x1C6);
   (0x1C5, 0x1C6); (0x1C7, 0x1C9); (0x1C8, 0x1C9); (0x1CA, 0x1CC);
   (0x1CB, 0x1CC); (0x1CD, 0x1CE); (0x1CF, 0x1D0); (0x1D1, 0x1D2);
   (0x1D3, 0x1D4); (0x1D5, 0x1D6); (0x1D7, 0x1D8); (0x1D9, 0x1DA);
   (0x1DB, 0x1DC); (0x1DE, 0x1DF); (0x1E0, 0x1E1); (0x1E2, 0x1E3);
   (0x1E4, 0x1E5); (0x1E6, 0x1E7); (0x1E8, 0x1E9); (0x1EA, 0x1EB);
   (0x1EC, 0x1ED); (0x1EE, 0x1EF); (0x1F1, 0x1F3); (0x1F2, 0x1F3);
   (0x1F4, 0x1F5); (0x1F6, 0x195); (0x1F7, 0x1BF); (0x1F8, 0x1F9);
   (0x1FA, 0x1FB); (0x1FC, 0x1FD); (0x1FE, 0x1FF); (0x200, 0x201);
   (0x202, 0x203); (0x204, 0x205); (0x206, 0x207); (0x208, 0x209);
   (0x20A, 0x20B); (0x20C, 0x20D); (0x20E, 0x20F); (0x210, 0x211);
   (0x212, 0x213); (0x214, 0x215); (0x216, 0x217); (0x218, 0x219);
   (0x21A, 0x21B); (0x21C, 0x21D); (0x21E, 0x21F); (0x220, 0x19E);
   (0x222, 0x223); (0x224, 0x225); (0x226, 0x227); (0x228, 0x229);
   (0x22A, 0x22B); (0x22C, 0x22D); (0x22E, 0x22F); (0x230, 0x231);
   (0x232, 0x233); (0x23A, 0x2C65); (0x23B, 0x23C); (0x23D, 0x19A);
   (0x23E, 0x2C66); (0x241, 0x242); (0x243, 0x180); (0x244, 0x289);
   (0x245, 0x28C); (0x246, 0x247); (0x248, 0x249); (0x24A, 0x24B);
   (0x24C, 0x24D); (0x24E, 0x24F); (0x370, 0x371); (0x372, 0x373);
   (0x376, 0x377); (0x37F, 0x3F3); (0x386, 0x3AC); (0x388, 0x3AD);
   (0x389, 0x3AE); (0x38A, 0x3AF); (0x38C, 0x3CC); (0x38E, 0x3CD);
   (0x38F, 0x3CE); (0x391, 0x3B1); (0x392, 0x3B2); (0x393, 0x3B3);
   (0x394, 0x3B4); (0x395, 0x3B5); (0x396, 0x3B6); (0x397, 0x3B7);
   (0x398, 0x3B8); (0x399, 0x3B9); (0x39A, 0x3BA); (0x39B, 0x3BB);
   (0x39C, 0x3BC); (0x39D, 0x3BD); (0x39E, 0x3BE); (0x39F, 0x3BF);
   (0x3A0, 0x3C0); (0x3A1, 0x3C1); (0x3A3, 0x3C3); (0x3A4, 0x3C4);
   (0x3A5, 0x3C5); (0x3A6, 0x3C6); (0x3A7, 0x3C7); (0x3A8, 0x3C8);
   (0x3A9, 0x3C9); (0x3AA, 0x3CA); (0x3AB, 0x3CB); (0x3CF, 0x3D7);
   (0x3D8, 0x3D9); (0x3DA, 0x3DB); (0x3DC, 0x3DD); (0x3DE, 0x3DF);
   (0x3E0, 0x3E1); (0x3E2, 0x3E3); (0x3E4, 0x3E5); (0x3E6, 0x3E7);
   (0x3E8, 0x3E9); (0x3EA, 0x3EB); (0x3EC, 0x3ED); (0x3EE, 0x3EF);
   (0x3F4, 0x3B8); (0x3F7, 0x3F8); (0x3F9, 0x3F2); (0x3FA, 0x3FB);
   (0x3FD, 0x37B); (0x3FE, 0x37C); (0x3FF, 0x37D); (0x400, 0x450);
   (0x401, 0x451); (0x402, 0x452); (0x403, 0x453); (0x404, 0x454);
   (0x405, 0x455); (0x406, 0x456); (0x407, 0x457); (0x408, 0x458);
   (0x409, 0x459); (0x40A, 0x45A); (0x40B, 0x45B); (0x40C, 0x45C);
   (0x40D, 0x45D); (0x40E, 0x45E); (0x40F, 0x45F); (0x410, 0x430);
   (0x411, 0x431); (0x412, 0x432); (0x413, 0x433); (0x414, 0x434);
   (0x415, 0x435); (0x416, 0x436); (0x417, 0x437); (0x418, 0x438);
   (0x419, 0x439); (0x41A, 0x43A); (0x41B, 0x43B); (0x41C, 0x43C);
   (0x41D, 0x43D); (0x41E, 0x43E); (0x41F, 0x43F); (0x420, 0x440);
   (0x421, 0x441); (0x422, 0x442); (0x423, 0x443); (0x424, 0x444);
   (0x425, 0x445); (0x426, 0x446); (0x427, 0x447); (0x428, 0x448);
   (0x429, 0x449); (0x42A, 0x44A); (0x42B, 0x44B); (0x42C, 0x44C);
   (0x42D, 0x44D); (0x42E, 0x44E); (0x42F, 0x44F); (0x460, 0x461);
   (0x462, 0x463); (0x464, 0x465); (0x466, 0x467); (0x468, 0x469);
   (0x46A, 0x46B); (0x46C, 0x46D); (0x46E, 0x46F); (0x470, 0x471);
   (0x472, 0x473); (0x474, 0x475); (0x476, 0x477); (0x478, 0x479);
   (0x47A, 0x47B); (0x47C, 0x47D); (0x47E, 0x47F); (0x480, 0x481);
   (0x48A, 0x48B); (0x48C, 0x48D); (0x48E, 0x48F); (0x490, 0x491);
   (0x492, 0x493); (0x494, 0x495); (0x496, 0x497); (0x498, 0x499);
   (0x49A, 0x49B); (0x49C, 0x49D); (0x49E, 0x49F); (0x4A0, 0x4A1);
   (0x4A2, 0x4A3); (0x4A4, 0x4A5); (0x4A6, 0x4A7); (0x4A8, 0x4A9);
   (0x4AA, 0x4AB); (0x4AC, 0x4AD); (0x4AE, 0x4AF); (0x4B0, 0x4B1);
   (0x4B2, 0x4B3); (0x4B4, 0x4B5); (0x4B6, 0x4B7); (0x4B8, 0x4B9);
   (0x4BA, 0x4BB); (0x4BC, 0x4BD); (0x4BE, 0x4BF); (0x4C0, 0x4CF);
   (0x4C1, 0x4C2); (0x4C3, 0x4C4); (0x4C5, 0x4C6); (0x4C7, 0x4C8);
   (0x4C9, 0x4CA); (0x4CB, 0x4CC); (0x4CD, 0x4CE); (0x4D0, 0x4D1);
   (0x4D2, 0x4D3); (0x4D4, 0x4D5); (0x4D6, 0x4D7); (0x4D8, 0x4D9);
   (0x4DA, 0x4DB); (0x4DC, 0x4DD); (0x4DE, 0x4DF); (0x4E0, 0x4E1);
   (0x4E2, 0x4E3); (0x4E4, 0x4E5); (0x4E6, 0x4E7); (0x4E8, 0x4E9);
   (0x4EA, 0x4EB); (0x4EC, 0x4ED); (0x4EE, 0x4EF); (0x4F0, 0x4F1);
   (0x4F2, 0x4F3); (0x4F4, 0x4F5); (0x4F6, 0x4F7); (0x4F8, 0x4F9);
   (0x4FA, 0x4FB); (0x4FC, 0x4FD); (0x4FE, 0x4FF); (0x500, 0x501);
   (0x502, 0x503); (0x504, 0x505); (0x506, 0x507); (0x508, 0x509);
   (0x50A, 0x50B); (0x50C, 0x50D); (0x50E, 0x50F); (0x510, 0x511);
   (0x512, 0x513); (0x514, 0x515); (0x516, 0x517); (0x518, 0x519);
   (0x51A, 0x51B); (0x51C, 0x51D); (0x51E, 0x51F); (0x520, 0x521);
   (0x522, 0x523); (0x524, 0x525); (0x526, 0x527); (0x528, 0x529);
   (0x52A, 0x52B); (0x52C, 0x52D); (0x52E, 0x52F); (0x531, 0x561);
   (0x532, 0x562); (0x533, 0x563); (0x534, 0x564); (0x535, 0x565);
   (0x536, 0x566); (0x537, 0x567); (0x538, 0x568); (0x539, 0x569);
   (0x53A, 0x56A); (0x53B, 0x56B); (0x53C, 0x56C); (0x53D, 0x56D);
   (0x53E, 0x56E); (0x53F, 0x56F); (0x540, 0x570); (0x541, 0x571);
   (0x542, 0x572); (0x543, 0x573); (0x544, 0x574); (0x545, 0x575);
   (0x546, 0x576); (0x547, 0x577); (0x548, 0x578); (0x549, 0x579);
   (0x54A, 0x57A); (0x54B, 0x57B); (0x54C, 0x57C); (0x54D, 0x57D);
   (0x54E, 0x57E); (0x54F, 0x57F); (0x550, 0x580); (0x551, 0x581);
   (0x552, 0x582); (0x553, 0x583); (0x554, 0x584); (0x555, 0x585);
   (0x556, 0x586); (0x10A0, 0x2D00); (0x10A1, 0x2D01); (0x10A2, 0x2D02);
   (0x10A3, 0x2D03); (0x10A4, 0x2D04); (0x10A5, 0x2D05); (0x10A6, 0x2D06);
   (0x10A7, 0x2D07); (0x10A8, 0x2D08); (0x10A9, 0x2D09); (0x10AA, 0x2D0A);
   (0x10AB, 0x2D0B); (0x10AC, 0x2D0C); (0x10AD, 0x2D0D); (0x10AE, 0x2D0E);
   (0x10AF, 0x2D0F); (0x10B0, 0x2D10); (0x10B1, 0x2D11); (0x10B2, 0x2D12);
   (0x10B3, 0x2D13); (0x10B4, 0x2D14); (0x10B5, 0x2D15); (0x10B6, 0x2D16);
   (0x10B7, 0x2D17); (0x10B8, 0x2D18); (0x10B9, 0x2D19); (0x10BA, 0x2D1A);
   (0x10BB, 0x2D1B); (0x10BC, 0x2D1C); (0x10BD, 0x2D1D); (0x10BE, 0x2D1E);
   (0x10BF, 0x2D1F); (0x10C0, 0x2D20); (0x10C1, 0x2D21); (0x10C2, 0x2D22);
   (0x10C3, 0x2D23); (0x10C4, 0x2D24); (0x10C5, 0x2D25); (0x10C7, 0x2D27);
   (0x10CD, 0x2D2D); (0x13A0, 0xAB70); (0x13A1, 0xAB71); (0x13A2, 0xAB72);
   (0x13A3, 0xAB73); (0x13A4, 0xAB74); (0x13A5, 0xAB75); (0x13A6, 0xAB76);
   (0x13A7, 0xAB77); (0x13A8, 0xAB78); (0x13A9, 0xAB79); (0x13AA, 0xAB7A);
   (0x13AB, 0xAB7B); (0x13AC, 0xAB7C); (0x13AD, 0xAB7D); (0x13AE, 0xAB7E);
   (0x13AF, 0xAB7F); (0x13B0, 0xAB80); (0x13B1, 0xAB81); (0x13B2, 0xAB82);
   (0x13B3, 0xAB83); (0x13B4, 0xAB84); (0x13B5, 0xAB85); (0x13B6, 0xAB86);
   (0x13B7, 0xAB87); (0x13B8, 0xAB88); (0x13B9, 0xAB89); (0x13BA, 0xAB8A);
   (0x13BB, 0xAB8B); (0x13BC, 0xAB8C); (0x13BD, 0xAB8D); (0x13BE, 0xAB8E);
   (0x13BF, 0xAB8F); (0x13C0, 0xAB90); (0x13C1, 0xAB91); (0x13C2, 0xAB92);
   (0x13C3, 0xAB93); (0x13C4, 0xAB94); (0x13C5, 0xAB95); (0x13C6, 0xAB96);
   (0x13C7, 0xAB97); (0x13C8, 0xAB98); (0x13C9, 0xAB99); (0x13CA, 0xAB9A);
   (0x13CB, 0xAB9B); (0x13CC, 0xAB9C); (0x13CD, 0xAB9D); (0x13CE, 0xAB9E);
   (0x13CF, 0xAB9F); (0x13D0, 0xABA0); (0x13D1, 0xABA1); (0x13D2, 0xABA2);
   (0x13D3, 0xABA3); (0x13D4, 0xABA4); (0x13D5, 0xABA5); (0x13D6, 0xABA6);
   (0x13D7, 0xABA7); (0x13D8, 0xABA8); (0x13D9, 0xABA9); (0x13DA, 0xABAA);
   (0x13DB, 0xABAB); (0x13DC, 0xABAC); (0x13DD, 0xABAD); (0x13DE, 0xABAE);
   (0x13DF, 0xABAF); (0x13E0, 0xABB0); (0x13E1, 0xABB1); (0x13E2, 0xABB2);
   (0x13E3, 0xABB3); (0x13E4, 0xABB4); (0x13E5, 0xABB5); (0x13E6, 0xABB6);
   (0x13E7, 0xABB7); (0x13E8, 0xABB8); (0x13E9, 0xABB9); (0x13EA, 0xABBA);
   (0x13EB, 0xABBB); (0x13EC, 0xABBC); (0x13ED, 0xABBD); (0x13EE, 0xABBE);
   (0x13EF, 0xABBF); (0x13F0, 0x13F8); (0x13F1, 0x13F9); (0x13F2, 0x13FA);
   (0x13F3, 0x13FB); (0x13F4, 0x13FC); (0x13F5, 0x13FD); (0x1C90, 0x10D0);
   (0x1C91, 0x10D1); (0x1C92, 0x10D2); (0x1C93, 0x10D3); (0x1C94, 0x10D4);
   (0x1C95, 0x10D5); (0x1C96, 0x10D6); (0x1C97, 0x10D7); (0x1C98, 0x10D8);
   (0x1C99, 0x10D9); (0x1C9A, 0x10DA); (0x1C9B, 0x10DB); (0x1C9C, 0x10DC);
   (0x1C9D, 0x10DD); (0x1C9E, 0x10DE); (0x1C9F, 0x10DF); (0x1CA0, 0x10E0);
   (0x1CA1, 0x10E1); (0x1CA2, 0x10E2); (0x1CA3, 0x10E3); (0x1CA4, 0x10E4);
   (0x1CA5, 0x10E5); (0x1CA6, 0x10E6); (0x1CA7, 0x10E7); (0x1CA8, 0x10E8);
   (0x1CA9, 0x10E9); (0x1CAA, 0x10EA); (0x1CAB, 0x10EB); (0x1CAC, 0x10EC);
   (0x1CAD, 0x10ED); (0x1CAE, 0x10EE); (0x1CAF, 0x10EF); (0x1CB0, 0x10F0);
   (0x1CB1, 0x10F1); (0x1CB2, 0x10F2); (0x1CB3, 0x10F3); (0x1CB4, 0x10F4);
   (0x1CB5, 0x10F5); (0x1CB6, 0x10F6); (0x1CB7, 0x10F7); (0x1CB8, 0x10F8);
   (0x1CB9, 0x10F9); (0x1CBA, 0x10FA); (0x1CBD, 0x10FD); (0x1CBE, 0x10FE);
   (0x1CBF, 0x10FF); (0x1E00, 0x1E01); (0x1E02, 0x1E03); (0x1E04, 0x1E05);
   (0x1E06, 0x1E07); (0x1E08, 0x1E09); (0x1E0A, 0x1E0B); (0x1E0C, 0x1E0D);
   (0x1E0E, 0x1E0F); (0x1E10, 0x1E11); (0x1E12, 0x1E13); (0x1E14, 0x1E15);
   (0x1E16, 0x1E17); (0x1E18, 0x1E19); (0x1E1A, 0x1E1B); (0x1E1C, 0x1E1D);
   (0x1E1E, 0x1E1F); (0x1E20, 0x1E21); (0x1E22, 0x1E23); (0x1E24, 0x1E25);
   (0x1E26, 0x1E27); (0x1E28, 0x1E29); (0x1E2A, 0x1E2B); (0x1E2C, 0x1E2D);
   (0x1E2E, 0x1E2F); (0x1E30, 0x1E31); (0x1E32, 0x1E33); (0x1E34, 0x1E35);
   (0x1E36, 0x1E37); (0x1E38, 0x1E39); (0x1E3A, 0x1E3B); (0x1E3C, 0x1E3D);
   (0x1E3E, 0x1E3F); (0x1E40, 0x1E41); (0x1E42, 0x1E43); (0x1E44, 0x1E45);
   (0x1E46, 0x1E47); (0x1E48, 0x1E49); (0x1E4A, 0x1E4B); (0x1E4C, 0x1E4D);
   (0x1E4E, 0x1E4F); (0x1E50, 0x1E51); (0x1E52, 0x1E53); (0x1E54, 0x1E55);
   (0x1E56, 0x1E57); (0x1E58, 0x1E59); (0x1E5A, 0x1E5B); (0x1E5C, 0x1E5D);
   (0x1E5E, 0x1E5F); (0x1E60, 0x1E61); (0x1E62, 0x1E63); (0x1E64, 0x1E65);
   (0x1E66, 0x1E67); (0x1E68, 0x1E69); (0x1E6A, 0x1E6B); (0x1E6C, 0x1E6D);
   (0x1E6E, 0x1E6F); (0x1E70, 0x1E71); (0x1E72, 0x1E73); (0x1E74, 0x1E75);
   (0x1E76, 0x1E77); (0x1E78, 0x1E79); (0x1E7A, 0x1E7B); (0x1E7C, 0x1E7D);
   (0x1E7E, 0x1E7F); (0x1E80, 0x1E81); (0x1E82, 0x1E83); (0x1E84, 0x1E85);
   (0x1E86, 0x1E87); (0x1E88, 0x1E89); (0x1E8A, 0x1E8B); (0x1E8C, 0x1E8D);
   (0x1E8E, 0x1E8F); (0x1E90, 0x1E91); (0x1E92, 0x1E93); (0x1E94, 0x1E95);
   (0x1E9E, 0xDF); (0x1EA0, 0x1EA1); (0x1EA2, 0x1EA3); (0x1EA4, 0x1EA5);
   (0x1EA6, 0x1EA7); (0x1EA8, 0x1EA9); (0x1EAA, 0x1EAB); (0x1EAC, 0x1EAD);
   (0x1EAE, 0x1EAF); (0x1EB0, 0x1EB1); (0x1EB2, 0x1EB3); (0x1EB4, 0x1EB5);
   (0x1EB6, 0x1EB7); (0x1EB8, 0x1EB9); (0x1EBA, 0x1EBB); (0x1EBC, 0x1EBD);
   (0x1EBE, 0x1EBF); (0x1EC0, 0x1EC1); (0x1EC2, 0x1EC3); (0x1EC4, 0x1EC5);
   (0x1EC6, 0x1EC7); (0x1EC8, 0x1EC9); (0x1ECA, 0x1ECB); (0x1ECC, 0x1ECD);
   (0x1ECE, 0x1ECF); (0x1ED0, 0x1ED1); (0x1ED2, 0x1ED3); (0x1ED4, 0x1ED5);
   (0x1ED6, 0x1ED7); (0x1ED8, 0x1ED9); (0x1EDA, 0x1EDB); (0x1EDC, 0x1EDD);
   (0x1EDE, 0x1EDF); (0x1EE0, 0x1EE1); (0x1EE2, 0x1EE3); (0x1EE4, 0x1EE5);
   (0x1EE6, 0x1EE7); (0x1EE8, 0x1EE9); (0x1EEA, 0x1EEB); (0x1EEC, 0x1EED);
   (0x1EEE, 0x1EEF); (0x1EF0, 0x1EF1); (0x1EF2, 0x1EF3); (0x1EF4, 0x1EF5);
   (0x1EF6, 0x1EF7); (0x1EF8, 0x1EF9); (0x1EFA, 0x1EFB); (0x1EFC, 0x1EFD);
   (0x1EFE, 0x1EFF); (0x1F08, 0x1F00); (0x1F09, 0x1F01); (0x1F0A, 0x1F02);
   (0x1F0B, 0x1F03); (0x1F0C, 0x1F04); (0x1F0D, 0x1F05); (0x1F0E, 0x1F06);
   (0x1F0F, 0x1F07); (0x1F18, 0x1F10); (0x1F19, 0x1F11); (0x1F1A, 0x1F12);
   (0x1F1B, 0x1F13); (0x1F1C, 0x1F14); (0x1F1D, 0x1F15); (0x1F28, 0x1F20);
   (0x1F29, 0x1F21); (0x1F2A, 0x1F22); (0x1F2B, 0x1F23); (0x1F2C, 0x1F24);
   (0x1F2D, 0x1F25); (0x1F2E, 0x1F26); (0x1F2F, 0x1F27); (0x1F38, 0x1F30);
   (0x1F39, 0x1F31); (0x1F3A, 0x1F32); (0x1F3B, 0x1F33); (0x1F3C, 0x1F34);
   (0x1F3D, 0x1F35); (0x1F3E, 0x1F36); (0x1F3F, 0x1F37); (0x1F48, 0x1F40);
   (0x1F49, 0x1F41); (0x1F4A, 0x1F42); (0x1F4B, 0x1F43); (0x1F4C, 0x1F44);
   (0x1F4D, 0x1F45); (0x1F59, 0x1F51); (0x1F5B, 0x1F53); (0x1F5D, 0x1F55);
   (0x1F5F, 0x1F57); (0x1F68, 0x1F60); (0x1F69, 0x1F61); (0x1F6A, 0x1F62);
   (0x1F6B, 0x1F63); (0x1F6C, 0x1F64); (0x1F6D, 0x1F65); (0x1F6E, 0x1F66);
   (0x1F6F, 0x1F67); (0x1F88, 0x1F80); (0x1F89, 0x1F81); (0x1F8A, 0x1F82);
   (0x1F8B, 0x1F83); (0x1F8C, 0x1F84); (0x1F8D, 0x1F85); (0x1F8E, 0x1F86);
   (0x1F8F, 0x1F87); (0x1F98, 0x1F90); (0x1F99, 0x1F91); (0x1F9A, 0x1F92);
   (0x1F9B, 0x1F93); (0x1F9C, 0x1F94); (0x1F9D, 0x1F95); (0x1F9E, 0x1F96);
   (0x1F9F, 0x1F97); (0x1FA8, 0x1FA0); (0x1FA9, 0x1FA1); (0x1FAA, 0x1FA2);
   (0x1FAB, 0x1FA3); (0x1FAC, 0x1FA4); (0x1FAD, 0x1FA5); (0x1FAE, 0x1FA6);
   (0x1FAF, 0x1FA7); (0x1FB8, 0x1FB0); (0x1FB9, 0x1FB1); (0x1FBA, 0x1F70);
   (0x1FBB, 0x1F71); (0x1FBC, 0x1FB3); (0x1FC8, 0x1F72); (0x1FC9, 0x1F73);
   (0x1FCA, 0x1F74); (0x1FCB, 0x1F75); (0x1FCC, 0x1FC3); (0x1FD8, 0x1FD0);
   (0x1FD9, 0x1FD1); (0x1FDA, 0x1F76); (0x1FDB, 0x1F77); (0x1FE8, 0x1FE0);
   (0x1FE9, 0x1FE1); (0x1FEA, 0x1F7A); (0x1FEB, 0x1F7B); (0x1FEC, 0x1FE5);
   (0x1FF8, 0x1F78); (0x1FF9, 0x1F79); (0x1FFA, 0x1F7C); (0x1FFB, 0x1F7D);
   (0x1FFC, 0x1FF3); (0x2126, 0x3C9); (0x212A, 0x6B); (0x212B, 0xE5);
   (0x2132, 0x214E); (0x2160, 0x2170); (0x2161, 0x2171); (0x2162, 0x2172);
   (0x2163, 0x2173); (0x2164, 0x2174); (0x2165, 0x2175); (0x2166, 0x2176);
   (0x2167, 0x2177); (0x2168, 0x2178); (0x2169, 0x2179); (0x216A, 0x217A);
   (0x216B, 0x217B); (0x216C, 0x217C); (0x216D, 0x217D); (0x216E, 0x217E);
   (0x216F, 0x217F); (0x2183, 0x2184); (0x24B6, 0x24D0); (0x24B7, 0x24D1);
   (0x24B8, 0x24D2); (0x24B9, 0x24D3); (0x24BA, 0x24D4); (0x24BB, 0x24D5);
   (0x24BC, 0x24D6); (0x24BD, 0x24D7); (0x24BE, 0x24D8); (0x24BF, 0x24D9);
   (0x24C0, 0x24DA); (0x24C1, 0x24DB); (0x24C2, 0x24DC); (0x24C3, 0x24DD);
   (0x24C4, 0x24DE); (0x24C5, 0x24DF); (0x24C6, 0x24E0); (0x24C7, 0x24E1);
   (0x24C8, 0x24E2); (0x24C9, 0x24E3); (0x24CA, 0x24E4); (0x24CB, 0x24E5);
   (0x24CC, 0x24E6); (0x24CD, 0x24E7); (0x24CE, 0x24E8); (0x24CF, 0x24E9);
   (0x2C00, 0x2C30); (0x2C01, 0x2C31); (0x2C02, 0x2C32); (0x2C03, 0x2C33);
   (0x2C04, 0x2C34); (0x2C05, 0x2C35); (0x2C06, 0x2C36); (0x2C07, 0x2C37);
   (0x2C08, 0x2C38); (0x2C09, 0x2C39); (0x2C0A, 0x2C3A); (0x2C0B, 0x2C3B);
   (0x2C0C, 0x2C3C); (0x2C0D, 0x2C3D); (0x2C0E, 0x2C3E); (0x2C0F, 0x2C3F);
   (0x2C10, 0x2C40); (0x2C11, 0x2C41); (0x2C12, 0x2C42); (0x2C13, 0x2C43);
   (0x2C14, 0x2C44); (0x2C15, 0x2C45); (0x2C16, 0x2C46); (0x2C17, 0x2C47);
   (0x2C18, 0x2C48); (0x2C19, 0x2C49); (0x2C1A, 0x2C4A); (0x2C1B, 0x2C4B);
   (0x2C1C, 0x2C4C); (0x2C1D, 0x2C4D); (0x2C1E, 0x2C4E); (0x2C1F, 0x2C4F);
   (0x2C20, 0x2C50); (0x2C21, 0x2C51); (0x2C22, 0x2C52); (0x2C23, 0x2C53);
   (0x2C24, 0x2C54); (0x2C25, 0x2C55); (0x2C26, 0x2C56); (0x2C27, 0x2C57);
   (0x2C28, 0x2C58); (0x2C29, 0x2C59); (0x2C2A, 0x2C5A); (0x2C2B, 0x2C5B);
   (0x2C2C, 0x2C5C); (0x2C2D, 0x2C5D); (0x2C2E, 0x2C5E); (0x2C2F, 0x2C5F);
   (0x2C60, 0x2C61); (0x2C62, 0x26B); (0x2C63, 0x1D7D); (0x2C64, 0x27D);
   (0x2C67, 0x2C68); (0x2C69, 0x2C6A); (0x2C6B, 0x2C6C); (0x2C6D, 0x251);
   (0x2C6E, 0x271); (0x2C6F, 0x250); (0x2C70, 0x252); (0x2C72, 0x2C73);
   (0x2C75, 0x2C76); (0x2C7E, 0x23F); (0x2C7F, 0x240); (0x2C80, 0x2C81);
   (0x2C82, 0x2C83); (0x2C84, 0x2C85); (0x2C86, 0x2C87); (0x2C88, 0x2C89);
   (0x2C8A, 0x2C8B); (0x2C8C, 0x2C8D); (0x2C8E, 0x2C8F); (0x2C90, 0x2C91);
   (0x2C92, 0x2C93); (0x2C94, 0x2C95); (0x2C96, 0x2C97); (0x2C98, 0x2C99);
   (0x2C9A, 0x2C9B); (0x2C9C, 0x2C9D); (0x2C9E, 0x2C9F); (0x2CA0, 0x2CA1);
   (0x2CA2, 0x2CA3); (0x2CA4, 0x2CA5); (0x2CA6, 0x2CA7); (0x2CA8, 0x2CA9);
   (0x2CAA, 0x2CAB); (0x2CAC, 0x2CAD); (0x2CAE, 0x2CAF); (0x2CB0, 0x2CB1);
   (0x2CB2, 0x2CB3); (0x2CB4, 0x2CB5); (0x2CB6, 0x2CB7); (0x2CB8, 0x2CB9);
   (0x2CBA, 0x2CBB); (0x2CBC, 0x2CBD); (0x2CBE, 0x2CBF); (0x2CC0, 0x2CC1);
   (0x2CC2, 0x2CC3); (0x2CC4, 0x2CC5); (0x2CC6, 0x2CC7); (0x2CC8, 0x2CC9);
   (0x2CCA, 0x2CCB); (0x2CCC, 0x2CCD); (0x2CCE, 0x2CCF); (0x2CD0, 0x2CD1);
   (0x2CD2, 0x2CD3); (0x2CD4, 0x2CD5); (0x2CD6, 0x2CD7); (0x2CD8, 0x2CD9);
   (0x2CDA, 0x2CDB); (0x2CDC, 0x2CDD); (0x2CDE, 0x2CDF); (0x2CE0, 0x2CE1);
   (0x2CE2, 0x2CE3); (0x2CEB, 0x2CEC); (0x2CED, 0x2CEE); (0x2CF2, 0x2CF3);
   (0xA640, 0xA641); (0xA642, 0xA643); (0xA644, 0xA645); (0xA646, 0xA647);
   (0xA648, 0xA649); (0xA64A, 0xA64B); (0xA64C, 0xA64D); (0xA64E, 0xA64F);
   (0xA650, 0xA651); (0xA652, 0xA653); (0xA654, 0xA655); (0xA656, 0xA657);
   (0xA658, 0xA659); (0xA65A, 0xA65B); (0xA65C, 0xA65D); (0xA65E, 0xA65F);
   (0xA660, 0xA661); (0xA662, 0xA663); (0xA664, 0xA665); (0xA666, 0xA667);
   (0xA668, 0xA669); (0xA66A, 0xA66B); (0xA66C, 0xA66D); (0xA680, 0xA681);
   (0xA682, 0xA683); (0xA684, 0xA685); (0xA686, 0xA687); (0xA688, 0xA689);
   (0xA68A, 0xA68B); (0xA68C, 0xA68D); (0xA68E, 0xA68F); (0xA690, 0xA691);
   (0xA692, 0xA693); (0xA694, 0xA695); (0xA696, 0xA697); (0xA698, 0xA699);
   (0xA69A, 0xA69B); (0xA722, 0xA723); (0xA724, 0xA725); (0xA726, 0xA727);
   (0xA728, 0xA729); (0xA72A, 0xA72B); (0xA72C, 0xA72D); (0xA72E, 0xA72F);
   (0xA732, 0xA733); (0xA734, 0xA735); (0xA736, 0xA737); (0xA738, 0xA739);
   (0xA73A, 0xA73B); (0xA73C, 0xA73D); (0xA73E, 0xA73F); (0xA740, 0xA741);
   (0xA742, 0xA743); (0xA744, 0xA745); (0xA746, 0xA747); (0xA748, 0xA749);
   (0xA74A, 0xA74B); (0xA74C, 0xA74D); (0xA74E, 0xA74F); (0xA750, 0xA751);
   (0xA752, 0xA753); (0xA754, 0xA755); (0xA756, 0xA757); (0xA758, 0xA759);
   (0xA75A, 0xA75B); (0xA75C, 0xA75D); (0xA75E, 0xA75F); (0xA760, 0xA761);
   (0xA762, 0xA763); (0xA764, 0xA765); (0xA766, 0xA767); (0xA768, 0xA769);
   (0xA76A, 0xA76B); (0xA76C, 0xA76D); (0xA76E, 0xA76F); (0xA779, 0xA77A);
   (0xA77B, 0xA77C); (0xA77D, 0x1D79); (0xA77E, 0xA77F); (0xA780, 0xA781);
   (0xA782, 0xA783); (0xA784, 0xA785); (0xA786, 0xA787); (0xA78B, 0xA78C);
   (0xA78D, 0x265); (0xA790, 0xA791); (0xA792, 0xA793); (0xA796, 0xA797);
   (0xA798, 0xA799); (0xA79A, 0xA79B); (0xA79C, 0xA79D); (0xA79E, 0xA79F);
   (0xA7A0, 0xA7A1); (0xA7A2, 0xA7A3); (0xA7A4, 0xA7A5); (0xA7A6, 0xA7A7);
   (0xA7A8, 0xA7A9); (0xA7AA, 0x266); (0xA7AB, 0x25C); (0xA7AC, 0x261);
   (0xA7AD, 0x26C); (0xA7AE, 0x26A); (0xA7B0, 0x29E); (0xA7B1, 0x287);
   (0xA7B2, 0x29D); (0xA7B3, 0xAB53); (0xA7B4, 0xA7B5); (0xA7B6, 0xA7B7);
   (0xA7B8, 0xA7B9); (0xA7BA, 0xA7BB); (0xA7BC, 0xA7BD); (0xA7BE, 0xA7BF);
   (0xA7C0, 0xA7C1); (0xA7C2, 0xA7C3); (0xA7C4, 0xA794); (0xA7C5, 0x282);
   (0xA7C6, 0x1D8E); (0xA7C7, 0xA7C8); (0xA7C9, 0xA7CA); (0xA7D0, 0xA7D1);
   (0xA7D6, 0xA7D7); (0xA7D8, 0xA7D9); (0xA7F5, 0xA7F6); (0xFF21, 0xFF41);
   (0xFF22, 0xFF42); (0xFF23, 0xFF43); (0xFF24, 0xFF44); (0xFF25, 0xFF45);
   (0xFF26, 0xFF46); (0xFF27, 0xFF47); (0xFF28, 0xFF48); (0xFF29, 0xFF49);
   (0xFF2A, 0xFF4A); (0xFF2B, 0xFF4B); (0xFF2C, 0xFF4C); (0xFF2D, 0xFF4D);
   (0xFF2E, 0xFF4E); (0xFF2F, 0xFF4F); (0xFF30, 0xFF50); (0xFF31, 0xFF51);
   (0xFF32, 0xFF52); (0xFF33, 0xFF53); (0xFF34, 0xFF54); (0xFF35, 0xFF55);
   (0xFF36, 0xFF56); (0xFF37, 0xFF57); (0xFF38, 0xFF58); (0xFF39, 0xFF59);
   (0xFF3A, 0xFF5A); (0x10400, 0x10428); (0x10401, 0x10429);
   (0x10402, 0x1042A); (0x10403, 0x1042B); (0x10404, 0x1042C);
   (0x10405, 0x1042D); (0x10406, 0x1042E); (0x10407, 0x1042F);
   (0x10408, 0x10430); (0x10409, 0x10431); (0x1040A, 0x10432);
   (0x1040B, 0x10433); (0x1040C, 0x10434); (0x1040D, 0x10435);
   (0x1040E, 0x10436); (0x1040F, 0x10437); (0x10410, 0x10438);
   (0x10411, 0x10439); (0x10412, 0x1043A); (0x10413, 0x1043B);
   (0x10414, 0x1043C); (0x10415, 0x1043D); (0x10416, 0x1043E);
   (0x10417, 0x1043F); (0x10418, 0x10440); (0x10419, 0x10441);
   (0x1041A, 0x10442); (0x1041B, 0x10443); (0x1041C, 0x10444);
   (0x1041D, 0x10445); (0x1041E, 0x10446); (0x1041F, 0x10447);
   (0x10420, 0x10448); (0x10421, 0x10449); (0x10422, 0x1044A);
   (0x10423, 0x1044B); (0x10424, 0x1044C); (0x10425, 0x1044D);
   (0x10426, 0x1044E); (0x10427, 0x1044F); (0x104B0, 0x104D8);
   (0x104B1, 0x104D9); (0x104B2, 0x104DA); (0x104B3, 0x104DB);
   (0x104B4, 0x104DC); (0x104B5, 0x104DD); (0x104B6, 0x104DE);
   (0x104B7, 0x104DF); (0x104B8, 0x104E0); (0x104B9, 0x104E1);
   (0x104BA, 0x104E2); (0x104BB, 0x104E3); (0x104BC, 0x104E4);
   (0x104BD, 0x104E5); (0x104BE, 0x104E6); (0x104BF, 0x104E7);
   (0x104C0, 0x104E8); (0x104C1, 0x104E9); (0x104C2, 0x104EA);
   (0x104C3, 0x104EB); (0x104C4, 0x104EC); (0x104C5, 0x104ED);
   (0x104C6, 0x104EE); (0x104C7, 0x104EF); (0x104C8, 0x104F0);
   (0x104C9, 0x104F1); (0x104CA, 0x104F2); (0x104CB, 0x104F3);
   (0x104CC, 0x104F4); (0x104CD, 0x104F5); (0x104CE, 0x104F6);
   (0x104CF, 0x104F7); (0x104D0, 0x104F8); (0x104D1, 0x104F9);
   (0x104D2, 0x104FA); (0x104D3, 0x104FB); (0x10570, 0x10597);
   (0x10571, 0x10598); (0x10572, 0x10599); (0x10573, 0x1059A);
   (0x10574, 0x1059B); (0x10575, 0x1059C); (0x10576, 0x1059D);
   (0x10577, 0x1059E); (0x10578, 0x1059F); (0x10579, 0x105A0);
   (0x1057A, 0x105A1); (0x1057C, 0x105A3); (0x1057D, 0x105A4);
   (0x1057E, 0x105A5); (0x1057F, 0x105A6); (0x10580, 0x105A7);
   (0x10581, 0x105A8); (0x10582, 0x105A9); (0x10583, 0x105AA);
   (0x10584, 0x105AB); (0x10585, 0x105AC); (0x10586, 0x105AD);
   (0x10587, 0x105AE); (0x10588, 0x105AF); (0x10589, 0x105B0);
   (0x1058A, 0x105B1); (0x1058C, 0x105B3); (0x1058D, 0x105B4);
   (0x1058E, 0x105B5); (0x1058F, 0x105B6); (0x10590, 0x105B7);
   (0x10591, 0x105B8); (0x10592, 0x105B9); (0x10594, 0x105BB);
   (0x10595, 0x105BC); (0x10C80, 0x10CC0); (0x10C81, 0x10CC1);
   (0x10C82, 0x10CC2); (0x10C83, 0x10CC3); (0x10C84, 0x10CC4);
   (0x10C85, 0x10CC5); (0x10C86, 0x10CC6); (0x10C87, 0x10CC7);
   (0x10C88, 0x10CC8); (0x10C89, 0x10CC9); (0x10C8A, 0x10CCA);
   (0x10C8B, 0x10CCB); (0x10C8C, 0x10CCC); (0x10C8D, 0x10CCD);
   (0x10C8E, 0x10CCE); (0x10C8F, 0x10CCF); (0x10C90, 0x10CD0);
   (0x10C91, 0x10CD1); (0x10C92, 0x10CD2); (0x10C93, 0x10CD3);
   (0x10C94, 0x10CD4); (0x10C95, 0x10CD5); (0x10C96, 0x10CD6);
   (0x10C97, 0x10CD7); (0x10C98, 0x10CD8); (0x10C99, 0x10CD9);
   (0x10C9A, 0x10CDA); (0x10C9B, 0x10CDB); (0x10C9C, 0x10CDC);
   (0x10C9D, 0x10CDD); (0x10C9E, 0x10CDE); (0x10C9F, 0x10CDF);
   (0x10CA0, 0x10CE0); (0x10CA1, 0x10CE1); (0x10CA2, 0x10CE2);
   (0x10CA3, 0x10CE3); (0x10CA4, 0x10CE4); (0x10CA5, 0x10CE5);
   (0x10CA6, 0x10CE6); (0x10CA7, 0x10CE7); (0x10CA8, 0x10CE8);
   (0x10CA9, 0x10CE9); (0x10CAA, 0x10CEA); (0x10CAB, 0x10CEB);
   (0x10CAC, 0x10CEC); (0x10CAD, 0x10CED); (0x10CAE, 0x10CEE);
   (0x10CAF, 0x10CEF); (0x10CB0, 0x10CF0); (0x10CB1, 0x10CF1);
   (0x10CB2, 0x10CF2); (0x118A0, 0x118C0); (0x118A1, 0x118C1);
   (0x118A2, 0x118C2); (0x118A3, 0x118C3); (0x118A4, 0x118C4);
   (0x118A5, 0x118C5); (0x118A6, 0x118C6); (0x118A7, 0x118C7);
   (0x118A8, 0x118C8); (0x118A9, 0x118C9); (0x118AA, 0x118CA);
   (0x118AB, 0x118CB); (0x118AC, 0x118CC); (0x118AD, 0x118CD);
   (0x118AE, 0x118CE); (0x118AF, 0x118CF); (0x118B0, 0x118D0);
   (0x118B1, 0x118D1); (0x118B2, 0x118D2); (0x118B3, 0x118D3);
   (0x118B4, 0x118D4); (0x118B5, 0x118D5); (0x118B6, 0x118D6);
   (0x118B7, 0x118D7); (0x118B8, 0x118D8); (0x118B9, 0x118D9);
   (0x118BA, 0x118DA); (0x118BB, 0x118DB); (0x118BC, 0x118DC);
   (0x118BD, 0x118DD); (0x118BE, 0x118DE); (0x118BF, 0x118DF);
   (0x16E40, 0x16E60); (0x16E41, 0x16E61); (0x16E42, 0x16E62);
   (0x16E43, 0x16E63); (0x16E44, 0x16E64); (0x16E45, 0x16E65);
   (0x16E46, 0x16E66); (0x16E47, 0x16E67); (0x16E48, 0x16E68);
   (0x16E49, 0x16E69); (0x16E4A, 0x16E6A); (0x16E4B, 0x16E6B);
   (0x16E4C, 0x16E6C); (0x16E4D, 0x16E6D); (0x16E4E, 0x16E6E);
   (0x16E4F, 0x16E6F); (0x16E50, 0x16E70); (0x16E51, 0x16E71);
   (0x16E52, 0x16E72); (0x16E53, 0x16E73); (0x16E54, 0x16E74);
   (0x16E55, 0x16E75); (0x16E56, 0x16E76); (0x16E57, 0x16E77);
   (0x16E58, 0x16E78); (0x16E59, 0x16E79); (0x16E5A, 0x16E7A);
   (0x16E5B, 0x16E7B); (0x16E5C, 0x16E7C); (0x16E5D, 0x16E7D);
   (0x16E5E, 0x16E7E); (0x16E5F, 0x16E7F); (0x1E900, 0x1E922);
   (0x1E901, 0x1E923); (0x1E902, 0x1E924); (0x1E903, 0x1E925);
   (0x1E904, 0x1E926); (0x1E905, 0x1E927); (0x1E906, 0x1E928);
   (0x1E907, 0x1E929); (0x1E908, 0x1E92A); (0x1E909, 0x1E92B);
   (0x1E90A, 0x1E92C); (0x1E90B, 0x1E92D); (0x1E90C, 0x1E92E);
   (0x1E90D, 0x1E92F); (0x1E90E, 0x1E930); (0x1E90F, 0x1E931);
   (0x1E910, 0x1E932); (0x1E911, 0x1E933); (0x1E912, 0x1E934);
   (0x1E913, 0x1E935); (0x1E914, 0x1E936); (0x1E915, 0x1E937);
   (0x1E916, 0x1E938); (0x1E917, 0x1E939); (0x1E918, 0x1E93A);
   (0x1E919, 0x1E93B); (0x1E91A, 0x1E93C); (0x1E91B, 0x1E93D);
   (0x1E91C, 0x1E93E); (0x1E91D, 0x1E93F); (0x1E91E, 0x1E940);
   (0x1E91F, 0x1E941); (0x1E920, 0x1E942); (0x1E921, 0x1E943)
  ].

Definition special_lowercase : list (N * str) :=
  [
  (0x130, [0x69; 0x307])
  ].

Definition simple_titlecase : list (N * N) :=
  [
  (0x61, 0x41); (0x62, 0x42); (0x63, 0x43); (0x64, 0x44); (0x65, 0x45);
   (0x66, 0x46); (0x67, 0x47); (0x68, 0x48); (0x69, 0x49); (0x6A, 0x4A);
   (0x6B, 0x4B); (0x6C, 0x4C); (0x6D, 0x4D); (0x6E, 0x4E); (0x6F, 0x4F);
   (0x70, 0x50); (0x71, 0x51); (0x72, 0x52); (0x73, 0x53); (0x74, 0x54);
   (0x75, 0x55); (0x76, 0x56); (0x77, 0x57); (0x78, 0x58); (0x79, 0x59);
   (0x7A, 0x5A); (0xB5, 0x39C); (0xE0, 0xC0); (0xE1, 0xC1); (0xE2, 0xC2);
   (0xE3, 0xC3); (0xE4, 0xC4); (0xE5, 0xC5); (0xE6, 0xC6); (0xE7, 0xC7);
   (0xE8, 0xC8); (0xE9, 0xC9); (0xEA, 0xCA); (0xEB, 0xCB); (0xEC, 0xCC);
   (0xED, 0xCD); (0xEE, 0xCE); (0xEF, 0xCF); (0xF0, 0xD0); (0xF1, 0xD1);
   (0xF2, 0xD2); (0xF3, 0xD3); (0xF4, 0xD4); (0xF5, 0xD5); (0xF6, 0xD6);
   (0xF8, 0xD8); (0xF9, 0xD9); (0xFA, 0xDA); (0xFB, 0xDB); (0xFC, 0xDC);
   (0xFD, 0xDD); (0xFE, 0xDE); (0xFF, 0x178); (0x101, 0x100); (0x103, 0x102);
   (0x105, 0x104); (0x107, 0x106); (0x109, 0x108); (0x10B, 0x10A);
   (0x10D, 0x10C); (0x10F, 0x10E); (0x111, 0x110); (0x113, 0x112);
   (0x115, 0x114); (0x117, 0x116); (0x119, 0x118); (0x11B, 0x11A);
   (0x11D, 0x11C); (0x11F, 0x11E); (0x121, 0x120); (0x123, 0x122);
   (0x125, 0x124); (0x127, 0x126); (0x129, 0x128); (0x12B, 0x12A);
   (0x12D, 0x12C); (0x12F, 0x12E); (0x131, 0x49); (0x133, 0x132);
   (0x135, 0x134); (0x137, 0x136); (0x13A, 0x139); (0x13C, 0x13B);
   (0x13E, 0x13D); (0x140, 0x13F); (0x142, 0x141); (0x144, 0x143);
   (0x146, 0x145); (0x148, 0x147); (0x14B, 0x14A); (0x14D, 0x14C);
   (0x14F, 0x14E); (0x151, 0x150); (0x153, 0x152); (0x155, 0x154);
   (0x157, 0x156); (0x159, 0x158); (0x15B, 0x15A); (0x15D, 0x15C);
   (0x15F, 0x15E); (0x161, 0x160); (0x163, 0x162); (0x165, 0x164);
   (0x167, 0x166); (0x169, 0x168); (0x16B, 0x16A); (0x16D, 0x16C);
   (0x16F, 0x16E); (0x171, 0x170); (0x173, 0x172); (0x175, 0x174);
   (0x177, 0x176); (0x17A, 0x179); (0x17C, 0x17B); (0x17E, 0x17D);
   (0x17F, 0x53); (0x180, 0x243); (0x183, 0x182); (0x185, 0x184);
   (0x188, 0x187); (0x18C, 0x18B); (0x192, 0x191); (0x195, 0x1F6);
   (0x199, 0x198); (0x19A, 0x23D); (0x19E, 0x220); (0x1A1, 0x1A0);
   (0x1A3, 0x1A2); (0x1A5, 0x1A4); (0x1A8, 0x1A7); (0x1AD, 0x1AC);
   (0x1B0, 0x1AF); (0x1B4, 0x1B3); (0x1B6, 0x1B5); (0x1B9, 0x1B8);
   (0x1BD, 0x1BC); (0x1BF, 0x1F7); (0x1C4, 0x1C5); (0x1C6, 0x1C5);
   (0x1C7, 0x1C8); (0x1C9, 0x1C8); (0x1CA, 0x1CB); (0x1CC, 0x1CB);
   (0x1CE, 0x1CD); (0x1D0, 0x1CF); (0x1D2, 0x1D1); (0x1D4, 0x1D3);
   (0x1D6, 0x1D5); (0x1D8, 0x1D7); (0x1DA, 0x1D9); (0x1DC, 0x1DB);
   (0x1DD, 0x18E); (0x1DF, 0x1DE); (0x1E1, 0x1E0); (0x1E3, 0x1E2);
   (0x1E5, 0x1E4); (0x1E7, 0x1E6); (0x1E9, 0x1E8); (0x1EB, 0x1EA);
   (0x1ED, 0x1EC); (0x1EF, 0x1EE); (0x1F1, 0x1F2); (0x1F3, 0x1F2);
   (0x1F5, 0x1F4); (0x1F9, 0x1F8); (0x1FB, 0x1FA); (0x1FD, 0x1FC);
   (0x1FF, 0x1FE); (0x201, 0x200); (0x203, 0x202); (0x205, 0x204);
   (0x207, 0x206); (0x209, 0x208); (0x20B, 0x20A); (0x20D, 0x20C);
   (0x20F, 0x20E); (0x211, 0x210); (0x213, 0x212); (0x215, 0x214);
   (0x217, 0x216); (0x219, 0x218); (0x21B, 0x21A); (0x21D, 0x21C);
   (0x21F, 0x21E); (0x223, 0x222); (0x225, 0x224); (0x227, 0x226);
   (0x229, 0x228); (0x22B, 0x22A); (0x22D, 0x22C); (0x22F, 0x22E);
   (0x231, 0x230); (0x233, 0x232); (0x23C, 0x23B); (0x23F, 0x2C7E);
   (0x240, 0x2C7F); (0x242, 0x241); (0x247, 0x246); (0x249, 0x248);
   (0x24B, 0x24A); (0x24D, 0x24C); (0x24F, 0x24E); (0x250, 0x2C6F);
   (0x251, 0x2C6D); (0x252, 0x2C70); (0x253, 0x181); (0x254, 0x186);
   (0x256, 0x189); (0x257, 0x18A); (0x259, 0x18F); (0x25B, 0x190);
   (0x25C, 0xA7AB); (0x260, 0x193); (0x261, 0xA7AC); (0x263, 0x194);
   (0x265, 0xA78D); (0x266, 0xA7AA); (0x268, 0x197); (0x269, 0x196);
   (0x26A, 0xA7AE); (0x26B, 0x2C62); (0x26C, 0xA7AD); (0x26F, 0x19C);
   (0x271, 0x2C6E); (0x272, 0x19D); (0x275, 0x19F); (0x27D, 0x2C64);
   (0x280, 0x1A6); (0x282, 0xA7C5); (0x283, 0x1A9); (0x287, 0xA7B1);
   (0x288, 0x1AE); (0x289, 0x244); (0x28A, 0x1B1); (0x28B, 0x1B2);
   (0x28C, 0x245); (0x292, 0x1B7); (0x29D, 0xA7B2); (0x29E, 0xA7B0);
   (0x345, 0x399); (0x371, 0x370); (0x373, 0x372); (0x377, 0x376);
   (0x37B, 0x3FD); (0x37C, 0x3FE); (0x37D, 0x3FF); (0x3AC, 0x386);
   (0x3AD, 0x388); (0x3AE, 0x389); (0x3AF, 0x38A); (0x3B1, 0x391);
   (0x3B2, 0x392); (0x3B3, 0x393); (0x3B4, 0x394); (0x3B5, 0x395);
   (0x3B6, 0x396); (0x3B7, 0x397); (0x3B8, 0x398); (0x3B9, 0x399);
   (0x3BA, 0x39A); (0x3BB, 0x39B); (0x3BC, 0x39C); (0x3BD, 0x39D);
   (0x3BE, 0x39E); (0x3BF, 0x39F); (0x3C0, 0x3A0); (0x3C1, 0x3A1);
   (0x3C2, 0x3A3); (0x3C3, 0x3A3); (0x3C4, 0x3A4); (0x3C5, 0x3A5);
   (0x3C6, 0x3A6); (0x3C7, 0x3A7); (0x3C8, 0x3A8); (0x3C9, 0x3A9);
   (0x3CA, 0x3AA); (0x3CB, 0x3AB); (0x3CC, 0x38C); (0x3CD, 0x38E);
   (0x3CE, 0x38F); (0x3D0, 0x392); (0x3D1, 0x398); (0x3D5, 0x3A6);
   (0x3D6, 0x3A0); (0x3D7, 0x3CF); (0x3D9, 0x3D8); (0x3DB, 0x3DA);
   (0x3DD, 0x3DC); (0x3DF, 0x3DE); (0x3E1, 0x3E0); (0x3E3, 0x3E2);
   (0x3E5, 0x3E4); (0x3E7, 0x3E6); (0x3E9, 0x3E8); (0x3EB, 0x3EA);
   (0x3ED, 0x3EC); (0x3EF, 0x3EE); (0x3F0, 0x39A); (0x3F1, 0x3A1);
   (0x3F2, 0x3F9); (0x3F3, 0x37F); (0x3F5, 0x395); (0x3F8, 0x3F7);
   (0x3FB, 0x3FA); (0x430, 0x410); (0x431, 0x411); (0x432, 0x412);
   (0x433, 0x413); (0x434, 0x414); (0x435, 0x415); (0x436, 0x416);
   (0x437, 0x417); (0x438, 0x418); (0x439, 0x419); (0x43A, 0x41A);
   (0x43B, 0x41B); (0x43C, 0x41C); (0x43D, 0x41D); (0x43E, 0x41E);
   (0x43F, 0x41F); (0x440, 0x420); (0x441, 0x421); (0x442, 0x422);
   (0x443, 0x423); (0x444, 0x424); (0x445, 0x425); (0x446, 0x426);
   (0x447, 0x427); (0x448, 0x428); (0x449, 0x429); (0x44A, 0x42A);
   (0x44B, 0x42B); (0x44C, 0x42C); (0x44D, 0x42D); (0x44E, 0x42E);
   (0x44F, 0x42F); (0x450, 0x400); (0x451, 0x401); (0x452, 0x402);
   (0x453, 0x403); (0x454, 0x404); (0x455, 0x405); (0x456, 0x406);
   (0x457, 0x407); (0x458, 0x408); (0x459, 0x409); (0x45A, 0x40A);
   (0x45B, 0x40B); (0x45C, 0x40C); (0x45D, 0x40D); (0x45E, 0x40E);
   (0x45F, 0x40F); (0x461, 0x460); (0x463, 0x462); (0x465, 0x464);
   (0x467, 0x466); (0x469, 0x468); (0x46B, 0x46A); (0x46D, 0x46C);
   (0x46F, 0x46E); (0x471, 0x470); (0x473, 0x472); (0x475, 0x474);
   (0x477, 0x476); (0x479, 0x478); (0x47B, 0x47A); (0x47D, 0x47C);
   (0x47F, 0x47E); (0x481, 0x480); (0x48B, 0x48A); (0x48D, 0x48C);
   (0x48F, 0x48E); (0x491, 0x490); (0x493, 0x492); (0x495, 0x494);
   (0x497, 0x496); (0x499, 0x498); (0x49B, 0x49A); (0x49D, 0x49C);
   (0x49F, 0x49E); (0x4A1, 0x4A0); (0x4A3, 0x4A2); (0x4A5, 0x4A4);
   (0x4A7, 0x4A6); (0x4A9, 0x4A8); (0x4AB, 0x4AA); (0x4AD, 0x4AC);
   (0x4AF, 0x4AE); (0x4B1, 0x4B0); (0x4B3, 0x4B2); (0x4B5, 0x4B4);
   (0x4B7, 0x4B6); (0x4B9, 0x4B8); (0x4BB, 0x4BA); (0x4BD, 0x4BC);
   (0x4BF, 0x4BE); (0x4C2, 0x4C1); (0x4C4, 0x4C3); (0x4C6, 0x4C5);
   (0x4C8, 0x4C7); (0x4CA, 0x4C9); (0x4CC, 0x4CB); (0x4CE, 0x4CD);
   (0x4CF, 0x4C0); (0x4D1, 0x4D0); (0x4D3, 0x4D2); (0x4D5, 0x4D4);
   (0x4D7, 0x4D6); (0x4D9, 0x4D8); (0x4DB, 0x4DA); (0x4DD, 0x4DC);
   (0x4DF, 0x4DE); (0x4E1, 0x4E0); (0x4E3, 0x4E2); (0x4E5, 0x4E4);
   (0x4E7, 0x4E6); (0x4E9, 0x4E8); (0x4EB, 0x4EA); (0x4ED, 0x4EC);
   (0x4EF, 0x4EE); (0x4F1, 0x4F0); (0x4F3, 0x4F2); (0x4F5, 0x4F4);
   (0x4F7, 0x4F6); (0x4F9, 0x4F8); (0x4FB, 0x4FA); (0x4FD, 0x4FC);
   (0x4FF, 0x4FE); (0x501, 0x500); (0x503, 0x502); (0x505, 0x504);
   (0x507, 0x506); (0x509, 0x508); (0x50B, 0x50A); (0x50D, 0x50C);
   (0x50F, 0x50E); (0x511, 0x510); (0x513, 0x512); (0x515, 0x514);
   (0x517, 0x516); (0x519, 0x518); (0x51B, 0x51A); (0x51D, 0x51C);
   (0x51F, 0x51E); (0x521, 0x520); (0x523, 0x522); (0x525, 0x524);
   (0x527, 0x526); (0x529, 0x528); (0x52B, 0x52A); (0x52D, 0x52C);
   (0x52F, 0x52E); (0x561, 0x531); (0x562, 0x532); (0x563, 0x533);
   (0x564, 0x534); (0x565, 0x535); (0x566, 0x536); (0x567, 0x537);
   (0x568, 0x538); (0x569, 0x539); (0x56A, 0x53A); (0x56B, 0x53B);
   (0x56C, 0x53C); (0x56D, 0x53D); (0x56E, 0x53E); (0x56F, 0x53F);
   (0x570, 0x540); (0x571, 0x541); (0x572, 0x542); (0x573, 0x543);
   (0x574, 0x544); (0x575, 0x545); (0x576, 0x546); (0x577, 0x547);
   (0x578, 0x548); (0x579, 0x549); (0x57A, 0x54A); (0x57B, 0x54B);
   (0x57C, 0x54C); (0x57D, 0x54D); (0x57E, 0x54E); (0x57F, 0x54F);
   (0x580, 0x550); (0x581, 0x551); (0x582, 0x552); (0x583, 0x553);
   (0x584, 0x554); (0x585, 0x555); (0x586, 0x556); (0x13F8, 0x13F0);
   (0x13F9, 0x13F1); (0x13FA, 0x13F2); (0x13FB, 0x13F3); (0x13FC, 0x13F4);
   (0x13FD, 0x13F5); (0x1C80, 0x412); (0x1C81, 0x414); (0x1C82, 0x41E);
   (0x1C83, 0x421); (0x1C84, 0x422); (0x1C85, 0x422); (0x1C86, 0x42A);
   (0x1C87, 0x462); (0x1C88, 0xA64A); (0x1D79, 0xA77D); (0x1D7D, 0x2C63);
   (0x1D8E, 0xA7C6); (0x1E01, 0x1E00); (0x1E03, 0x1E02); (0x1E05, 0x1E04);
   (0x1E07, 0x1E06); (0x1E09, 0x1E08); (0x1E0B, 0x1E0A); (0x1E0D, 0x1E0C);
   (0x1E0F, 0x1E0E); (0x1E11, 0x1E10); (0x1E13, 0x1E12); (0x1E15, 0x1E14);
   (0x1E17, 0x1E16); (0x1E19, 0x1E18); (0x1E1B, 0x1E1A); (0x1E1D, 0x1E1C);
   (0x1E1F, 0x1E1E); (0x1E21, 0x1E20); (0x1E23, 0x1E22); (0x1E25, 0x1E24);
   (0x1E27, 0x1E26); (0x1E29, 0x1E28); (0x1E2B, 0x1E2A); (0x1E2D, 0x1E2C);
   (0x1E2F, 0x1E2E); (0x1E31, 0x1E30); (0x1E33, 0x1E32); (0x1E35, 0x1E34);
   (0x1E37, 0x1E36); (0x1E39, 0x1E38); (0x1E3B, 0x1E3A); (0x1E3D, 0x1E3C);
   (0x1E3F, 0x1E3E); (0x1E41, 0x1E40); (0x1E43, 0x1E42); (0x1E45, 0x1E44);
   (0x1E47, 0x1E46); (0x1E49, 0x1E48); (0x1E4B, 0x1E4A); (0x1E4D, 0x1E4C);
   (0x1E4F, 0x1E4E); (0x1E51, 0x1E50); (0x1E53, 0x1E52); (0x1E55, 0x1E54);
   (0x1E57, 0x1E56); (0x1E59, 0x1E58); (0x1E5B, 0x1E5A); (0x1E5D, 0x1E5C);
   (0x1E5F, 0x1E5E); (0x1E61, 0x1E60); (0x1E63, 0x1E62); (0x1E65, 0x1E64);
   (0x1E67, 0x1E66); (0x1E69, 0x1E68); (0x1E6B, 0x1E6A); (0x1E6D, 0x1E6C);
   (0x1E6F, 0x1E6E); (0x1E71, 0x1E70); (0x1E73, 0x1E72); (0x1E75, 0x1E74);
   (0x1E77, 0x1E76); (0x1E79, 0x1E78); (0x1E7B, 0x1E7A); (0x1E7D, 0x1E7C);
   (0x1E7F, 0x1E7E); (0x1E81, 0x1E80); (0x1E83, 0x1E82); (0x1E85, 0x1E84);
   (0x1E87, 0x1E86); (0x1E89, 0x1E88); (0x1E8B, 0x1E8A); (0x1E8D, 0x1E8C);
   (0x1E8F, 0x1E8E); (0x1E91, 0x1E90); (0x1E93, 0x1E92); (0x1E95, 0x1E94);
   (0x1E9B, 0x1E60); (0x1EA1, 0x1EA0); (0x1EA3, 0x1EA2); (0x1EA5, 0x1EA4);
   (0x1EA7, 0x1EA6); (0x1EA9, 0x1EA8); (0x1EAB, 0x1EAA); (0x1EAD, 0x1EAC);
   (0x1EAF, 0x1EAE); (0x1EB1, 0x1EB0); (0x1EB3, 0x1EB2); (0x1EB5, 0x1EB4);
   (0x1EB7, 0x1EB6); (0x1EB9, 0x1EB8); (0x1EBB, 0x1EBA); (0x1EBD, 0x1EBC);
   (0x1EBF, 0x1EBE); (0x1EC1, 0x1EC0); (0x1EC3, 0x1EC2); (0x1EC5, 0x1EC4);
   (0x1EC7, 0x1EC6); (0x1EC9, 0x1EC8); (0x1ECB, 0x1ECA); (0x1ECD, 0x1ECC);
   (0x1ECF, 0x1ECE); (0x1ED1, 0x1ED0); (0x1ED3, 0x1ED2); (0x1ED5, 0x1ED4);
   (0x1ED7, 0x1ED6); (0x1ED9, 0x1ED8); (0x1EDB, 0x1EDA); (0x1EDD, 0x1EDC);
   (0x1EDF, 0x1EDE); (0x1EE1, 0x1EE0); (0x1EE3, 0x1EE2); (0x1EE5, 0x1EE4);
   (0x1EE7, 0x1EE6); (0x1EE9, 0x1EE8); (0x1EEB, 0x1EEA); (0x1EED, 0x1EEC);
   (0x1EEF, 0x1EEE); (0x1EF1, 0x1EF0); (0x1EF3, 0x1EF2); (0x1EF5, 0x1EF4);
   (0x1EF7, 0x1EF6); (0x1EF9, 0x1EF8); (0x1EFB, 0x1EFA); (0x1EFD, 0x1EFC);
   (0x1EFF, 0x1EFE); (0x1F00, 0x1F08); (0x1F01, 0x1F09); (0x1F02, 0x1F0A);
   (0x1F03, 0x1F0B); (0x1F04, 0x1F0C); (0x1F05, 0x1F0D); (0x1F06, 0x1F0E);
   (0x1F07, 0x1F0F); (0x1F10, 0x1F18); (0x1F11, 0x1F19); (0x1F12, 0x1F1A);
   (0x1F13, 0x1F1B); (0x1F14, 0x1F1C); (0x1F15, 0x1F1D); (0x1F20, 0x1F28);
   (0x1F21, 0x1F29); (0x1F22, 0x1F2A); (0x1F23, 0x1F2B); (0x1F24, 0x1F2C);
   (0x1F25, 0x1F2D); (0x1F26, 0x1F2E); (0x1F27, 0x1F2F); (0x1F30, 0x1F38);
   (0x1F31, 0x1F39); (0x1F32, 0x1F3A); (0x1F33, 0x1F3B); (0x1F34, 0x1F3C);
   (0x1F35, 0x1F3D); (0x1F36, 0x1F3E); (0x1F37, 0x1F3F); (0x1F40, 0x1F48);
   (0x1F41, 0x1F49); (0x1F42, 0x1F4A); (0x1F43, 0x1F4B); (0x1F44, 0x1F4C);
   (0x1F45, 0x1F4D); (0x1F51, 0x1F59); (0x1F53, 0x1F5B); (0x1F55, 0x1F5D);
   (0x1F57, 0x1F5F); (0x1F60, 0x1F68); (0x1F61, 0x1F69); (0x1F62, 0x1F6A);
   (0x1F63, 0x1F6B); (0x1F64, 0x1F6C); (0x1F65, 0x1F6D); (0x1F66, 0x1F6E);
   (0x1F67, 0x1F6F); (0x1F70, 0x1FBA); (0x1F71, 0x1FBB); (0x1F72, 0x1FC8);
   (0x1F73, 0x1FC9); (0x1F74, 0x1FCA); (0x1F75, 0x1FCB); (0x1F76, 0x1FDA);
   (0x1F77, 0x1FDB); (0x1F78, 0x1FF8); (0x1F79, 0x1FF9); (0x1F7A, 0x1FEA);
   (0x1F7B, 0x1FEB); (0x1F7C, 0x1FFA); (0x1F7D, 0x1FFB); (0x1F80, 0x1F88);
   (0x1F81, 0x1F89); (0x1F82, 0x1F8A); (0x1F83, 0x1F8B); (0x1F84, 0x1F8C);
   (0x1F85, 0x1F8D); (0x1F86, 0x1F8E); (0x1F87, 0x1F8F); (0x1F90, 0x1F98);
   (0x1F91, 0x1F99); (0x1F92, 0x1F9A); (0x1F93, 0x1F9B); (0x1F94, 0x1F9C);
   (0x1F95, 0x1F9D); (0x1F96, 0x1F9E); (0x1F97, 0x1F9F); (0x1FA0, 0x1FA8);
   (0x1FA1, 0x1FA9); (0x1FA2, 0x1FAA); (0x1FA3, 0x1FAB); (0x1FA4, 0x1FAC);
   (0x1FA5, 0x1FAD); (0x1FA6, 0x1FAE); (0x1FA7, 0x1FAF); (0x1FB0, 0x1FB8);
   (0x1FB1, 0x1FB9); (0x1FB3, 0x1FBC); (0x1FBE, 0x399); (0x1FC3, 0x1FCC);
   (0x1FD0, 0x1FD8); (0x1FD1, 0x1FD9); (0x1FE0, 0x1FE8); (0x1FE1, 0x1FE9);
   (0x1FE5, 0x1FEC); (0x1FF3, 0x1FFC); (0x214E, 0x2132); (0x2170, 0x2160);
   (0x2171, 0x2161); (0x2172, 0x2162); (0x2173, 0x2163); (0x2174, 0x2164);
   (0x2175, 0x2165); (0x2176, 0x2166); (0x2177, 0x2167); (0x2178, 0x2168);
   (0x2179, 0x2169); (0x217A, 0x216A); (0x217B, 0x216B); (0x217C, 0x216C);
   (0x217D, 0x216D); (0x217E, 0x216E); (0x217F, 0x216F); (0x2184, 0x2183);
   (0x24D0, 0x24B6); (0x24D1, 0x24B7); (0x24D2, 0x24B8); (0x24D3, 0x24B9);
   (0x24D4, 0x24BA); (0x24D5, 0x24BB); (0x24D6, 0x24BC); (0x24D7, 0x24BD);
   (0x24D8, 0x24BE); (0x24D9, 0x24BF); (0x24DA, 0x24C0); (0x24DB, 0x24C1);
   (0x24DC, 0x24C2); (0x24DD, 0x24C3); (0x24DE, 0x24C4); (0x24DF, 0x24C5);
   (0x24E0, 0x24C6); (0x24E1, 0x24C7); (0x24E2, 0x24C8); (0x24E3, 0x24C9);
   (0x24E4, 0x24CA); (0x24E5, 0x24CB); (0x24E6, 0x24CC); (0x24E7, 0x24CD);
   (0x24E8, 0x24CE); (0x24E9, 0x24CF); (0x2C30, 0x2C00); (0x2C31, 0x2C01);
   (0x2C32, 0x2C02); (0x2C33, 0x2C03); (0x2C34, 0x2C04); (0x2C35, 0x2C05);
   (0x2C36, 0x2C06); (0x2C37, 0x2C07); (0x2C38, 0x2C08); (0x2C39, 0x2C09);
   (0x2C3A, 0x2C0A); (0x2C3B, 0x2C0B); (0x2C3C, 0x2C0C); (0x2C3D, 0x2C0D);
   (0x2C3E, 0x2C0E); (0x2C3F, 0x2C0F); (0x2C40, 0x2C10); (0x2C41, 0x2C11);
   (0x2C42, 0x2C12); (0x2C43, 0x2C13); (0x2C44, 0x2C14); (0x2C45, 0x2C15);
   (0x2C46, 0x2C16); (0x2C47, 0x2C17); (0x2C48, 0x2C18); (0x2C49, 0x2C19);
   (0x2C4A, 0x2C1A); (0x2C4B, 0x2C1B); (0x2C4C, 0x2C1C); (0x2C4D, 0x2C1D);
   (0x2C4E, 0x2C1E); (0x2C4F, 0x2C1F); (0x2C50, 0x2C20); (0x2C51, 0x2C21);
   (0x2C52, 0x2C22); (0x2C53, 0x2C23); (0x2C54, 0x2C24); (0x2C55, 0x2C25);
   (0x2C56, 0x2C26); (0x2C57, 0x2C27); (0x2C58, 0x2C28); (0x2C59, 0x2C29);
   (0x2C5A, 0x2C2A); (0x2C5B, 0x2C2B); (0x2C5C, 0x2C2C); (0x2C5D, 0x2C2D);
   (0x2C5E, 0x2C2E); (0x2C5F, 0x2C2F); (0x2C61, 0x2C60); (0x2C65, 0x23A);
   (0x2C66, 0x23E); (0x2C68, 0x2C67); (0x2C6A, 0x2C69); (0x2C6C, 0x2C6B);
   (0x2C73, 0x2C72); (0x2C76, 0x2C75); (0x2C81, 0x2C80); (0x2C83, 0x2C82);
   (0x2C85, 0x2C84); (0x2C87, 0x2C86); (0x2C89, 0x2C88); (0x2C8B, 0x2C8A);
   (0x2C8D, 0x2C8C); (0x2C8F, 0x2C8E); (0x2C91, 0x2C90); (0x2C93, 0x2C92);
   (0x2C95, 0x2C94); (0x2C97, 0x2C96); (0x2C99, 0x2C98); (0x2C9B, 0x2C9A);
   (0x2C9D, 0x2C9C); (0x2C9F, 0x2C9E); (0x2CA1, 0x2CA0); (0x2CA3, 0x2CA2);
   (0x2CA5, 0x2CA4); (0x2CA7, 0x2CA6); (0x2CA9, 0x2CA8); (0x2CAB, 0x2CAA);
   (0x2CAD, 0x2CAC); (0x2CAF, 0x2CAE); (0x2CB1, 0x2CB0); (0x2CB3, 0x2CB2);
   (0x2CB5, 0x2CB4); (0x2CB7, 0x2CB6); (0x2CB9, 0x2CB8); (0x2CBB, 0x2CBA);
   (0x2CBD, 0x2CBC); (0x2CBF, 0x2CBE); (0x2CC1, 0x2CC0); (0x2CC3, 0x2CC2);
   (0x2CC5, 0x2CC4); (0x2CC7, 0x2CC6); (0x2CC9, 0x2CC8); (0x2CCB, 0x2CCA);
   (0x2CCD, 0x2CCC); (0x2CCF, 0x2CCE); (0x2CD1, 0x2CD0); (0x2CD3, 0x2CD2);
   (0x2CD5, 0x2CD4); (0x2CD7, 0x2CD6); (0x2CD9, 0x2CD8); (0x2CDB, 0x2CDA);
   (0x2CDD, 0x2CDC); (0x2CDF, 0x2CDE); (0x2CE1, 0x2CE0); (0x2CE3, 0x2CE2);
   (0x2CEC, 0x2CEB); (0x2CEE, 0x2CED); (0x2CF3, 0x2CF2); (0x2D00, 0x10A0);
   (0x2D01, 0x10A1); (0x2D02, 0x10A2); (0x2D03, 0x10A3); (0x2D04, 0x10A4);
   (0x2D05, 0x10A5); (0x2D06, 0x10A6); (0x2D07, 0x10A7); (0x2D08, 0x10A8);
   (0x2D09, 0x10A9); (0x2D0A, 0x10AA); (0x2D0B, 0x10AB); (0x2D0C, 0x10AC);
   (0x2D0D, 0x10AD); (0x2D0E, 0x10AE); (0x2D0F, 0x10AF); (0x2D10, 0x10B0);
   (0x2D11, 0x10B1); (0x2D12, 0x10B2); (0x2D13, 0x10B3); (0x2D14, 0x10B4);
   (0x2D15, 0x10B5); (0x2D16, 0x10B6); (0x2D17, 0x10B7); (0x2D18, 0x10B8);
   (0x2D19, 0x10B9); (0x2D1A, 0x10BA); (0x2D1B, 0x10BB); (0x2D1C, 0x10BC);
   (0x2D1D, 0x10BD); (0x2D1E, 0x10BE); (0x2D1F, 0x10BF); (0x2D20, 0x10C0);
   (0x2D21, 0x10C1); (0x2D22, 0x10C2); (0x2D23, 0x10C3); (0x2D24, 0x10C4);
   (0x2D25, 0x10C5); (0x2D27, 0x10C7); (0x2D2D, 0x10CD); (0xA641, 0xA640);
   (0xA643, 0xA642); (0xA645, 0xA644); (0xA647, 0xA646); (0xA649, 0xA648);
   (0xA64B, 0xA64A); (0xA64D, 0xA64C); (0xA64F, 0xA64E); (0xA651, 0xA650);
   (0xA653, 0xA652); (0xA655, 0xA654); (0xA657, 0xA656); (0xA659, 0xA658);
   (0xA65B, 0xA65A); (0xA65D, 0xA65C); (0xA65F, 0xA65E); (0xA661, 0xA660);
   (0xA663, 0xA662); (0xA665, 0xA664); (0xA667, 0xA666); (0xA669, 0xA668);
   (0xA66B, 0xA66A); (0xA66D, 0xA66C); (0xA681, 0xA680); (0xA683, 0xA682);
   (0xA685, 0xA684); (0xA687, 0xA686); (0xA689, 0xA688); (0xA68B, 0xA68A);
   (0xA68D, 0xA68C); (0xA68F, 0xA68E); (0xA691, 0xA690); (0xA693, 0xA692);
   (0xA695, 0xA694); (0xA697, 0xA696); (0xA699, 0xA698); (0xA69B, 0xA69A);
   (0xA723, 0xA722); (0xA725, 0xA724); (0xA727, 0xA726); (0xA729, 0xA728);
   (0xA72B, 0xA72A); (0xA72D, 0xA72C); (0xA72F, 0xA72E); (0xA733, 0xA732);
   (0xA735, 0xA734); (0xA737, 0xA736); (0xA739, 0xA738); (0xA73B, 0xA73A);
   (0xA73D, 0xA73C); (0xA73F, 0xA73E); (0xA741, 0xA740); (0xA743, 0xA742);
   (0xA745, 0xA744); (0xA747, 0xA746); (0xA749, 0xA748); (0xA74B, 0xA74A);
   (0xA74D, 0xA74C); (0xA74F, 0xA74E); (0xA751, 0xA750); (0xA753, 0xA752);
   (0xA755, 0xA754); (0xA757, 0xA756); (0xA759, 0xA758); (0xA75B, 0xA75A);
   (0xA75D, 0xA75C); (0xA75F, 0xA75E); (0xA761, 0xA760); (0xA763, 0xA762);
   (0xA765, 0xA764); (0xA767, 0xA766); (0xA769, 0xA768); (0xA76B, 0xA76A);
   (0xA76D, 0xA76C); (0xA76F, 0xA76E); (0xA77A, 0xA779); (0xA77C, 0xA77B);
   (0xA77F, 0xA77E); (0xA781, 0xA780); (0xA783, 0xA782); (0xA785, 0xA784);
   (0xA787, 0xA786); (0xA78C, 0xA78B); (0xA791, 0xA790); (0xA793, 0xA792);
   (0xA794, 0xA7C4); (0xA797, 0xA796); (0xA799, 0xA798); (0xA79B, 0xA79A);
   (0xA79D, 0xA79C); (0xA79F, 0xA79E); (0xA7A1, 0xA7A0); (0xA7A3, 0xA7A2);
   (0xA7A5, 0xA7A4); (0xA7A7, 0xA7A6); (0xA7A9, 0xA7A8); (0xA7B5, 0xA7B4);
   (0xA7B7, 0xA7B6); (0xA7B9, 0xA7B8); (0xA7BB, 0xA7BA); (0xA7BD, 0xA7BC);
   (0xA7BF, 0xA7BE); (0xA7C1, 0xA7C0); (0xA7C3, 0xA7C2); (0xA7C8, 0xA7C7);
   (0xA7CA, 0xA7C9); (0xA7D1, 0xA7D0); (0xA7D7, 0xA7D6); (0xA7D9, 0xA7D8);
   (0xA7F6, 0xA7F5); (0xAB53, 0xA7B3); (0xAB70, 0x13A0); (0xAB71, 0x13A1);
   (0xAB72, 0x13A2); (0xAB73, 0x13A3); (0xAB74, 0x13A4); (0xAB75, 0x13A5);
   (0xAB76, 0x13A6); (0xAB77, 0x13A7); (0xAB78, 0x13A8); (0xAB79, 0x13A9);
   (0xAB7A, 0x13AA); (0xAB7B, 0x13AB); (0xAB7C, 0x13AC); (0xAB7D, 0x13AD);
   (0xAB7E, 0x13AE); (0xAB7F, 0x13AF); (0xAB80, 0x13B0); (0xAB81, 0x13B1);
   (0xAB82, 0x13B2); (0xAB83, 0x13B3); (0xAB84, 0x13B4); (0xAB85, 0x13B5);
   (0xAB86, 0x13B6); (0xAB87, 0x13B7); (0xAB88, 0x13B8); (0xAB89, 0x13B9);
   (0xAB8A, 0x13BA); (0xAB8B, 0x13BB); (0xAB8C, 0x13BC); (0xAB8D, 0x13BD);
   (0xAB8E, 0x13BE); (0xAB8F, 0x13BF); (0xAB90, 0x13C0); (0xAB91, 0x13C1);
   (0xAB92, 0x13C2); (0xAB93, 0x13C3); (0xAB94, 0x13C4); (0xAB95, 0x13C5);
   (0xAB96, 0x13C6); (0xAB97, 0x13C7); (0xAB98, 0x13C8); (0xAB99, 0x13C9);
   (0xAB9A, 0x13CA); (0xAB9B, 0x13CB); (0xAB9C, 0x13CC); (0xAB9D, 0x13CD);
   (0xAB9E, 0x13CE); (0xAB9F, 0x13CF); (0xABA0, 0x13D0); (0xABA1, 0x13D1);
   (0xABA2, 0x13D2); (0xABA3, 0x13D3); (0xABA4, 0x13D4); (0xABA5, 0x13D5);
   (0xABA6, 0x13D6); (0xABA7, 0x13D7); (0xABA8, 0x13D8); (0xABA9, 0x13D9);
   (0xABAA, 0x13DA); (0xABAB, 0x13DB); (0xABAC, 0x13DC); (0xABAD, 0x13DD);
   (0xABAE, 0x13DE); (0xABAF, 0x13DF); (0xABB0, 0x13E0); (0xABB1, 0x13E1);
   (0xABB2, 0x13E2); (0xABB3, 0x13E3); (0xABB4, 0x13E4); (0xABB5, 0x13E5);
   (0xABB6, 0x13E6); (0xABB7, 0x13E7); (0xABB8, 0x13E8); (0xABB9, 0x13E9);
   (0xABBA, 0x13EA); (0xABBB, 0x13EB); (0xABBC, 0x13EC); (0xABBD, 0x13ED);
   (0xABBE, 0x13EE); (0xABBF, 0x13EF); (0xFF41, 0xFF21); (0xFF42, 0xFF22);
   (0xFF43, 0xFF23); (0xFF44, 0xFF24); (0xFF45, 0xFF25); (0xFF46, 0xFF26);
   (0xFF47, 0xFF27); (0xFF48, 0xFF28); (0xFF49, 0xFF29); (0xFF4A, 0xFF2A);
   (0xFF4B, 0xFF2B); (0xFF4C, 0xFF2C); (0xFF4D, 0xFF2D); (0xFF4E, 0xFF2E);
   (0xFF4F, 0xFF2F); (0xFF50, 0xFF30); (0xFF51, 0xFF31); (0xFF52, 0xFF32);
   (0xFF53, 0xFF33); (0xFF54, 0xFF34); (0xFF55, 0xFF35); (0xFF56, 0xFF36);
   (0xFF57, 0xFF37); (0xFF58, 0xFF38); (0xFF59, 0xFF39); (0xFF5A, 0xFF3A);
   (0x10428, 0x10400); (0x10429, 0x10401); (0x1042A, 0x10402);
   (0x1042B, 0x10403); (0x1042C, 0x10404); (0x1042D, 0x10405);
   (0x1042E, 0x10406); (0x1042F, 0x10407); (0x10430, 0x10408);
   (0x10431, 0x10409); (0x10432, 0x1040A); (0x10433, 0x1040B);
   (0x10434, 0x1040C); (0x10435, 0x1040D); (0x10436, 0x1040E);
   (0x10437, 0x1040F); (0x10438, 0x10410); (0x10439, 0x10411);
   (0x1043A, 0x10412); (0x1043B, 0x10413); (0x1043C, 0x10414);
   (0x1043D, 0x10415); (0x1043E, 0x10416); (0x1043F, 0x10417);
   (0x10440, 0x10418); (0x10441, 0x10419); (0x10442, 0x1041A);
   (0x10443, 0x1041B); (0x10444, 0x1041C); (0x10445, 0x1041D);
   (0x10446, 0x1041E); (0x10447, 0x1041F); (0x10448, 0x10420);
   (0x10449, 0x10421); (0x1044A, 0x10422); (0x1044B, 0x10423);
   (0x1044C, 0x10424); (0x1044D, 0x10425); (0x1044E, 0x10426);
   (0x1044F, 0x10427); (0x104D8, 0x104B0); (0x104D9, 0x104B1);
   (0x104DA, 0x104B2); (0x104DB, 0x104B3); (0x104DC, 0x104B4);
   (0x104DD, 0x104B5); (0x104DE, 0x104B6); (0x104DF, 0x104B7);
   (0x104E0, 0x104B8); (0x104E1, 0x104B9); (0x104E2, 0x104BA);
   (0x104E3, 0x104BB); (0x104E4, 0x104BC); (0x104E5, 0x104BD);
   (0x104E6, 0x104BE); (0x104E7, 0x104BF); (0x104E8, 0x104C0);
   (0x104E9, 0x104C1); (0x104EA, 0x104C2); (0x104EB, 0x104C3);
   (0x104EC, 0x104C4); (0x104ED, 0x104C5); (0x104EE, 0x104C6);
   (0x104EF, 0x104C7); (0x104F0, 0x104C8); (0x104F1, 0x104C9);
   (0x104F2, 0x104CA); (0x104F3, 0x104CB); (0x104F4, 0x104CC);
   (0x104F5, 0x104CD); (0x104F6, 0x104CE); (0x104F7, 0x104CF);
   (0x104F8, 0x104D0); (0x104F9, 0x104D1); (0x104FA, 0x104D2);
   (0x104FB, 0x104D3); (0x10597, 0x10570); (0x10598, 0x10571);
   (0x10599, 0x10572); (0x1059A, 0x10573); (0x1059B, 0x10574);
   (0x1059C, 0x10575); (0x1059D, 0x10576); (0x1059E, 0x10577);
   (0x1059F, 0x10578); (0x105A0, 0x10579); (0x105A1, 0x1057A);
   (0x105A3, 0x1057C); (0x105A4, 0x1057D); (0x105A5, 0x1057E);
   (0x105A6, 0x1057F); (0x105A7, 0x10580); (0x105A8, 0x10581);
   (0x105A9, 0x10582); (0x105AA, 0x10583); (0x105AB, 0x10584);
   (0x105AC, 0x10585); (0x105AD, 0x10586); (0x105AE, 0x10587);
   (0x105AF, 0x10588); (0x105B0, 0x10589); (0x105B1, 0x1058A);
   (0x105B3, 0x1058C); (0x105B4, 0x1058D); (0x105B5, 0x1058E);
   (0x105B6, 0x1058F); (0x105B7, 0x10590); (0x105B8, 0x10591);
   (0x105B9, 0x10592); (0x105BB, 0x10594); (0x105BC, 0x10595);
   (0x10CC0, 0x10C80); (0x10CC1, 0x10C81); (0x10CC2, 0x10C82);
   (0x10CC3, 0x10C83); (0x10CC4, 0x10C84); (0x10CC5, 0x10C85);
   (0x10CC6, 0x10C86); (0x10CC7, 0x10C87); (0x10CC8, 0x10C88);
   (0x10CC9, 0x10C89); (0x10CCA, 0x10C8A); (0x10CCB, 0x10C8B);
   (0x10CCC, 0x10C8C); (0x10CCD, 0x10C8D); (0x10CCE, 0x10C8E);
   (0x10CCF, 0x10C8F); (0x10CD0, 0x10C90); (0x10CD1, 0x10C91);
   (0x10CD2, 0x10C92); (0x10CD3, 0x10C93); (0x10CD4, 0x10C94);
   (0x10CD5, 0x10C95); (0x10CD6, 0x10C96); (0x10CD7, 0x10C97);
   (0x10CD8, 0x10C98); (0x10CD9, 0x10C99); (0x10CDA, 0x10C9A);
   (0x10CDB, 0x10C9B); (0x10CDC, 0x10C9C); (0x10CDD, 0x10C9D);
   (0x10CDE, 0x10C9E); (0x10CDF, 0x10C9F); (0x10CE0, 0x10CA0);
   (0x10CE1, 0x10CA1); (0x10CE2, 0x10CA2); (0x10CE3, 0x10CA3);
   (0x10CE4, 0x10CA4); (0x10CE5, 0x10CA5); (0x10CE6, 0x10CA6);
   (0x10CE7, 0x10CA7); (0x10CE8, 0x10CA8); (0x10CE9, 0x10CA9);
   (0x10CEA, 0x10CAA); (0x10CEB, 0x10CAB); (0x10CEC, 0x10CAC);
   (0x10CED, 0x10CAD); (0x10CEE, 0x10CAE); (0x10CEF, 0x10CAF);
   (0x10CF0, 0x10CB0); (0x10CF1, 0x10CB1); (0x10CF2, 0x10CB2);
   (0x118C0, 0x118A0); (0x118C1, 0x118A1); (0x118C2, 0x118A2);
   (0x118C3, 0x118A3); (0x118C4, 0x118A4); (0x118C5, 0x118A5);
   (0x118C6, 0x118A6); (0x118C7, 0x118A7); (0x118C8, 0x118A8);
   (0x118C9, 0x118A9); (0x118CA, 0x118AA); (0x118CB, 0x118AB);
   (0x118CC, 0x118AC); (0x118CD, 0x118AD); (0x118CE, 0x118AE);
   (0x118CF, 0x118AF); (0x118D0, 0x118B0); (0x118D1, 0x118B1);
   (0x118D2, 0x118B2); (0x118D3, 0x118B3); (0x118D4, 0x118B4);
   (0x118D5, 0x118B5); (0x118D6, 0x118B6); (0x118D7, 0x118B7);
   (0x118D8, 0x118B8); (0x118D9, 0x118B9); (0x118DA, 0x118BA);
   (0x118DB, 0x118BB); (0x118DC, 0x118BC); (0x118DD, 0x118BD);
   (0x118DE, 0x118BE); (0x118DF, 0x118BF); (0x16E60, 0x16E40);
   (0x16E61, 0x16E41); (0x16E62, 0x16E42); (0x16E63, 0x16E43);
   (0x16E64, 0x16E44); (0x16E65, 0x16E45); (0x16E66, 0x16E46);
   (0x16E67, 0x16E47); (0x16E68, 0x16E48); (0x16E69, 0x16E49);
   (0x16E6A, 0x16E4A); (0x16E6B, 0x16E4B); (0x16E6C, 0x16E4C);
   (0x16E6D, 0x16E4D); (0x16E6E, 0x16E4E); (0x16E6F, 0x16E4F);
   (0x16E70, 0x16E50); (0x16E71, 0x16E51); (0x16E72, 0x16E52);
   (0x16E73, 0x16E53); (0x16E74, 0x16E54); (0x16E75, 0x16E55);
   (0x16E76, 0x16E56); (0x16E77, 0x16E57); (0x16E78, 0x16E58);
   (0x16E79, 0x16E59); (0x16E7A, 0x16E5A); (0x16E7B, 0x16E5B);
   (0x16E7C, 0x16E5C); (0x16E7D, 0x16E5D); (0x16E7E, 0x16E5E);
   (0x16E7F, 0x16E5F); (0x1E922, 0x1E900); (0x1E923, 0x1E901);
   (0x1E924, 0x1E902); (0x1E925, 0x1E903); (0x1E926, 0x1E904);
   (0x1E927, 0x1E905); (0x1E928, 0x1E906); (0x1E929, 0x1E907);
   (0x1E92A, 0x1E908); (0x1E92B, 0x1E909); (0x1E92C, 0x1E90A);
   (0x1E92D, 0x1E90B); (0x1E92E, 0x1E90C); (0x1E92F, 0x1E90D);
   (0x1E930, 0x1E90E); (0x1E931, 0x1E90F); (0x1E932, 0x1E910);
   (0x1E933, 0x1E911); (0x1E934, 0x1E912); (0x1E935, 0x1E913);
   (0x1E936, 0x1E914); (0x1E937, 0x1E915); (0x1E938, 0x1E916);
   (0x1E939, 0x1E917); (0x1E93A, 0x1E918); (0x1E93B, 0x1E919);
   (0x1E93C, 0x1E91A); (0x1E93D, 0x1E91B); (0x1E93E, 0x1E91C);
   (0x1E93F, 0x1E91D); (0x1E940, 0x1E91E); (0x1E941, 0x1E91F);
   (0x1E942, 0x1E920); (0x1E943, 0x1E921)
  ].

Definition special_titlecase : list (N * str) :=
  [
  (0xDF, [0x53; 0x73]); (0x149, [0x2BC; 0x4E]); (0x1F0, [0x4A; 0x30C]);
   (0x390, [0x399; 0x308; 0x301]); (0x3B0, [0x3A5; 0x308; 0x301]);
   (0x587, [0x535; 0x582]); (0x1E96, [0x48; 0x331]); (0x1E97, [0x54; 0x308]);
   (0x1E98, [0x57; 0x30A]); (0x1E99, [0x59; 0x30A]); (0x1E9A, [0x41; 0x2BE]);
   (0x1F50, [0x3A5; 0x313]); (0x1F52, [0x3A5; 0x313; 0x300]);
   (0x1F54, [0x3A5; 0x313; 0x301]); (0x1F56, [0x3A5; 0x313; 0x342]);
   (0x1FB2, [0x1FBA; 0x345]); (0x1FB4, [0x386; 0x345]);
   (0x1FB6, [0x391; 0x342]); (0x1FB7, [0x391; 0x342; 0x345]);
   (0x1FC2, [0x1FCA; 0x345]); (0x1FC4, [0x389; 0x345]);
   (0x1FC6, [0x397; 0x342]); (0x1FC7, [0x397; 0x342; 0x345]);
   (0x1FD2, [0x399; 0x308; 0x300]); (0x1FD3, [0x399; 0x308; 0x301]);
   (0x1FD6, [0x399; 0x342]); (0x1FD7, [0x399; 0x308; 0x342]);
   (0x1FE2, [0x3A5; 0x308; 0x300]); (0x1FE3, [0x3A5; 0x308; 0x301]);
   (0x1FE4, [0x3A1; 0x313]); (0x1FE6, [0x3A5; 0x342]);
   (0x1FE7, [0x3A5; 0x308; 0x342]); (0x1FF2, [0x1FFA; 0x345]);
   (0x1FF4, [0x38F; 0x345]); (0x1FF6, [0x3A9; 0x342]);
   (0x1FF7, [0x3A9; 0x342; 0x345]); (0xFB00, [0x46; 0x66]);
   (0xFB01, [0x46; 0x69]); (0xFB02, [0x46; 0x6C]);
   (0xFB03, [0x46; 0x66; 0x69]); (0xFB04, [0x46; 0x66; 0x6C]);
   (0xFB05, [0x53; 0x74]); (0xFB06, [0x53; 0x74]); (0xFB13, [0x544; 0x576]);
   (0xFB14, [0x544; 0x565]); (0xFB15, [0x544; 0x56B]);
   (0xFB16, [0x54E; 0x576]); (0xFB17, [0x544; 0x56D])
  ].

Definition full_mapping (special : list (N * str)) (simple : list (N * N))
    (c : N) : str :=
  match lookup c special with
  | Some l => l
  | None =>
      match lookup c simple with
      | Some x => [x]
      | None => [c]
      end
  end.

(** [_PyUnicode_ToLowerFull]: the full lower-case mapping of one code
    point. *)
Definition lower_full (c : N) : str :=
  full_mapping special_lowercase simple_lowercase c.

(** [_PyUnicode_ToTitleFull]: the full title-case mapping of one code
    point. *)
Definition title_full (c : N) : str :=
  full_mapping special_titlecase simple_titlecase c.

(** [Py_UNICODE_ISSPACE]: the complete list of code points that
    [str.split()] treats as separators. *)
Definition isspace (c : N) : bool :=
  in_range 0x09 0x0D c || in_range 0x1C 0x20 c
  || (c =? 0x85) || (c =? 0xA0) || (c =? 0x1680)
  || in_range 0x2000 0x200A c || (c =? 0x2028) || (c =? 0x2029)
  || (c =? 0x202F) || (c =? 0x205F) || (c =? 0x3000).

Definition in_ranges (c : N) (ranges : list (N * N)) : bool :=
  existsb (fun r => in_range (fst r) (snd r) c) ranges.

(** [_PyUnicode_IsCased]: the property Cased of
    DerivedCoreProperties.txt, as ranges of code points. *)
Definition cased_ranges : list (N * N) :=
  [
  (0x41, 0x5A); (0x61, 0x7A); (0xAA, 0xAA); (0xB5, 0xB5); (0xBA, 0xBA);
   (0xC0, 0xD6); (0xD8, 0xF6); (0xF8, 0x1BA); (0x1BC, 0x1BF); (0x1C4, 0x293);
   (0x295, 0x2B8); (0x2C0, 0x2C1); (0x2E0, 0x2E4); (0x345, 0x345);
   (0x370, 0x373); (0x376, 0x377); (0x37A, 0x37D); (0x37F, 0x37F);
   (0x386, 0x386); (0x388, 0x38A); (0x38C, 0x38C); (0x38E, 0x3A1);
   (0x3A3, 0x3F5); (0x3F7, 0x481); (0x48A, 0x52F); (0x531, 0x556);
   (0x560, 0x588); (0x10A0, 0x10C5); (0x10C7, 0x10C7); (0x10CD, 0x10CD);
   (0x10D0, 0x10FA); (0x10FD, 0x10FF); (0x13A0, 0x13F5); (0x13F8, 0x13FD);
   (0x1C80, 0x1C88); (0x1C90, 0x1CBA); (0x1CBD, 0x1CBF); (0x1D00, 0x1DBF);
   (0x1E00, 0x1F15); (0x1F18, 0x1F1D); (0x1F20, 0x1F45); (0x1F48, 0x1F4D);
   (0x1F50, 0x1F57); (0x1F59, 0x1F59); (0x1F5B, 0x1F5B); (0x1F5D, 0x1F5D);
   (0x1F5F, 0x1F7D); (0x1F80, 0x1FB4); (0x1FB6, 0x1FBC); (0x1FBE, 0x1FBE);
   (0x1FC2, 0x1FC4); (0x1FC6, 0x1FCC); (0x1FD0, 0x1FD3); (0x1FD6, 0x1FDB);
   (0x1FE0, 0x1FEC); (0x1FF2, 0x1FF4); (0x1FF6, 0x1FFC); (0x2071, 0x2071);
   (0x207F, 0x207F); (0x2090, 0x209C); (0x2102, 0x2102); (0x2107, 0x2107);
   (0x210A, 0x2113); (0x2115, 0x2115); (0x2119, 0x211D); (0x2124, 0x2124);
   (0x2126, 0x2126); (0x2128, 0x2128); (0x212A, 0x212D); (0x212F, 0x2134);
   (0x2139, 0x2139); (0x213C, 0x213F); (0x2145, 0x2149); (0x214E, 0x214E);
   (0x2160, 0x217F); (0x2183, 0x2184); (0x24B6, 0x24E9); (0x2C00, 0x2CE4);
   (0x2CEB, 0x2CEE); (0x2CF2, 0x2CF3); (0x2D00, 0x2D25); (0x2D27, 0x2D27);
   (0x2D2D, 0x2D2D); (0xA640, 0xA66D); (0xA680, 0xA69D); (0xA722, 0xA787);
   (0xA78B, 0xA78E); (0xA790, 0xA7CA); (0xA7D0, 0xA7D1); (0xA7D3, 0xA7D3);
   (0xA7D5, 0xA7D9); (0xA7F5, 0xA7F6); (0xA7F8, 0xA7FA); (0xAB30, 0xAB5A);
   (0xAB5C, 0xAB68); (0xAB70, 0xABBF); (0xFB00, 0xFB06); (0xFB13, 0xFB17);
   (0xFF21, 0xFF3A); (0xFF41, 0xFF5A); (0x10400, 0x1044F); (0x104B0, 0x104D3);
   (0x104D8, 0x104FB); (0x10570, 0x1057A); (0x1057C, 0x1058A);
   (0x1058C, 0x10592); (0x10594, 0x10595); (0x10597, 0x105A1);
   (0x105A3, 0x105B1); (0x105B3, 0x105B9); (0x105BB, 0x105BC);
   (0x10780, 0x10780); (0x10783, 0x10785); (0x10787, 0x107B0);
   (0x107B2, 0x107BA); (0x10C80, 0x10CB2); (0x10CC0, 0x10CF2);
   (0x118A0, 0x118DF); (0x16E40, 0x16E7F); (0x1D400, 0x1D454);
   (0x1D456, 0x1D49C); (0x1D49E, 0x1D49F); (0x1D4A2, 0x1D4A2);
   (0x1D4A5, 0x1D4A6); (0x1D4A9, 0x1D4AC); (0x1D4AE, 0x1D4B9);
   (0x1D4BB, 0x1D4BB); (0x1D4BD, 0x1D4C3); (0x1D4C5, 0x1D505);
   (0x1D507, 0x1D50A); (0x1D50D, 0x1D514); (0x1D516, 0x1D51C);
   (0x1D51E, 0x1D539); (0x1D53B, 0x1D53E); (0x1D540, 0x1D544);
   (0x1D546, 0x1D546); (0x1D54A, 0x1D550); (0x1D552, 0x1D6A5);
   (0x1D6A8, 0x1D6C0); (0x1D6C2, 0x1D6DA); (0x1D6DC, 0x1D6FA);
   (0x1D6FC, 0x1D714); (0x1D716, 0x1D734); (0x1D736, 0x1D74E);
   (0x1D750, 0x1D76E); (0x1D770, 0x1D788); (0x1D78A, 0x1D7A8);
   (0x1D7AA, 0x1D7C2); (0x1D7C4, 0x1D7CB); (0x1DF00, 0x1DF09);
   (0x1DF0B, 0x1DF1E); (0x1E900, 0x1E943); (0x1F130, 0x1F149);
   (0x1F150, 0x1F169); (0x1F170, 0x1F189)
  ].

Definition is_cased (c : N) : bool := in_ranges c cased_ranges.

(** [_PyUnicode_IsCaseIgnorable]: the property Case_Ignorable. *)
Definition case_ignorable_ranges : list (N * N) :=
  [
  (0x27, 0x27); (0x2E, 0x2E); (0x3A, 0x3A); (0x5E, 0x5E); (0x60, 0x60);
   (0xA8, 0xA8); (0xAD, 0xAD); (0xAF, 0xAF); (0xB4, 0xB4); (0xB7, 0xB8);
   (0x2B0, 0x36F); (0x374, 0x375); (0x37A, 0x37A); (0x384, 0x385);
   (0x387, 0x387); (0x483, 0x489); (0x559, 0x559); (0x55F, 0x55F);
   (0x591, 0x5BD); (0x5BF, 0x5BF); (0x5C1, 0x5C2); (0x5C4, 0x5C5);
   (0x5C7, 0x5C7); (0x5F4, 0x5F4); (0x600, 0x605); (0x610, 0x61A);
   (0x61C, 0x61C); (0x640, 0x640); (0x64B, 0x65F); (0x670, 0x670);
   (0x6D6, 0x6DD); (0x6DF, 0x6E8); (0x6EA, 0x6ED); (0x70F, 0x70F);
   (0x711, 0x711); (0x730, 0x74A); (0x7A6, 0x7B0); (0x7EB, 0x7F5);
   (0x7FA, 0x7FA); (0x7FD, 0x7FD); (0x816, 0x82D); (0x859, 0x85B);
   (0x888, 0x888); (0x890, 0x891); (0x898, 0x89F); (0x8C9, 0x902);
   (0x93A, 0x93A); (0x93C, 0x93C); (0x941, 0x948); (0x94D, 0x94D);
   (0x951, 0x957); (0x962, 0x963); (0x971, 0x971); (0x981, 0x981);
   (0x9BC, 0x9BC); (0x9C1, 0x9C4); (0x9CD, 0x9CD); (0x9E2, 0x9E3);
   (0x9FE, 0x9FE); (0xA01, 0xA02); (0xA3C, 0xA3C); (0xA41, 0xA42);
   (0xA47, 0xA48); (0xA4B, 0xA4D); (0xA51, 0xA51); (0xA70, 0xA71);
   (0xA75, 0xA75); (0xA81, 0xA82); (0xABC, 0xABC); (0xAC1, 0xAC5);
   (0xAC7, 0xAC8); (0xACD, 0xACD); (0xAE2, 0xAE3); (0xAFA, 0xAFF);
   (0xB01, 0xB01); (0xB3C, 0xB3C); (0xB3F, 0xB3F); (0xB41, 0xB44);
   (0xB4D, 0xB4D); (0xB55, 0xB56); (0xB62, 0xB63); (0xB82, 0xB82);
   (0xBC0, 0xBC0); (0xBCD, 0xBCD); (0xC00, 0xC00); (0xC04, 0xC04);
   (0xC3C, 0xC3C); (0xC3E, 0xC40); (0xC46, 0xC48); (0xC4A, 0xC4D);
   (0xC55, 0xC56); (0xC62, 0xC63); (0xC81, 0xC81); (0xCBC, 0xCBC);
   (0xCBF, 0xCBF); (0xCC6, 0xCC6); (0xCCC, 0xCCD); (0xCE2, 0xCE3);
   (0xD00, 0xD01); (0xD3B, 0xD3C); (0xD41, 0xD44); (0xD4D, 0xD4D);
   (0xD62, 0xD63); (0xD81, 0xD81); (0xDCA, 0xDCA); (0xDD2, 0xDD4);
   (0xDD6, 0xDD6); (0xE31, 0xE31); (0xE34, 0xE3A); (0xE46, 0xE4E);
   (0xEB1, 0xEB1); (0xEB4, 0xEBC); (0xEC6, 0xEC6); (0xEC8, 0xECD);
   (0xF18, 0xF19); (0xF35, 0xF35); (0xF37, 0xF37); (0xF39, 0xF39);
   (0xF71, 0xF7E); (0xF80, 0xF84); (0xF86, 0xF87); (0xF8D, 0xF97);
   (0xF99, 0xFBC); (0xFC6, 0xFC6); (0x102D, 0x1030); (0x1032, 0x1037);
   (0x1039, 0x103A); (0x103D, 0x103E); (0x1058, 0x1059); (0x105E, 0x1060);
   (0x1071, 0x1074); (0x1082, 0x1082); (0x1085, 0x1086); (0x108D, 0x108D);
   (0x109D, 0x109D); (0x10FC, 0x10FC); (0x135D, 0x135F); (0x1712, 0x1714);
   (0x1732, 0x1733); (0x1752, 0x1753); (0x1772, 0x1773); (0x17B4, 0x17B5);
   (0x17B7, 0x17BD); (0x17C6, 0x17C6); (0x17C9, 0x17D3); (0x17D7, 0x17D7);
   (0x17DD, 0x17DD); (0x180B, 0x180F); (0x1843, 0x1843); (0x1885, 0x1886);
   (0x18A9, 0x18A9); (0x1920, 0x1922); (0x1927, 0x1928); (0x1932, 0x1932);
   (0x1939, 0x193B); (0x1A17, 0x1A18); (0x1A1B, 0x1A1B); (0x1A56, 0x1A56);
   (0x1A58, 0x1A5E); (0x1A60, 0x1A60); (0x1A62, 0x1A62); (0x1A65, 0x1A6C);
   (0x1A73, 0x1A7C); (0x1A7F, 0x1A7F); (0x1AA7, 0x1AA7); (0x1AB0, 0x1ACE);
   (0x1B00, 0x1B03); (0x1B34, 0x1B34); (0x1B36, 0x1B3A); (0x1B3C, 0x1B3C);
   (0x1B42, 0x1B42); (0x1B6B, 0x1B73); (0x1B80, 0x1B81); (0x1BA2, 0x1BA5);
   (0x1BA8, 0x1BA9); (0x1BAB, 0x1BAD); (0x1BE6, 0x1BE6); (0x1BE8, 0x1BE9);
   (0x1BED, 0x1BED); (0x1BEF, 0x1BF1); (0x1C2C, 0x1C33); (0x1C36, 0x1C37);
   (0x1C78, 0x1C7D); (0x1CD0, 0x1CD2); (0x1CD4, 0x1CE0); (0x1CE2, 0x1CE8);
   (0x1CED, 0x1CED); (0x1CF4, 0x1CF4); (0x1CF8, 0x1CF9); (0x1D2C, 0x1D6A);
   (0x1D78, 0x1D78); (0x1D9B, 0x1DFF); (0x1FBD, 0x1FBD); (0x1FBF, 0x1FC1);
   (0x1FCD, 0x1FCF); (0x1FDD, 0x1FDF); (0x1FED, 0x1FEF); (0x1FFD, 0x1FFE);
   (0x200B, 0x200F); (0x2018, 0x2019); (0x2024, 0x2024); (0x2027, 0x2027);
   (0x202A, 0x202E); (0x2060, 0x2064); (0x2066, 0x206F); (0x2071, 0x2071);
   (0x207F, 0x207F); (0x2090, 0x209C); (0x20D0, 0x20F0); (0x2C7C, 0x2C7D);
   (0x2CEF, 0x2CF1); (0x2D6F, 0x2D6F); (0x2D7F, 0x2D7F); (0x2DE0, 0x2DFF);
   (0x2E2F, 0x2E2F); (0x3005, 0x3005); (0x302A, 0x302D); (0x3031, 0x3035);
   (0x303B, 0x303B); (0x3099, 0x309E); (0x30FC, 0x30FE); (0xA015, 0xA015);
   (0xA4F8, 0xA4FD); (0xA60C, 0xA60C); (0xA66F, 0xA672); (0xA674, 0xA67D);
   (0xA67F, 0xA67F); (0xA69C, 0xA69F); (0xA6F0, 0xA6F1); (0xA700, 0xA721);
   (0xA770, 0xA770); (0xA788, 0xA78A); (0xA7F2, 0xA7F4); (0xA7F8, 0xA7F9);
   (0xA802, 0xA802); (0xA806, 0xA806); (0xA80B, 0xA80B); (0xA825, 0xA826);
   (0xA82C, 0xA82C); (0xA8C4, 0xA8C5); (0xA8E0, 0xA8F1); (0xA8FF, 0xA8FF);
   (0xA926, 0xA92D); (0xA947, 0xA951); (0xA980, 0xA982); (0xA9B3, 0xA9B3);
   (0xA9B6, 0xA9B9); (0xA9BC, 0xA9BD); (0xA9CF, 0xA9CF); (0xA9E5, 0xA9E6);
   (0xAA29, 0xAA2E); (0xAA31, 0xAA32); (0xAA35, 0xAA36); (0xAA43, 0xAA43);
   (0xAA4C, 0xAA4C); (0xAA70, 0xAA70); (0xAA7C, 0xAA7C); (0xAAB0, 0xAAB0);
   (0xAAB2, 0xAAB4); (0xAAB7, 0xAAB8); (0xAABE, 0xAABF); (0xAAC1, 0xAAC1);
   (0xAADD, 0xAADD); (0xAAEC, 0xAAED); (0xAAF3, 0xAAF4); (0xAAF6, 0xAAF6);
   (0xAB5B, 0xAB5F); (0xAB69, 0xAB6B); (0xABE5, 0xABE5); (0xABE8, 0xABE8);
   (0xABED, 0xABED); (0xFB1E, 0xFB1E); (0xFBB2, 0xFBC2); (0xFE00, 0xFE0F);
   (0xFE13, 0xFE13); (0xFE20, 0xFE2F); (0xFE52, 0xFE52); (0xFE55, 0xFE55);
   (0xFEFF, 0xFEFF); (0xFF07, 0xFF07); (0xFF0E, 0xFF0E); (0xFF1A, 0xFF1A);
   (0xFF3E, 0xFF3E); (0xFF40, 0xFF40); (0xFF70, 0xFF70); (0xFF9E, 0xFF9F);
   (0xFFE3, 0xFFE3); (0xFFF9, 0xFFFB); (0x101FD, 0x101FD); (0x102E0, 0x102E0);
   (0x10376, 0x1037A); (0x10780, 0x10785); (0x10787, 0x107B0);
   (0x107B2, 0x107BA); (0x10A01, 0x10A03); (0x10A05, 0x10A06);
   (0x10A0C, 0x10A0F); (0x10A38, 0x10A3A); (0x10A3F, 0x10A3F);
   (0x10AE5, 0x10AE6); (0x10D24, 0x10D27); (0x10EAB, 0x10EAC);
   (0x10F46, 0x10F50); (0x10F82, 0x10F85); (0x11001, 0x11001);
   (0x11038, 0x11046); (0x11070, 0x11070); (0x11073, 0x11074);
   (0x1107F, 0x11081); (0x110B3, 0x110B6); (0x110B9, 0x110BA);
   (0x110BD, 0x110BD); (0x110C2, 0x110C2); (0x110CD, 0x110CD);
   (0x11100, 0x11102); (0x11127, 0x1112B); (0x1112D, 0x11134);
   (0x11173, 0x11173); (0x11180, 0x11181); (0x111B6, 0x111BE);
   (0x111C9, 0x111CC); (0x111CF, 0x111CF); (0x1122F, 0x11231);
   (0x11234, 0x11234); (0x11236, 0x11237); (0x1123E, 0x1123E);
   (0x112DF, 0x112DF); (0x112E3, 0x112EA); (0x11300, 0x11301);
   (0x1133B, 0x1133C); (0x11340, 0x11340); (0x11366, 0x1136C);
   (0x11370, 0x11374); (0x11438, 0x1143F); (0x11442, 0x11444);
   (0x11446, 0x11446); (0x1145E, 0x1145E); (0x114B3, 0x114B8);
   (0x114BA, 0x114BA); (0x114BF, 0x114C0); (0x114C2, 0x114C3);
   (0x115B2, 0x115B5); (0x115BC, 0x115BD); (0x115BF, 0x115C0);
   (0x115DC, 0x115DD); (0x11633, 0x1163A); (0x1163D, 0x1163D);
   (0x1163F, 0x11640); (0x116AB, 0x116AB); (0x116AD, 0x116AD);
   (0x116B0, 0x116B5); (0x116B7, 0x116B7); (0x1171D, 0x1171F);
   (0x11722, 0x11725); (0x11727, 0x1172B); (0x1182F, 0x11837);
   (0x11839, 0x1183A); (0x1193B, 0x1193C); (0x1193E, 0x1193E);
   (0x11943, 0x11943); (0x119D4, 0x119D7); (0x119DA, 0x119DB);
   (0x119E0, 0x119E0); (0x11A01, 0x11A0A); (0x11A33, 0x11A38);
   (0x11A3B, 0x11A3E); (0x11A47, 0x11A47); (0x11A51, 0x11A56);
   (0x11A59, 0x11A5B); (0x11A8A, 0x11A96); (0x11A98, 0x11A99);
   (0x11C30, 0x11C36); (0x11C38, 0x11C3D); (0x11C3F, 0x11C3F);
   (0x11C92, 0x11CA7); (0x11CAA, 0x11CB0); (0x11CB2, 0x11CB3);
   (0x11CB5, 0x11CB6); (0x11D31, 0x11D36); (0x11D3A, 0x11D3A);
   (0x11D3C, 0x11D3D); (0x11D3F, 0x11D45); (0x11D47, 0x11D47);
   (0x11D90, 0x11D91); (0x11D95, 0x11D95); (0x11D97, 0x11D97);
   (0x11EF3, 0x11EF4); (0x13430, 0x13438); (0x16AF0, 0x16AF4);
   (0x16B30, 0x16B36); (0x16B40, 0x16B43); (0x16F4F, 0x16F4F);
   (0x16F8F, 0x16F9F); (0x16FE0, 0x16FE1); (0x16FE3, 0x16FE4);
   (0x1AFF0, 0x1AFF3); (0x1AFF5, 0x1AFFB); (0x1AFFD, 0x1AFFE);
   (0x1BC9D, 0x1BC9E); (0x1BCA0, 0x1BCA3); (0x1CF00, 0x1CF2D);
   (0x1CF30, 0x1CF46); (0x1D167, 0x1D169); (0x1D173, 0x1D182);
   (0x1D185, 0x1D18B); (0x1D1AA, 0x1D1AD); (0x1D242, 0x1D244);
   (0x1DA00, 0x1DA36); (0x1DA3B, 0x1DA6C); (0x1DA75, 0x1DA75);
   (0x1DA84, 0x1DA84); (0x1DA9B, 0x1DA9F); (0x1DAA1, 0x1DAAF);
   (0x1E000, 0x1E006); (0x1E008, 0x1E018); (0x1E01B, 0x1E021);
   (0x1E023, 0x1E024); (0x1E026, 0x1E02A); (0x1E130, 0x1E13D);
   (0x1E2AE, 0x1E2AE); (0x1E2EC, 0x1E2EF); (0x1E8D0, 0x1E8D6);
   (0x1E944, 0x1E94B); (0x1F3FB, 0x1F3FF); (0xE0001, 0xE0001);
   (0xE0020, 0xE007F); (0xE0100, 0xE01EF)
  ].

Definition is_case_ignorable (c : N) : bool :=
  in_ranges c case_ignorable_ranges.

Fixpoint skip_case_ignorable (s : str) : str :=
  match s with
  | [] => []
  | c :: s' => if is_case_ignorable c then skip_case_ignorable s' else s
  end.

(** [handle_capital_sigma]: the lower case of a capital sigma, U+03A3, is
    the final sigma U+03C2 when a cased character comes before it and
    none comes after it, case-ignorable characters being skipped, and
    U+03C3 otherwise.  [before] holds the characters before the sigma,
    the nearest first, [after] those after it. *)
Definition handle_capital_sigma (before after : str) : N :=
  let final_sigma :=
    match skip_case_ignorable before with
    | [] => false
    | c :: _ =>
        is_cased c
        && match skip_case_ignorable after with
           | [] => true
           | c' :: _ => negb (is_cased c')
           end
    end in
  if final_sigma then 0x3C2 else 0x3C3.

(** [lower_ucs4]: the lower case of the character [c] of a string. *)
Definition lower_ucs4 (before : str) (c : N) (after : str) : str :=
  if c =? 0x3A3 then [handle_capital_sigma before after] else lower_full c.

(** The loop of [do_lower] and of [do_capitalize] from the character
    after [before]. *)
Fixpoint lower_from (before : str) (s : str) : str :=
  match s with
  | [] => []
  | c :: s' => lower_ucs4 before c s' ++ lower_from (c :: before) s'
  end.

(** [str.lower()]. *)
Definition lower (s : str) : str := lower_from [] s.

(** [str.capitalize()]: the first character in title case, the rest
    in lower case. *)
Definition capitalize (s : str) : str :=
  match s with
  | [] => []
  | c :: rest => title_full c ++ lower_from [c] rest
  end.

(** [str.split()] without arguments: the maximal runs of characters
    that are not white space.  [cur] is the run being read, reversed. *)
Fixpoint split_from (cur : str) (s : str) : list str :=
  match s with
  | [] => match cur with [] => [] | _ => [rev cur] end
  | c :: s' =>
      if isspace c then
        match cur with
        | [] => split_from [] s'
        | _ => rev cur :: split_from [] s'
        end
      else split_from (c :: cur) s'
  end.

Definition split (s : str) : list str := split_from [] s.

(** [sep.join(parts)]. *)
Fixpoint join (sep : str) (parts : list str) : str :=
  match parts with
  | [] => []
  | [p] => p
  | p :: ps => p ++ sep ++ join sep ps
  end.

(** [x == y] on strings. *)
Definition eqb (x y : str) : bool := bool_decide (x = y).

(** [x in (a, b, ...)]: membership in a tuple of strings. *)
Definition in_tuple (x : str) (t : list str) : bool := existsb (eqb x) t.

(** [s.startswith(p)]. *)
Fixpoint startswith (s p : str) {struct p} : bool :=
  match p, s with
  | [], _ => true
  | _ :: _, [] => false
  | a :: p', b :: s' => (a =? b) && startswith s' p'
  end.

End PyStr.

Import PyStr.

(** ** Exceptions and results *)

(** The exception classes the program raises or catches.  [ValueError]
    is what [strptime] and the gender check raise; [OperationalError] is
    [sqlite3.Error] as raised for a statement SQLite rejects;
    [RuntimeError] is what v1 and v2 wrap database errors in;
    [OverflowError] is raised by date arithmetic out of range,
    [ZeroDivisionError] by a division by a zero duration;
    [HTTPException] is what a v3 handler raises to choose the status of
    the response. *)
Inductive exn : Type :=
| ValueError
| OperationalError
| RuntimeError
| OverflowError
| ZeroDivisionError
| HTTPException (status : Z).

Inductive result (A : Type) : Type :=
| Ok (a : A)
| Raise (e : exn).

Arguments Ok {A} a.
Arguments Raise {A} e.

(** Sequencing: an exception raised by the first computation ends the
    second. *)
#[global] Instance result_ret : MRet result := fun A a => Ok a.

#[global] Instance result_bind : MBind result :=
  fun A B k r =>
    match r with
    | Ok a => k a
    | Raise e => Raise e
    end.

#[global] Instance exn_eq_dec : EqDecision exn.
Proof. solve_decision. Defined.

(** ** Calendar dates *)

Module PyDate.

Local Open Scope Z_scope.

(** [datetime.date]. *)
Record date : Type := mkDate { year : Z; month : Z; day : Z }.

#[global] Instance date_eq_dec : EqDecision date.
Proof. solve_decision. Defined.

Definition _is_leap (y : Z) : bool :=
  (y mod 4 =? 0) && (negb (y mod 100 =? 0) || (y mod 400 =? 0)).

(** [_DAYS_IN_MONTH], indexed from 1. *)
Definition _DAYS_IN_MONTH (m : Z) : Z :=
  nth (Z.to_nat m) [-1; 31; 28; 31; 30; 31; 30; 31; 31; 30; 31; 30; 31] 0.

(** [_DAYS_BEFORE_MONTH], indexed from 1. *)
Definition _DAYS_BEFORE_MONTH (m : Z) : Z :=
  nth (Z.to_nat m) [-1; 0; 31; 59; 90; 120; 151; 181; 212; 243; 273; 304; 334] 0.

Definition _days_in_month (y m : Z) : Z :=
  if (m =? 2) && _is_leap y then 29 else _DAYS_IN_MONTH m.

Definition _days_before_year (y : Z) : Z :=
  let y := y - 1 in y * 365 + y / 4 - y / 100 + y / 400.

Definition _days_before_month (y m : Z) : Z :=
  _DAYS_BEFORE_MONTH m + (if (2 <? m) && _is_leap y then 1 else 0).

Definition _ymd2ord (y m d : Z) : Z :=
  _days_before_year y + _days_before_month y m + d.

Definition _DI400Y : Z := _days_before_year 401.
Definition _DI100Y : Z := _days_before_year 101.
Definition _DI4Y : Z := _days_before_year 5.
Definition _MAXORDINAL : Z := 3652059.

Definition _ord2ymd (n : Z) : date :=
  let n := n - 1 in
  let n400 := n / _DI400Y in
  let n := n mod _DI400Y in
  let y := n400 * 400 + 1 in
  let n100 := n / _DI100Y in
  let n := n mod _DI100Y in
  let n4 := n / _DI4Y in
  let n := n mod _DI4Y in
  let n1 := n / 365 in
  let n := n mod 365 in
  let y := y + n100 * 100 + n4 * 4 + n1 in
  if (n1 =? 4) || (n100 =? 4) then mkDate (y - 1) 12 31
  else
    let leapyear := (n1 =? 3) && (negb (n4 =? 24) || (n100 =? 3)) in
    let m := Z.shiftr (n + 50) 5 in
    let preceding :=
      _DAYS_BEFORE_MONTH m + (if (2 <? m) && leapyear then 1 else 0) in
    if n <? preceding then
      let m := m - 1 in
      let preceding :=
        preceding - (_DAYS_IN_MONTH m + (if (m =? 2) && leapyear then 1 else 0)) in
      mkDate y m (n - preceding + 1)
    else mkDate y m (n - preceding + 1).

(** [_check_date_fields]: what the [date] constructor accepts. *)
Definition valid_date (d : date) : bool :=
  (1 <=? year d) && (year d <=? 9999)
  && (1 <=? month d) && (month d <=? 12)
  && (1 <=? day d) && (day d <=? _days_in_month (year d) (month d)).

Definition toordinal (d : date) : Z := _ymd2ord (year d) (month d) (day d).

(** [d - timedelta(days=n)]. *)
Definition sub_days (d : date) (n : Z) : result date :=
  let o := toordinal d - n in
  if (0 <? o) && (o <=? _MAXORDINAL) then Ok (_ord2ymd o)
  else Raise OverflowError.

(** Decimal digits of a number below [10 ^ width], most significant
    first: the [%0<width>d] conversion. *)
Fixpoint zero_padded (width : nat) (n : Z) : str :=
  match width with
  | O => []
  | S w => zero_padded w (n / 10) ++ [Z.to_N (48 + n mod 10)]
  end.

Definition hyphen : N := 45%N.

(** [date.isoformat()]: ["%04d-%02d-%02d"]. *)
Definition isoformat (d : date) : str :=
  zero_padded 4 (year d) ++ [hyphen] ++ zero_padded 2 (month d)
  ++ [hyphen] ++ zero_padded 2 (day d).

(** An ASCII decimal digit and its value: the digits that SQLite
    reads, and the digits of the character classes [[0-2]], [[1-9]] of
    the pattern of [strptime]. *)
Definition digit (c : N) : option Z :=
  if in_range 48 57 c then Some (Z.of_N c - 48) else None.

(** The digits zero of Unicode 14.0 (general category Nd); the digits
    one to nine of a script follow its zero. *)
Definition decimal_zeros : list N :=
  [0x30; 0x660; 0x6F0; 0x7C0; 0x966; 0x9E6; 0xA66; 0xAE6; 0xB66; 0xBE6;
   0xC66; 0xCE6; 0xD66; 0xDE6; 0xE50; 0xED0; 0xF20; 0x1040; 0x1090; 0x17E0;
   0x1810; 0x1946; 0x19D0; 0x1A80; 0x1A90; 0x1B50; 0x1BB0; 0x1C40; 0x1C50;
   0xA620; 0xA8D0; 0xA900; 0xA9D0; 0xA9F0; 0xAA50; 0xABF0; 0xFF10; 0x104A0;
   0x10D30; 0x11066; 0x110F0; 0x11136; 0x111D0; 0x112F0; 0x11450; 0x114D0;
   0x11650; 0x116C0; 0x11730; 0x118E0; 0x11950; 0x11C50; 0x11D50; 0x11DA0;
   0x16A60; 0x16AC0; 0x16B50; 0x1D7CE; 0x1D7D8; 0x1D7E2; 0x1D7EC; 0x1D7F6;
   0x1E140; 0x1E2F0; 0x1E950; 0x1FBF0]%N.

(** [\d] of a pattern for [str]: a decimal digit of any script, with
    the value [int] gives it. *)
Definition decimal (c : N) : option Z :=
  match List.find (fun z => in_range z (z + 9) c) decimal_zeros with
  | Some z => Some (Z.of_N (c - z))
  | None => None
  end.

Definition digit_in (lo hi : Z) (c : N) : option Z :=
  match digit c with
  | Some v => if (lo <=? v) && (v <=? hi) then Some v else None
  | None => None
  end.

(** The directive [%Y]: [\d\d\d\d]. *)
Definition re_Y (s : str) : option (Z * str) :=
  match s with
  | a :: b :: c :: d :: rest =>
      match decimal a, decimal b, decimal c, decimal d with
      | Some a, Some b, Some c, Some d =>
          Some (a * 1000 + b * 100 + c * 10 + d, rest)
      | _, _, _, _ => None
      end
  | _ => None
  end.

(** Two characters [x y] with [x] = [hd] and [y] a digit in [lo..hi]. *)
Definition two_digits (hd : N) (lo hi : Z) (s : str) : option (Z * str) :=
  match s with
  | a :: b :: rest =>
      if (a =? hd)%N then
        match digit_in lo hi b with
        | Some v => Some ((Z.of_N a - 48) * 10 + v, rest)
        | None => None
        end
      else None
  | _ => None
  end.

(** Two characters [x y] with [x] = [hd] and [y] matched by [\d]. *)
Definition digit_then_decimal (hd : N) (s : str) : option (Z * str) :=
  match s with
  | a :: b :: rest =>
      if (a =? hd)%N then
        match decimal b with
        | Some v => Some ((Z.of_N a - 48) * 10 + v, rest)
        | None => None
        end
      else None
  | _ => None
  end.

Definition one_digit (lo hi : Z) (s : str) : option (Z * str) :=
  match s with
  | a :: rest =>
      match digit_in lo hi a with
      | Some v => Some (v, rest)
      | None => None
      end
  | _ => None
  end.

(** The first alternative that matches, as the regular expression
    engine tries them. *)
Fixpoint first_match (alts : list (str -> option (Z * str))) (s : str)
  : option (Z * str) :=
  match alts with
  | [] => None
  | f :: alts' =>
      match f s with
      | Some r => Some r
      | None => first_match alts' s
      end
  end.

(** The directive [%m]: [1[0-2]|0[1-9]|[1-9]]. *)
Definition re_m : str -> option (Z * str) :=
  first_match [two_digits 49 0 2; two_digits 48 1 9; one_digit 1 9].

(** The directive [%d]: [3[01]|[12]\d|0[1-9]|[1-9]| [1-9]]. *)
Definition re_d : str -> option (Z * str) :=
  first_match
    [two_digits 51 0 1; digit_then_decimal 49; digit_then_decimal 50;
     two_digits 48 1 9; one_digit 1 9;
     fun s => match s with
              | 32%N :: rest => one_digit 1 9 rest
              | _ => None
              end].

Definition expect (c : N) (s : str) : option str :=
  match s with
  | a :: rest => if (a =? c)%N then Some rest else None
  | [] => None
  end.

(** [datetime.strptime(s, '%Y-%m-%d').date()].  The string has to match
    the pattern from its start, nothing may remain after the match, and
    the fields have to form a date; every failure is a [ValueError]. *)
Definition strptime (s : str) : result date :=
  match re_Y s with
  | None => Raise ValueError
  | Some (y, s1) =>
      match expect hyphen s1 with
      | None => Raise ValueError
      | Some s2 =>
          match re_m s2 with
          | None => Raise ValueError
          | Some (m, s3) =>
              match expect hyphen s3 with
              | None => Raise ValueError
              | Some s4 =>
                  match re_d s4 with
                  | None => Raise ValueError
                  | Some (d, []) =>
                      if valid_date (mkDate y m d) then Ok (mkDate y m d)
                      else Raise ValueError
                  | Some (d, _ :: _) => Raise ValueError
                  end
              end
          end
      end
  end.

End PyDate.

Import PyDate.

(** ** The SQLite database *)

Module SQLite.

(** A row of [employees].  [rowid] is the [INTEGER PRIMARY KEY
    AUTOINCREMENT] column [id]; the three text columns hold what the
    program bound to the statement.  The column [created_at], which the
    table has when v2 created it and has not when v1 or v3 did, is not
    modelled: what is proved of the one query that names it,
    [Database.get_all_employees] of v2, is proved of files in which v2
    created the table. *)
Record row : Type := mkRow {
  rowid : Z;
  full_name : str;
  birth_date : str;
  gender : str
}.

Inductive column : Type := col_full_name | col_birth_date | col_gender.

(** An indexed expression: a column, or [substr(column, start, len)]. *)
Inductive indexed_expr : Type :=
| IxColumn (c : column)
| IxSubstr (c : column) (start len : Z).

(** The database file: the table [employees] when it exists, with its
    rows in rowid order, and the indexes by name.  Rows are never
    updated or deleted, so the next rowid is one more than the number
    of rows. *)
Record database : Type := mkDb {
  table : option (list row);
  indexes : gmap string (list indexed_expr)
}.

(** The file before anything is created. *)
Definition empty_db : database := mkDb None ∅.

(** [SELECT name FROM sqlite_master WHERE type='table' AND
    name='employees'] returns a row. *)
Definition has_table (db : database) : bool :=
  match table db with Some _ => true | None => false end.

(** [CREATE TABLE IF NOT EXISTS employees (...)]. *)
Definition create_table_if_not_exists (db : database) : database :=
  match table db with
  | Some _ => db
  | None => mkDb (Some []) (indexes db)
  end.

(** A [str] that the driver can bind to a parameter: it encodes the
    text as UTF-8, which fails on a lone surrogate. *)
Definition encodable (s : str) : bool :=
  forallb (fun c => negb (in_range 0xD800 0xDFFF c)) s.

(** [INSERT INTO employees (full_name, birth_date, gender)
    VALUES (?, ?, ?)], the three parameters bound. *)
Definition insert (fn bd g : str) (db : database) : result database :=
  match table db with
  | None => Raise OperationalError
  | Some rows =>
      Ok (mkDb (Some (rows ++ [mkRow (Z.of_nat (length rows) + 1) fn bd g]))
               (indexes db))
  end.

(** [cursor.execute] of that statement with three [str] parameters:
    the statement is compiled, which fails when the table is missing;
    then the parameters are bound, where a text that cannot be encoded
    raises [UnicodeEncodeError], a [ValueError]; then the row is
    written. *)
Definition execute_insert (fn bd g : str) (db : database) : result database :=
  match table db with
  | None => Raise OperationalError
  | Some _ =>
      if encodable fn && encodable bd && encodable g then insert fn bd g db
      else Raise ValueError
  end.

(** [CREATE INDEX IF NOT EXISTS name ON employees(exprs)]: the table is
    looked up first; an index of that name, whatever it indexes, makes
    the statement do nothing. *)
Definition create_index_if_not_exists
    (name : string) (exprs : list indexed_expr) (db : database)
  : result database :=
  match table db with
  | None => Raise OperationalError
  | Some _ =>
      match indexes db !! name with
      | Some _ => Ok db
      | None => Ok (mkDb (table db) (<[name := exprs]> (indexes db)))
      end
  end.

(** [SELECT ... FROM employees WHERE cond]: the rows that satisfy the
    condition, listed here in rowid order, which is the order of a scan
    of the table.  SQL leaves the order of the result open when there is
    no [ORDER BY], and SQLite that reads the rows through an index
    returns them in the order of the index: of the result of a query
    without [ORDER BY] only what holds of every arrangement of these
    rows is meant. *)
Definition select_where (cond : row -> bool) (db : database)
  : result (list row) :=
  match table db with
  | None => Raise OperationalError
  | Some rows => Ok (List.filter cond rows)
  end.

(** The case folding of [LIKE]: the 26 ASCII capital letters only. *)
Definition like_fold (c : N) : N :=
  if in_range 0x41 0x5A c then c + 32 else c.

Definition percent : N := 37.
Definition underscore : N := 95.

(** [text LIKE pattern] without [ESCAPE], in the default configuration
    ([case_sensitive_like] off, which no version changes): [%] matches
    any sequence of characters, [_] any one character, every other
    character matches itself up to [like_fold]. *)
Fixpoint like (pattern : str) : str -> bool :=
  match pattern with
  | [] => fun text => match text with [] => true | _ :: _ => false end
  | c :: pattern' =>
      if c =? percent then
        fix any_sequence (text : str) : bool :=
          like pattern' text
          || match text with
             | [] => false
             | _ :: text' => any_sequence text'
             end
      else if c =? underscore then
        fun text =>
          match text with
          | [] => false
          | _ :: text' => like pattern' text'
          end
      else
        fun text =>
          match text with
          | [] => false
          | a :: text' => (like_fold a =? like_fold c) && like pattern' text'
          end
  end.

(** The [BINARY] collation: the order of the UTF-8 encodings compared
    byte by byte, which is the lexicographic order of the code points. *)
Fixpoint text_compare (x y : str) : comparison :=
  match x, y with
  | [], [] => Eq
  | [], _ :: _ => Lt
  | _ :: _, [] => Gt
  | a :: x', b :: y' =>
      match a ?= b with
      | Eq => text_compare x' y'
      | c => c
      end
  end.

Definition text_lt (x y : str) : bool :=
  match text_compare x y with Lt => true | _ => false end.

Definition text_le (x y : str) : bool :=
  match text_compare x y with Gt => false | _ => true end.

(** A time value read by the date functions.  Of the texts the program
    can store in [birth_date] (those [strptime] accepts, and the output
    of [isoformat]) SQLite reads exactly the form [YYYY-MM-DD] with four,
    two and two ASCII digits, month 1..12 and day 1..31; for the others
    every date function returns NULL.  SQLite then passes the fields
    through the Julian day number, which changes nothing for a calendar
    date. *)
Definition parse_date (s : str) : option date :=
  match s with
  | [y1; y2; y3; y4; h1; m1; m2; h2; d1; d2] =>
      match digit y1, digit y2, digit y3, digit y4,
            digit m1, digit m2, digit d1, digit d2 with
      | Some y1, Some y2, Some y3, Some y4,
        Some m1, Some m2, Some d1, Some d2 =>
          let m := (m1 * 10 + m2)%Z in
          let d := (d1 * 10 + d2)%Z in
          if (h1 =? hyphen) && (h2 =? hyphen)
             && (1 <=? m)%Z && (m <=? 12)%Z && (1 <=? d)%Z && (d <=? 31)%Z
          then Some (mkDate (y1 * 1000 + y2 * 100 + y3 * 10 + y4)%Z m d)
          else None
      | _, _, _, _, _, _, _, _ => None
      end
  | _ => None
  end.

(** [strftime('%Y', t)] and [strftime('%m-%d', t)]. *)
Definition strftime_Y (t : date) : str := zero_padded 4 (year t).

Definition strftime_md (t : date) : str :=
  zero_padded 2 (month t) ++ [hyphen] ++ zero_padded 2 (day t).

(** The integer a text is converted to by an arithmetic operator: the
    value of its leading decimal digits. *)
Fixpoint leading_integer (acc : Z) (s : str) : Z :=
  match s with
  | [] => acc
  | c :: s' =>
      match digit c with
      | Some v => leading_integer (acc * 10 + v)%Z s'
      | None => acc
      end
  end.

Definition cast_integer (s : str) : Z := leading_integer 0%Z s.

(** The column [age] of the listings:
    [(strftime('%Y','now') - strftime('%Y', birth_date))
     - (strftime('%m-%d','now') < strftime('%m-%d', birth_date))].
    [None] is NULL. *)
Definition age_expr (now : date) (birth_date : str) : option Z :=
  match parse_date birth_date with
  | None => None
  | Some b =>
      Some ((cast_integer (strftime_Y now) - cast_integer (strftime_Y b))
            - (if text_lt (strftime_md now) (strftime_md b) then 1 else 0))%Z
  end.

(** A row of a listing: [full_name, birth_date, gender, age]. *)
Record listing : Type := mkListing {
  l_full_name : str;
  l_birth_date : str;
  l_gender : str;
  l_age : option Z
}.

Definition to_listing (now : date) (r : row) : listing :=
  mkListing (full_name r) (birth_date r) (gender r)
            (age_expr now (birth_date r)).

(** The key of [GROUP BY full_name, birth_date]. *)
Definition group_key (r : row) : str * str := (full_name r, birth_date r).

Definition key_compare (a b : str * str) : comparison :=
  match text_compare (fst a) (fst b) with
  | Eq => text_compare (snd a) (snd b)
  | c => c
  end.

Definition key_le (a b : str * str) : bool :=
  match key_compare a b with Gt => false | _ => true end.

(** The sorter behind [GROUP BY] and [ORDER BY]: rows enter in the
    order they are read and come out sorted, rows that compare equal
    keeping their order of entry. *)
Fixpoint sorter_insert (le : row -> row -> bool) (r : row)
    (sorted : list row) : list row :=
  match sorted with
  | [] => [r]
  | r' :: rest =>
      if le r' r then r' :: sorter_insert le r rest
      else r :: r' :: rest
  end.

Definition sorter (le : row -> row -> bool) (rows : list row) : list row :=
  fold_left (fun sorted r => sorter_insert le r sorted) rows [].

(** Grouping of sorted rows: a row whose key differs from the key of the
    group being read opens a new group.  The columns outside the key
    come from the row that opened the group. *)
Fixpoint group_after (prev : str * str) (sorted : list row) : list row :=
  match sorted with
  | [] => []
  | r :: rest =>
      if bool_decide (group_key r = prev) then group_after prev rest
      else r :: group_after (group_key r) rest
  end.

Definition group_runs (sorted : list row) : list row :=
  match sorted with
  | [] => []
  | r :: rest => r :: group_after (group_key r) rest
  end.

(** [... GROUP BY full_name, birth_date ORDER BY full_name]. *)
Definition group_by_name_date_order_by_name (rows : list row) : list row :=
  sorter (fun a b => text_le (full_name a) (full_name b))
    (group_runs (sorter (fun a b => key_le (group_key a) (group_key b)) rows)).

(** [... ORDER BY full_name]. *)
Definition order_by_name (rows : list row) : list row :=
  sorter (fun a b => text_le (full_name a) (full_name b)) rows.

End SQLite.

Import SQLite.

(** ** State and exceptions *)

(** A computation on a state [S] that returns a value or raises. *)
Definition St (S A : Type) : Type := S -> result A * S.

#[global] Instance St_ret {S} : MRet (St S) := fun A a s => (Ok a, s).

#[global] Instance St_bind {S} : MBind (St S) :=
  fun A B k m s =>
    match m s with
    | (Ok a, s') => k a s'
    | (Raise e, s') => (Raise e, s')
    end.

Definition raise {S A} (e : exn) : St S A := fun s => (Raise e, s).

(** [try: m  except <classes for which handles is true>: h]. *)
Definition try_except {S A} (m : St S A) (handles : exn -> bool)
    (h : exn -> St S A) : St S A :=
  fun s =>
    match m s with
    | (Raise e, s') => if handles e then h e s' else (Raise e, s')
    | r => r
    end.

(** A statement run on the connection and committed. *)
Definition execute (stmt : database -> result database) : St database unit :=
  fun db =>
    match stmt db with
    | Ok db' => (Ok (), db')
    | Raise e => (Raise e, db)
    end.

(** A query. *)
Definition fetch {A} (q : database -> result A) : St database A :=
  fun db => (q db, db).

(** Statements run in one transaction: when one of them raises, the
    connection is closed without [commit] and the file keeps the state
    it had before the first. *)
Definition transaction {A} (m : St database A) : St database A :=
  fun db =>
    match m db with
    | (Ok a, db') => (Ok a, db')
    | (Raise e, _) => (Raise e, db)
    end.

(** [for i in range(n): body(i)], from [start]. *)
Fixpoint for_range {S} (start : nat) (n : nat) (body : nat -> St S unit)
  : St S unit :=
  match n with
  | O => mret ()
  | Datatypes.S n' => body start ;; for_range (Datatypes.S start) n' body
  end.

(** [str(n)] for an integer. *)
Definition str_of_int (n : Z) : str :=
  if (n <? 0)%Z
  then hyphen :: u (NilEmpty.string_of_uint (N.to_uint (Z.to_N (- n))))
  else u (NilEmpty.string_of_uint (N.to_uint (Z.to_N n))).

(** The module [random]: the generator is a sequence of draws, read at
    a cursor kept in the state next to the database. *)
Definition randint (draw : nat -> N) (k : nat) (a b : Z) : Z :=
  (a + Z.of_N (draw k) mod (b - a + 1))%Z.

Definition choice {A} (draw : nat -> N) (k : nat) (l : list A) (dflt : A) : A :=
  nth (N.to_nat (draw k) mod length l)%nat l dflt.

Definition Male : str := u "Male".
Definition Female : str := u "Female".

(** The Cyrillic letters of the gender spellings: U+043C and U+0436. *)
Definition cyr_em : str := [0x43C].
Definition cyr_zhe : str := [0x436].

(** The tuples of the gender tests. *)
Definition male_spellings : list str := [cyr_em; u "m"; u "male"; u "1"].
Definition female_spellings : list str := [cyr_zhe; u "f"; u "female"; u "2"].

(** The condition of the filter query:
    [gender = 'Male' AND full_name LIKE 'F%']. *)
Definition male_f (r : row) : bool :=
  bool_decide (gender r = Male) && like (u "F%") (full_name r).

Definition lift {S A} (r : result A) : St S A := fun s => (r, s).

(** The loops of bulk generation run on the database together with the
    cursor of the random generator. *)
Definition on_db {A} (m : St database A) : St (nat * database) A :=
  fun '(k, db) => match m db with (r, db') => (r, (k, db')) end.

Definition next_draw : St (nat * database) nat :=
  fun '(k, db) => (Ok k, (Datatypes.S k, db)).

Definition with_cursor {A} (m : St (nat * database) A) : St database A :=
  fun db => match m (O, db) with (r, (_, db')) => (r, db') end.

(** [sqlite3.Error] and its subclasses. *)
Definition is_sqlite_error (e : exn) : bool :=
  match e with OperationalError => true | _ => false end.

Definition is_ValueError (e : exn) : bool :=
  match e with ValueError => true | _ => false end.

(** [except Exception]. *)
Definition is_Exception (e : exn) : bool := true.

(** The first letter of the full name: [substr(full_name, 1, 1)]. *)
Definition first_letter : indexed_expr := IxSubstr col_full_name 1 1.

(** ** The clock and the order of events *)

(** What the optimisation routines do that a caller can observe: a
    reading of the clock ([datetime.now()], in microseconds), a run of
    the filter query, a run of v3's one-row probe with the condition of
    the filter query, the creation of the indexes, and the report of the
    two durations. *)
Inductive event : Type :=
| Clock (t : Z)
| FilterQuery
| ProbeQuery
| IndexCreation
| Report (time_before time_after : Z).

(** The database, the number of clock readings taken so far, and the
    events so far, oldest first. *)
Record world : Type := mkWorld {
  w_db : database;
  w_reads : nat;
  w_trace : list event
}.

Definition log (e : event) : St world unit :=
  fun w => (Ok (), mkWorld (w_db w) (w_reads w) (w_trace w ++ [e])).

(** [datetime.now()]: the next reading of the clock. *)
Definition datetime_now (clock : nat -> Z) : St world Z :=
  fun w =>
    (Ok (clock (w_reads w)),
     mkWorld (w_db w) (Datatypes.S (w_reads w))
             (w_trace w ++ [Clock (clock (w_reads w))])).

(** A database operation, entered in the trace when it is called. *)
Definition call {A} (e : event) (m : St database A) : St world A :=
  fun w =>
    match m (w_db w) with
    | (r, db') => (r, mkWorld db' (w_reads w) (w_trace w ++ [e]))
    end.

(** A database operation that leaves no event. *)
Definition quietly {A} (m : St database A) : St world A :=
  fun w =>
    match m (w_db w) with
    | (r, db') => (r, mkWorld db' (w_reads w) (w_trace w))
    end.

(** [(time_before - time_after) / time_before * 100]: a floating-point
    number of which only the failure is modelled. *)
Definition improvement (time_before time_after : Z) : St world unit :=
  if (time_before =? 0)%Z then raise ZeroDivisionError else mret ().

(** ** Version 1: [v1/employee_db.py] and [v1/app.py] *)

Module V1.

(** What [add_employee] prints when it returns [False]. *)
Inductive printed : Type := date_format_message | add_error_message.

Definition create_table : St database unit :=
  execute (fun db => Ok (create_table_if_not_exists db)).

Definition _ensure_table_exists : St database unit :=
  fun db => if has_table db then (Ok (), db) else create_table db.

(** [add_employee].  The statement is [insert], the parameters bound:
    that the driver can encode the name is a hypothesis of what is
    proved below about the record that is stored. *)
Definition add_employee (full_name birth_date gender : str)
  : St database (bool * list printed) :=
  try_except
    (lift (strptime birth_date) ;;
     let gender :=
       if in_tuple (lower gender) male_spellings then Male else Female in
     _ensure_table_exists ;;
     execute (insert full_name birth_date gender) ;;
     mret (true, []))
    is_Exception
    (fun e =>
       if is_ValueError e then mret (false, [date_format_message])
       else mret (false, [add_error_message])).

Definition get_all_employees (now : date) : St database (list listing) :=
  try_except
    (_ensure_table_exists ;;
     rows ← fetch (select_where (fun _ => true));
     mret (List.map (to_listing now) (group_by_name_date_order_by_name rows)))
    is_sqlite_error
    (fun _ => raise RuntimeError).

(** One turn of the first loop of [generate_test_data]. *)
Definition main_record (today : date) (draw : nat -> N) (i : nat)
  : St (nat * database) unit :=
  k ← next_draw;
  let gender := choice draw k [Male; Female] Male in
  k ← next_draw;
  let first_name := u "Name" ++ str_of_int (randint draw k 1 1000) in
  k ← next_draw;
  let last_name := u "Lastname" ++ str_of_int (randint draw k 1 1000) in
  k ← next_draw;
  birth_date ← lift (sub_days today (randint draw k (18 * 365) (65 * 365)));
  on_db (execute (insert (last_name ++ u " " ++ first_name)
                         (isoformat birth_date) gender)).

(** One turn of the second loop. *)
Definition special_record (today : date) (draw : nat -> N) (i : nat)
  : St (nat * database) unit :=
  k ← next_draw;
  birth_date ← lift (sub_days today (randint draw k (18 * 365) (65 * 365)));
  on_db (execute (insert (u "Fake_" ++ str_of_int (Z.of_nat i) ++ u " Surname")
                         (isoformat birth_date) Male)).

Definition generate_test_data (today : date) (draw : nat -> N)
    (count special : Z) : St database Z :=
  _ensure_table_exists ;;
  transaction
    (with_cursor
       (for_range 0 (Z.to_nat count) (main_record today draw) ;;
        for_range 0 (Z.to_nat special) (special_record today draw)) ;;
     mret (count + special)%Z).

Definition query_male_f (now : date) : St database (list listing) :=
  _ensure_table_exists ;;
  rows ← fetch (select_where male_f);
  mret (List.map (to_listing now) rows).

Definition optimize_database : St database bool :=
  try_except
    (transaction
       (execute (create_index_if_not_exists "idx_gender_lastname"
                   [IxColumn col_gender; first_letter]) ;;
        execute (create_index_if_not_exists "idx_gender"
                   [IxColumn col_gender]) ;;
        execute (create_index_if_not_exists "idx_first_letter"
                   [first_letter]) ;;
        mret true))
    is_sqlite_error
    (fun _ => raise RuntimeError).

(** [handle_command(db, '6', args)] of [v1/app.py]; choice 6 of the
    interactive menu runs the same statements. *)
Definition handle_command_6 (clock : nat -> Z) (now : date) : St world unit :=
  try_except
    (start_time ← datetime_now clock;
     call FilterQuery (query_male_f now) ;;
     t ← datetime_now clock;
     let time_before := (t - start_time)%Z in
     optimized ← call IndexCreation optimize_database;
     if optimized : bool then
       start_time ← datetime_now clock;
       call FilterQuery (query_male_f now) ;;
       t ← datetime_now clock;
       let time_after := (t - start_time)%Z in
       log (Report time_before time_after) ;;
       improvement time_before time_after
     else mret ())
    (fun e => match e with RuntimeError => true | _ => false end)
    (fun _ => mret ()).

End V1.

(** ** Version 3: [v3/main.py] *)

Module V3.

(** The request body of [POST /employees/]. *)
Record EmployeeCreate : Type := mkEmployeeCreate {
  ec_full_name : str;
  ec_birth_date : str;
  ec_gender : str
}.

(** What FastAPI answers: the status declared on the route when the
    handler returns, the status of an [HTTPException] it raises, 500 for
    any other exception. *)
Record response (A : Type) : Type := mkResponse {
  status_code : Z;
  body : option A
}.

Arguments mkResponse {A} _ _.
Arguments status_code {A} _.
Arguments body {A} _.

Definition route {S A} (declared : Z) (handler : St S A)
  : S -> response A * S :=
  fun s =>
    match handler s with
    | (Ok a, s') => (mkResponse declared (Some a), s')
    | (Raise (HTTPException c), s') => (mkResponse c None, s')
    | (Raise _, s') => (mkResponse 500 None, s')
    end.

Definition init_db : St database unit :=
  execute (fun db => Ok (create_table_if_not_exists db)).

Definition create_employee_handler (employee : EmployeeCreate)
  : St database unit :=
  try_except
    (lift (strptime (ec_birth_date employee)) ;;
     let gender :=
       if in_tuple (lower (ec_gender employee)) male_spellings
       then Male else Female in
     transaction
       (execute (execute_insert (ec_full_name employee)
                                (ec_birth_date employee) gender)))
    is_Exception
    (fun e =>
       if is_ValueError e then raise (HTTPException 400)
       else raise (HTTPException 500)).

(** [POST /employees/]. *)
Definition create_employee (employee : EmployeeCreate)
  : database -> response unit * database :=
  route 201 (create_employee_handler employee).

(** [GET /employees/]. *)
Definition get_all_employees (now : date)
  : database -> response (list listing) * database :=
  route 200
    (rows ← fetch (select_where (fun _ => true));
     mret (List.map (to_listing now) (order_by_name rows))).

(** The two loops are, statement for statement, those of v1. *)
Definition generate_test_data_handler (today : date) (draw : nat -> N)
    (count special : Z) : St database Z :=
  transaction
    (with_cursor
       (for_range 0 (Z.to_nat count) (V1.main_record today draw) ;;
        for_range 0 (Z.to_nat special) (V1.special_record today draw)) ;;
     mret (count + special)%Z).

(** [POST /employees/generate-test-data/?count&special]; the body is the
    number in the message. *)
Definition generate_test_data (today : date) (draw : nat -> N)
    (count special : Z) : database -> response Z * database :=
  route 200 (generate_test_data_handler today draw count special).

(** [GET /employees/male-f/]. *)
Definition query_male_f (now : date)
  : database -> response (list listing) * database :=
  route 200
    (rows ← fetch (select_where male_f);
     mret (List.map (to_listing now) rows)).

(** [SELECT 1 FROM employees WHERE gender = 'Male' AND full_name LIKE
    'F%' LIMIT 1], whose result the handler does not read. *)
Definition probe : St database unit :=
  fetch (select_where male_f) ;; mret ().

Definition create_indexes : St database unit :=
  execute (create_index_if_not_exists "idx_gender_lastname"
             [IxColumn col_gender; first_letter]) ;;
  execute (create_index_if_not_exists "idx_gender" [IxColumn col_gender]) ;;
  execute (create_index_if_not_exists "idx_first_letter" [first_letter]).

Definition optimize_database_handler (clock : nat -> Z) : St world (Z * Z) :=
  start_time ← datetime_now clock;
  call ProbeQuery probe ;;
  t ← datetime_now clock;
  let time_before := (t - start_time)%Z in
  call IndexCreation create_indexes ;;
  start_time ← datetime_now clock;
  call ProbeQuery probe ;;
  t ← datetime_now clock;
  let time_after := (t - start_time)%Z in
  improvement time_before time_after ;;
  log (Report time_before time_after) ;;
  mret (time_before, time_after).

(** [POST /employees/optimize/]. *)
Definition optimize_database (clock : nat -> Z)
  : world -> response (Z * Z) * world :=
  route 200 (optimize_database_handler clock).

End V3.

(** ** Version 2: [v2/database/models.py], [v2/database/database.py],
    [v2/core/manager.py] *)

Module V2.

(** *** [models.Employee] *)

Record Employee : Type := mkEmployee {
  e_full_name : str;
  e_birth_date : date;
  e_gender : str
}.

Definition _normalize_name (name : str) : str :=
  join (u " ") (List.map capitalize (split name)).

Definition _normalize_gender (gender : str) : result str :=
  let gender := lower gender in
  if in_tuple gender male_spellings then Ok Male
  else if in_tuple gender female_spellings then Ok Female
  else Raise ValueError.

(** The constructor with its [__post_init__]. *)
Definition new_Employee (full_name : str) (birth_date : date) (gender : str)
  : result Employee :=
  let full_name := _normalize_name full_name in
  gender ← _normalize_gender gender;
  Ok (mkEmployee full_name birth_date gender).

Definition calculate_age (today : date) (self : Employee) : Z :=
  let age := (year today - year (e_birth_date self))%Z in
  if ((month today <? month (e_birth_date self))
      || ((month today =? month (e_birth_date self))
          && (day today <? day (e_birth_date self))))%Z
  then (age - 1)%Z else age.

(** *** [database.Database], with [db_type = 'sqlite'] *)

(** The dictionaries the queries return. *)
Record employee_dict : Type := mkDict {
  d_id : Z;
  d_full_name : str;
  d_birth_date : date;
  d_gender : str
}.

(** The dictionaries given to the batch insertion, the birth date
    being a [date] object as it is in every call the program makes (a
    birth date given as a string would be stored as it is). *)
Record employee_data : Type := mkData {
  i_full_name : str;
  i_birth_date : date;
  i_gender : str
}.

(** [_execute]: every exception becomes a [RuntimeError], and nothing
    of a failed statement is kept. *)
Definition _execute {A} (m : St database A) : St database A :=
  try_except (transaction m) is_Exception (fun _ => raise RuntimeError).

Definition create_table : St database unit :=
  _execute (execute (fun db => Ok (create_table_if_not_exists db))).

(** [insert_employee]; the value of [RETURNING id].  As in v1, that
    the driver can encode the name is a hypothesis of what is proved
    about the record that is stored. *)
Definition insert_employee (full_name : str) (birth_date : date) (gender : str)
  : St database Z :=
  _execute
    (execute (insert full_name (isoformat birth_date) gender) ;;
     rows ← fetch (select_where (fun _ => true));
     mret (Z.of_nat (length rows))).

(** [cursor.executemany] on the tuples that [batch_insert_employees]
    prepares from records whose birth dates are [date] objects, the
    names being text that the driver can encode. *)
Fixpoint executemany (data : list employee_data) : St database unit :=
  match data with
  | [] => mret ()
  | d :: data' =>
      execute (insert (i_full_name d) (isoformat (i_birth_date d))
                      (i_gender d)) ;;
      executemany data'
  end.

(** [batch_insert_employees]; the result is [cursor.rowcount]. *)
Definition batch_insert_employees (employees : list employee_data)
  : St database Z :=
  match employees with
  | [] => mret 0%Z
  | _ :: _ =>
      try_except
        (transaction
           (executemany employees ;; mret (Z.of_nat (length employees))))
        is_Exception
        (fun _ => raise RuntimeError)
  end.

(** The loop that turns fetched rows into dictionaries; a stored text
    that is not a date makes [strptime] raise. *)
Fixpoint to_dicts (rows : list row) : result (list employee_dict) :=
  match rows with
  | [] => Ok []
  | r :: rows' =>
      d ← strptime (birth_date r);
      ds ← to_dicts rows';
      Ok (mkDict (rowid r) (full_name r) d (gender r) :: ds)
  end.

(** [Database.get_all_employees].  The query selects [created_at], a
    column of the table that v2 creates: this is the function on a file
    in which v2 created the table (on a table that v1 or v3 created the
    statement does not compile, and the function raises). *)
Definition db_get_all_employees : St database (list employee_dict) :=
  rows ← _execute (fetch (select_where (fun _ => true)));
  lift (to_dicts (order_by_name rows)).

(** [get_employees_by_gender_and_name_start]; the second component of
    the pair it returns, the duration as a floating-point number, is
    left out. *)
Definition get_employees_by_gender_and_name_start (gender name_start : str)
  : St database (list employee_dict) :=
  try_except
    (rows ← _execute
       (fetch (select_where
          (fun r => bool_decide (SQLite.gender r = gender)
                    && like (name_start ++ [percent]) (full_name r))));
     lift (to_dicts rows))
    is_Exception
    (fun _ => raise RuntimeError).

Definition create_indexes : St database unit :=
  transaction
    (execute (create_index_if_not_exists "idx_gender_fname"
                [IxColumn col_gender; first_letter]) ;;
     execute (create_index_if_not_exists "idx_full_name"
                [IxColumn col_full_name]) ;;
     execute (create_index_if_not_exists "idx_birth_date"
                [IxColumn col_birth_date])).

Definition db_table_exists : St database bool :=
  _execute (fun db => (Ok (has_table db), db)).

(** *** [manager.EmployeeManager] *)

Definition table_exists : St database bool :=
  try_except db_table_exists is_Exception (fun _ => raise RuntimeError).

Definition ensure_table_exists : St database unit :=
  exists_ ← table_exists;
  if exists_ : bool then mret ()
  else
    try_except
      (create_table ;;
       exists_ ← table_exists;
       if exists_ : bool then mret () else raise RuntimeError)
      is_Exception
      (fun _ => raise RuntimeError).

(** [add_employee] called with the birth date as a string, as the
    command line and the interactive menu do. *)
Definition add_employee (full_name birth_date gender_input : str)
  : St database Employee :=
  ensure_table_exists ;;
  try_except
    (birth_date ← lift (strptime birth_date);
     employee ← lift (new_Employee full_name birth_date gender_input);
     insert_employee (e_full_name employee) (e_birth_date employee)
                     (e_gender employee) ;;
     mret employee)
    is_Exception
    (fun e =>
       if is_ValueError e then raise ValueError else raise RuntimeError).

(** The validation loop of [batch_add_employees]: the records the
    constructor accepts, normalised. *)
Fixpoint valid_employees (employees_data : list employee_data)
  : list employee_data :=
  match employees_data with
  | [] => []
  | emp_data :: rest =>
      match new_Employee (i_full_name emp_data) (i_birth_date emp_data)
                         (i_gender emp_data) with
      | Ok emp =>
          mkData (e_full_name emp) (e_birth_date emp) (e_gender emp)
          :: valid_employees rest
      | Raise _ => valid_employees rest
      end
  end.

Definition batch_add_employees (employees_data : list employee_data)
  : St database Z :=
  ensure_table_exists ;;
  try_except
    (batch_insert_employees (valid_employees employees_data))
    is_Exception
    (fun _ => raise RuntimeError).

Fixpoint to_employees (ds : list employee_dict) : result (list Employee) :=
  match ds with
  | [] => Ok []
  | d :: ds' =>
      e ← new_Employee (d_full_name d) (d_birth_date d) (d_gender d);
      es ← to_employees ds';
      Ok (e :: es)
  end.

Definition get_all_employees : St database (list Employee) :=
  ensure_table_exists ;;
  try_except
    (db_employees ← db_get_all_employees;
     lift (to_employees db_employees))
    is_Exception
    (fun _ => raise RuntimeError).

Definition get_male_employees_with_f_surname
  : St database (list employee_dict) :=
  ensure_table_exists ;;
  get_employees_by_gender_and_name_start Male (u "F").

Definition search_employees (gender name_start : str)
  : St database (list Employee) :=
  ensure_table_exists ;;
  try_except
    (db_results ← get_employees_by_gender_and_name_start gender name_start;
     lift (to_employees db_results))
    is_Exception
    (fun _ => raise RuntimeError).

Definition optimize_and_test (clock : nat -> Z) : St world (Z * Z) :=
  quietly ensure_table_exists ;;
  try_except
    (start ← datetime_now clock;
     call FilterQuery (get_employees_by_gender_and_name_start Male (u "F")) ;;
     t ← datetime_now clock;
     let time_before := (t - start)%Z in
     call IndexCreation create_indexes ;;
     start ← datetime_now clock;
     call FilterQuery (get_employees_by_gender_and_name_start Male (u "F")) ;;
     t ← datetime_now clock;
     let time_after := (t - start)%Z in
     improvement time_before time_after ;;
     mret (time_before, time_after))
    is_Exception
    (fun _ => raise RuntimeError).

(** [EmployeeCLI._optimize_db] of [v2/cli/interface.py]: prints the two
    durations it is given. *)
Definition _optimize_db (clock : nat -> Z) : St world unit :=
  '(time_before, time_after) ← optimize_and_test clock;
  log (Report time_before time_after).

(** The library Faker and [random.choice]: the outcome of the [k]-th
    call made during one run of the generation. *)
Record Faker : Type := mkFaker {
  first_name_male : nat -> str;
  first_name_female : nat -> str;
  last_name : nat -> str;
  date_of_birth : nat -> date
}.

Definition batch_size : Z := 10000.

(** The inner loop of [generate_test_data]: [n] records, the calls to
    the generators being numbered from [k]. *)
Fixpoint make_batch (fake : Faker) (draw : nat -> N) (n k : nat)
  : list employee_data :=
  match n with
  | O => []
  | Datatypes.S n' =>
      let gender := choice draw k [Male; Female] Male in
      let first_name :=
        if eqb gender Male then first_name_male fake (k + 1)
        else first_name_female fake (k + 1) in
      let last_name := last_name fake (k + 2) in
      mkData (last_name ++ u " " ++ first_name)
             (date_of_birth fake (k + 3)) gender
      :: make_batch fake draw n' (k + 4)
  end.

(** The outer loop: [n] batches, each added by [batch_add_employees]. *)
Fixpoint add_batches (fake : Faker) (draw : nat -> N) (n k : nat)
    (total_added : Z) : St database (Z * nat) :=
  match n with
  | O => mret (total_added, k)
  | Datatypes.S n' =>
      added ← batch_add_employees
                (make_batch fake draw (Z.to_nat batch_size) k);
      add_batches fake draw n' (k + 4 * Z.to_nat batch_size)
                  (total_added + added)%Z
  end.

(** The loop of the special records. *)
Fixpoint special_batch (fake : Faker) (n k : nat) : list employee_data :=
  match n with
  | O => []
  | Datatypes.S n' =>
      mkData (u "Fake_" ++ last_name fake k ++ u " "
              ++ first_name_male fake (k + 1))
             (date_of_birth fake (k + 2)) Male
      :: special_batch fake n' (k + 3)
  end.

(** [generate_test_data]; the pair is [(total, special)] of the
    dictionary it returns. *)
Definition generate_test_data (fake : Faker) (draw : nat -> N)
    (count special_count : Z) : St database (Z * Z) :=
  ensure_table_exists ;;
  try_except
    ('(total_added, k) ← add_batches fake draw
                            (Z.to_nat (count / batch_size)) 0 0%Z;
     special_added ← batch_add_employees
                       (special_batch fake (Z.to_nat special_count) k);
     mret (total_added + special_added, special_added)%Z)
    is_Exception
    (fun _ => raise RuntimeError).

End V2.

(** ** More of Python's strings *)

(** [_PyUnicode_ToUpperFull]: the full upper-case mapping of one code
    point, which is its title-case mapping except at the code points
    listed. *)
Definition upper_exceptions : list (N * str) :=
  [
  (0xDF, [0x53; 0x53]); (0x1C4, [0x1C4]); (0x1C5, [0x1C4]); (0x1C6, [0x1C4]);
   (0x1C7, [0x1C7]); (0x1C8, [0x1C7]); (0x1C9, [0x1C7]); (0x1CA, [0x1CA]);
   (0x1CB, [0x1CA]); (0x1CC, [0x1CA]); (0x1F1, [0x1F1]); (0x1F2, [0x1F1]);
   (0x1F3, [0x1F1]); (0x587, [0x535; 0x552]); (0x10D0, [0x1C90]);
   (0x10D1, [0x1C91]); (0x10D2, [0x1C92]); (0x10D3, [0x1C93]);
   (0x10D4, [0x1C94]); (0x10D5, [0x1C95]); (0x10D6, [0x1C96]);
   (0x10D7, [0x1C97]); (0x10D8, [0x1C98]); (0x10D9, [0x1C99]);
   (0x10DA, [0x1C9A]); (0x10DB, [0x1C9B]); (0x10DC, [0x1C9C]);
   (0x10DD, [0x1C9D]); (0x10DE, [0x1C9E]); (0x10DF, [0x1C9F]);
   (0x10E0, [0x1CA0]); (0x10E1, [0x1CA1]); (0x10E2, [0x1CA2]);
   (0x10E3, [0x1CA3]); (0x10E4, [0x1CA4]); (0x10E5, [0x1CA5]);
   (0x10E6, [0x1CA6]); (0x10E7, [0x1CA7]); (0x10E8, [0x1CA8]);
   (0x10E9, [0x1CA9]); (0x10EA, [0x1CAA]); (0x10EB, [0x1CAB]);
   (0x10EC, [0x1CAC]); (0x10ED, [0x1CAD]); (0x10EE, [0x1CAE]);
   (0x10EF, [0x1CAF]); (0x10F0, [0x1CB0]); (0x10F1, [0x1CB1]);
   (0x10F2, [0x1CB2]); (0x10F3, [0x1CB3]); (0x10F4, [0x1CB4]);
   (0x10F5, [0x1CB5]); (0x10F6, [0x1CB6]); (0x10F7, [0x1CB7]);
   (0x10F8, [0x1CB8]); (0x10F9, [0x1CB9]); (0x10FA, [0x1CBA]);
   (0x10FD, [0x1CBD]); (0x10FE, [0x1CBE]); (0x10FF, [0x1CBF]);
   (0x1F80, [0x1F08; 0x399]); (0x1F81, [0x1F09; 0x399]);
   (0x1F82, [0x1F0A; 0x399]); (0x1F83, [0x1F0B; 0x399]);
   (0x1F84, [0x1F0C; 0x399]); (0x1F85, [0x1F0D; 0x399]);
   (0x1F86, [0x1F0E; 0x399]); (0x1F87, [0x1F0F; 0x399]);
   (0x1F88, [0x1F08; 0x399]); (0x1F89, [0x1F09; 0x399]);
   (0x1F8A, [0x1F0A; 0x399]); (0x1F8B, [0x1F0B; 0x399]);
   (0x1F8C, [0x1F0C; 0x399]); (0x1F8D, [0x1F0D; 0x399]);
   (0x1F8E, [0x1F0E; 0x399]); (0x1F8F, [0x1F0F; 0x399]);
   (0x1F90, [0x1F28; 0x399]); (0x1F91, [0x1F29; 0x399]);
   (0x1F92, [0x1F2A; 0x399]); (0x1F93, [0x1F2B; 0x399]);
   (0x1F94, [0x1F2C; 0x399]); (0x1F95, [0x1F2D; 0x399]);
   (0x1F96, [0x1F2E; 0x399]); (0x1F97, [0x1F2F; 0x399]);
   (0x1F98, [0x1F28; 0x399]); (0x1F99, [0x1F29; 0x399]);
   (0x1F9A, [0x1F2A; 0x399]); (0x1F9B, [0x1F2B; 0x399]);
   (0x1F9C, [0x1F2C; 0x399]); (0x1F9D, [0x1F2D; 0x399]);
   (0x1F9E, [0x1F2E; 0x399]); (0x1F9F, [0x1F2F; 0x399]);
   (0x1FA0, [0x1F68; 0x399]); (0x1FA1, [0x1F69; 0x399]);
   (0x1FA2, [0x1F6A; 0x399]); (0x1FA3, [0x1F6B; 0x399]);
   (0x1FA4, [0x1F6C; 0x399]); (0x1FA5, [0x1F6D; 0x399]);
   (0x1FA6, [0x1F6E; 0x399]); (0x1FA7, [0x1F6F; 0x399]);
   (0x1FA8, [0x1F68; 0x399]); (0x1FA9, [0x1F69; 0x399]);
   (0x1FAA, [0x1F6A; 0x399]); (0x1FAB, [0x1F6B; 0x399]);
   (0x1FAC, [0x1F6C; 0x399]); (0x1FAD, [0x1F6D; 0x399]);
   (0x1FAE, [0x1F6E; 0x399]); (0x1FAF, [0x1F6F; 0x399]);
   (0x1FB2, [0x1FBA; 0x399]); (0x1FB3, [0x391; 0x399]);
   (0x1FB4, [0x386; 0x399]); (0x1FB7, [0x391; 0x342; 0x399]);
   (0x1FBC, [0x391; 0x399]); (0x1FC2, [0x1FCA; 0x399]);
   (0x1FC3, [0x397; 0x399]); (0x1FC4, [0x389; 0x399]);
   (0x1FC7, [0x397; 0x342; 0x399]); (0x1FCC, [0x397; 0x399]);
   (0x1FF2, [0x1FFA; 0x399]); (0x1FF3, [0x3A9; 0x399]);
   (0x1FF4, [0x38F; 0x399]); (0x1FF7, [0x3A9; 0x342; 0x399]);
   (0x1FFC, [0x3A9; 0x399]); (0xFB00, [0x46; 0x46]); (0xFB01, [0x46; 0x49]);
   (0xFB02, [0x46; 0x4C]); (0xFB03, [0x46; 0x46; 0x49]);
   (0xFB04, [0x46; 0x46; 0x4C]); (0xFB05, [0x53; 0x54]);
   (0xFB06, [0x53; 0x54]); (0xFB13, [0x544; 0x546]); (0xFB14, [0x544; 0x535]);
   (0xFB15, [0x544; 0x53B]); (0xFB16, [0x54E; 0x546]);
   (0xFB17, [0x544; 0x53D])
  ].

Definition upper_full (c : N) : str :=
  match lookup c upper_exceptions with
  | Some l => l
  | None => title_full c
  end.

(** [str.upper()]. *)
Definition upper (s : str) : str := flat_map upper_full s.

(** [str.lstrip()] and [str.strip()] without arguments. *)
Fixpoint lstrip (s : str) : str :=
  match s with
  | [] => []
  | c :: s' => if isspace c then lstrip s' else s
  end.

Definition strip (s : str) : str := rev (lstrip (rev (lstrip s))).

(** ** Version 2: the command line of [v2/app.py] and the table of
    [v2/cli/interface.py] *)

Module V2App.

(** A value of the kinds the dispatch of [main] compares. *)
Inductive value : Type := NoneValue | Int (n : Z) | Str (s : str).

(** [a == b]: an integer and a string are never equal. *)
Definition py_eq (a b : value) : bool :=
  match a, b with
  | NoneValue, NoneValue => true
  | Int m, Int n => (m =? n)%Z
  | Str s, Str t => eqb s t
  | _, _ => false
  end.

(** What [display_employees] is given: dictionaries of the database
    layer or objects of the class [Employee]. *)
Inductive object : Type :=
| Dict (d : V2.employee_dict)
| Obj (e : V2.Employee).

(** The exceptions raised in this layer: by a look-up of an attribute
    that does not exist, by subscripting a value that has no items, by
    [input()] at the end of the input, and by the manager. *)
Inductive raised : Type :=
| AttributeError
| TypeError
| EOFError
| Library (e : exn).

(** What is written on the terminal, by kind: the messages of [main],
    and of [display_employees] the message for an empty list, the five
    lines of the heading, the line of an employee with the age, the two
    closing lines with the number of employees; of the menu item for
    adding, its title and the messages for a date and a gender that are
    not accepted.  The prompts of [input] are left out. *)
Inductive line : Type :=
| table_checked
| employee_added
| generated (total special : Z)
| query_time
| wrong_arguments
| usage
| error_message
| no_data
| heading
| employee_line (e : V2.Employee) (age : Z)
| closing (n : nat)
| adding
| wrong_date_format
| gender_hint.

(** The loop of [display_employees]: [emp.calculate_age()] is looked up
    on every element, and a dictionary has no such attribute. *)
Fixpoint display_rows (today : date) (employees : list object)
  : list line * option raised :=
  match employees with
  | [] => ([], None)
  | Obj e :: rest =>
      let '(out, r) := display_rows today rest in
      (employee_line e (V2.calculate_age today e) :: out, r)
  | Dict _ :: _ => ([], Some AttributeError)
  end.

Definition display_employees (today : date) (employees : list object)
  : list line * option raised :=
  match employees with
  | [] => ([no_data], None)
  | _ :: _ =>
      match display_rows today employees with
      | (out, None) => (heading :: out ++ [closing (length employees)], None)
      | (out, Some e) => (heading :: out, Some e)
      end
  end.

(** A call of the manager, then the statements that follow it. *)
Definition called {A} (r : result A * database)
    (k : A -> database -> (list line * option raised) * database)
  : (list line * option raised) * database :=
  match r with
  | (Ok a, db') => k a db'
  | (Raise e, db') => (([], Some (Library e)), db')
  end.

(** The branches of [main] after the first.  [mode] is [args.mode],
    which [argparse] converts with [int]; [args] is [args.args]. *)
Definition dispatch (today : date) (fake : V2.Faker) (draw : nat -> N)
    (mode : value) (args : list str) (db : database)
  : (list line * option raised) * database :=
  if py_eq mode (Int 1) then
    called (V2.ensure_table_exists db)
      (fun _ db' => (([table_checked], None), db'))
  else if py_eq mode (Int 2) && (3 <=? length args)%nat then
    called (V2.add_employee (nth 0 args []) (nth 1 args []) (nth 2 args []) db)
      (fun _ db' => (([employee_added], None), db'))
  else if py_eq mode (Int 3) then
    called (V2.get_all_employees db)
      (fun employees db' =>
         (display_employees today (List.map Obj employees), db'))
  else if py_eq mode (Int 4) then
    called (V2.generate_test_data fake draw 1000000 100 db)
      (fun '(total, special) db' => (([generated total special], None), db'))
  else if py_eq mode (Int 5) then
    called (V2.get_male_employees_with_f_surname db)
      (fun employees db' =>
         match display_employees today (List.map Dict employees) with
         | (out, None) => ((out ++ [query_time], None), db')
         | (out, Some e) => ((out, Some e), db')
         end)
  else if py_eq mode (Str (u "6")) then
    (* [cli._optimize_and_show_results()]: the class has no such method *)
    (([], Some AttributeError), db)
  else if py_eq mode (Str (u "7")) && (2 <=? length args)%nat then
    (* [args[0]]: the namespace of [argparse] has no items *)
    (([], Some TypeError), db)
  else (([wrong_arguments; usage], None), db).

(** How [main] ends: it returns or calls [sys.exit], or it has handed
    over to [cli.interactive_mode()], the menu, which is not part of
    this model. *)
Inductive ending : Type :=
| finished (exit_code : Z)
| interactive_mode.

(** [main] from [parser.parse_args()] on. *)
Definition main (today : date) (fake : V2.Faker) (draw : nat -> N)
    (mode : value) (args : list str) (db : database)
  : (list line * ending) * database :=
  if py_eq mode NoneValue || py_eq mode (Int 0) then
    (([], interactive_mode), db)
  else
    match dispatch today fake draw mode args db with
    | ((out, None), db') => ((out, finished 0), db')
    | ((out, Some _), db') => ((out ++ [error_message], finished 1), db')
    end.

(** *** [EmployeeCLI._add_employee_interactive]

    [input()] returns the next line of the input and raises [EOFError]
    when there is none. *)

(** The loop that asks for the birth date: the result is the text
    accepted and the input that is left, or nothing at the end of the
    input.  The loop goes on after a [ValueError], and [strptime]
    raises nothing else. *)
Fixpoint read_birth_date (stdin : list str)
  : list line * option (str * list str) :=
  match stdin with
  | [] => ([], None)
  | answer :: rest =>
      let birth_date := strip answer in
      match strptime birth_date with
      | Ok _ => ([], Some (birth_date, rest))
      | Raise _ =>
          let '(out, r) := read_birth_date rest in
          (wrong_date_format :: out, r)
      end
  end.

(** The loop that asks for the gender; U+041C and U+0416 are the
    Cyrillic capitals of the source. *)
Fixpoint read_gender (stdin : list str)
  : list line * option (str * list str) :=
  match stdin with
  | [] => ([], None)
  | answer :: rest =>
      let gender := upper answer in
      if in_tuple gender [u "1"; [0x41C]; u "M"] then ([], Some (u "M", rest))
      else if in_tuple gender [u "2"; [0x416]; u "F"]
           then ([], Some (u "F", rest))
           else let '(out, r) := read_gender rest in (gender_hint :: out, r)
  end.

(** The result: what was written, the exception if one was raised, the
    input that is left and the database. *)
Definition _add_employee_interactive (stdin : list str) (db : database)
  : (list line * option raised) * (list str * database) :=
  match stdin with
  | [] => (([adding], Some EOFError), ([], db))
  | answer :: rest =>
      let full_name := strip answer in
      match read_birth_date rest with
      | (out1, None) => ((adding :: out1, Some EOFError), ([], db))
      | (out1, Some (birth_date, rest)) =>
          match read_gender rest with
          | (out2, None) =>
              ((adding :: out1 ++ out2, Some EOFError), ([], db))
          | (out2, Some (gender, rest)) =>
              match V2.add_employee full_name birth_date gender db with
              | (Ok _, db') =>
                  ((adding :: out1 ++ out2 ++ [employee_added], None),
                   (rest, db'))
              | (Raise e, db') =>
                  ((adding :: out1 ++ out2, Some (Library e)), (rest, db'))
              end
          end
      end
  end.

End V2App.

(** ** Version 2: the levels of [v2/core/logging.py] *)

Module V2Logging.

(** A handler of the logger of loguru: its sink and its level. *)
Inductive sink : Type := stderr | log_file | json_log_file.

Record handler : Type := mkHandler { h_sink : sink; h_level : str }.

(** The state the functions share: the global [_logger_initialized],
    the two levels of [settings] that they assign ([LOG_LEVEL_FILE] can
    be [False], here [None]), [settings.DEBUG_MODE], and the handlers
    of [logger]. *)
Record logging : Type := mkLogging {
  _logger_initialized : bool;
  LOG_LEVEL_FILE : option str;
  LOG_LEVEL_CONSOLE : str;
  DEBUG_MODE : bool;
  handlers : list handler
}.

Inductive outcome : Type :=
| returns
| raises_ValueError
| raises_LoggingSetupError.

Definition valid_levels : list str :=
  [u "DEBUG"; u "INFO"; u "WARNING"; u "ERROR"; u "CRITICAL"].

Definition set_levels (level : str) (s : logging) : logging :=
  mkLogging (_logger_initialized s) (Some level) level (DEBUG_MODE s)
            (handlers s).

(** [logger.remove()]: every handler is removed. *)
Definition remove (s : logging) : logging :=
  mkLogging (_logger_initialized s) (LOG_LEVEL_FILE s) (LOG_LEVEL_CONSOLE s)
            (DEBUG_MODE s) [].

Definition set_initialized (s : logging) : logging :=
  mkLogging true (LOG_LEVEL_FILE s) (LOG_LEVEL_CONSOLE s) (DEBUG_MODE s)
            (handlers s).

Section Setup.

(** The statements of the [try] block of [_setup_logger] before the
    assignment to the flag: they check the directory of the logs,
    remove the handlers and add those that are enabled.  What they do
    depends on the file system and on loguru; here they are a
    parameter, which ends normally ([true]) or with an exception. *)
Variable configure : logging -> bool * logging.

Definition _setup_logger (s : logging) : outcome * logging :=
  if _logger_initialized s then (returns, s)
  else
    match configure s with
    | (true, s') => (returns, set_initialized s')
    | (false, s') => (raises_LoggingSetupError, s')
    end.

(** [level] is [None] when the argument is [None]; an empty string
    counts as [None] for [or]. *)
Definition init_logger (level : option str) (s : logging)
  : outcome * logging :=
  if negb (_logger_initialized s) then
    let default_level :=
      match level with
      | Some (c :: l) => c :: l
      | _ => if DEBUG_MODE s then u "DEBUG" else u "INFO"
      end in
    _setup_logger (set_levels (upper default_level) s)
  else (returns, s).

Definition set_log_level (level : str) (s : logging) : outcome * logging :=
  if negb (in_tuple (upper level) valid_levels) then (raises_ValueError, s)
  else _setup_logger (remove (set_levels (upper level) s)).

End Setup.

End V2Logging.

(** ** Reachable database states *)

Definition rows_of (db : database) : list row := default [] (table db).

(** The public operations of the three versions.  The three programs
    open the same file [employees.db], so one database may see the
    operations of all of them. *)
Inductive operation : Type :=
| V1_create_table
| V1_add_employee (full_name birth_date gender : str)
| V1_get_all_employees (now : date)
| V1_generate_test_data (today : date) (draw : nat -> N) (count special : Z)
| V1_query_male_f (now : date)
| V1_optimize_database
| V1_optimize (clock : nat -> Z) (now : date)
| V2_ensure_table_exists
| V2_add_employee (full_name birth_date gender : str)
| V2_batch_add_employees (employees_data : list V2.employee_data)
| V2_get_all_employees
| V2_get_male_employees_with_f_surname
| V2_search_employees (gender name_start : str)
| V2_optimize (clock : nat -> Z)
| V2_generate_test_data (fake : V2.Faker) (draw : nat -> N)
    (count special : Z)
| V3_startup
| V3_create_employee (employee : V3.EmployeeCreate)
| V3_get_all_employees (now : date)
| V3_generate_test_data (today : date) (draw : nat -> N) (count special : Z)
| V3_query_male_f (now : date)
| V3_optimize (clock : nat -> Z).

(** The database an operation leaves behind, whether it returns or
    raises. *)
Definition run (op : operation) (db : database) : database :=
  match op with
  | V1_create_table => snd (V1.create_table db)
  | V1_add_employee n b g => snd (V1.add_employee n b g db)
  | V1_get_all_employees now => snd (V1.get_all_employees now db)
  | V1_generate_test_data t d c s => snd (V1.generate_test_data t d c s db)
  | V1_query_male_f now => snd (V1.query_male_f now db)
  | V1_optimize_database => snd (V1.optimize_database db)
  | V1_optimize clock now =>
      w_db (snd (V1.handle_command_6 clock now (mkWorld db 0 [])))
  | V2_ensure_table_exists => snd (V2.ensure_table_exists db)
  | V2_add_employee n b g => snd (V2.add_employee n b g db)
  | V2_batch_add_employees l => snd (V2.batch_add_employees l db)
  | V2_get_all_employees => snd (V2.get_all_employees db)
  | V2_get_male_employees_with_f_surname =>
      snd (V2.get_male_employees_with_f_surname db)
  | V2_search_employees g n => snd (V2.search_employees g n db)
  | V2_optimize clock => w_db (snd (V2._optimize_db clock (mkWorld db 0 [])))
  | V2_generate_test_data f d c s => snd (V2.generate_test_data f d c s db)
  | V3_startup => snd (V3.init_db db)
  | V3_create_employee e => snd (V3.create_employee e db)
  | V3_get_all_employees now => snd (V3.get_all_employees now db)
  | V3_generate_test_data t d c s => snd (V3.generate_test_data t d c s db)
  | V3_query_male_f now => snd (V3.query_male_f now db)
  | V3_optimize clock =>
      w_db (snd (V3.optimize_database clock (mkWorld db 0 [])))
  end.

Inductive reachable : database -> Prop :=
| reachable_empty : reachable empty_db
| reachable_run (op : operation) (db : database) :
    reachable db -> reachable (run op db).

(** The genders the table is meant to hold. *)
Definition gender_ok (r : row) : Prop := gender r = Male \/ gender r = Female.

(** ** The filter query in the words of the specification *)

(** The condition with a case-sensitive prefix test. *)
Definition spec_male_f (r : row) : bool :=
  bool_decide (gender r = Male) && startswith (full_name r) (u "F").

(** The condition with the prefix test that [LIKE] makes. *)
Definition male_F_or_f (r : row) : bool :=
  bool_decide (gender r = Male)
  && (startswith (full_name r) (u "F") || startswith (full_name r) (u "f")).

(** ** The indexes of the optimisation *)

(** The indexes v1 and v3 create: the compound index on gender and
    first letter, the index on gender, the index on the first letter. *)
Definition v1_indexes : gmap string (list indexed_expr) :=
  {[ "idx_gender_lastname" := [IxColumn col_gender; first_letter] ]}
  ∪ {[ "idx_gender" := [IxColumn col_gender] ]}
  ∪ {[ "idx_first_letter" := [first_letter] ]}.

(** The indexes v2 creates: the compound index, the index on the full
    name, the index on the birth date. *)
Definition v2_indexes : gmap string (list indexed_expr) :=
  {[ "idx_gender_fname" := [IxColumn col_gender; first_letter] ]}
  ∪ {[ "idx_full_name" := [IxColumn col_full_name] ]}
  ∪ {[ "idx_birth_date" := [IxColumn col_birth_date] ]}.

(** ** Dates in the words of the specification *)

(** The calendar day before a date. *)
Definition day_before (d : date) : date :=
  if (1 <? day d)%Z then mkDate (year d) (month d) (day d - 1)
  else if (1 <? month d)%Z
       then mkDate (year d) (month d - 1)
                   (_days_in_month (year d) (month d - 1))
       else mkDate (year d - 1) 12 31.

(** The [n]-th anniversary of a date. *)
Definition anniversary (n : Z) (d : date) : date :=
  mkDate (year d + n) (month d) (day d).

(** Today's (month, day) comes before the (month, day) of birth. *)
Definition birthday_to_come (today birth : date) : Prop :=
  (month today < month birth
   \/ (month today = month birth /\ day today < day birth))%Z.

#[global] Instance birthday_to_come_dec today birth :
  Decision (birthday_to_come today birth).
Proof. unfold birthday_to_come. apply _. Defined.

(** The fields SQLite's date functions can read and print. *)
Definition printable (d : date) : Prop :=
  (0 <= year d < 10000 /\ 1 <= month d <= 12 /\ 1 <= day d <= 31)%Z.

(** ** Invariants of computations *)

(** A computation keeps the property [Q] of the state, whether it
    returns or raises. *)
Definition preserves {S A} (Q : S -> Prop) (m : St S A) : Prop :=
  forall s, Q s -> Q (snd (m s)).

(** Every stored row has one of the two genders. *)
Definition genders_ok (db : database) : Prop := Forall gender_ok (rows_of db).

(** ** Bulk generation *)

(** The days on which the birth dates drawn by bulk generation, up to
    65 * 365 days back, are dates: every day from the year 67 on. *)
Definition generation_day (today : date) : Prop :=
  (65 * 365 < toordinal today <= _MAXORDINAL)%Z.

(** The number of records the filter query finds. *)
Definition matches (db : database) : nat :=
  length (List.filter male_F_or_f (rows_of db)).

(** A generator for examples: every man is John, every woman Mary,
    every family Smith, everybody born on 15 May 1990. *)
Definition sample_faker : V2.Faker :=
  V2.mkFaker (fun _ => u "John") (fun _ => u "Mary") (fun _ => u "Smith")
             (fun _ => mkDate 1990 5 15).

(** ** Name normalisation *)

(** A token of [split]: not empty, no white space. *)
Definition token (t : str) : Prop :=
  t <> [] /\ Forall (fun c => isspace c = false) t.

(** A character that [str.lower()] leaves as it is wherever it stands:
    its lower-case mapping is itself, and it is not the capital sigma,
    whose lower case depends on its neighbours. *)
Definition lower_stable (x : N) : bool :=
  eqb (lower_full x) [x] && negb (x =? 0x3A3).

Definition title_fixed (x : N) : bool := eqb (title_full x) [x].

Definition no_space (l : str) : bool := forallb (fun x => negb (isspace x)) l.

(** What idempotence needs of the tables of lower case: every mapping
    consists of characters that [str.lower()] leaves as they are, none
    of them white space. *)
Definition lowercase_tables_settled : bool :=
  forallb (fun e => lower_stable (snd e) && negb (isspace (snd e)))
          simple_lowercase
  && forallb (fun e => forallb lower_stable (snd e) && no_space (snd e))
             special_lowercase.

(** And of the tables of title case: every mapping begins with a
    character that is its own title case and, U+0149 apart, continues
    with characters that [str.lower()] leaves as they are; none of them
    is white space. *)
Definition titlecase_tables_settled : bool :=
  forallb (fun e => title_fixed (snd e) && negb (isspace (snd e)))
          simple_titlecase
  && forallb (fun e =>
                match snd e with
                | [] => false
                | t :: ts =>
                    title_fixed t
                    && ((fst e =? 0x149) || forallb lower_stable ts)
                end
                && no_space (snd e))
             special_titlecase.

(** The first character of a token is not U+0149, the letter "n
    preceded by apostrophe". *)
Definition begins_plainly (t : str) : Prop := head t <> Some 0x149.

(** ** Orders *)

(** The order "not greater" of a three-way comparison; [text_le] and
    [key_le] are of this form. *)
Definition le_of {A} (cmp : A -> A -> comparison) (x y : A) : bool :=
  match cmp x y with Gt => false | _ => true end.

(** The key of a row of a listing. *)
Definition listing_key (x : listing) : str * str :=
  (l_full_name x, l_birth_date x).

(** ** Batches in the words of the code's comments *)

(** A gender spelling the model accepts. *)
Definition recognised (g : str) : bool :=
  in_tuple (lower g) male_spellings || in_tuple (lower g) female_spellings.

(** A row holds a record as [executemany] binds it. *)
Definition row_of_data (d : V2.employee_data) (r : row) : Prop :=
  full_name r = V2.i_full_name d
  /\ birth_date r = isoformat (V2.i_birth_date d)
  /\ gender r = V2.i_gender d.

(** ** Rows that v2 can read *)

(** What [Database.get_all_employees] and the constructor of [Employee]
    need of a stored row: a birth date that [strptime] reads and one of
    the two genders. *)
Definition readable (r : row) : Prop :=
  (exists d, strptime (birth_date r) = Ok d) /\ gender_ok r.

(** The [Employee] v2 builds from a row. *)
Definition employee_of_row (r : row) (e : V2.Employee) : Prop :=
  V2.e_full_name e = V2._normalize_name (full_name r)
  /\ strptime (birth_date r) = Ok (V2.e_birth_date e)
  /\ V2.e_gender e = gender r.

(** ** Search by the beginning of the name *)




(** ** The indexes as an invariant *)

Definition indexes_are (ixs : gmap string (list indexed_expr))
    (db : database) : Prop :=
  indexes db = ixs.

(** ** Ordinals and dates *)

(** The month and the day that [_ord2ymd] computes from [n], the
    number of the day in its year counted from 0, and from [leapyear]:
    as a pair. *)
Definition month_and_day (leapyear : bool) (n : Z) : Z * Z :=
  let m := Z.shiftr (n + 50) 5 in
  let preceding :=
    (_DAYS_BEFORE_MONTH m + (if (2 <? m)%Z && leapyear then 1 else 0))%Z in
  if (n <? preceding)%Z then
    let m := (m - 1)%Z in
    let preceding :=
      (preceding
       - (_DAYS_IN_MONTH m + (if (m =? 2)%Z && leapyear then 1 else 0)))%Z in
    (m, (n - preceding + 1)%Z)
  else (m, (n - preceding + 1)%Z).

(** The pair is a month and a day of that month, the day number [n]
    of the year. *)
Definition month_and_day_ok (leapyear : bool) (n : Z) : Prop :=
  let '(m, d) := month_and_day leapyear n in
  (1 <= m <= 12
   /\ 1 <= d <= _DAYS_IN_MONTH m + (if (m =? 2) && leapyear then 1 else 0)
   /\ _DAYS_BEFORE_MONTH m + (if (2 <? m) && leapyear then 1 else 0) + d
      = n + 1)%Z.

#[global] Instance month_and_day_ok_dec leapyear n :
  Decision (month_and_day_ok leapyear n).
Proof.
  unfold month_and_day_ok. destruct (month_and_day leapyear n). apply _.
Defined.

(** ** The rows of bulk generation *)

(** A row as the loops of v1 and v3 make it: one of the two genders,
    and as birth date the ISO form of the day that lies a number of
    days between 18 * 365 and 65 * 365 before today. *)
Definition of_generation (today : date) (r : row) : Prop :=
  gender_ok r
  /\ exists k b,
       (18 * 365 <= k <= 65 * 365)%Z
       /\ sub_days today k = Ok b
       /\ birth_date r = isoformat b.

(** The age the listings show for a row lies between two bounds. *)
Definition age_between (lo hi : Z) (today : date) (r : row) : Prop :=
  exists a, age_expr today (birth_date r) = Some a /\ (lo <= a <= hi)%Z.

(** ** The databases of the three programs *)

(** Every stored birth date is a text that [strptime] reads. *)
Definition dates_ok (db : database) : Prop :=
  Forall (fun r => exists d, strptime (birth_date r) = Ok d) (rows_of db).

(** The arguments of an operation are values of Python: where the model
    has a record of three integers for a [date], the integers are those
    of a date. *)
Definition well_formed (op : operation) : Prop :=
  match op with
  | V2_batch_add_employees employees_data =>
      Forall (fun d => valid_date (V2.i_birth_date d) = true) employees_data
  | V2_generate_test_data fake _ _ _ =>
      forall k, valid_date (V2.date_of_birth fake k) = true
  | _ => True
  end.

(** The states of the file that the three programs reach from the
    empty file. *)
Inductive produced : database -> Prop :=
| produced_empty : produced empty_db
| produced_run (op : operation) (db : database) :
    well_formed op -> produced db -> produced (run op db).

(** ** What an operation keeps *)

(** The table of [db] begins with the rows [base]. *)
Definition extends (base : list row) (db : database) : Prop :=
  exists new, rows_of db = base ++ new.

(** [db] has the indexes [ixs], as they are, and possibly others. *)
Definition keeps_indexes (ixs : gmap string (list indexed_expr))
    (db : database) : Prop :=
  forall name exprs, ixs !! name = Some exprs ->
                     indexes db !! name = Some exprs.

(** ** Files in which v2 created the table *)

(** The states of the file that the three programs reach after v2 has
    created the table in the empty file.  The table then has the column
    [created_at], which [Database.get_all_employees] of v2 selects. *)
Inductive produced_from_v2 : database -> Prop :=
| produced_from_v2_table :
    produced_from_v2 (run V2_ensure_table_exists empty_db)
| produced_from_v2_run (op : operation) (db : database) :
    well_formed op -> produced_from_v2 db -> produced_from_v2 (run op db).

(** The rows in the order of the names: a listing with [ORDER BY
    full_name], in which rows of one name come in an order that is not
    fixed. *)
Definition ordered_by_name (rows listed : list row) : Prop :=
  Permutation listed rows
  /\ StronglySorted (fun a b => text_le (full_name a) (full_name b) = true)
       listed.


(** ** The characters of a date *)

(** A character that the pattern of [strptime] can match: a decimal
    digit, the hyphen, the space. *)
Definition date_char (c : N) : bool :=
  match decimal c with
  | Some _ => true
  | None => (c =? hyphen) || (c =? 32)
  end.

(** A matcher that consumes characters of dates only. *)
Definition consumes_date_chars (f : str -> option (Z * str)) : Prop :=
  forall s v rest,
    f s = Some (v, rest) ->
    exists pre, s = pre ++ rest /\ Forall (fun c => date_char c = true) pre.

(** ** Sanity checks of the embedding against CPython and SQLite *)

Example strptime_examples :
  strptime (u "1990-05-15") = Ok (mkDate 1990 5 15)
  /\ strptime (u "1990-5-1") = Ok (mkDate 1990 5 1)
  /\ strptime (u "2000-02-29") = Ok (mkDate 2000 2 29)
  /\ strptime (u "1900-02-29") = Raise ValueError
  /\ strptime (u "0000-01-01") = Raise ValueError
  /\ strptime (u "1990-05-1" ++ [0xFF15]) = Ok (mkDate 1990 5 15)
  /\ strptime ([0xFF11; 0xFF19; 0xFF19; 0xFF10] ++ u "-05-2" ++ [0x661])
     = Ok (mkDate 1990 5 21)
  /\ strptime (u "1990-0" ++ [0xFF15] ++ u "-15") = Raise ValueError
  /\ strptime (u "1990-05-3" ++ [0x661]) = Raise ValueError
  /\ strptime (u "1990-05- 5") = Ok (mkDate 1990 5 5)
  /\ strptime (u "1990-13-01") = Raise ValueError
  /\ strptime (u "1990-05-32") = Raise ValueError
  /\ strptime (u "1990-05-01 ") = Raise ValueError
  /\ strptime (u "15.05.1990") = Raise ValueError.
Proof. vm_compute. repeat split. Qed.

Example day_before_examples :
  List.map (fun d => bool_decide (day_before d = _ord2ymd (toordinal d - 1)))
    [mkDate 2020 5 15; mkDate 2020 3 1; mkDate 2021 3 1; mkDate 2020 1 1;
     mkDate 2000 12 1; mkDate 1900 3 1; mkDate 2024 2 29]%Z
  = [true; true; true; true; true; true; true].
Proof. vm_compute. reflexivity. Qed.

Example ordinal_examples :
  List.map _ord2ymd [1; 59; 60; 365; 366; 1461; 1462; 36524; 36525;
                     146097; 146098; 730000; 738000; 3652059]%Z
  = [mkDate 1 1 1; mkDate 1 2 28; mkDate 1 3 1; mkDate 1 12 31;
     mkDate 2 1 1; mkDate 4 12 31; mkDate 5 1 1; mkDate 100 12 31;
     mkDate 101 1 1; mkDate 400 12 31; mkDate 401 1 1; mkDate 1999 9 3;
     mkDate 2021 7 29; mkDate 9999 12 31]%Z
  /\ toordinal (mkDate 2021 7 29) = 738000%Z
  /\ isoformat (mkDate 990 5 1) = u "0990-05-01".
Proof. vm_compute. repeat split. Qed.

Example case_examples :
  lower [0x391; 0x3A3] = [0x3B1; 0x3C2]
  /\ lower [0x3A3] = [0x3C3]
  /\ lower [0x391; 0x3A3; 0x391] = [0x3B1; 0x3C3; 0x3B1]
  /\ lower [0x41; 0x27; 0x3A3] = [0x61; 0x27; 0x3C2]
  /\ lower [0x41; 0x3A3; 0x27; 0x42] = [0x61; 0x3C3; 0x27; 0x62]
  /\ lower [0x130] = [0x69; 0x307]
  /\ lower [0x1E9E] = [0xDF]
  /\ capitalize [0x491] = [0x490]
  /\ capitalize [0x1C6; 0x41] = [0x1C5; 0x61]
  /\ capitalize [0xDF; 0x41] = [0x53; 0x73; 0x61]
  /\ capitalize [0x149] = [0x2BC; 0x4E]
  /\ capitalize [0x3C3; 0x391; 0x3A3] = [0x3A3; 0x3B1; 0x3C2]
  /\ capitalize [0xFB01; 0x58] = [0x46; 0x69; 0x78]
  /\ upper [0xDF] = [0x53; 0x53]
  /\ upper [0x1C6] = [0x1C4]
  /\ upper [0x43C] = [0x41C]
  /\ upper [0x131] = [0x49]
  /\ upper [0x149] = [0x2BC; 0x4E]
  /\ (length simple_lowercase, length special_lowercase,
      length simple_titlecase, length special_titlecase,
      length upper_exceptions)
     = (1432, 1, 1404, 48, 135)%nat
  /\ encodable [0x41; 0xD7FF; 0xE000; 0x10FFFF] = true
  /\ encodable [0x41; 0xDC80] = false.
Proof. vm_compute. repeat split. Qed.

Example string_examples :
  lower (u "MaLe") = u "male"
  /\ lower [0x41C] = cyr_em
  /\ capitalize (u "iVANOV") = u "Ivanov"
  /\ split (u "  ivanov   ivan ") = [u "ivanov"; u "ivan"]
  /\ V2._normalize_name (u " ivanov  IVAN") = u "Ivanov Ivan"
  /\ like (u "F%") (u "fedorov") = true
  /\ like (u "F%") (u "Fedorov") = true
  /\ like (u "F%") (u "Ivanov F") = false
  /\ like (u "F%") [0x424] = false
  /\ SQLite.parse_date (u "1990-5-1") = None
  /\ age_expr (mkDate 2026 11 3) (u "1990-12-01") = Some 35%Z
  /\ age_expr (mkDate 2026 11 3) (u "1990-11-03") = Some 36%Z.
Proof. vm_compute. repeat split. Qed.

(** ** Basic facts about the monad and the tables *)


Lemma in_range_spec (lo hi c : N) :
  in_range lo hi c = true <-> lo <= c <= hi.
Proof. unfold in_range. rewrite andb_true_iff, !N.leb_le. tauto. Qed.

(** [%] at the end of a pattern matches whatever is left. *)
Lemma like_percent_all (s : str) : like [percent] s = true.
Proof.
  induction s as [|a s IH]; [reflexivity|].
  change (like [percent] (a :: s))
    with (like [] (a :: s) || like [percent] s).
  rewrite IH. apply orb_true_r.
Qed.

(** The pattern of the filter query accepts the names that begin with
    [F] or with [f]. *)
Lemma like_F_percent (s : str) :
  like (u "F%") s = startswith s (u "F") || startswith s (u "f").
Proof.
  destruct s as [|a s]; [reflexivity|].
  change (like (u "F%") (a :: s))
    with ((like_fold a =? like_fold 70) && like [percent] s).
  rewrite like_percent_all, andb_true_r.
  change (startswith (a :: s) (u "F")) with ((70 =? a) && true).
  change (startswith (a :: s) (u "f")) with ((102 =? a) && true).
  rewrite !andb_true_r.
  change (like_fold 70) with 102. unfold like_fold.
  destruct (in_range 65 90 a) eqn:Hr.
  - apply in_range_spec in Hr.
    destruct (N.eqb_spec (a + 32) 102), (N.eqb_spec 70 a), (N.eqb_spec 102 a);
      simpl; try reflexivity; lia.
  - assert (Hn : ~ (65 <= a <= 90)).
    { intros H. apply in_range_spec in H. congruence. }
    destruct (N.eqb_spec a 102), (N.eqb_spec 70 a), (N.eqb_spec 102 a);
      simpl; try reflexivity; lia.
Qed.

Lemma male_f_spec (r : row) : male_f r = male_F_or_f r.
Proof. unfold male_f, male_F_or_f. by rewrite like_F_percent. Qed.

Lemma filter_ext_eq {A} (f g : A -> bool) (l : list A) :
  (forall x, f x = g x) -> List.filter f l = List.filter g l.
Proof. intros H. induction l as [|x l IH]; simpl; [done|]. by rewrite H, IH. Qed.

Lemma V1_ensure_table (db : database) :
  V1._ensure_table_exists db = (Ok (), create_table_if_not_exists db).
Proof.
  by destruct db as [[rows|] ixs].
Qed.

Lemma rows_of_create_table (db : database) :
  rows_of (create_table_if_not_exists db) = rows_of db.
Proof. by destruct db as [[rows|] ixs]. Qed.

Lemma table_create_table (db : database) :
  table (create_table_if_not_exists db) = Some (rows_of db).
Proof. by destruct db as [[rows|] ixs]. Qed.

Lemma strptime_raises (s : str) (e : exn) :
  strptime s = Raise e -> e = ValueError.
Proof.
  unfold strptime.
  repeat (match goal with
          | |- context [match ?x with _ => _ end] => destruct x
          end; try congruence).
Qed.

(** *** What [strptime] accepts can be bound *)

Lemma digit_date_char (c : N) (v : Z) : digit c = Some v -> date_char c = true.
Proof.
  unfold digit. destruct (in_range 48 57 c) eqn:Hc; [intros _|done].
  unfold date_char, decimal, decimal_zeros. cbn [List.find].
  change (0x30 + 9) with 57. by rewrite Hc.
Qed.

Lemma digit_in_date_char (lo hi : Z) (c : N) (v : Z) :
  digit_in lo hi c = Some v -> date_char c = true.
Proof.
  unfold digit_in. destruct (digit c) as [w|] eqn:Hc; [intros _|done].
  by eapply digit_date_char.
Qed.

Lemma decimal_date_char (c : N) (v : Z) :
  decimal c = Some v -> date_char c = true.
Proof. unfold date_char. by intros ->. Qed.

Lemma date_char_encodable (c : N) :
  date_char c = true -> in_range 0xD800 0xDFFF c = false.
Proof.
  unfold date_char, decimal. intros H.
  destruct (List.find _ decimal_zeros) as [z|] eqn:Hz.
  - apply find_some in Hz as [Hin Hc]. apply in_range_spec in Hc.
    assert (Hzs : forallb (fun z => (z + 9 <? 0xD800) || (0xDFFF <? z))
                    decimal_zeros = true) by (vm_compute; reflexivity).
    rewrite forallb_forall in Hzs. specialize (Hzs z Hin).
    destruct (in_range 0xD800 0xDFFF c) eqn:Hr; [|done].
    apply in_range_spec in Hr. apply orb_true_iff in Hzs as [Hl|Hl];
      apply N.ltb_lt in Hl; lia.
  - destruct (in_range 0xD800 0xDFFF c) eqn:Hr; [|done].
    apply in_range_spec in Hr. apply orb_true_iff in H as [H|H];
      apply N.eqb_eq in H; subst c; unfold hyphen in Hr; lia.
Qed.

Lemma re_Y_consumes : consumes_date_chars re_Y.
Proof.
  intros s v rest. unfold re_Y.
  destruct s as [|a [|b [|c [|d s]]]]; try done.
  destruct (decimal a) eqn:Ha, (decimal b) eqn:Hb, (decimal c) eqn:Hc,
    (decimal d) eqn:Hd; try done.
  intros [= _ <-]. exists [a; b; c; d]. split; [done|].
  repeat constructor; by eapply decimal_date_char.
Qed.

Lemma two_digits_consumes (hd : N) (lo hi : Z) :
  date_char hd = true -> consumes_date_chars (two_digits hd lo hi).
Proof.
  intros Hhd s v rest. unfold two_digits. destruct s as [|a [|b s]]; try done.
  destruct (N.eqb_spec a hd) as [->|]; [|done].
  destruct (digit_in lo hi b) eqn:Hb; [|done].
  intros [= _ <-]. exists [hd; b]. split; [done|].
  repeat constructor; [done|by eapply digit_in_date_char].
Qed.

Lemma digit_then_decimal_consumes (hd : N) :
  date_char hd = true -> consumes_date_chars (digit_then_decimal hd).
Proof.
  intros Hhd s v rest. unfold digit_then_decimal.
  destruct s as [|a [|b s]]; try done.
  destruct (N.eqb_spec a hd) as [->|]; [|done].
  destruct (decimal b) eqn:Hb; [|done].
  intros [= _ <-]. exists [hd; b]. split; [done|].
  repeat constructor; [done|by eapply decimal_date_char].
Qed.

Lemma one_digit_consumes (lo hi : Z) : consumes_date_chars (one_digit lo hi).
Proof.
  intros s v rest. unfold one_digit. destruct s as [|a s]; [done|].
  destruct (digit_in lo hi a) eqn:Ha; [|done].
  intros [= _ <-]. exists [a]. split; [done|].
  repeat constructor. by eapply digit_in_date_char.
Qed.

Lemma first_match_consumes (alts : list (str -> option (Z * str))) :
  Forall consumes_date_chars alts -> consumes_date_chars (first_match alts).
Proof.
  induction 1 as [|f alts Hf Halts IH]; intros s v rest; cbn [first_match];
    [done|].
  destruct (f s) as [[v' rest']|] eqn:Hfs; [|apply IH].
  intros [= <- <-]. by eapply Hf.
Qed.

Lemma re_m_consumes : consumes_date_chars re_m.
Proof.
  apply first_match_consumes.
  repeat constructor;
    first [by apply two_digits_consumes|apply one_digit_consumes].
Qed.

Lemma re_d_consumes : consumes_date_chars re_d.
Proof.
  apply first_match_consumes.
  repeat constructor;
    try first [by apply two_digits_consumes
              |by apply digit_then_decimal_consumes
              |apply one_digit_consumes].
  intros s v rest. destruct s as [|a s]; [done|].
  destruct (N.eqb_spec a 32) as [->|Ha].
  - intros H. destruct (one_digit_consumes 1 9 s v rest H) as (pre & -> & Hpre).
    exists (32 :: pre). split; [done|]. by constructor.
  - destruct a as [|p]; [done|]. do 7 (try (destruct p as [p|p|]; try done)).
Qed.

Lemma expect_spec (c : N) (s rest : str) :
  expect c s = Some rest -> s = c :: rest.
Proof.
  unfold expect. destruct s as [|a s]; [done|].
  destruct (N.eqb_spec a c) as [->|]; [|done]. by intros [= ->].
Qed.

(** A text that [strptime] reads holds digits, hyphens and spaces: the
    driver can bind it. *)
Lemma strptime_encodable (s : str) (d : date) :
  strptime s = Ok d -> encodable s = true.
Proof.
  unfold strptime.
  destruct (re_Y s) as [[y s1]|] eqn:HY; [|done].
  destruct (expect hyphen s1) as [s2|] eqn:H1; [|done].
  destruct (re_m s2) as [[m s3]|] eqn:Hm; [|done].
  destruct (expect hyphen s3) as [s4|] eqn:H2; [|done].
  destruct (re_d s4) as [[dd [|x s5]]|] eqn:Hd; [|done|done].
  intros _.
  apply re_Y_consumes in HY as (p1 & -> & Hp1).
  apply expect_spec in H1 as ->.
  apply re_m_consumes in Hm as (p2 & -> & Hp2).
  apply expect_spec in H2 as ->.
  apply re_d_consumes in Hd as (p3 & -> & Hp3).
  assert (Hall : Forall (fun c => date_char c = true)
                   (p1 ++ hyphen :: p2 ++ hyphen :: p3 ++ [])).
  { repeat first [apply Forall_app; split | apply Forall_cons; split];
      try done; constructor. }
  unfold encodable. apply forallb_forall. intros c Hc.
  rewrite Forall_forall in Hall. apply list_elem_of_In in Hc.
  by rewrite (date_char_encodable c (Hall c Hc)).
Qed.

Lemma St_bind_unfold {S A B} (m : St S A) (k : A -> St S B) (s : S) :
  (m ≫= k) s
  = match m s with
    | (Ok a, s') => k a s'
    | (Raise e, s') => (Raise e, s')
    end.
Proof. reflexivity. Qed.

(** ** C1: the filter query *)

Lemma V1_query_male_f_eq (now : date) (db : database) :
  V1.query_male_f now db
  = (Ok (List.map (to_listing now) (List.filter male_F_or_f (rows_of db))),
     create_table_if_not_exists db).
Proof.
  unfold V1.query_male_f. rewrite St_bind_unfold, V1_ensure_table.
  rewrite St_bind_unfold. unfold fetch, select_where.
  rewrite table_create_table. simpl.
  by rewrite (filter_ext_eq _ _ _ male_f_spec).
Qed.

Lemma V3_query_male_f_eq (now : date) (db : database) :
  V3.query_male_f now db
  = (if has_table db
     then V3.mkResponse 200
            (Some (List.map (to_listing now)
                     (List.filter male_F_or_f (rows_of db))))
     else V3.mkResponse 500 None, db).
Proof.
  unfold V3.query_male_f, V3.route. rewrite St_bind_unfold.
  unfold fetch, select_where, has_table, rows_of.
  destruct (table db) as [rows|]; simpl; [|done].
  by rewrite (filter_ext_eq _ _ _ male_f_spec).
Qed.

Lemma V2_ensure_table (db : database) :
  V2.ensure_table_exists db = (Ok (), create_table_if_not_exists db).
Proof. by destruct db as [[rows|] ixs]. Qed.

Lemma V2_filter_eq (g p : str) (db : database) :
  has_table db = true ->
  V2.get_employees_by_gender_and_name_start g p db
  = (match V2.to_dicts
             (List.filter
                (fun r => bool_decide (gender r = g)
                          && like (p ++ [percent]) (full_name r))
                (rows_of db)) with
     | Ok ds => Ok ds
     | Raise _ => Raise RuntimeError
     end, db).
Proof.
  destruct db as [[rows|] ixs]; [intros _|done].
  unfold V2.get_employees_by_gender_and_name_start, try_except.
  rewrite St_bind_unfold. simpl.
  unfold lift, rows_of. simpl.
  by destruct (V2.to_dicts _).
Qed.

(** C1, as the code has it.  For every database state the filter query
    of v1, v3 and v2 returns the stored records whose gender is "Male"
    and whose full name begins with "F" or with "f", each once and no
    other, in an order that is not fixed: SQLite's LIKE folds the case
    of ASCII letters, so the prefix test is not case-sensitive.  (v3
    answers 500 when the table is missing; v2 raises when a birth date
    among these records is not a date.) *)
Theorem C1_filter_query (now : date) (db : database) :
  let matching := List.filter male_F_or_f (rows_of db) in
  (forall r, In r matching <->
     In r (rows_of db) /\ gender r = Male
     /\ exists c rest, full_name r = c :: rest /\ (c = 70 \/ c = 102))
  /\ (exists l, fst (V1.query_male_f now db) = Ok l
                /\ Permutation l (List.map (to_listing now) matching))
  /\ (if has_table db
      then exists l,
             fst (V3.query_male_f now db) = V3.mkResponse 200 (Some l)
             /\ Permutation l (List.map (to_listing now) matching)
      else fst (V3.query_male_f now db) = V3.mkResponse 500 None)
  /\ match V2.to_dicts matching with
     | Ok ds =>
         exists l, fst (V2.get_male_employees_with_f_surname db) = Ok l
                   /\ Permutation l ds
     | Raise _ =>
         fst (V2.get_male_employees_with_f_surname db) = Raise RuntimeError
     end.
Proof.
  intros matching. subst matching. split; [|split; [|split]].
  - intros r. rewrite filter_In. unfold male_F_or_f.
    rewrite andb_true_iff, bool_decide_eq_true, orb_true_iff.
    split.
    + intros (Hin & Hg & Hn). split; [done|]. split; [done|].
      destruct (full_name r) as [|c rest].
      { destruct Hn; discriminate. }
      exists c, rest. split; [done|].
      change (startswith (c :: rest) (u "F")) with ((70 =? c) && true) in Hn.
      change (startswith (c :: rest) (u "f")) with ((102 =? c) && true) in Hn.
      rewrite !andb_true_r in Hn.
      destruct Hn as [H|H]; apply N.eqb_eq in H; [left|right]; done.
    + intros (Hin & Hg & c & rest & Hn & Hc). split; [done|]. split; [done|].
      rewrite Hn. destruct Hc as [-> | ->]; [by left | by right].
  - rewrite V1_query_male_f_eq. by eexists.
  - rewrite V3_query_male_f_eq. destruct (has_table db); [by eexists|done].
  - assert (Heq : fst (V2.get_male_employees_with_f_surname db)
                  = match V2.to_dicts (List.filter male_F_or_f (rows_of db)) with
                    | Ok ds => Ok ds
                    | Raise _ => Raise RuntimeError
                    end).
    { unfold V2.get_male_employees_with_f_surname.
      rewrite St_bind_unfold, V2_ensure_table.
      rewrite V2_filter_eq by by destruct db as [[rows|] ixs].
      rewrite rows_of_create_table. simpl.
      by rewrite (filter_ext_eq _ male_F_or_f _ male_f_spec). }
    rewrite Heq. destruct (V2.to_dicts _); [by eexists|done].
Qed.

(** C1, as the specification states it, fails: after v1 has added a
    man called "fedorov Ivan", no stored record has gender "Male" and a
    name that begins with a capital "F", yet the filter query of v1 and
    of v3 returns his record. *)
Lemma C1_counterexample :
  let db := snd (V1.add_employee (u "fedorov Ivan") (u "1990-05-15") (u "m")
                                 empty_db) in
  let now := mkDate 2026 11 3 in
  let found := mkListing (u "fedorov Ivan") (u "1990-05-15") Male (Some 36%Z) in
  rows_of db = [mkRow 1 (u "fedorov Ivan") (u "1990-05-15") Male]
  /\ List.filter spec_male_f (rows_of db) = []
  /\ startswith (l_full_name found) (u "F") = false
  /\ fst (V1.query_male_f now db) = Ok [found]
  /\ fst (V3.query_male_f now db) = V3.mkResponse 200 (Some [found]).
Proof. vm_compute. repeat split. Qed.

(** ** C2: gender normalisation *)





(** The normalised values are themselves documented spellings, up to
    case. *)
Lemma V2_normalize_gender_range (g r : str) :
  V2._normalize_gender g = Ok r -> r = Male \/ r = Female.
Proof.
  unfold V2._normalize_gender.
  destruct (in_tuple _ male_spellings); [intros [= <-]; by left|].
  destruct (in_tuple _ female_spellings); [intros [= <-]; by right|done].
Qed.


Lemma V2_add_employee_bad_gender (fn bd g : str) (db : database) :
  V2._normalize_gender g = Raise ValueError ->
  V2.add_employee fn bd g db = (Raise ValueError, create_table_if_not_exists db).
Proof.
  intros Hg. unfold V2.add_employee.
  rewrite St_bind_unfold, V2_ensure_table.
  unfold try_except. rewrite St_bind_unfold. unfold lift.
  destruct (strptime bd) as [d|e] eqn:Hd.
  - rewrite St_bind_unfold. unfold V2.new_Employee.
    rewrite Hg. reflexivity.
  - by apply strptime_raises in Hd as ->.
Qed.

(** What v1 stores for a date that parses. *)
Lemma V1_add_employee_stores (fn bd g : str) (d : date) (db : database) :
  strptime bd = Ok d ->
  V1.add_employee fn bd g db
  = (Ok (true, []),
     mkDb (Some (rows_of db
                 ++ [mkRow (Z.of_nat (length (rows_of db)) + 1) fn bd
                       (if in_tuple (lower g) male_spellings
                        then Male else Female)]))
          (indexes db)).
Proof.
  intros Hd. unfold V1.add_employee, try_except.
  rewrite St_bind_unfold. unfold lift. rewrite Hd.
  rewrite St_bind_unfold, V1_ensure_table. rewrite St_bind_unfold.
  unfold execute, insert. rewrite table_create_table.
  by destruct db as [[rows|] ixs].
Qed.

Lemma encodable_gender (g : str) :
  encodable (if in_tuple (lower g) male_spellings then Male else Female)
  = true.
Proof. by destruct (in_tuple _ _). Qed.

(** What v3 stores for a date that parses and a name that the driver
    can bind. *)
Lemma V3_create_employee_stores (e : V3.EmployeeCreate) (d : date)
    (rows : list row) (ixs : gmap string (list indexed_expr)) :
  strptime (V3.ec_birth_date e) = Ok d ->
  encodable (V3.ec_full_name e) = true ->
  V3.create_employee e (mkDb (Some rows) ixs)
  = (V3.mkResponse 201 (Some ()),
     mkDb (Some (rows
                 ++ [mkRow (Z.of_nat (length rows) + 1) (V3.ec_full_name e)
                       (V3.ec_birth_date e)
                       (if in_tuple (lower (V3.ec_gender e)) male_spellings
                        then Male else Female)]))
          ixs).
Proof.
  intros Hd Hn. unfold V3.create_employee, V3.route, V3.create_employee_handler,
    try_except.
  rewrite St_bind_unfold. unfold lift. rewrite Hd.
  unfold transaction, execute, execute_insert. cbn [table].
  by rewrite Hn, (strptime_encodable _ _ Hd), encodable_gender.
Qed.




(** ** C6: the status of [POST /employees/] *)







(** ** C8 and C4: the indexes *)

(** With the table present, [CREATE INDEX IF NOT EXISTS] adds the index
    unless the name is taken. *)
Lemma create_index_union (name : string) (exprs : list indexed_expr)
    (rows : list row) (ixs : gmap string (list indexed_expr)) :
  create_index_if_not_exists name exprs (mkDb (Some rows) ixs)
  = Ok (mkDb (Some rows) (ixs ∪ {[ name := exprs ]})).
Proof.
  unfold create_index_if_not_exists. cbn [table indexes].
  destruct (ixs !! name) as [old|] eqn:Hl.
  - do 2 f_equal. apply map_eq. intros j. rewrite lookup_union.
    destruct (decide (name = j)) as [<-|Hne].
    + rewrite Hl, lookup_singleton_eq. done.
    + rewrite lookup_singleton_ne by done. by destruct (ixs !! j).
  - by rewrite insert_union_singleton_r.
Qed.

Lemma execute_create_index (name : string) (exprs : list indexed_expr)
    (rows : list row) (ixs : gmap string (list indexed_expr)) :
  execute (create_index_if_not_exists name exprs) (mkDb (Some rows) ixs)
  = (Ok (), mkDb (Some rows) (ixs ∪ {[ name := exprs ]})).
Proof. unfold execute. by rewrite create_index_union. Qed.

Ltac run_statements :=
  repeat first
    [ rewrite St_bind_unfold
    | rewrite execute_create_index
    | progress cbv beta iota zeta ].

Lemma V1_optimize_database_eq (db : database) :
  V1.optimize_database db
  = if has_table db
    then (Ok true, mkDb (table db) (indexes db ∪ v1_indexes))
    else (Raise RuntimeError, db).
Proof.
  destruct db as [[rows|] ixs]; [|reflexivity].
  unfold V1.optimize_database, try_except, transaction. run_statements.
  cbn [has_table table indexes]. unfold v1_indexes.
  by rewrite !(assoc_L (∪)).
Qed.

Lemma V3_create_indexes_eq (db : database) :
  V3.create_indexes db
  = if has_table db
    then (Ok (), mkDb (table db) (indexes db ∪ v1_indexes))
    else (Raise OperationalError, db).
Proof.
  destruct db as [[rows|] ixs]; [|reflexivity].
  unfold V3.create_indexes. run_statements.
  cbn [has_table table indexes]. unfold v1_indexes.
  by rewrite !(assoc_L (∪)).
Qed.

Lemma V2_create_indexes_eq (db : database) :
  V2.create_indexes db
  = if has_table db
    then (Ok (), mkDb (table db) (indexes db ∪ v2_indexes))
    else (Raise OperationalError, db).
Proof.
  destruct db as [[rows|] ixs]; [|reflexivity].
  unfold V2.create_indexes, transaction. run_statements.
  cbn [has_table table indexes]. unfold v2_indexes.
  by rewrite !(assoc_L (∪)).
Qed.




Lemma has_table_create_table (db : database) :
  has_table (create_table_if_not_exists db) = true.
Proof. by destruct db as [[rows|] ixs]. Qed.

Lemma indexes_create_table (db : database) :
  indexes (create_table_if_not_exists db) = indexes db.
Proof. by destruct db as [[rows|] ixs]. Qed.

Lemma nat_plus_numerals (k : nat) :
  S k = (k + 1)%nat /\ S (S k) = (k + 2)%nat /\ S (S (S k)) = (k + 3)%nat
  /\ S (S (S (S k))) = (k + 4)%nat.
Proof. lia. Qed.

Ltac run_world :=
  repeat first
    [ rewrite St_bind_unfold
    | progress unfold call, datetime_now, log, quietly
    | progress unfold mret, St_ret
    | progress cbv beta iota zeta
    | progress cbn [w_db w_reads w_trace fst snd] ].

Lemma V1_handle_command_6_eq (clock : nat -> Z) (now : date) (db : database)
    (k : nat) (tr : list event) :
  let time_before := (clock (k + 1)%nat - clock k)%Z in
  let time_after := (clock (k + 3)%nat - clock (k + 2)%nat)%Z in
  V1.handle_command_6 clock now (mkWorld db k tr)
  = (if (time_before =? 0)%Z then Raise ZeroDivisionError else Ok (),
     mkWorld (mkDb (Some (rows_of db)) (indexes db ∪ v1_indexes)) (k + 4)
       (tr ++ [Clock (clock k); FilterQuery; Clock (clock (k + 1)%nat);
               IndexCreation;
               Clock (clock (k + 2)%nat); FilterQuery;
               Clock (clock (k + 3)%nat);
               Report time_before time_after])).
Proof.
  intros time_before time_after.
  unfold V1.handle_command_6, try_except. run_world.
  rewrite V1_query_male_f_eq. run_world.
  rewrite V1_optimize_database_eq, has_table_create_table. run_world.
  rewrite V1_query_male_f_eq. run_world.
  rewrite table_create_table, indexes_create_table.
  destruct (nat_plus_numerals k) as (-> & -> & -> & ->).
  rewrite <- !app_assoc. cbn [app].
  unfold improvement. fold time_before. fold time_after.
  by destruct (time_before =? 0)%Z.
Qed.

Lemma V2_filter_male_F (db : database) (ds : list V2.employee_dict) :
  has_table db = true ->
  V2.to_dicts (List.filter male_F_or_f (rows_of db)) = Ok ds ->
  V2.get_employees_by_gender_and_name_start Male (u "F") db = (Ok ds, db).
Proof.
  intros Ht Hd. rewrite V2_filter_eq by done.
  change (fun r => bool_decide (gender r = Male)
                   && like (u "F" ++ [percent]) (full_name r)) with male_f.
  by rewrite (filter_ext_eq _ _ _ male_f_spec), Hd.
Qed.

Lemma V2_optimize_db_eq (clock : nat -> Z) (db : database) (k : nat)
    (tr : list event) (ds : list V2.employee_dict) :
  let time_before := (clock (k + 1)%nat - clock k)%Z in
  let time_after := (clock (k + 3)%nat - clock (k + 2)%nat)%Z in
  V2.to_dicts (List.filter male_F_or_f (rows_of db)) = Ok ds ->
  time_before <> 0%Z ->
  V2._optimize_db clock (mkWorld db k tr)
  = (Ok (),
     mkWorld (mkDb (Some (rows_of db)) (indexes db ∪ v2_indexes)) (k + 4)
       (tr ++ [Clock (clock k); FilterQuery; Clock (clock (k + 1)%nat);
               IndexCreation;
               Clock (clock (k + 2)%nat); FilterQuery;
               Clock (clock (k + 3)%nat);
               Report time_before time_after])).
Proof.
  intros time_before time_after Hd Hz.
  unfold V2._optimize_db, V2.optimize_and_test, try_except. run_world.
  rewrite V2_ensure_table. run_world.
  rewrite (V2_filter_male_F _ ds);
    [|apply has_table_create_table|by rewrite rows_of_create_table].
  run_world.
  rewrite V2_create_indexes_eq, has_table_create_table. run_world.
  rewrite table_create_table, indexes_create_table.
  rewrite (V2_filter_male_F _ ds); [|reflexivity|exact Hd].
  run_world.
  destruct (nat_plus_numerals k) as (-> & -> & -> & ->).
  rewrite <- !app_assoc. cbn [app].
  unfold improvement. fold time_before. fold time_after.
  apply Z.eqb_neq in Hz. rewrite Hz. run_world.
  rewrite <- !app_assoc. by cbn [app].
Qed.

Lemma V3_probe_eq (db : database) :
  has_table db = true -> V3.probe db = (Ok (), db).
Proof. by destruct db as [[rows|] ixs]. Qed.

Lemma V3_optimize_database_eq (clock : nat -> Z) (db : database) (k : nat)
    (tr : list event) :
  let time_before := (clock (k + 1)%nat - clock k)%Z in
  let time_after := (clock (k + 3)%nat - clock (k + 2)%nat)%Z in
  has_table db = true ->
  time_before <> 0%Z ->
  V3.optimize_database clock (mkWorld db k tr)
  = (V3.mkResponse 200 (Some (time_before, time_after)),
     mkWorld (mkDb (table db) (indexes db ∪ v1_indexes)) (k + 4)
       (tr ++ [Clock (clock k); ProbeQuery; Clock (clock (k + 1)%nat);
               IndexCreation;
               Clock (clock (k + 2)%nat); ProbeQuery;
               Clock (clock (k + 3)%nat);
               Report time_before time_after])).
Proof.
  intros time_before time_after Ht Hz.
  unfold V3.optimize_database, V3.route, V3.optimize_database_handler.
  run_world. rewrite V3_probe_eq by done. run_world.
  rewrite V3_create_indexes_eq, Ht. run_world.
  rewrite V3_probe_eq by done. run_world.
  destruct (nat_plus_numerals k) as (-> & -> & -> & ->).
  unfold improvement. fold time_before. fold time_after.
  apply Z.eqb_neq in Hz. rewrite Hz. run_world.
  rewrite <- !app_assoc. by cbn [app].
Qed.


(** C4, as the code has it.  The optimize operation of v1 and of v3
    creates exactly three indexes on [employees]: the compound index on
    (gender, first letter of the full name), the index on gender and the
    index on the first letter.  The optimize operation of v2 creates
    three indexes as well, but they are the compound index, an index on
    the full name and an index on the birth date.  Every version reads
    the clock immediately before and after a run of the filter query
    (in v3: of a one-row probe with the condition of the filter query),
    once before the indexes are created and once after, and reports the
    two differences; v2 and v3 report them when the first is not zero. *)
Theorem C4_optimize_indexes_and_timing (clock : nat -> Z) (now : date)
    (db : database) (k : nat) (tr : list event) :
  let time_before := (clock (k + 1)%nat - clock k)%Z in
  let time_after := (clock (k + 3)%nat - clock (k + 2)%nat)%Z in
  let timed := fun q =>
    [Clock (clock k); q; Clock (clock (k + 1)%nat); IndexCreation;
     Clock (clock (k + 2)%nat); q; Clock (clock (k + 3)%nat);
     Report time_before time_after] in
  let w := mkWorld db k tr in
  size v1_indexes = 3%nat /\ size v2_indexes = 3%nat
  /\ (let w1 := snd (V1.handle_command_6 clock now w) in
      w_db w1 = mkDb (Some (rows_of db)) (indexes db ∪ v1_indexes)
      /\ w_trace w1 = tr ++ timed FilterQuery)
  /\ (has_table db = true -> time_before <> 0%Z ->
      V3.optimize_database clock w
      = (V3.mkResponse 200 (Some (time_before, time_after)),
         mkWorld (mkDb (table db) (indexes db ∪ v1_indexes)) (k + 4)
                 (tr ++ timed ProbeQuery)))
  /\ (forall ds,
        V2.to_dicts (List.filter male_F_or_f (rows_of db)) = Ok ds ->
        time_before <> 0%Z ->
        V2._optimize_db clock w
        = (Ok (),
           mkWorld (mkDb (Some (rows_of db)) (indexes db ∪ v2_indexes)) (k + 4)
                   (tr ++ timed FilterQuery))).
Proof.
  intros time_before time_after timed w.
  split; [reflexivity|]. split; [reflexivity|]. split; [|split].
  - subst w. rewrite V1_handle_command_6_eq. by cbn [snd w_db w_trace].
  - intros Ht Hz. by apply V3_optimize_database_eq.
  - intros ds Hd Hz. by apply (V2_optimize_db_eq _ _ _ _ ds).
Qed.

(** C4 applied to a clock that advances by ten between two readings and
    to the database that holds the empty table and no index. *)
Lemma C4_optimize_indexes_and_timing_witness :
  let clock := fun n => (10 * Z.of_nat n)%Z in
  let w := mkWorld (mkDb (Some []) ∅) 0 [] in
  V3.optimize_database clock w
  = (V3.mkResponse 200 (Some (10, 10)%Z),
     mkWorld (mkDb (Some []) (∅ ∪ v1_indexes)) 4
       [Clock 0; ProbeQuery; Clock 10; IndexCreation;
        Clock 20; ProbeQuery; Clock 30; Report 10 10])
  /\ V2._optimize_db clock w
     = (Ok (),
        mkWorld (mkDb (Some []) (∅ ∪ v2_indexes)) 4
          [Clock 0; FilterQuery; Clock 10; IndexCreation;
           Clock 20; FilterQuery; Clock 30; Report 10 10]).
Proof.
  destruct (C4_optimize_indexes_and_timing
              (fun n => (10 * Z.of_nat n)%Z) (mkDate 2026 11 3)
              (mkDb (Some []) ∅) 0 []) as (_ & _ & _ & H3 & H2).
  split.
  - apply H3; [reflexivity|discriminate].
  - apply (H2 []); [reflexivity|discriminate].
Defined.

(** C4, as the specification states it, fails in v2: after its optimize
    operation on a database without indexes, no index is the single
    index on gender and none is the single index on the first letter of
    the full name; the two single indexes are on the whole full name
    and on the birth date. *)
Lemma C4_counterexample :
  let db := snd (V2.create_indexes (mkDb (Some []) ∅)) in
  (forall name, indexes db !! name <> Some [IxColumn col_gender])
  /\ (forall name, indexes db !! name <> Some [first_letter])
  /\ indexes db !! "idx_full_name" = Some [IxColumn col_full_name]
  /\ indexes db !! "idx_birth_date" = Some [IxColumn col_birth_date]
  /\ size (indexes db) = 3%nat.
Proof.
  cbv zeta. rewrite V2_create_indexes_eq.
  cbn [has_table table indexes snd]. rewrite (left_id_L ∅ (∪)).
  assert (H : forall name e, v2_indexes !! name = Some e ->
            e = [IxColumn col_gender; first_letter]
            \/ e = [IxColumn col_full_name] \/ e = [IxColumn col_birth_date]).
  { intros name e. unfold v2_indexes.
    rewrite !lookup_union_Some_raw, !lookup_singleton_Some.
    intros [[[_ <-]|[_ [_ <-]]]|[_ [_ <-]]]; auto. }
  split; [|split; [|split; [|split]]]; try reflexivity.
  - intros name Hn. by destruct (H _ _ Hn) as [?|[?|?]].
  - intros name Hn. by destruct (H _ _ Hn) as [?|[?|?]].
Qed.

(** ** C5: the age *)

(** The rule of the specification: the difference of the years, less
    one when today's (month, day) comes before the (month, day) of
    birth. *)
Lemma calculate_age_rule (today : date) (e : V2.Employee) :
  let b := V2.e_birth_date e in
  V2.calculate_age today e
  = (year today - year b
     - (if decide (birthday_to_come today b) then 1 else 0))%Z.
Proof.
  intros b. unfold V2.calculate_age, birthday_to_come. fold b.
  destruct (Z.ltb_spec (month today) (month b)),
    (Z.eqb_spec (month today) (month b)),
    (Z.ltb_spec (day today) (day b)); cbn [orb andb];
    case_decide; lia.
Qed.

Lemma digit_zero_padded (x : Z) :
  (0 <= x)%Z -> digit (Z.to_N (48 + x mod 10)) = Some (x mod 10)%Z.
Proof.
  intros Hx. unfold digit.
  assert (0 <= x mod 10 < 10)%Z by (apply Z.mod_pos_bound; lia).
  replace (in_range 48 57 (Z.to_N (48 + x mod 10))) with true.
  - f_equal. lia.
  - symmetry. apply in_range_spec. lia.
Qed.

Lemma zero_padded_2 (n : Z) :
  zero_padded 2 n
  = [Z.to_N (48 + (n / 10) mod 10); Z.to_N (48 + n mod 10)].
Proof. reflexivity. Qed.

Lemma zero_padded_4 (n : Z) :
  zero_padded 4 n
  = [Z.to_N (48 + (n / 10 / 10 / 10) mod 10);
     Z.to_N (48 + (n / 10 / 10) mod 10);
     Z.to_N (48 + (n / 10) mod 10); Z.to_N (48 + n mod 10)].
Proof. reflexivity. Qed.

Lemma four_digits (n : Z) :
  (0 <= n < 10000)%Z ->
  ((n / 10 / 10 / 10) mod 10 * 1000 + (n / 10 / 10) mod 10 * 100
   + (n / 10) mod 10 * 10 + n mod 10 = n)%Z.
Proof. intros H. Z.div_mod_to_equations. lia. Qed.

Lemma two_digits_value (n : Z) :
  (0 <= n < 100)%Z -> ((n / 10) mod 10 * 10 + n mod 10 = n)%Z.
Proof. intros H. Z.div_mod_to_equations. lia. Qed.

(** The integer SQLite reads back from a formatted year. *)
Lemma cast_integer_year (y : Z) :
  (0 <= y < 10000)%Z -> cast_integer (zero_padded 4 y) = y.
Proof.
  intros H. rewrite zero_padded_4. unfold cast_integer.
  cbn [leading_integer].
  rewrite !digit_zero_padded by (repeat apply Z.div_pos; lia).
  cbn [leading_integer]. pose proof (four_digits y H). lia.
Qed.

(** SQLite reads the text [isoformat] writes. *)
Lemma parse_date_isoformat (d : date) :
  printable d -> SQLite.parse_date (isoformat d) = Some d.
Proof.
  intros (Hy & Hm & Hd). destruct d as [y m dd]. cbn [year month day] in *.
  unfold isoformat. cbn [year month day].
  rewrite zero_padded_4, !zero_padded_2. cbn [app].
  unfold SQLite.parse_date.
  rewrite !digit_zero_padded by (repeat apply Z.div_pos; lia).
  rewrite !N.eqb_refl. cbn [andb].
  rewrite (two_digits_value m), (two_digits_value dd) by lia.
  pose proof (four_digits y Hy) as ->.
  destruct (Z.leb_spec 1 m), (Z.leb_spec m 12), (Z.leb_spec 1 dd),
    (Z.leb_spec dd 31); try lia.
  reflexivity.
Qed.

Lemma compare_digit_codes (x y : Z) :
  (0 <= x)%Z -> (0 <= y)%Z ->
  (Z.to_N (48 + x) ?= Z.to_N (48 + y)) = (x ?= y)%Z.
Proof.
  intros Hx Hy. rewrite Z2N.inj_compare by lia.
  apply Z.add_compare_mono_l.
Qed.

(** The comparison of two texts [mm-dd] is the comparison of the pairs
    (month, day). *)
Lemma text_lt_month_day (a b : date) :
  (0 <= month a < 100)%Z -> (0 <= day a < 100)%Z ->
  (0 <= month b < 100)%Z -> (0 <= day b < 100)%Z ->
  text_lt (strftime_md a) (strftime_md b) = bool_decide (birthday_to_come a b).
Proof.
  intros Hma Hda Hmb Hdb. unfold strftime_md, birthday_to_come.
  rewrite !zero_padded_2. cbn [app]. unfold text_lt. cbn [text_compare].
  assert (Hpos : forall x, (0 <= x)%Z -> (0 <= x mod 10)%Z)
    by (intros; apply Z.mod_pos_bound; lia).
  change (hyphen ?= hyphen) with Eq. cbv iota.
  rewrite !compare_digit_codes
    by (try apply Hpos; repeat apply Z.div_pos; lia).
  pose proof (two_digits_value (month a) Hma).
  pose proof (two_digits_value (month b) Hmb).
  pose proof (two_digits_value (day a) Hda).
  pose proof (two_digits_value (day b) Hdb).
  assert (Hr : forall x, (0 <= x mod 10 < 10)%Z)
    by (intros; apply Z.mod_pos_bound; lia).
  pose proof (Hr (month a)). pose proof (Hr (month b)).
  pose proof (Hr (month a / 10)%Z). pose proof (Hr (month b / 10)%Z).
  pose proof (Hr (day a)). pose proof (Hr (day b)).
  pose proof (Hr (day a / 10)%Z). pose proof (Hr (day b / 10)%Z).
  destruct (Z.compare_spec ((month a / 10) mod 10) ((month b / 10) mod 10));
    [destruct (Z.compare_spec (month a mod 10) (month b mod 10));
     [destruct (Z.compare_spec ((day a / 10) mod 10) ((day b / 10) mod 10));
      [destruct (Z.compare_spec (day a mod 10) (day b mod 10))|..]|..]|..];
    symmetry;
    first [apply bool_decide_eq_true | apply bool_decide_eq_false]; lia.
Qed.

(** The [age] column for a birth date stored as [isoformat] writes it:
    the rule of the specification. *)
Lemma age_expr_isoformat (now birth : date) :
  printable now -> printable birth ->
  age_expr now (isoformat birth)
  = Some (year now - year birth
          - (if decide (birthday_to_come now birth) then 1 else 0))%Z.
Proof.
  intros Hn Hb. unfold age_expr. rewrite parse_date_isoformat by done.
  unfold strftime_Y.
  destruct Hn as (Hyn & Hmn & Hdn), Hb as (Hyb & Hmb & Hdb).
  rewrite !cast_integer_year by done.
  rewrite text_lt_month_day by lia.
  destruct (decide (birthday_to_come now birth)) as [H|H];
    [rewrite bool_decide_eq_true_2|rewrite bool_decide_eq_false_2]; done.
Qed.

(** On the anniversary the age is the number of the anniversary, in v2
    and in the SQL of v1 and v3. *)
Lemma age_on_anniversary (n : Z) (e : V2.Employee) :
  let b := V2.e_birth_date e in
  V2.calculate_age (anniversary n b) e = n
  /\ (printable b -> printable (anniversary n b) ->
      age_expr (anniversary n b) (isoformat b) = Some n).
Proof.
  intros b. split.
  - rewrite calculate_age_rule. fold b. unfold birthday_to_come.
    cbn [anniversary year month day]. case_decide; lia.
  - intros Hb Ha. rewrite age_expr_isoformat by done.
    unfold birthday_to_come. cbn [anniversary year month day].
    case_decide; f_equal; lia.
Qed.

(** On the day before the anniversary the age is one less. *)
Lemma age_on_eve_of_anniversary (n : Z) (e : V2.Employee) :
  let b := V2.e_birth_date e in
  let eve := day_before (anniversary n b) in
  (1 <= month b <= 12)%Z -> (1 <= day b)%Z ->
  V2.calculate_age eve e = (n - 1)%Z
  /\ (printable b -> printable eve ->
      age_expr eve (isoformat b) = Some (n - 1)%Z).
Proof.
  intros b eve Hm Hd.
  assert (Hrule : (year eve - year b
                   - (if decide (birthday_to_come eve b) then 1 else 0)
                   = n - 1)%Z).
  { subst eve. unfold day_before, birthday_to_come.
    cbn [anniversary year month day].
    destruct (Z.ltb_spec 1 (day b)); cbn [year month day].
    { case_decide; lia. }
    destruct (Z.ltb_spec 1 (month b)); cbn [year month day].
    { case_decide; lia. }
    case_decide; lia. }
  split.
  - by rewrite calculate_age_rule.
  - intros Hb He. rewrite age_expr_isoformat by done. by f_equal.
Qed.

(** C5 is right about the rule, and v2 follows it for every birth date;
    v1 breaks it.  [add_employee] accepts the birth date "1990-5-1",
    which [strptime] reads as 1 May 1990, and stores the text as typed;
    SQLite's date functions read only the padded form, so the listing
    shows no age at all (NULL) where the rule gives 36 on 3 November
    2026.  v2 stores the same date as "1990-05-01". *)
Theorem C5_age_of_unpadded_birth_date :
  let today := mkDate 2026 11 3 in
  let db := snd (V1.add_employee (u "Ivanov Ivan") (u "1990-5-1") (u "m")
                                 empty_db) in
  fst (V1.add_employee (u "Ivanov Ivan") (u "1990-5-1") (u "m") empty_db)
  = Ok (true, [])
  /\ rows_of db = [mkRow 1 (u "Ivanov Ivan") (u "1990-5-1") Male]
  /\ fst (V1.get_all_employees today db)
     = Ok [mkListing (u "Ivanov Ivan") (u "1990-5-1") Male None]
  /\ strptime (u "1990-5-1") = Ok (mkDate 1990 5 1)
  /\ V2.calculate_age today
       (V2.mkEmployee (u "Ivanov Ivan") (mkDate 1990 5 1) Male) = 36%Z
  /\ age_expr today (isoformat (mkDate 1990 5 1)) = Some 36%Z
  /\ rows_of (snd (V2.add_employee (u "Ivanov Ivan") (u "1990-5-1") (u "m")
                                   empty_db))
     = [mkRow 1 (u "Ivanov Ivan") (u "1990-05-01") Male].
Proof. vm_compute. repeat split. Qed.

(** ** C9: the genders of the stored rows *)

Section Preservation.

Context {S : Type} (Q : S -> Prop).

Lemma preserves_ret {A} (a : A) : preserves Q (mret a).
Proof. by intros s. Qed.

Lemma preserves_raise {A} (e : exn) : preserves Q (raise e : St S A).
Proof. by intros s. Qed.

Lemma preserves_lift {A} (r : result A) : preserves Q (lift r).
Proof. by intros s. Qed.

Lemma preserves_bind {A B} (m : St S A) (k : A -> St S B) :
  preserves Q m -> (forall a, preserves Q (k a)) -> preserves Q (m ≫= k).
Proof.
  intros Hm Hk s Hs. rewrite St_bind_unfold.
  specialize (Hm s Hs). destruct (m s) as [[a|e] s']; cbn [snd] in *.
  - by apply Hk.
  - done.
Qed.

Lemma preserves_try_except {A} (m : St S A) (handles : exn -> bool)
    (h : exn -> St S A) :
  preserves Q m -> (forall e, preserves Q (h e)) ->
  preserves Q (try_except m handles h).
Proof.
  intros Hm Hh s Hs. unfold try_except.
  specialize (Hm s Hs). destruct (m s) as [[a|e] s']; cbn [snd] in *; [done|].
  destruct (handles e); [by apply Hh|done].
Qed.

Lemma preserves_for_range (body : nat -> St S unit) (n start : nat) :
  (forall i, preserves Q (body i)) -> preserves Q (for_range start n body).
Proof.
  intros Hb. revert start. induction n as [|n IH]; intros start; cbn [for_range].
  - apply preserves_ret.
  - apply preserves_bind; [apply Hb|]. intros _. apply IH.
Qed.

Lemma preserves_if {A} (b : bool) (m1 m2 : St S A) :
  preserves Q m1 -> preserves Q m2 -> preserves Q (if b then m1 else m2).
Proof. by destruct b. Qed.

End Preservation.

Lemma preserves_transaction {A} (Q : database -> Prop) (m : St database A) :
  preserves Q m -> preserves Q (transaction m).
Proof.
  intros Hm db Hdb. unfold transaction. specialize (Hm db Hdb).
  by destruct (m db) as [[a|e] db'].
Qed.

Lemma preserves_execute (Q : database -> Prop)
    (stmt : database -> result database) :
  (forall db db', Q db -> stmt db = Ok db' -> Q db') ->
  preserves Q (execute stmt).
Proof.
  intros H db Hdb. unfold execute.
  destruct (stmt db) as [db'|e] eqn:Hs; cbn [snd]; [by eapply H|done].
Qed.

(** The insertion with its parameters bound keeps what the insertion
    keeps: when a parameter cannot be bound nothing is written. *)
Lemma preserves_execute_insert (Q : database -> Prop) (fn bd g : str) :
  preserves Q (execute (insert fn bd g)) ->
  preserves Q (execute (execute_insert fn bd g)).
Proof.
  intros H db Hdb. specialize (H db Hdb). unfold execute, execute_insert in *.
  destruct (table db); [|done].
  by destruct (encodable fn && encodable bd && encodable g).
Qed.

Lemma preserves_fetch {A} (Q : database -> Prop) (q : database -> result A) :
  preserves Q (fetch q).
Proof. by intros db. Qed.

Lemma preserves_on_db {A} (Q : database -> Prop) (m : St database A) :
  preserves Q m -> preserves (fun s => Q (snd s)) (on_db m).
Proof.
  intros Hm [k db] Hdb. unfold on_db. specialize (Hm db Hdb).
  by destruct (m db).
Qed.

Lemma preserves_next_draw (Q : database -> Prop) :
  preserves (fun s : nat * database => Q (snd s)) next_draw.
Proof. by intros [k db]. Qed.

Lemma preserves_with_cursor {A} (Q : database -> Prop)
    (m : St (nat * database) A) :
  preserves (fun s => Q (snd s)) m -> preserves Q (with_cursor m).
Proof.
  intros Hm db Hdb. unfold with_cursor. specialize (Hm (O, db) Hdb).
  by destruct (m (O, db)) as [r [k db']].
Qed.

Lemma preserves_call {A} (Q : database -> Prop) (e : event)
    (m : St database A) :
  preserves Q m -> preserves (fun w => Q (w_db w)) (call e m).
Proof.
  intros Hm w Hw. unfold call. specialize (Hm _ Hw).
  by destruct (m (w_db w)).
Qed.

Lemma preserves_quietly {A} (Q : database -> Prop) (m : St database A) :
  preserves Q m -> preserves (fun w => Q (w_db w)) (quietly m).
Proof.
  intros Hm w Hw. unfold quietly. specialize (Hm _ Hw).
  by destruct (m (w_db w)).
Qed.

Lemma preserves_datetime_now (Q : database -> Prop) (clock : nat -> Z) :
  preserves (fun w => Q (w_db w)) (datetime_now clock).
Proof. by intros w. Qed.

Lemma preserves_log (Q : database -> Prop) (e : event) :
  preserves (fun w => Q (w_db w)) (log e).
Proof. by intros w. Qed.

Lemma preserves_improvement (Q : database -> Prop) (a b : Z) :
  preserves (fun w => Q (w_db w)) (improvement a b).
Proof. intros w Hw. unfold improvement. by destruct (a =? 0)%Z. Qed.

Lemma preserves_route {S A} (Q : S -> Prop) (declared : Z) (m : St S A) (s : S) :
  preserves Q m -> Q s -> Q (snd (V3.route declared m s)).
Proof.
  intros Hm Hs. unfold V3.route. specialize (Hm s Hs).
  destruct (m s) as [[a|[]] s']; done.
Qed.

(** The statements and the invariant. *)

Lemma genders_ok_create_table :
  preserves genders_ok (execute (fun db => Ok (create_table_if_not_exists db))).
Proof.
  apply preserves_execute. intros db db' H [= <-].
  unfold genders_ok. by rewrite rows_of_create_table.
Qed.

Lemma genders_ok_insert (fn bd g : str) :
  g = Male \/ g = Female -> preserves genders_ok (execute (insert fn bd g)).
Proof.
  intros Hg. apply preserves_execute. intros [[rows|] ixs] db' H; [|done].
  intros [= <-]. unfold genders_ok, rows_of in *. cbn [table default] in *.
  apply Forall_app. split; [done|]. by apply Forall_singleton.
Qed.

Lemma genders_ok_create_index (name : string) (exprs : list indexed_expr) :
  preserves genders_ok (execute (create_index_if_not_exists name exprs)).
Proof.
  apply preserves_execute. intros [[rows|] ixs] db' H; [|done].
  rewrite create_index_union. by intros [= <-].
Qed.

Lemma preserves_bind_lift {S A B} (Q : S -> Prop) (r : result A)
    (k : A -> St S B) :
  (forall a, r = Ok a -> preserves Q (k a)) -> preserves Q (lift r ≫= k).
Proof.
  intros Hk s Hs. rewrite St_bind_unfold. unfold lift.
  destruct r as [a|e]; [by apply Hk|done].
Qed.

Lemma choice_gender (draw : nat -> N) (k : nat) :
  choice draw k [Male; Female] Male = Male
  \/ choice draw k [Male; Female] Male = Female.
Proof.
  unfold choice. destruct (N.to_nat (draw k) mod length [Male; Female])%nat
    as [|[|n]]; cbn [nth]; auto.
  destruct n; auto.
Qed.

Lemma or_gender (b : bool) :
  (if b then Male else Female) = Male \/ (if b then Male else Female) = Female.
Proof. destruct b; auto. Qed.

Ltac preserve :=
  cbv zeta;
  repeat first
    [ apply preserves_ret | apply preserves_raise | apply preserves_lift
    | apply preserves_fetch | apply preserves_next_draw
    | apply preserves_execute_insert
    | apply genders_ok_create_table | apply genders_ok_create_index
    | apply genders_ok_insert; first [apply or_gender | apply choice_gender | by left | by right | assumption]
    | apply preserves_datetime_now | apply preserves_log
    | apply preserves_improvement
    | apply preserves_bind; [|intros ?]
    | apply preserves_try_except; [|intros ?]
    | apply preserves_transaction
    | apply preserves_for_range; intros ?
    | apply preserves_with_cursor
    | apply preserves_on_db
    | apply preserves_call | apply preserves_quietly
    | apply preserves_if
    | progress cbv zeta ].

Lemma genders_ok_V1_ensure : preserves genders_ok V1._ensure_table_exists.
Proof.
  intros db H. rewrite V1_ensure_table. cbn [snd].
  unfold genders_ok. by rewrite rows_of_create_table.
Qed.

Lemma genders_ok_V1_add (fn bd g : str) :
  preserves genders_ok (V1.add_employee fn bd g).
Proof.
  unfold V1.add_employee. preserve; try apply genders_ok_V1_ensure.
Qed.

Lemma genders_ok_V1_list (now : date) :
  preserves genders_ok (V1.get_all_employees now).
Proof.
  unfold V1.get_all_employees. preserve; try apply genders_ok_V1_ensure.
Qed.

Lemma genders_ok_main_record (today : date) (draw : nat -> N) (i : nat) :
  preserves (fun s => genders_ok (snd s)) (V1.main_record today draw i).
Proof. unfold V1.main_record. preserve. Qed.

Lemma genders_ok_special_record (today : date) (draw : nat -> N) (i : nat) :
  preserves (fun s => genders_ok (snd s)) (V1.special_record today draw i).
Proof. unfold V1.special_record. preserve. Qed.

Lemma genders_ok_V1_generate (today : date) (draw : nat -> N) (c s : Z) :
  preserves genders_ok (V1.generate_test_data today draw c s).
Proof.
  unfold V1.generate_test_data.
  preserve; first [apply genders_ok_V1_ensure
                  | apply genders_ok_main_record
                  | apply genders_ok_special_record].
Qed.

Lemma genders_ok_V1_query (now : date) :
  preserves genders_ok (V1.query_male_f now).
Proof. unfold V1.query_male_f. preserve; apply genders_ok_V1_ensure. Qed.

Lemma genders_ok_V1_optimize_database :
  preserves genders_ok V1.optimize_database.
Proof. unfold V1.optimize_database. preserve. Qed.

Lemma genders_ok_V1_handle_command_6 (clock : nat -> Z) (now : date) :
  preserves (fun w => genders_ok (w_db w)) (V1.handle_command_6 clock now).
Proof.
  unfold V1.handle_command_6.
  preserve; apply genders_ok_V1_ensure.
Qed.

Lemma genders_ok_V2_ensure : preserves genders_ok V2.ensure_table_exists.
Proof.
  intros db H. rewrite V2_ensure_table. cbn [snd].
  unfold genders_ok. by rewrite rows_of_create_table.
Qed.

Lemma new_Employee_gender (fn : str) (bd : date) (g : str) (e : V2.Employee) :
  V2.new_Employee fn bd g = Ok e ->
  V2.e_gender e = Male \/ V2.e_gender e = Female.
Proof.
  unfold V2.new_Employee, mbind, result_bind.
  destruct (V2._normalize_gender g) as [r|x] eqn:Hg; [|done].
  intros [= <-]. cbn [V2.e_gender]. by eapply V2_normalize_gender_range.
Qed.

Lemma genders_ok_V2_add (fn bd g : str) :
  preserves genders_ok (V2.add_employee fn bd g).
Proof.
  unfold V2.add_employee.
  apply preserves_bind; [apply genders_ok_V2_ensure|intros _].
  apply preserves_try_except; [|intros e; preserve].
  apply preserves_bind_lift. intros d _.
  apply preserves_bind_lift. intros emp Hemp.
  apply new_Employee_gender in Hemp.
  unfold V2.insert_employee, V2._execute. preserve.
Qed.

Lemma valid_employees_genders (l : list V2.employee_data) :
  Forall (fun d => V2.i_gender d = Male \/ V2.i_gender d = Female)
         (V2.valid_employees l).
Proof.
  induction l as [|d l IH]; cbn [V2.valid_employees]; [constructor|].
  destruct (V2.new_Employee _ _ _) as [emp|x] eqn:He; [|done].
  constructor; [|done]. cbn [V2.i_gender]. by eapply new_Employee_gender.
Qed.

Lemma genders_ok_executemany (l : list V2.employee_data) :
  Forall (fun d => V2.i_gender d = Male \/ V2.i_gender d = Female) l ->
  preserves genders_ok (V2.executemany l).
Proof.
  induction 1 as [|d l Hd Hl IH]; cbn [V2.executemany]; preserve. apply IH.
Qed.

Lemma genders_ok_batch_insert (l : list V2.employee_data) :
  Forall (fun d => V2.i_gender d = Male \/ V2.i_gender d = Female) l ->
  preserves genders_ok (V2.batch_insert_employees l).
Proof.
  intros H. unfold V2.batch_insert_employees.
  destruct l as [|d l]; [preserve|].
  apply preserves_try_except; [|intros e; preserve].
  apply preserves_transaction.
  apply preserves_bind; [by apply genders_ok_executemany|intros _; preserve].
Qed.

Lemma genders_ok_V2_batch_add (l : list V2.employee_data) :
  preserves genders_ok (V2.batch_add_employees l).
Proof.
  unfold V2.batch_add_employees.
  apply preserves_bind; [apply genders_ok_V2_ensure|intros _].
  apply preserves_try_except; [|intros e; preserve].
  apply genders_ok_batch_insert, valid_employees_genders.
Qed.

Lemma genders_ok_V2_list : preserves genders_ok V2.get_all_employees.
Proof.
  unfold V2.get_all_employees, V2.db_get_all_employees, V2._execute.
  preserve.
Qed.

Lemma genders_ok_V2_search (g p : str) :
  preserves genders_ok (V2.search_employees g p).
Proof.
  unfold V2.search_employees. preserve.
Qed.

Lemma genders_ok_V2_optimize (clock : nat -> Z) :
  preserves (fun w => genders_ok (w_db w)) (V2._optimize_db clock).
Proof.
  unfold V2._optimize_db, V2.optimize_and_test.
  apply preserves_bind; [|intros [a b]; preserve].
  preserve.
Qed.

Lemma genders_ok_add_batches (fake : V2.Faker) (draw : nat -> N)
    (n k : nat) (total : Z) :
  preserves genders_ok (V2.add_batches fake draw n k total).
Proof.
  revert k total. induction n as [|n IH]; intros k total;
    cbn [V2.add_batches]; [apply preserves_ret|].
  apply preserves_bind; [apply genders_ok_V2_batch_add|intros a; apply IH].
Qed.

Lemma genders_ok_V2_generate (fake : V2.Faker) (draw : nat -> N) (c s : Z) :
  preserves genders_ok (V2.generate_test_data fake draw c s).
Proof.
  unfold V2.generate_test_data.
  apply preserves_bind; [apply genders_ok_V2_ensure|intros _].
  apply preserves_try_except; [|intros e; preserve].
  apply preserves_bind; [apply genders_ok_add_batches|intros [t k]].
  apply preserves_bind; [apply genders_ok_V2_batch_add|intros a]. preserve.
Qed.

Lemma genders_ok_V3_create (e : V3.EmployeeCreate) :
  preserves genders_ok (V3.create_employee_handler e).
Proof. unfold V3.create_employee_handler. preserve. Qed.

Lemma genders_ok_V3_generate (today : date) (draw : nat -> N) (c s : Z) :
  preserves genders_ok (V3.generate_test_data_handler today draw c s).
Proof.
  unfold V3.generate_test_data_handler.
  preserve; first [apply genders_ok_main_record
                  | apply genders_ok_special_record].
Qed.

Lemma genders_ok_V3_optimize (clock : nat -> Z) :
  preserves (fun w => genders_ok (w_db w)) (V3.optimize_database_handler clock).
Proof. unfold V3.optimize_database_handler, V3.create_indexes, V3.probe. preserve. Qed.

(** Every operation keeps the invariant. *)
Lemma genders_ok_run (op : operation) (db : database) :
  genders_ok db -> genders_ok (run op db).
Proof.
  intros H. destruct op; cbn [run].
  - by apply genders_ok_create_table.
  - by apply genders_ok_V1_add.
  - by apply genders_ok_V1_list.
  - by apply genders_ok_V1_generate.
  - by apply genders_ok_V1_query.
  - by apply genders_ok_V1_optimize_database.
  - by apply (genders_ok_V1_handle_command_6 clock now (mkWorld db 0 [])).
  - by apply genders_ok_V2_ensure.
  - by apply genders_ok_V2_add.
  - by apply genders_ok_V2_batch_add.
  - by apply genders_ok_V2_list.
  - unfold V2.get_male_employees_with_f_surname.
    revert db H. change (preserves genders_ok
      (V2.ensure_table_exists ;;
       V2.get_employees_by_gender_and_name_start Male (u "F"))).
    preserve.
  - by apply genders_ok_V2_search.
  - by apply (genders_ok_V2_optimize clock (mkWorld db 0 [])).
  - by apply genders_ok_V2_generate.
  - by apply genders_ok_create_table.
  - apply (preserves_route genders_ok); [apply genders_ok_V3_create|done].
  - apply (preserves_route genders_ok); [preserve|done].
  - apply (preserves_route genders_ok); [apply genders_ok_V3_generate|done].
  - apply (preserves_route genders_ok); [preserve|done].
  - by apply (preserves_route (fun w => genders_ok (w_db w)) _ _
                (mkWorld db 0 []) (genders_ok_V3_optimize clock)).
Qed.

(** C9.  In every database state reached from the empty file through
    the public operations of the three versions, in any order, the
    gender of every stored row is exactly "Male" or "Female". *)
Theorem C9_stored_genders (db : database) :
  reachable db ->
  forall r, In r (rows_of db) -> gender r = Male \/ gender r = Female.
Proof.
  intros Hr. assert (Hg : genders_ok db).
  { induction Hr as [|op db Hr IH]; [constructor|by apply genders_ok_run]. }
  intros r Hin. unfold genders_ok in Hg. rewrite Forall_forall in Hg.
  apply Hg. by apply list_elem_of_In.
Qed.

(** C9 applied to the database reached by adding a man through v1 with
    the gender "xyz" and a woman through v3 with the gender "ж". *)
Lemma C9_stored_genders_witness :
  let db :=
    run (V3_create_employee
           (V3.mkEmployeeCreate (u "Petrova Anna") (u "1985-01-20") cyr_zhe))
        (run (V1_add_employee (u "fedorov Ivan") (u "1990-05-15") (u "xyz"))
             empty_db) in
  length (rows_of db) = 2%nat
  /\ Forall (fun r => gender r = Male \/ gender r = Female) (rows_of db).
Proof.
  split; [reflexivity|].
  apply Forall_forall. intros r Hr. apply list_elem_of_In in Hr.
  revert r Hr. apply C9_stored_genders.
  apply reachable_run, reachable_run, reachable_empty.
Defined.

(** ** C3: bulk generation *)

Lemma for_range_ok {S} (P : nat -> S -> Prop) (body : nat -> St S unit)
    (n start : nat) (s : S) :
  P O s ->
  (forall j s, P j s ->
     exists s', body (start + j)%nat s = (Ok (), s') /\ P (Datatypes.S j) s') ->
  exists s', for_range start n body s = (Ok (), s') /\ P n s'.
Proof.
  revert P start s. induction n as [|n IH]; intros P start s H0 Hstep.
  - by exists s.
  - cbn [for_range]. rewrite St_bind_unfold.
    destruct (Hstep O s H0) as (s1 & Hb & H1).
    rewrite Nat.add_0_r in Hb. rewrite Hb.
    destruct (IH (fun j => P (Datatypes.S j)) (Datatypes.S start) s1 H1)
      as (s' & Hf & Hn).
    { intros j s2 Hj. destruct (Hstep _ _ Hj) as (s3 & Hb3 & H3).
      exists s3. split; [|done].
      by replace (Datatypes.S start + j)%nat with (start + Datatypes.S j)%nat
        by lia. }
    by exists s'.
Qed.

Lemma randint_bounds (draw : nat -> N) (k : nat) (a b : Z) :
  (a <= b)%Z -> (a <= randint draw k a b <= b)%Z.
Proof.
  intros H. unfold randint.
  pose proof (Z.mod_pos_bound (Z.of_N (draw k)) (b - a + 1)). lia.
Qed.

Lemma sub_days_ok (today : date) (n : Z) :
  generation_day today -> (18 * 365 <= n <= 65 * 365)%Z ->
  exists d, sub_days today n = Ok d.
Proof.
  intros [H1 H2] Hn. unfold sub_days.
  destruct (Z.ltb_spec 0 (toordinal today - n)); [|lia].
  destruct (Z.leb_spec (toordinal today - n) _MAXORDINAL); [|lia].
  by eexists.
Qed.

Ltac run_loop_body :=
  repeat first
    [ rewrite St_bind_unfold
    | progress unfold next_draw, on_db, lift, execute, insert
    | progress cbv beta iota zeta
    | progress cbn [table indexes] ].

Lemma main_record_ok (today : date) (draw : nat -> N) (i k : nat)
    (rows : list row) (ixs : gmap string (list indexed_expr)) :
  generation_day today ->
  exists r,
    V1.main_record today draw i (k, mkDb (Some rows) ixs)
    = (Ok (), ((k + 4)%nat, mkDb (Some (rows ++ [r])) ixs)).
Proof.
  intros Ht. unfold V1.main_record. run_loop_body.
  destruct (sub_days_ok today
              (randint draw (Datatypes.S (Datatypes.S (Datatypes.S k)))
                       (18 * 365) (65 * 365)) Ht) as (d & ->).
  { apply randint_bounds. lia. }
  run_loop_body. eexists. do 2 f_equal. lia.
Qed.

Lemma special_record_ok (today : date) (draw : nat -> N) (i k : nat)
    (rows : list row) (ixs : gmap string (list indexed_expr)) :
  generation_day today ->
  exists r,
    V1.special_record today draw i (k, mkDb (Some rows) ixs)
    = (Ok (), ((k + 1)%nat, mkDb (Some (rows ++ [r])) ixs))
    /\ male_F_or_f r = true.
Proof.
  intros Ht. unfold V1.special_record. run_loop_body.
  destruct (sub_days_ok today (randint draw k (18 * 365) (65 * 365)) Ht)
    as (d & ->).
  { apply randint_bounds. lia. }
  run_loop_body. eexists. split; [do 2 f_equal; lia|].
  reflexivity.
Qed.

(** The two loops of v1 and v3: [n] rows, then [s] rows that the filter
    query finds. *)
Lemma generation_loops (today : date) (draw : nat -> N) (n s : nat)
    (rows : list row) (ixs : gmap string (list indexed_expr)) :
  generation_day today ->
  exists main special,
    with_cursor
      (for_range 0 n (V1.main_record today draw) ;;
       for_range 0 s (V1.special_record today draw))
      (mkDb (Some rows) ixs)
    = (Ok (), mkDb (Some (rows ++ main ++ special)) ixs)
    /\ length main = n /\ length special = s
    /\ Forall (fun r => male_F_or_f r = true) special.
Proof.
  intros Ht.
  destruct (for_range_ok
              (fun j (st : nat * database) =>
                 exists added, snd st = mkDb (Some (rows ++ added)) ixs
                               /\ length added = j)
              (V1.main_record today draw) n 0 (O, mkDb (Some rows) ixs))
    as ([k1 db1] & Hloop1 & main & Hdb1 & Hlen1).
  { exists []. by rewrite app_nil_r. }
  { intros j [k db] (added & Hdb & Hlen). cbn [snd] in Hdb. subst db.
    destruct (main_record_ok today draw (0 + j) k (rows ++ added) ixs Ht)
      as (r & Hr).
    eexists. split; [exact Hr|]. exists (added ++ [r]). cbn [snd].
    rewrite app_assoc, length_app. cbn [length]. split; [done|lia]. }
  cbn [snd] in Hdb1. subst db1.
  destruct (for_range_ok
              (fun j (st : nat * database) =>
                 exists added,
                   snd st = mkDb (Some ((rows ++ main) ++ added)) ixs
                   /\ length added = j
                   /\ Forall (fun r => male_F_or_f r = true) added)
              (V1.special_record today draw) s 0
              (k1, mkDb (Some (rows ++ main)) ixs))
    as ([k2 db2] & Hloop2 & special & Hdb2 & Hlen2 & Hall).
  { exists []. by rewrite app_nil_r. }
  { intros j [k db] (added & Hdb & Hlen & Hall). cbn [snd] in Hdb. subst db.
    destruct (special_record_ok today draw (0 + j) k
                ((rows ++ main) ++ added) ixs Ht) as (r & Hr & Hm).
    eexists. split; [exact Hr|]. exists (added ++ [r]). cbn [snd].
    rewrite app_assoc, length_app. cbn [length].
    split; [done|]. split; [lia|].
    apply Forall_app. split; [done|]. by apply Forall_singleton. }
  cbn [snd] in Hdb2. subst db2.
  exists main, special. split; [|done].
  unfold with_cursor. rewrite St_bind_unfold, Hloop1, Hloop2.
  by rewrite app_assoc.
Qed.

Lemma rows_of_mk (rows : list row) (ixs : gmap string (list indexed_expr)) :
  rows_of (mkDb (Some rows) ixs) = rows.
Proof. reflexivity. Qed.

Lemma filter_all {A} (f : A -> bool) (l : list A) :
  Forall (fun x => f x = true) l -> List.filter f l = l.
Proof.
  induction 1 as [|x l Hx Hl IH]; [done|]. cbn [List.filter].
  by rewrite Hx, IH.
Qed.

(** The claim for v1: on a generation day, bulk generation with
    [N >= 0] and [S >= 0] returns [N + S], adds exactly [N + S] rows and
    leaves the filter query with at least [S] records more. *)
Lemma V1_generate_test_data_adds (today : date) (draw : nat -> N)
    (N S : Z) (db : database) :
  generation_day today -> (0 <= N)%Z -> (0 <= S)%Z ->
  let r := V1.generate_test_data today draw N S db in
  fst r = Ok (N + S)%Z
  /\ Z.of_nat (length (rows_of (snd r)))
     = (Z.of_nat (length (rows_of db)) + N + S)%Z
  /\ (Z.of_nat (matches db) + S <= Z.of_nat (matches (snd r)))%Z.
Proof.
  intros Ht HN HS r. subst r. unfold V1.generate_test_data.
  rewrite St_bind_unfold, V1_ensure_table.
  destruct (generation_loops today draw (Z.to_nat N) (Z.to_nat S)
              (rows_of db) (indexes db) Ht)
    as (main & special & Hl & Hn & Hs & Hall).
  assert (Hdb : create_table_if_not_exists db
                = mkDb (Some (rows_of db)) (indexes db))
    by by destruct db as [[rows|] ixs].
  rewrite Hdb. unfold transaction. rewrite St_bind_unfold, Hl.
  unfold mret, St_ret. cbv beta iota zeta.
  cbn [fst snd]. unfold matches. rewrite !rows_of_mk.
  rewrite !List.filter_app, !length_app, (filter_all _ special Hall).
  split; [done|]. split; lia.
Qed.

(** The claim for v3, where the table exists since the start of the
    service. *)
Lemma V3_generate_test_data_adds (today : date) (draw : nat -> N)
    (N S : Z) (db : database) :
  generation_day today -> (0 <= N)%Z -> (0 <= S)%Z -> has_table db = true ->
  let r := V3.generate_test_data today draw N S db in
  fst r = V3.mkResponse 200 (Some (N + S)%Z)
  /\ Z.of_nat (length (rows_of (snd r)))
     = (Z.of_nat (length (rows_of db)) + N + S)%Z
  /\ (Z.of_nat (matches db) + S <= Z.of_nat (matches (snd r)))%Z.
Proof.
  intros Ht HN HS Htab r. subst r.
  unfold V3.generate_test_data, V3.route, V3.generate_test_data_handler.
  destruct db as [[rows|] ixs]; [|done].
  destruct (generation_loops today draw (Z.to_nat N) (Z.to_nat S) rows ixs Ht)
    as (main & special & Hl & Hn & Hs & Hall).
  unfold transaction. rewrite St_bind_unfold, Hl.
  unfold mret, St_ret. cbv beta iota zeta.
  cbn [fst snd]. unfold matches. rewrite !rows_of_mk.
  rewrite !List.filter_app, !length_app, (filter_all _ special Hall).
  split; [done|]. split; lia.
Qed.

Lemma executemany_ok (l : list V2.employee_data) (rows : list row)
    (ixs : gmap string (list indexed_expr)) :
  exists new,
    V2.executemany l (mkDb (Some rows) ixs)
    = (Ok (), mkDb (Some (rows ++ new)) ixs)
    /\ length new = length l.
Proof.
  revert rows. induction l as [|d l IH]; intros rows; cbn [V2.executemany].
  - exists []. by rewrite app_nil_r.
  - rewrite St_bind_unfold. unfold execute at 1, insert. cbn [table indexes].
    destruct (IH (rows ++ [mkRow (Z.of_nat (length rows) + 1)
                             (V2.i_full_name d)
                             (isoformat (V2.i_birth_date d))
                             (V2.i_gender d)])) as (new & -> & Hlen).
    eexists (_ :: new). rewrite <- app_assoc. cbn [app length].
    split; [done|lia].
Qed.

Lemma batch_insert_ok (l : list V2.employee_data) (rows : list row)
    (ixs : gmap string (list indexed_expr)) :
  exists new,
    V2.batch_insert_employees l (mkDb (Some rows) ixs)
    = (Ok (Z.of_nat (length l)), mkDb (Some (rows ++ new)) ixs)
    /\ length new = length l.
Proof.
  destruct l as [|d l].
  - exists []. by rewrite app_nil_r.
  - destruct (executemany_ok (d :: l) rows ixs) as (new & He & Hlen).
    exists new. split; [|done].
    unfold V2.batch_insert_employees, try_except, transaction.
    by rewrite St_bind_unfold, He.
Qed.

Lemma normalize_Male : V2._normalize_gender Male = Ok Male.
Proof. reflexivity. Qed.

Lemma normalize_Female : V2._normalize_gender Female = Ok Female.
Proof. reflexivity. Qed.

Lemma valid_employees_length (l : list V2.employee_data) :
  Forall (fun d => V2.i_gender d = Male \/ V2.i_gender d = Female) l ->
  length (V2.valid_employees l) = length l.
Proof.
  induction 1 as [|d l Hd Hl IH]; [done|]. cbn [V2.valid_employees].
  assert (Hn : exists emp,
             V2.new_Employee (V2.i_full_name d) (V2.i_birth_date d)
                             (V2.i_gender d) = Ok emp).
  { unfold V2.new_Employee.
    destruct Hd as [-> | ->];
      [rewrite normalize_Male|rewrite normalize_Female]; by eexists. }
  destruct Hn as (emp & ->). cbn [length]. by rewrite IH.
Qed.

Lemma batch_add_ok (l : list V2.employee_data) (rows : list row)
    (ixs : gmap string (list indexed_expr)) :
  Forall (fun d => V2.i_gender d = Male \/ V2.i_gender d = Female) l ->
  exists new,
    V2.batch_add_employees l (mkDb (Some rows) ixs)
    = (Ok (Z.of_nat (length l)), mkDb (Some (rows ++ new)) ixs)
    /\ length new = length l.
Proof.
  intros Hl. unfold V2.batch_add_employees.
  rewrite St_bind_unfold, V2_ensure_table.
  cbn [create_table_if_not_exists table]. unfold try_except.
  destruct (batch_insert_ok (V2.valid_employees l) rows ixs)
    as (new & -> & Hlen).
  rewrite valid_employees_length in * by done. by exists new.
Qed.

Lemma make_batch_genders (fake : V2.Faker) (draw : nat -> N) (n k : nat) :
  Forall (fun d => V2.i_gender d = Male \/ V2.i_gender d = Female)
         (V2.make_batch fake draw n k)
  /\ length (V2.make_batch fake draw n k) = n.
Proof.
  revert k. induction n as [|n IH]; intros k; cbn [V2.make_batch].
  - by split.
  - destruct (IH (k + 4)%nat) as [Hf Hl]. split.
    + constructor; [|done]. cbn [V2.i_gender]. apply choice_gender.
    + cbn [length]. by rewrite Hl.
Qed.

Lemma special_batch_genders (fake : V2.Faker) (n k : nat) :
  Forall (fun d => V2.i_gender d = Male \/ V2.i_gender d = Female)
         (V2.special_batch fake n k)
  /\ length (V2.special_batch fake n k) = n.
Proof.
  revert k. induction n as [|n IH]; intros k; cbn [V2.special_batch].
  - by split.
  - destruct (IH (k + 3)%nat) as [Hf Hl]. split.
    + constructor; [|done]. by left.
    + cbn [length]. by rewrite Hl.
Qed.

Lemma add_batches_ok (fake : V2.Faker) (draw : nat -> N) (n k : nat)
    (total : Z) (rows : list row) (ixs : gmap string (list indexed_expr)) :
  exists new k',
    V2.add_batches fake draw n k total (mkDb (Some rows) ixs)
    = (Ok ((total + Z.of_nat n * V2.batch_size)%Z, k'),
       mkDb (Some (rows ++ new)) ixs)
    /\ Z.of_nat (length new) = (Z.of_nat n * V2.batch_size)%Z.
Proof.
  revert k total rows. induction n as [|n IH]; intros k total rows;
    cbn [V2.add_batches].
  - exists [], k. rewrite app_nil_r, Z.add_0_r. by split.
  - rewrite St_bind_unfold.
    destruct (make_batch_genders fake draw (Z.to_nat V2.batch_size) k)
      as [Hg Hl].
    destruct (batch_add_ok _ rows ixs Hg) as (new1 & -> & Hlen1).
    rewrite Hl in *.
    destruct (IH (k + 4 * Z.to_nat V2.batch_size)%nat
                 (total + Z.of_nat (Z.to_nat V2.batch_size))%Z
                 (rows ++ new1)) as (new2 & k' & -> & Hlen2).
    exists (new1 ++ new2), k'. rewrite app_assoc, length_app.
    assert (Hb : Z.of_nat (Z.to_nat V2.batch_size) = V2.batch_size)
      by (apply Z2Nat.id; discriminate).
    split; [do 3 f_equal; lia|lia].
Qed.

(** What v2 adds: [count] rounded down to a multiple of the batch size,
    plus the special records. *)
Lemma V2_generate_test_data_adds (fake : V2.Faker) (draw : nat -> N)
    (N S : Z) (db : database) :
  (0 <= N)%Z -> (0 <= S)%Z ->
  let r := V2.generate_test_data fake draw N S db in
  let whole_batches := (N / V2.batch_size * V2.batch_size)%Z in
  fst r = Ok (whole_batches + S, S)%Z
  /\ Z.of_nat (length (rows_of (snd r)))
     = (Z.of_nat (length (rows_of db)) + whole_batches + S)%Z.
Proof.
  intros HN HS r whole. subst r. unfold V2.generate_test_data.
  rewrite St_bind_unfold, V2_ensure_table.
  assert (Hdb : create_table_if_not_exists db
                = mkDb (Some (rows_of db)) (indexes db))
    by by destruct db as [[rows|] ixs].
  rewrite Hdb. unfold try_except. rewrite St_bind_unfold.
  destruct (add_batches_ok fake draw (Z.to_nat (N / V2.batch_size)) 0 0
              (rows_of db) (indexes db)) as (new1 & k & -> & Hlen1).
  cbv beta iota zeta. rewrite St_bind_unfold.
  destruct (special_batch_genders fake (Z.to_nat S) k) as [Hg Hl].
  destruct (batch_add_ok _ (rows_of db ++ new1) (indexes db) Hg)
    as (new2 & -> & Hlen2).
  rewrite Hl in *. unfold mret, St_ret. cbv beta iota zeta. cbn [fst snd].
  rewrite rows_of_mk, !length_app.
  assert (0 <= N / V2.batch_size)%Z by (apply Z.div_pos; [lia|done]).
  subst whole. unfold V2.batch_size in *.
  split; [do 2 f_equal; lia|lia].
Qed.

(** C3 is right about v1 and v3 (see [V1_generate_test_data_adds] and
    [V3_generate_test_data_adds]); v2 breaks it.  Bulk generation of v2
    with count = 5 and special = 1 on the empty file reports one record
    and stores one row, where the claim requires six: the main loop
    runs [count // 10000] whole batches and drops the remainder. *)
Theorem C3_v2_generation_drops_remainder :
  let r := V2.generate_test_data sample_faker (fun _ => 0) 5 1 empty_db in
  fst r = Ok (1, 1)%Z
  /\ rows_of (snd r) = [mkRow 1 (u "Fake_smith John") (u "1990-05-15") Male]
  /\ Z.of_nat (length (rows_of (snd r)))
     <> (Z.of_nat (length (rows_of empty_db)) + 5 + 1)%Z.
Proof. vm_compute. repeat split. discriminate. Qed.

(** ** C7: name normalisation *)

(** C7, as the specification states it, fails: the name "ŉ" (U+0149)
    is normalised to "ʼN" (U+02BC, U+004E), whose title case is the two
    characters of the full case mapping, and normalising that gives
    "ʼn". *)
Lemma C7_counterexample :
  V2._normalize_name [0x149] = [0x2BC; 0x4E]
  /\ V2._normalize_name (V2._normalize_name [0x149]) = [0x2BC; 0x6E]
  /\ V2._normalize_name (V2._normalize_name [0x149])
     <> V2._normalize_name [0x149].
Proof. vm_compute. repeat split. discriminate. Qed.

Lemma lookup_In {A} (c : N) (table : list (N * A)) (a : A) :
  lookup c table = Some a -> In (c, a) table.
Proof.
  unfold lookup. destruct (List.find _ table) as [[c' a']|] eqn:H; [|done].
  intros [= <-]. apply find_some in H as [Hin Hc]. cbn [fst] in Hc.
  apply N.eqb_eq in Hc. by subst.
Qed.

Lemma lowercase_settled : lowercase_tables_settled = true.
Proof. vm_compute. reflexivity. Qed.

Lemma titlecase_settled : titlecase_tables_settled = true.
Proof. vm_compute. reflexivity. Qed.

Lemma no_space_Forall (l : str) :
  no_space l = true -> Forall (fun x => isspace x = false) l.
Proof.
  intros H. apply Forall_forall. intros x Hx. unfold no_space in H.
  rewrite forallb_forall in H. apply list_elem_of_In in Hx.
  specialize (H x Hx). by apply negb_true_iff in H.
Qed.

Lemma forallb_Forall (P : N -> bool) (l : str) :
  forallb P l = true -> Forall (fun x => P x = true) l.
Proof.
  intros H. apply Forall_forall. intros x Hx.
  rewrite forallb_forall in H. apply list_elem_of_In in Hx. by apply H.
Qed.

(** The lower-case mapping of a code point is the code point itself, or
    characters that [str.lower()] leaves alone and that are not white
    space. *)
Lemma lower_full_spec (c : N) :
  lower_full c = [c]
  \/ (Forall (fun x => lower_stable x = true) (lower_full c)
      /\ Forall (fun x => isspace x = false) (lower_full c)).
Proof.
  pose proof lowercase_settled as H. unfold lowercase_tables_settled in H.
  apply andb_true_iff in H as [Hsimple Hspecial].
  rewrite forallb_forall in Hsimple. rewrite forallb_forall in Hspecial.
  unfold lower_full, full_mapping.
  destruct (lookup c special_lowercase) as [l|] eqn:H1.
  { right. apply lookup_In, Hspecial in H1. cbn [snd] in H1.
    apply andb_true_iff in H1 as [Ha Hb].
    split; [by apply forallb_Forall|by apply no_space_Forall]. }
  destruct (lookup c simple_lowercase) as [x|] eqn:H2; [|by left].
  right. apply lookup_In, Hsimple in H2. cbn [snd] in H2.
  apply andb_true_iff in H2 as [Ha Hb]. apply negb_true_iff in Hb.
  split; by apply Forall_singleton.
Qed.

Lemma handle_capital_sigma_cases (before after : str) :
  handle_capital_sigma before after = 0x3C2
  \/ handle_capital_sigma before after = 0x3C3.
Proof.
  unfold handle_capital_sigma. cbv zeta.
  match goal with |- context [if ?b then _ else _] => destruct b end; auto.
Qed.

Lemma lower_ucs4_stable (before : str) (c : N) (after : str) :
  Forall (fun x => lower_stable x = true) (lower_ucs4 before c after).
Proof.
  unfold lower_ucs4. destruct (c =? 0x3A3) eqn:Hc.
  - apply Forall_singleton.
    by destruct (handle_capital_sigma_cases before after) as [-> | ->].
  - destruct (lower_full_spec c) as [H|[H _]]; [|done].
    rewrite H. apply Forall_singleton. unfold lower_stable.
    rewrite H, Hc. unfold eqb. by rewrite bool_decide_eq_true_2.
Qed.

Lemma lower_ucs4_no_space (before : str) (c : N) (after : str) :
  isspace c = false ->
  Forall (fun x => isspace x = false) (lower_ucs4 before c after).
Proof.
  intros Hs. unfold lower_ucs4. destruct (c =? 0x3A3) eqn:Hc.
  - apply Forall_singleton.
    by destruct (handle_capital_sigma_cases before after) as [-> | ->].
  - destruct (lower_full_spec c) as [H|[_ H]]; [|done].
    rewrite H. by apply Forall_singleton.
Qed.

Lemma lower_from_stable (before s : str) :
  Forall (fun x => lower_stable x = true) (lower_from before s).
Proof.
  revert before. induction s as [|c s IH]; intros before; [constructor|].
  cbn [lower_from]. apply Forall_app. split; [apply lower_ucs4_stable|apply IH].
Qed.

Lemma lower_from_no_space (before s : str) :
  Forall (fun x => isspace x = false) s ->
  Forall (fun x => isspace x = false) (lower_from before s).
Proof.
  intros H. revert before. induction H as [|c s Hc Hs IH]; intros before;
    [constructor|].
  cbn [lower_from]. apply Forall_app.
  split; [by apply lower_ucs4_no_space|apply IH].
Qed.

(** [str.lower()] changes nothing in a run of characters it leaves
    alone, whatever stands before the run. *)
Lemma lower_from_of_stable (before s : str) :
  Forall (fun x => lower_stable x = true) s -> lower_from before s = s.
Proof.
  intros H. revert before. induction H as [|c s Hc Hs IH]; intros before;
    [done|].
  cbn [lower_from]. rewrite IH. unfold lower_stable in Hc.
  apply andb_true_iff in Hc as [Hfix Hsigma].
  apply bool_decide_eq_true in Hfix. apply negb_true_iff in Hsigma.
  unfold lower_ucs4. by rewrite Hsigma, Hfix.
Qed.

(** The title-case mapping of a code point begins with a character that
    is its own title case; what follows is left alone by [str.lower()],
    except after U+0149. *)
Lemma title_full_spec (c : N) :
  exists t ts,
    title_full c = t :: ts /\ title_full t = [t]
    /\ (c <> 0x149 -> Forall (fun x => lower_stable x = true) ts)
    /\ (isspace c = false -> Forall (fun x => isspace x = false) (t :: ts)).
Proof.
  pose proof titlecase_settled as H. unfold titlecase_tables_settled in H.
  apply andb_true_iff in H as [Hsimple Hspecial].
  rewrite forallb_forall in Hsimple. rewrite forallb_forall in Hspecial.
  destruct (lookup c special_titlecase) as [l|] eqn:H1.
  { assert (Hl : title_full c = l).
    { unfold title_full, full_mapping. by rewrite H1. }
    apply lookup_In, Hspecial in H1. cbn [fst snd] in H1.
    apply andb_true_iff in H1 as [Ha Hb]. destruct l as [|t ts]; [done|].
    apply andb_true_iff in Ha as [Ht Hts].
    exists t, ts. split; [done|]. split; [by apply bool_decide_eq_true in Ht|].
    split; [|intros _; by apply no_space_Forall].
    intros Hc. apply orb_true_iff in Hts as [Hts|Hts].
    - by apply N.eqb_eq in Hts.
    - by apply forallb_Forall. }
  destruct (lookup c simple_titlecase) as [x|] eqn:H2.
  { assert (Hl : title_full c = [x]).
    { unfold title_full, full_mapping. by rewrite H1, H2. }
    apply lookup_In, Hsimple in H2. cbn [snd] in H2.
    apply andb_true_iff in H2 as [Ha Hb]. apply negb_true_iff in Hb.
    exists x, []. split; [done|]. split; [by apply bool_decide_eq_true in Ha|].
    split; [constructor|]. intros _. by apply Forall_singleton. }
  assert (Hl : title_full c = [c]).
  { unfold title_full, full_mapping. by rewrite H1, H2. }
  exists c, []. split; [done|]. split; [done|]. split; [constructor|].
  intros Hc. by apply Forall_singleton.
Qed.

Lemma capitalize_token (t : str) : token t -> token (capitalize t).
Proof.
  intros [Hne Hns]. destruct t as [|c rest]; [done|].
  apply Forall_cons in Hns as [Hnc Hnrest].
  destruct (title_full_spec c) as (t1 & ts & Ht & _ & _ & Hsp).
  cbn [capitalize]. split.
  - rewrite Ht. discriminate.
  - apply Forall_app. rewrite Ht. split; [by apply Hsp|].
    by apply lower_from_no_space.
Qed.

(** Capitalising twice is capitalising once, for a token that does not
    begin with U+0149 ... *)
Lemma capitalize_idempotent (t : str) :
  begins_plainly t -> capitalize (capitalize t) = capitalize t.
Proof.
  intros Hb. destruct t as [|c rest]; [done|].
  assert (Hc : c <> 0x149).
  { intros ->. by apply Hb. }
  destruct (title_full_spec c) as (t1 & ts & Ht & Ht1 & Hts & _).
  cbn [capitalize]. rewrite Ht. cbn [app capitalize]. rewrite Ht1.
  cbn [app]. f_equal. apply lower_from_of_stable, Forall_app.
  split; [by apply Hts|apply lower_from_stable].
Qed.

(** ... and for no other: the title case of U+0149 is U+02BC followed
    by a capital N, which the second capitalisation puts in lower
    case. *)
Lemma capitalize_not_idempotent (rest : str) :
  capitalize (capitalize (0x149 :: rest)) <> capitalize (0x149 :: rest).
Proof.
  cbn [capitalize].
  change (title_full 0x149) with [0x2BC; 0x4E]. cbn [app capitalize].
  change (title_full 0x2BC) with [0x2BC]. cbn [app lower_from].
  change (lower_ucs4 [0x2BC] 0x4E (lower_from [0x149] rest)) with [0x6E].
  discriminate.
Qed.

Lemma split_from_app (t cur rest : str) :
  Forall (fun c => isspace c = false) t ->
  split_from cur (t ++ rest) = split_from (rev t ++ cur) rest.
Proof.
  intros Ht. revert cur. induction Ht as [|c t Hc Ht IH]; intros cur; [done|].
  cbn [app split_from rev]. rewrite Hc, IH. by rewrite <- app_assoc.
Qed.

Lemma rev_not_nil {A} (l : list A) : l <> [] -> rev l <> [].
Proof.
  destruct l as [|x l]; [done|]. intros _ H.
  apply (f_equal (@length A)) in H. cbn [rev] in H.
  rewrite length_app in H. cbn [length] in H. lia.
Qed.

(** Splitting what [join] wrote gives the tokens back. *)
Lemma split_join (toks : list str) :
  Forall token toks -> split (join (u " ") toks) = toks.
Proof.
  induction 1 as [|t toks [Hne Hns] Htoks IH]; [done|].
  unfold split in *. cbn [join].
  destruct toks as [|t2 toks].
  - rewrite <- (app_nil_r t) at 1. rewrite split_from_app by done.
    rewrite app_nil_r. cbn [split_from].
    pose proof (rev_not_nil t Hne).
    destruct (rev t) as [|x l] eqn:Hr; [done|].
    by rewrite <- Hr, rev_involutive.
  - rewrite split_from_app by done. rewrite app_nil_r.
    change (u " " ++ join (u " ") (t2 :: toks))
      with (32 :: join (u " ") (t2 :: toks)).
    cbn [split_from]. change (isspace 32) with true. cbv iota.
    pose proof (rev_not_nil t Hne).
    destruct (rev t) as [|x l] eqn:Hr; [done|].
    by rewrite <- Hr, rev_involutive, IH.
Qed.

(** [split] returns tokens made of characters of its argument. *)
Lemma split_from_tokens (P : N -> Prop) (s cur : str) :
  Forall (fun c => isspace c = false) cur -> Forall P cur -> Forall P s ->
  Forall (fun t => token t /\ Forall P t) (split_from cur s).
Proof.
  intros Hcur HPcur Hs. revert cur Hcur HPcur.
  induction Hs as [|c s Hc Hs IH]; intros cur Hcur HPcur; cbn [split_from].
  - destruct cur as [|x cur]; [constructor|].
    apply Forall_singleton. split; [split|].
    + apply rev_not_nil. discriminate.
    + by apply Forall_rev.
    + by apply Forall_rev.
  - destruct (isspace c) eqn:Hsp.
    + destruct cur as [|x cur]; [by apply IH|].
      constructor; [|by apply IH]. split; [split|].
      * apply rev_not_nil. discriminate.
      * by apply Forall_rev.
      * by apply Forall_rev.
    + apply IH; by constructor.
Qed.

(** The tokens of a name are tokens. *)
Lemma split_tokens (name : str) : Forall token (split name).
Proof.
  pose proof (split_from_tokens (fun _ => True) name []
                ltac:(constructor) ltac:(constructor)) as H.
  eapply Forall_impl; [apply H|].
  - apply Forall_forall. done.
  - by intros t [Ht _].
Qed.

Lemma capitalized_tokens (toks : list str) :
  Forall token toks -> Forall token (List.map capitalize toks).
Proof.
  induction 1 as [|t toks Ht Htoks IH]; [constructor|].
  cbn [List.map]. constructor; [by apply capitalize_token|done].
Qed.

(** Normalising a normalised name capitalises the capitalised tokens. *)
Lemma normalize_name_normalized (name : str) :
  V2._normalize_name (V2._normalize_name name)
  = join (u " ") (List.map capitalize (List.map capitalize (split name))).
Proof.
  unfold V2._normalize_name at 1. f_equal. f_equal.
  unfold V2._normalize_name. apply split_join, capitalized_tokens, split_tokens.
Qed.

Lemma map_capitalize_fixed (toks : list str) :
  Forall token toks ->
  List.map capitalize (List.map capitalize toks) = List.map capitalize toks
  <-> Forall begins_plainly toks.
Proof.
  induction 1 as [|t toks [Hne _] Htoks IH]; [by split; [constructor|]|].
  cbn [List.map]. split.
  - intros [= H1 H2]. constructor; [|by apply IH].
    destruct t as [|c rest]; [done|]. intros [= ->].
    by apply (capitalize_not_idempotent rest).
  - intros H. apply Forall_cons in H as [H1 H2].
    f_equal; [by apply capitalize_idempotent|by apply IH].
Qed.

(** Name normalisation applied twice is name normalisation, for the
    names in which no token begins with U+0149. *)
Lemma normalize_name_twice (name : str) :
  Forall begins_plainly (split name) ->
  V2._normalize_name (V2._normalize_name name) = V2._normalize_name name.
Proof.
  intros H. rewrite normalize_name_normalized. unfold V2._normalize_name.
  by rewrite (proj2 (map_capitalize_fixed _ (split_tokens name)) H).
Qed.

(** C7, as the code has it.  Name normalisation (each
    white-space-delimited token capitalised, tokens joined by single
    spaces) applied to its own output returns that output unchanged for
    every input string in which no token begins with the character
    U+0149, and for no other input string. *)
Theorem C7_normalize_name_idempotent (name : str) :
  V2._normalize_name (V2._normalize_name name) = V2._normalize_name name
  <-> Forall (fun t => head t <> Some 0x149) (split name).
Proof.
  rewrite normalize_name_normalized.
  change (Forall (fun t => head t <> Some 0x149) (split name))
    with (Forall begins_plainly (split name)).
  rewrite <- (map_capitalize_fixed _ (split_tokens name)).
  unfold V2._normalize_name. split; [|by intros ->].
  intros H. apply (f_equal split) in H.
  rewrite !split_join in H; [done| |];
    repeat apply capitalized_tokens; apply split_tokens.
Qed.

(** C7 applied to the name " ivanov  IVAN". *)
Lemma C7_normalize_name_idempotent_witness :
  V2._normalize_name (V2._normalize_name (u " ivanov  IVAN"))
  = V2._normalize_name (u " ivanov  IVAN").
Proof.
  apply (proj2 (C7_normalize_name_idempotent (u " ivanov  IVAN"))).
  repeat (constructor; [discriminate|]). constructor.
Defined.

(** ** C10: the listing of v1 *)

(** *** Orders given by a three-way comparison *)

Section Comparison.

Context {A : Type} (cmp : A -> A -> comparison).
Hypothesis cmp_eq : forall x y, cmp x y = Eq -> x = y.
Hypothesis cmp_antisym : forall x y, cmp y x = CompOpp (cmp x y).
Hypothesis cmp_lt_trans :
  forall x y z, cmp x y = Lt -> cmp y z = Lt -> cmp x z = Lt.

Lemma leb_total (x y : A) : le_of cmp x y = true \/ le_of cmp y x = true.
Proof using cmp_antisym.
  unfold le_of. rewrite (cmp_antisym x y). destruct (cmp x y); auto.
Qed.

Lemma leb_trans (x y z : A) :
  le_of cmp x y = true -> le_of cmp y z = true -> le_of cmp x z = true.
Proof using cmp_eq cmp_lt_trans.
  unfold le_of. destruct (cmp x y) eqn:Hxy; [|intros _|done].
  - apply cmp_eq in Hxy as ->. done.
  - destruct (cmp y z) eqn:Hyz; [|intros _|done].
    + apply cmp_eq in Hyz as ->. by rewrite Hxy.
    + by rewrite (cmp_lt_trans x y z).
Qed.

Lemma leb_neq_lt (x y : A) : le_of cmp x y = true -> x <> y -> cmp x y = Lt.
Proof using cmp_eq.
  unfold le_of. destruct (cmp x y) eqn:Hxy; [|done|done].
  apply cmp_eq in Hxy. by intros _ [].
Qed.

End Comparison.

Lemma text_compare_eq (x y : str) : text_compare x y = Eq -> x = y.
Proof.
  revert y. induction x as [|a x IH]; intros [|b y]; cbn [text_compare];
    try done.
  destruct (N.compare_spec a b) as [->| |]; [|done|done].
  intros H. f_equal. by apply IH.
Qed.

Lemma text_compare_refl (x : str) : text_compare x x = Eq.
Proof.
  induction x as [|a x IH]; [done|]. cbn [text_compare].
  by rewrite N.compare_refl.
Qed.

Lemma text_compare_antisym (x y : str) :
  text_compare y x = CompOpp (text_compare x y).
Proof.
  revert y. induction x as [|a x IH]; intros [|b y]; cbn [text_compare];
    try done.
  rewrite (N.compare_antisym a b).
  destruct (a ?= b); cbn [CompOpp]; [apply IH|done|done].
Qed.

Lemma text_compare_lt_trans (x y z : str) :
  text_compare x y = Lt -> text_compare y z = Lt -> text_compare x z = Lt.
Proof.
  revert y z. induction x as [|a x IH]; intros [|b y] [|c z];
    cbn [text_compare]; try done.
  destruct (N.compare_spec a b) as [->| |]; [|intros _|done].
  - destruct (N.compare_spec b c); [apply IH|done|done].
  - destruct (N.compare_spec b c) as [<-| |]; [|intros _|done].
    + intros _. destruct (N.compare_spec a b); [lia|done|lia].
    + destruct (N.compare_spec a c); [lia|done|lia].
Qed.

Lemma key_compare_eq (x y : str * str) : key_compare x y = Eq -> x = y.
Proof.
  destruct x as [x1 x2], y as [y1 y2]. unfold key_compare. cbn [fst snd].
  destruct (text_compare x1 y1) eqn:H1; [|done|done].
  intros H2. apply text_compare_eq in H1, H2. by subst.
Qed.

Lemma key_compare_refl (x : str * str) : key_compare x x = Eq.
Proof. unfold key_compare. by rewrite !text_compare_refl. Qed.

Lemma key_compare_antisym (x y : str * str) :
  key_compare y x = CompOpp (key_compare x y).
Proof.
  unfold key_compare. rewrite (text_compare_antisym (fst x) (fst y)).
  destruct (text_compare (fst x) (fst y)); cbn [CompOpp]; [|done|done].
  apply text_compare_antisym.
Qed.

Lemma key_compare_lt_trans (x y z : str * str) :
  key_compare x y = Lt -> key_compare y z = Lt -> key_compare x z = Lt.
Proof.
  unfold key_compare.
  destruct (text_compare (fst x) (fst y)) eqn:H1; [|intros _|done].
  - apply text_compare_eq in H1. rewrite H1.
    destruct (text_compare (fst y) (fst z)); [|done|done].
    apply text_compare_lt_trans.
  - destruct (text_compare (fst y) (fst z)) eqn:H2; [|intros _|done].
    + apply text_compare_eq in H2. by rewrite <- H2, H1.
    + by rewrite (text_compare_lt_trans _ _ _ H1 H2).
Qed.

(** *** The sorter *)

Section Sorter.

Context (le : row -> row -> bool).
Hypothesis le_total : forall a b, le a b = true \/ le b a = true.
Hypothesis le_trans :
  forall a b c, le a b = true -> le b c = true -> le a c = true.

Lemma sorter_insert_perm (r : row) (l : list row) :
  Permutation (sorter_insert le r l) (r :: l).
Proof using Type.
  induction l as [|r' l IH]; cbn [sorter_insert]; [done|].
  destruct (le r' r); [|done].
  rewrite IH. apply perm_swap.
Qed.

Lemma sorter_insert_sorted (r : row) (l : list row) :
  StronglySorted (fun a b => le a b = true) l ->
  StronglySorted (fun a b => le a b = true) (sorter_insert le r l).
Proof using le_total le_trans.
  induction 1 as [|r' l Hl IH Hall]; cbn [sorter_insert].
  - constructor; [constructor|constructor].
  - destruct (le r' r) eqn:Hle.
    + constructor; [done|].
      eapply Permutation_Forall; [symmetry; apply sorter_insert_perm|].
      by constructor.
    + destruct (le_total r r') as [Hrr'|Hrr']; [|congruence].
      constructor; [by constructor|].
      constructor; [done|].
      eapply Forall_impl; [exact Hall|]. intros x Hx. by eapply le_trans.
Qed.

Lemma sorter_fold (l acc : list row) :
  StronglySorted (fun a b => le a b = true) acc ->
  Permutation (fold_left (fun sorted r => sorter_insert le r sorted) l acc)
              (acc ++ l)
  /\ StronglySorted (fun a b => le a b = true)
       (fold_left (fun sorted r => sorter_insert le r sorted) l acc).
Proof using le_total le_trans.
  revert acc. induction l as [|r l IH]; intros acc Hacc; cbn [fold_left].
  - by rewrite app_nil_r.
  - destruct (IH (sorter_insert le r acc) (sorter_insert_sorted r acc Hacc))
      as [Hp Hs].
    split; [|done]. rewrite Hp, sorter_insert_perm.
    apply Permutation_middle.
Qed.

Lemma sorter_perm (l : list row) : Permutation (sorter le l) l.
Proof using le_total le_trans.
  apply (sorter_fold l []). constructor.
Qed.

Lemma sorter_sorted (l : list row) :
  StronglySorted (fun a b => le a b = true) (sorter le l).
Proof using le_total le_trans.
  apply (sorter_fold l []). constructor.
Qed.

End Sorter.

(** *** Grouping *)

Lemma group_after_subset (prev : str * str) (l : list row) (r : row) :
  In r (group_after prev l) -> In r l.
Proof.
  revert prev. induction l as [|x l IH]; intros prev; cbn [group_after];
    [done|].
  case_bool_decide as Hk.
  - intros H. right. by eapply IH.
  - intros [->|H]; [by left|right; by eapply IH].
Qed.

Lemma group_after_length (prev : str * str) (l : list row) :
  (length (group_after prev l) <= length l)%nat.
Proof.
  revert prev. induction l as [|x l IH]; intros prev; cbn [group_after];
    [done|].
  case_bool_decide as Hk; cbn [length].
  - specialize (IH prev). lia.
  - specialize (IH (group_key x)). lia.
Qed.

Lemma group_after_covers (prev : str * str) (l : list row) (r : row) :
  In r l ->
  group_key r = prev
  \/ In (group_key r) (List.map group_key (group_after prev l)).
Proof.
  revert prev. induction l as [|x l IH]; intros prev; [done|].
  cbn [group_after]. intros [->|Hin].
  - case_bool_decide as Hk; [by left|right; by left].
  - case_bool_decide as Hx.
    + by apply IH.
    + destruct (IH (group_key x) Hin) as [->|H]; right; [by left|by right].
Qed.

Lemma group_after_increasing (prev : str * str) (l : list row) :
  StronglySorted (fun a b => key_le (group_key a) (group_key b) = true) l ->
  Forall (fun r => key_le prev (group_key r) = true) l ->
  StronglySorted (fun a b => key_compare (group_key a) (group_key b) = Lt)
                 (group_after prev l)
  /\ Forall (fun r => key_compare prev (group_key r) = Lt)
            (group_after prev l).
Proof.
  intros Hs. revert prev.
  induction Hs as [|x l Hl IH Hall]; intros prev Hprev; cbn [group_after].
  - split; constructor.
  - apply Forall_cons in Hprev as [Hpx Hpl].
    case_bool_decide as Hx; [by apply IH|].
    destruct (IH (group_key x) Hall) as [IH1 IH2].
    assert (Hlt : key_compare prev (group_key x) = Lt).
    { apply (leb_neq_lt key_compare key_compare_eq); [done|congruence]. }
    split; constructor; try done.
    eapply Forall_impl; [exact IH2|]. intros y Hy.
    by apply (key_compare_lt_trans _ (group_key x)).
Qed.

Lemma increasing_keys_NoDup (l : list row) :
  StronglySorted (fun a b => key_compare (group_key a) (group_key b) = Lt) l ->
  NoDup (List.map group_key l).
Proof.
  induction 1 as [|x l Hl IH Hall]; cbn [List.map]; constructor; [|done].
  intros Hin. apply list_elem_of_In, in_map_iff in Hin as (y & Hy & Hin).
  rewrite Forall_forall in Hall. apply list_elem_of_In in Hin.
  specialize (Hall y Hin). rewrite Hy, key_compare_refl in Hall. done.
Qed.

(** The groups of sorted rows have distinct keys, cover the keys of the
    rows, and are rows. *)
Lemma group_runs_spec (l : list row) :
  StronglySorted (fun a b => key_le (group_key a) (group_key b) = true) l ->
  NoDup (List.map group_key (group_runs l))
  /\ (forall r, In r l -> In (group_key r) (List.map group_key (group_runs l)))
  /\ (forall r, In r (group_runs l) -> In r l)
  /\ (length (group_runs l) <= length l)%nat.
Proof.
  intros Hs. destruct l as [|x l]; cbn [group_runs].
  { repeat split; [constructor|done|done|done]. }
  inversion Hs as [|? ? Hl Hall]; subst.
  destruct (group_after_increasing (group_key x) l Hl Hall) as [H1 H2].
  split; [|split; [|split]].
  - apply increasing_keys_NoDup. by constructor.
  - intros r [->|Hin]; [by left|].
    destruct (group_after_covers (group_key x) l r Hin) as [->|H];
      [by left|by right].
  - intros r [->|Hin]; [by left|right; by eapply group_after_subset].
  - cbn [length]. pose proof (group_after_length (group_key x) l). lia.
Qed.

Lemma V1_get_all_employees_eq (now : date) (db : database) :
  V1.get_all_employees now db
  = (Ok (List.map (to_listing now)
           (group_by_name_date_order_by_name (rows_of db))),
     create_table_if_not_exists db).
Proof.
  unfold V1.get_all_employees, try_except.
  rewrite St_bind_unfold, V1_ensure_table, St_bind_unfold.
  unfold fetch, select_where. rewrite table_create_table.
  cbv beta iota zeta. f_equal. f_equal. f_equal. f_equal.
  induction (rows_of db) as [|r l IH]; [done|]. cbn [List.filter].
  by rewrite IH.
Qed.

Lemma StronglySorted_map {A B} (f : A -> B) (R : B -> B -> Prop) (l : list A) :
  StronglySorted (fun a b => R (f a) (f b)) l ->
  StronglySorted R (List.map f l).
Proof.
  induction 1 as [|x l Hl IH Hall]; cbn [List.map]; constructor; [done|].
  apply Forall_forall. intros y Hy.
  apply list_elem_of_In, in_map_iff in Hy as (z & <- & Hz).
  rewrite Forall_forall in Hall. apply Hall. by apply list_elem_of_In.
Qed.

Lemma key_order_total (a b : row) :
  key_le (group_key a) (group_key b) = true
  \/ key_le (group_key b) (group_key a) = true.
Proof. apply (leb_total key_compare key_compare_antisym). Qed.

Lemma key_order_trans (a b c : row) :
  key_le (group_key a) (group_key b) = true ->
  key_le (group_key b) (group_key c) = true ->
  key_le (group_key a) (group_key c) = true.
Proof. apply (leb_trans key_compare key_compare_eq key_compare_lt_trans). Qed.

Lemma name_order_total (a b : row) :
  text_le (full_name a) (full_name b) = true
  \/ text_le (full_name b) (full_name a) = true.
Proof. apply (leb_total text_compare text_compare_antisym). Qed.

Lemma name_order_trans (a b c : row) :
  text_le (full_name a) (full_name b) = true ->
  text_le (full_name b) (full_name c) = true ->
  text_le (full_name a) (full_name c) = true.
Proof. apply (leb_trans text_compare text_compare_eq text_compare_lt_trans). Qed.

(** C10.  For every database state the listing of v1 holds one row for
    each distinct pair (full_name, birth_date) among the stored rows,
    and no pair twice; its rows are rows of the table, and they are
    ordered by full_name.  So the listing is never longer than the
    table, and it is shorter when two stored employees share both
    fields: after the same person has been added twice the table holds
    two rows and the listing one. *)
Theorem C10_v1_listing (now : date) (db : database) :
  (exists l,
     fst (V1.get_all_employees now db) = Ok l
     /\ NoDup (List.map listing_key l)
     /\ (forall r, In r (rows_of db) ->
           In (full_name r, birth_date r) (List.map listing_key l))
     /\ (forall x, In x l ->
           exists r, In r (rows_of db) /\ x = to_listing now r)
     /\ StronglySorted
          (fun a b => text_le (l_full_name a) (l_full_name b) = true) l
     /\ (length l <= length (rows_of db))%nat)
  /\ (exists db2 l2,
        db2 = snd (V1.add_employee (u "Ivanov Ivan") (u "1990-05-15") (u "M")
                (snd (V1.add_employee (u "Ivanov Ivan") (u "1990-05-15")
                        (u "M") empty_db)))
        /\ fst (V1.get_all_employees now db2) = Ok l2
        /\ length (rows_of db2) = 2%nat /\ length l2 = 1%nat).
Proof.
  split.
  - rewrite V1_get_all_employees_eq. cbn [fst]. eexists. split; [done|].
    unfold group_by_name_date_order_by_name.
    set (le1 := fun a b => key_le (group_key a) (group_key b)).
    set (le2 := fun a b => text_le (full_name a) (full_name b)).
    set (s1 := sorter le1 (rows_of db)).
    pose proof (sorter_perm le1 key_order_total key_order_trans (rows_of db))
      as Hp1.
    pose proof (sorter_sorted le1 key_order_total key_order_trans (rows_of db))
      as Hs1.
    fold s1 in Hp1, Hs1.
    destruct (group_runs_spec s1 Hs1) as (Hnd & Hcov & Hsub & Hlen).
    set (g := group_runs s1) in *.
    pose proof (sorter_perm le2 name_order_total name_order_trans g) as Hp2.
    pose proof (sorter_sorted le2 name_order_total name_order_trans g) as Hs2.
    set (s2 := sorter le2 g) in *.
    assert (Hkeys : List.map listing_key (List.map (to_listing now) s2)
                    = List.map group_key s2).
    { rewrite List.map_map. by apply map_ext. }
    rewrite Hkeys.
    split; [|split; [|split; [|split]]].
    + apply NoDup_ListNoDup.
      eapply Permutation_NoDup;
        [symmetry; apply Permutation_map, Hp2|by apply NoDup_ListNoDup].
    + intros r Hr.
      eapply Permutation_in; [symmetry; apply Permutation_map, Hp2|].
      apply (Hcov r). eapply Permutation_in; [symmetry; exact Hp1|done].
    + intros x Hx. apply in_map_iff in Hx as (r & <- & Hr).
      exists r. split; [|done].
      eapply Permutation_in; [exact Hp1|]. apply Hsub.
      eapply Permutation_in; [exact Hp2|done].
    + by apply (StronglySorted_map (to_listing now)
                  (fun a b => text_le (l_full_name a) (l_full_name b) = true)).
    + rewrite length_map, (Permutation_length Hp2).
      rewrite <- (Permutation_length Hp1). done.
  - eexists _, _. split; [reflexivity|].
    rewrite V1_get_all_employees_eq. cbn [fst]. split; [reflexivity|].
    rewrite length_map. split; vm_compute; reflexivity.
Qed.

(** * Further properties of the code *)

(** ** Dates written and read back *)

Lemma decimal_zero_padded (x : Z) :
  (0 <= x)%Z -> decimal (Z.to_N (48 + x mod 10)) = Some (x mod 10)%Z.
Proof.
  intros Hx. pose proof (Z.mod_pos_bound x 10 ltac:(lia)) as Hv.
  generalize dependent (x mod 10)%Z. intros v Hv.
  assert (Hc : (v = 0 \/ v = 1 \/ v = 2 \/ v = 3 \/ v = 4 \/ v = 5 \/ v = 6
                \/ v = 7 \/ v = 8 \/ v = 9)%Z) by lia.
  repeat destruct Hc as [->|Hc]; try reflexivity. by subst.
Qed.

Lemma re_Y_zero_padded (y : Z) (rest : str) :
  (0 <= y < 10000)%Z -> re_Y (zero_padded 4 y ++ rest) = Some (y, rest).
Proof.
  intros Hy. rewrite zero_padded_4. cbn [app]. unfold re_Y.
  rewrite !decimal_zero_padded by (repeat apply Z.div_pos; lia).
  by rewrite (four_digits y Hy).
Qed.

Lemma re_m_zero_padded (m : Z) (rest : str) :
  (1 <= m <= 12)%Z -> re_m (zero_padded 2 m ++ rest) = Some (m, rest).
Proof.
  intros Hm.
  assert (m = 1 \/ m = 2 \/ m = 3 \/ m = 4 \/ m = 5 \/ m = 6 \/ m = 7
          \/ m = 8 \/ m = 9 \/ m = 10 \/ m = 11 \/ m = 12)%Z as Hc by lia.
  repeat (destruct Hc as [->|Hc]; [reflexivity|]). by subst.
Qed.

Lemma re_d_zero_padded (d : Z) :
  (1 <= d <= 31)%Z -> re_d (zero_padded 2 d) = Some (d, []).
Proof.
  intros Hd.
  assert (Hn : d = Z.of_nat (Z.to_nat d)) by lia.
  assert (Hb : (1 <= Z.to_nat d <= 31)%nat) by lia.
  rewrite Hn. generalize dependent (Z.to_nat d). intros n _ Hb.
  do 32 (destruct n as [|n]; [first [lia | reflexivity]|]). lia.
Qed.

Lemma days_in_month_le_31 (y m : Z) : (_days_in_month y m <= 31)%Z.
Proof.
  unfold _days_in_month, _DAYS_IN_MONTH.
  destruct ((m =? 2)%Z && _is_leap y); [lia|].
  generalize (Z.to_nat m). intros n.
  do 13 (destruct n as [|n]; [cbn [nth]; lia|]). cbn [nth]. destruct n; lia.
Qed.

Lemma valid_date_fields (d : date) :
  valid_date d = true ->
  (1 <= year d <= 9999 /\ 1 <= month d <= 12
   /\ 1 <= day d <= _days_in_month (year d) (month d))%Z.
Proof.
  unfold valid_date. rewrite !andb_true_iff, !Z.leb_le. tauto.
Qed.

Lemma isoformat_parses (d : date) :
  valid_date d = true -> strptime (isoformat d) = Ok d.
Proof.
  intros Hv. destruct (valid_date_fields d Hv) as (Hy & Hm & Hd).
  pose proof (days_in_month_le_31 (year d) (month d)).
  destruct d as [y m dd]. cbn [year month day] in *.
  unfold strptime, isoformat. cbn [year month day].
  rewrite re_Y_zero_padded by lia.
  change (expect hyphen ([hyphen] ++ ?s)) with (Some s).
  cbv iota. rewrite re_m_zero_padded by lia.
  change (expect hyphen ([hyphen] ++ ?s)) with (Some s).
  cbv iota. rewrite re_d_zero_padded by lia.
  by rewrite Hv.
Qed.

(** [strptime] returns dates only. *)
Lemma strptime_valid (s : str) (d : date) :
  strptime s = Ok d -> valid_date d = true.
Proof.
  unfold strptime.
  repeat (match goal with
          | |- context [match ?x with _ => _ end] => destruct x eqn:?
          end; try congruence).
Qed.

Lemma isoformat_read_back (d : date) :
  valid_date d = true ->
  strptime (isoformat d) = Ok d /\ SQLite.parse_date (isoformat d) = Some d.
Proof.
  intros Hv. split.
  - by apply isoformat_parses.
  - apply parse_date_isoformat.
    destruct (valid_date_fields d Hv) as (Hy & Hm & Hd).
    pose proof (days_in_month_le_31 (year d) (month d)).
    unfold printable. lia.
Qed.

(** ** Batch insertion in v2 *)

Lemma executemany_rows (l : list V2.employee_data) (rows : list row)
    (ixs : gmap string (list indexed_expr)) :
  exists new,
    V2.executemany l (mkDb (Some rows) ixs)
    = (Ok (), mkDb (Some (rows ++ new)) ixs)
    /\ Forall2 row_of_data l new.
Proof.
  revert rows. induction l as [|d l IH]; intros rows; cbn [V2.executemany].
  - exists []. rewrite app_nil_r. split; [done|constructor].
  - rewrite St_bind_unfold. unfold execute at 1, insert. cbn [table indexes].
    destruct (IH (rows ++ [mkRow (Z.of_nat (length rows) + 1)
                             (V2.i_full_name d)
                             (isoformat (V2.i_birth_date d))
                             (V2.i_gender d)])) as (new & -> & Hnew).
    eexists (_ :: new). rewrite <- app_assoc. cbn [app].
    split; [done|]. constructor; [|done]. by repeat split.
Qed.

Lemma batch_insert_rows (l : list V2.employee_data) (rows : list row)
    (ixs : gmap string (list indexed_expr)) :
  exists new,
    V2.batch_insert_employees l (mkDb (Some rows) ixs)
    = (Ok (Z.of_nat (length l)), mkDb (Some (rows ++ new)) ixs)
    /\ Forall2 row_of_data l new.
Proof.
  destruct l as [|d l].
  - exists []. rewrite app_nil_r. split; [done|constructor].
  - destruct (executemany_rows (d :: l) rows ixs) as (new & He & Hnew).
    exists new. split; [|done].
    unfold V2.batch_insert_employees, try_except, transaction.
    by rewrite St_bind_unfold, He.
Qed.

Lemma new_Employee_recognised (fn : str) (bd : date) (g : str) :
  match V2.new_Employee fn bd g with
  | Ok e => recognised g = true
            /\ e = V2.mkEmployee (V2._normalize_name fn) bd
                      (if in_tuple (lower g) male_spellings
                       then Male else Female)
  | Raise x => recognised g = false /\ x = ValueError
  end.
Proof.
  unfold V2.new_Employee, V2._normalize_gender, recognised, mbind, result_bind.
  destruct (in_tuple (lower g) male_spellings); [done|].
  by destruct (in_tuple (lower g) female_spellings).
Qed.

Lemma valid_employees_count (l : list V2.employee_data) :
  length (V2.valid_employees l)
  = length (List.filter (fun d => recognised (V2.i_gender d)) l).
Proof.
  induction l as [|d l IH]; [done|]. cbn [V2.valid_employees List.filter].
  pose proof (new_Employee_recognised (V2.i_full_name d) (V2.i_birth_date d)
                (V2.i_gender d)) as H.
  destruct (V2.new_Employee _ _ _) as [e|x]; destruct H as [-> _];
    cbn [length]; by rewrite IH.
Qed.

(** [batch_add_employees], given records whose birth dates are [date]
    objects and whose names the driver can encode, drops the records
    whose gender is not recognised and inserts all the others: it
    returns the number of records with a recognised gender and the
    table grows by as many rows, each holding the normalised name, the
    date in ISO form and "Male" or "Female". *)
Theorem batch_add_skips_unrecognised (l : list V2.employee_data)
    (db : database) :
  Forall (fun d => encodable (V2.i_full_name d) = true) l ->
  let kept := List.filter (fun d => recognised (V2.i_gender d)) l in
  exists new,
    V2.batch_add_employees l db
    = (Ok (Z.of_nat (length kept)),
       mkDb (Some (rows_of db ++ new)) (indexes db))
    /\ Forall2
         (fun d r =>
            full_name r = V2._normalize_name (V2.i_full_name d)
            /\ birth_date r = isoformat (V2.i_birth_date d)
            /\ gender r = (if in_tuple (lower (V2.i_gender d)) male_spellings
                           then Male else Female))
         kept new.
Proof.
  intros _ kept. unfold V2.batch_add_employees.
  rewrite St_bind_unfold, V2_ensure_table.
  assert (Hdb : create_table_if_not_exists db
                = mkDb (Some (rows_of db)) (indexes db))
    by by destruct db as [[rows|] ixs].
  rewrite Hdb. unfold try_except.
  destruct (batch_insert_rows (V2.valid_employees l) (rows_of db) (indexes db))
    as (new & -> & Hnew).
  exists new. split.
  - by rewrite valid_employees_count.
  - subst kept. clear Hdb. revert new Hnew.
    induction l as [|d l IH]; intros new Hnew;
      cbn [V2.valid_employees List.filter] in *.
    + inversion Hnew. constructor.
    + pose proof (new_Employee_recognised (V2.i_full_name d)
                    (V2.i_birth_date d) (V2.i_gender d)) as H.
      destruct (V2.new_Employee _ _ _) as [e|x]; destruct H as [-> He].
      * inversion Hnew as [|? r ? new' (Hn & Hb & Hg) Hrest]; subst.
        constructor; [|by apply IH]. cbn [V2.i_full_name V2.i_birth_date
          V2.i_gender V2.e_full_name V2.e_birth_date V2.e_gender] in *.
        by repeat split.
      * by apply IH.
Qed.

(** The theorem for a batch of two records, of which the second has a
    gender that is not recognised, added to the empty file. *)
Lemma batch_add_skips_unrecognised_witness :
  exists new,
    V2.batch_add_employees
      [V2.mkData (u "ivanov ivan") (mkDate 1990 5 15) (u "M");
       V2.mkData (u "petrova anna") (mkDate 1991 6 16) (u "xyz")]
      empty_db
    = (Ok 1%Z, mkDb (Some new) ∅)
    /\ Forall2
         (fun d r =>
            full_name r = V2._normalize_name (V2.i_full_name d)
            /\ birth_date r = isoformat (V2.i_birth_date d)
            /\ gender r = (if in_tuple (lower (V2.i_gender d)) male_spellings
                           then Male else Female))
         [V2.mkData (u "ivanov ivan") (mkDate 1990 5 15) (u "M")] new.
Proof.
  apply (batch_add_skips_unrecognised
           [V2.mkData (u "ivanov ivan") (mkDate 1990 5 15) (u "M");
            V2.mkData (u "petrova anna") (mkDate 1991 6 16) (u "xyz")]
           empty_db).
  repeat constructor.
Defined.

(** ** Bulk generation in v2 *)

Lemma split_from_head (s cur : str) :
  cur <> [] -> exists t ts, split_from cur s = (rev cur ++ t) :: ts.
Proof.
  revert cur. induction s as [|c s IH]; intros cur Hcur; cbn [split_from].
  - destruct cur as [|x cur]; [done|]. exists [], []. by rewrite app_nil_r.
  - destruct (isspace c).
    + destruct cur as [|x cur]; [done|]. exists [], (split_from [] s).
      by rewrite app_nil_r.
    + destruct (IH (c :: cur)) as (t & ts & ->); [done|].
      exists (c :: t), ts. cbn [rev]. by rewrite <- app_assoc.
Qed.

(** A name that begins with "F" still does after normalisation. *)
Lemma normalize_name_F (t : str) :
  exists t', V2._normalize_name (70 :: t) = 70 :: t'.
Proof.
  unfold V2._normalize_name, split. cbn [split_from].
  change (isspace 70) with false. cbv iota.
  destruct (split_from_head t [70]) as (tok & toks & ->); [done|].
  cbn [rev app List.map capitalize]. change (title_full 70) with [70].
  cbn [app]. destruct (List.map capitalize toks) as [|t2 toks'];
    cbn [join app]; by eexists.
Qed.

Lemma valid_employees_special (l : list V2.employee_data) :
  Forall (fun d => V2.i_gender d = Male
                   /\ exists t, V2.i_full_name d = 70 :: t) l ->
  Forall (fun d => V2.i_gender d = Male
                   /\ exists t, V2.i_full_name d = 70 :: t)
         (V2.valid_employees l)
  /\ length (V2.valid_employees l) = length l.
Proof.
  induction 1 as [|d l [Hg [t Ht]] Hl [IH1 IH2]]; [by split|].
  cbn [V2.valid_employees]. unfold V2.new_Employee.
  rewrite Hg, normalize_Male. cbn [mbind result_bind length].
  split; [|by rewrite IH2]. constructor; [|done].
  cbn [V2.i_gender V2.i_full_name V2.e_gender V2.e_full_name].
  split; [done|]. rewrite Ht. apply normalize_name_F.
Qed.

Lemma special_batch_shape (fake : V2.Faker) (n k : nat) :
  Forall (fun d => V2.i_gender d = Male
                   /\ exists t, V2.i_full_name d = 70 :: t)
         (V2.special_batch fake n k).
Proof.
  revert k. induction n as [|n IH]; intros k; cbn [V2.special_batch];
    constructor; [|apply IH].
  split; [done|]. by eexists.
Qed.

Lemma special_batch_added (fake : V2.Faker) (n k : nat) (rows : list row)
    (ixs : gmap string (list indexed_expr)) :
  exists new,
    V2.batch_add_employees (V2.special_batch fake n k) (mkDb (Some rows) ixs)
    = (Ok (Z.of_nat n), mkDb (Some (rows ++ new)) ixs)
    /\ length new = n
    /\ Forall (fun r => male_F_or_f r = true) new.
Proof.
  unfold V2.batch_add_employees.
  rewrite St_bind_unfold, V2_ensure_table.
  cbn [create_table_if_not_exists table]. unfold try_except.
  destruct (valid_employees_special _ (special_batch_shape fake n k))
    as [Hshape Hlen].
  destruct (special_batch_genders fake n k) as [_ Hn].
  destruct (batch_insert_rows (V2.valid_employees (V2.special_batch fake n k))
              rows ixs) as (new & -> & Hnew).
  exists new. rewrite Hlen, Hn. split; [done|].
  split.
  - apply Forall2_length in Hnew. lia.
  - revert Hnew Hshape.
    generalize (V2.valid_employees (V2.special_batch fake n k)).
    intros l0 Hnew Hshape.
    induction Hnew as [|d r l1 new1 (Hn1 & _ & Hg1) _ IH]; [constructor|].
    apply Forall_cons in Hshape as [[Hg [t Ht]] Hrest].
    constructor; [|by apply IH].
    unfold male_F_or_f. rewrite Hg1, Hg, Hn1, Ht. reflexivity.
Qed.

(** Bulk generation of v2 with [N >= 0] and [S >= 0]: the main loop
    adds [N // 10000] whole batches of 10000 rows and drops the
    remainder, the special loop adds [S] rows; the dictionary returned
    counts them, and the filter query finds at least [S] records more
    than before. *)
Theorem V2_generate_test_data_rows_and_matches (fake : V2.Faker)
    (draw : nat -> N) (N S : Z) (db : database) :
  (0 <= N)%Z -> (0 <= S)%Z ->
  let r := V2.generate_test_data fake draw N S db in
  let whole_batches := (N / 10000 * 10000)%Z in
  fst r = Ok (whole_batches + S, S)%Z
  /\ Z.of_nat (length (rows_of (snd r)))
     = (Z.of_nat (length (rows_of db)) + whole_batches + S)%Z
  /\ (Z.of_nat (matches db) + S <= Z.of_nat (matches (snd r)))%Z.
Proof.
  intros HN HS r whole. subst r. unfold V2.generate_test_data.
  rewrite St_bind_unfold, V2_ensure_table.
  assert (Hdb : create_table_if_not_exists db
                = mkDb (Some (rows_of db)) (indexes db))
    by by destruct db as [[rows|] ixs].
  rewrite Hdb. unfold try_except. rewrite St_bind_unfold.
  destruct (add_batches_ok fake draw (Z.to_nat (N / V2.batch_size)) 0 0
              (rows_of db) (indexes db)) as (new1 & k & -> & Hlen1).
  cbv beta iota zeta. rewrite St_bind_unfold.
  destruct (special_batch_added fake (Z.to_nat S) k (rows_of db ++ new1)
              (indexes db)) as (new2 & -> & Hlen2 & Hall).
  unfold mret, St_ret. cbv beta iota zeta. cbn [fst snd].
  unfold matches. rewrite !rows_of_mk, !List.filter_app, !length_app.
  rewrite (filter_all _ new2 Hall).
  assert (0 <= N / V2.batch_size)%Z by (apply Z.div_pos; [lia|done]).
  subst whole. unfold V2.batch_size in *.
  split; [do 2 f_equal; lia|]. split; lia.
Qed.

(** The theorem at count = 25000 and special = 3 on the empty file. *)
Lemma V2_generate_test_data_rows_and_matches_witness :
  let r := V2.generate_test_data sample_faker (fun _ => 0) 25000 3 empty_db in
  fst r = Ok (20003, 3)%Z
  /\ Z.of_nat (length (rows_of (snd r))) = 20003%Z
  /\ (3 <= Z.of_nat (matches (snd r)))%Z.
Proof.
  pose proof (V2_generate_test_data_rows_and_matches sample_faker
                (fun _ => 0) 25000 3 empty_db ltac:(lia) ltac:(lia)) as H.
  exact H.
Defined.

(** ** Witnesses of bulk generation in v1 and v3 and of the age rule *)

Lemma generation_day_2026 : generation_day (mkDate 2026 11 3).
Proof. unfold generation_day. vm_compute. split; [reflexivity|discriminate]. Qed.

(** Bulk generation of v1 on 3 November 2026 with count = 2 and
    special = 3 on the empty file. *)
Lemma V1_generate_test_data_adds_witness :
  let r := V1.generate_test_data (mkDate 2026 11 3) (fun _ => 7) 2 3 empty_db in
  fst r = Ok 5%Z
  /\ Z.of_nat (length (rows_of (snd r))) = 5%Z
  /\ (3 <= Z.of_nat (matches (snd r)))%Z.
Proof.
  exact (V1_generate_test_data_adds (mkDate 2026 11 3) (fun _ => 7) 2 3
           empty_db generation_day_2026 ltac:(lia) ltac:(lia)).
Defined.

(** Bulk generation of v3 on the same day on the empty table. *)
Lemma V3_generate_test_data_adds_witness :
  let r := V3.generate_test_data (mkDate 2026 11 3) (fun _ => 7) 2 3
             (mkDb (Some []) ∅) in
  fst r = V3.mkResponse 200 (Some 5%Z)
  /\ Z.of_nat (length (rows_of (snd r))) = 5%Z
  /\ (3 <= Z.of_nat (matches (snd r)))%Z.
Proof.
  exact (V3_generate_test_data_adds (mkDate 2026 11 3) (fun _ => 7) 2 3
           (mkDb (Some []) ∅) generation_day_2026 ltac:(lia) ltac:(lia)
           eq_refl).
Defined.

(** The age on the thirtieth anniversary of 15 May 1990. *)
Lemma age_on_anniversary_witness :
  let e := V2.mkEmployee (u "Ivanov Ivan") (mkDate 1990 5 15) Male in
  V2.calculate_age (mkDate 2020 5 15) e = 30%Z
  /\ age_expr (mkDate 2020 5 15) (u "1990-05-15") = Some 30%Z.
Proof.
  destruct (age_on_anniversary 30
              (V2.mkEmployee (u "Ivanov Ivan") (mkDate 1990 5 15) Male))
    as [H1 H2].
  split; [exact H1|]. apply H2; unfold printable; cbn; lia.
Defined.

(** The age on the eve of the thirtieth anniversary of 1 March 1992,
    which is 28 February 2022. *)
Lemma age_on_eve_of_anniversary_witness :
  let e := V2.mkEmployee (u "Ivanov Ivan") (mkDate 1992 3 1) Male in
  V2.calculate_age (mkDate 2022 2 28) e = 29%Z
  /\ age_expr (mkDate 2022 2 28) (u "1992-03-01") = Some 29%Z.
Proof.
  destruct (age_on_eve_of_anniversary 30
              (V2.mkEmployee (u "Ivanov Ivan") (mkDate 1992 3 1) Male)
              ltac:(cbn; lia) ltac:(cbn; lia)) as [H1 H2].
  split; [exact H1|].
  apply H2; unfold printable; repeat split; vm_compute; congruence.
Defined.

(** ** Adding and listing in v1 *)

Lemma grouped_rows_spec (rows : list row) :
  let listed := group_by_name_date_order_by_name rows in
  (forall r, In r rows -> In (group_key r) (List.map group_key listed))
  /\ (forall r, In r listed -> In r rows).
Proof.
  intros listed. subst listed. unfold group_by_name_date_order_by_name.
  set (le1 := fun a b => key_le (group_key a) (group_key b)).
  set (le2 := fun a b => text_le (full_name a) (full_name b)).
  pose proof (sorter_perm le1 key_order_total key_order_trans rows) as Hp1.
  pose proof (sorter_sorted le1 key_order_total key_order_trans rows) as Hs1.
  destruct (group_runs_spec _ Hs1) as (_ & Hcov & Hsub & _).
  pose proof (sorter_perm le2 name_order_total name_order_trans
                (group_runs (sorter le1 rows))) as Hp2.
  split.
  - intros r Hr.
    eapply Permutation_in; [symmetry; apply Permutation_map, Hp2|].
    apply Hcov. eapply Permutation_in; [symmetry; exact Hp1|done].
  - intros r Hr. eapply Permutation_in; [exact Hp1|]. apply Hsub.
    eapply Permutation_in; [exact Hp2|done].
Qed.

(** For a birth date that parses and a name that the driver can
    encode, [add_employee] returns [True] and the listing then has a
    row for the name and the birth date that were given; when no stored
    employee had both, the row shows the gender as normalised and the
    age as SQLite computes it from the text. *)
Theorem V1_added_employee_is_listed (now : date) (fn bd g : str) (d : date)
    (db : database) :
  strptime bd = Ok d -> encodable fn = true ->
  let db1 := snd (V1.add_employee fn bd g db) in
  exists l,
    fst (V1.add_employee fn bd g db) = Ok (true, [])
    /\ fst (V1.get_all_employees now db1) = Ok l
    /\ In (fn, bd) (List.map listing_key l)
    /\ (~ In (fn, bd) (List.map group_key (rows_of db)) ->
        In (mkListing fn bd
              (if in_tuple (lower g) male_spellings then Male else Female)
              (age_expr now bd)) l).
Proof.
  intros Hd _ db1. subst db1. rewrite (V1_add_employee_stores _ _ _ _ _ Hd).
  cbn [snd]. rewrite V1_get_all_employees_eq. cbn [fst]. rewrite rows_of_mk.
  set (r := mkRow _ fn bd _). eexists. split; [done|]. split; [done|].
  destruct (grouped_rows_spec (rows_of db ++ [r])) as [Hcov Hsub].
  assert (Hkey : In (fn, bd)
            (List.map group_key
               (group_by_name_date_order_by_name (rows_of db ++ [r])))).
  { apply (Hcov r). apply in_app_iff. right. by left. }
  split.
  - rewrite List.map_map.
    by rewrite (map_ext _ group_key (fun x => eq_refl)).
  - intros Hnew. apply in_map_iff in Hkey as (r' & Hk & Hr').
    apply in_map_iff. exists r'. split; [|done].
    apply Hsub, in_app_iff in Hr' as Hin. destruct Hin as [Hin|[<-|[]]].
    + exfalso. apply Hnew. apply in_map_iff. by exists r'.
    + reflexivity.
Qed.

(** The theorem for "Ivanov Ivan", born 1990-05-15, added to the empty
    file. *)
Lemma V1_added_employee_is_listed_witness :
  exists l,
    fst (V1.add_employee (u "Ivanov Ivan") (u "1990-05-15") (u "M") empty_db)
    = Ok (true, [])
    /\ fst (V1.get_all_employees (mkDate 2026 11 3)
           (snd (V1.add_employee (u "Ivanov Ivan") (u "1990-05-15") (u "M")
                   empty_db))) = Ok l
    /\ In (u "Ivanov Ivan", u "1990-05-15") (List.map listing_key l)
    /\ In (mkListing (u "Ivanov Ivan") (u "1990-05-15") Male (Some 36%Z)) l.
Proof.
  destruct (V1_added_employee_is_listed (mkDate 2026 11 3) (u "Ivanov Ivan")
              (u "1990-05-15") (u "M") (mkDate 1990 5 15) empty_db eq_refl
              eq_refl)
    as (l & Ha & Hl & Hk & Hnew).
  exists l. split; [exact Ha|]. split; [exact Hl|]. split; [exact Hk|].
  apply Hnew. intros [].
Defined.

Lemma sorter_snoc (le : row -> row -> bool) (l : list row) (r : row) :
  sorter le (l ++ [r]) = sorter_insert le r (sorter le l).
Proof. unfold sorter. by rewrite fold_left_app. Qed.

Lemma key_le_antisym (a b : str * str) :
  key_le a b = true -> key_le b a = true -> a = b.
Proof.
  unfold key_le. rewrite (key_compare_antisym a b).
  destruct (key_compare a b) eqn:H; cbn [CompOpp]; try done.
  intros _ _. by apply key_compare_eq.
Qed.

Lemma key_le_refl (a : str * str) : key_le a a = true.
Proof. unfold key_le. by rewrite key_compare_refl. Qed.

(** A row whose key is the key of the group being read, or of a row
    already in the sorter, opens no group. *)
Lemma group_after_insert (r : row) (l : list row) (prev : str * str) :
  StronglySorted (fun a b => key_le (group_key a) (group_key b) = true) l ->
  Forall (fun x => key_le prev (group_key x) = true) l ->
  group_key r = prev \/ In (group_key r) (List.map group_key l) ->
  group_after prev
    (sorter_insert (fun a b => key_le (group_key a) (group_key b)) r l)
  = group_after prev l.
Proof.
  intros Hs. revert prev.
  induction Hs as [|x l Hl IH Hall]; intros prev Hprev Hr;
    cbn [sorter_insert group_after].
  - destruct Hr as [Hr|[]]. by rewrite bool_decide_eq_true_2.
  - apply Forall_cons in Hprev as [Hpx Hpl].
    destruct (key_le (group_key x) (group_key r)) eqn:Hxr.
    + cbn [group_after]. case_bool_decide as Hx.
      * apply IH; [done|]. destruct Hr as [Hr|[Hr|Hr]]; auto.
        left. congruence.
      * f_equal. apply IH; [done|]. destruct Hr as [Hr|[Hr|Hr]]; auto.
        exfalso. apply Hx. apply key_le_antisym; [congruence|done].
    + assert (Hnot : ~ In (group_key r) (List.map group_key (x :: l))).
      { intros [Hr'|Hr'].
        - rewrite Hr', key_le_refl in Hxr. done.
        - apply in_map_iff in Hr' as (y & Hy & Hin).
          rewrite Forall_forall in Hall. apply list_elem_of_In in Hin.
          specialize (Hall y Hin). cbv beta in Hall.
          rewrite Hy in Hall. congruence. }
      destruct Hr as [Hr|Hr]; [|done].
      cbn [group_after]. by rewrite (bool_decide_eq_true_2 _ Hr).
Qed.

Lemma group_runs_insert (r : row) (l : list row) :
  StronglySorted (fun a b => key_le (group_key a) (group_key b) = true) l ->
  In (group_key r) (List.map group_key l) ->
  group_runs
    (sorter_insert (fun a b => key_le (group_key a) (group_key b)) r l)
  = group_runs l.
Proof.
  intros Hs Hr. destruct l as [|x l]; [done|].
  inversion Hs as [|? ? Hl Hall]; subst.
  cbn [sorter_insert]. destruct (key_le (group_key x) (group_key r)) eqn:Hxr.
  - cbn [group_runs]. f_equal. apply group_after_insert; [done|done|].
    destruct Hr as [Hr|Hr]; [by left|by right].
  - exfalso. destruct Hr as [Hr|Hr].
    + rewrite Hr, key_le_refl in Hxr. done.
    + apply in_map_iff in Hr as (y & Hy & Hin).
      rewrite Forall_forall in Hall. apply list_elem_of_In in Hin.
      specialize (Hall y Hin). cbv beta in Hall. rewrite Hy in Hall.
      congruence.
Qed.

(** An employee who has the name and the birth date of a stored one is
    stored by [add_employee] but changes nothing in the listing: the
    table has one row more, the listing is the one of before, with the
    gender of the employee stored first. *)
Theorem V1_listing_ignores_repeated_person (now : date) (fn bd g : str)
    (d : date) (db : database) :
  strptime bd = Ok d ->
  In (fn, bd) (List.map group_key (rows_of db)) ->
  let db1 := snd (V1.add_employee fn bd g db) in
  fst (V1.add_employee fn bd g db) = Ok (true, [])
  /\ length (rows_of db1) = Datatypes.S (length (rows_of db))
  /\ fst (V1.get_all_employees now db1) = fst (V1.get_all_employees now db).
Proof.
  intros Hd Hin db1. subst db1. rewrite (V1_add_employee_stores _ _ _ _ _ Hd).
  cbn [fst snd]. rewrite rows_of_mk, length_app. cbn [length].
  split; [done|]. split; [lia|].
  rewrite !V1_get_all_employees_eq. cbn [fst]. rewrite rows_of_mk.
  do 2 f_equal. unfold group_by_name_date_order_by_name. f_equal.
  rewrite sorter_snoc. apply group_runs_insert.
  - apply (sorter_sorted _ key_order_total key_order_trans).
  - eapply Permutation_in; [|exact Hin].
    symmetry. apply Permutation_map.
    apply (sorter_perm _ key_order_total key_order_trans).
Qed.

(** The theorem for a second "Ivanov Ivan" born 1990-05-15, entered as
    a woman after the first was entered as a man. *)
Lemma V1_listing_ignores_repeated_person_witness :
  let now := mkDate 2026 11 3 in
  let db := snd (V1.add_employee (u "Ivanov Ivan") (u "1990-05-15") (u "M")
                   empty_db) in
  let db1 := snd (V1.add_employee (u "Ivanov Ivan") (u "1990-05-15") (u "F")
                    db) in
  length (rows_of db1) = 2%nat
  /\ fst (V1.get_all_employees now db1)
     = Ok [mkListing (u "Ivanov Ivan") (u "1990-05-15") Male (Some 36%Z)].
Proof.
  destruct (V1_listing_ignores_repeated_person (mkDate 2026 11 3)
              (u "Ivanov Ivan") (u "1990-05-15") (u "F") (mkDate 1990 5 15)
              (snd (V1.add_employee (u "Ivanov Ivan") (u "1990-05-15")
                      (u "M") empty_db))
              eq_refl ltac:(left; reflexivity)) as (_ & H2 & H3).
  split; [exact H2|]. etransitivity; [exact H3|]. vm_compute. reflexivity.
Defined.

(** ** The listing of v3 *)

Lemma filter_true {A} (l : list A) : List.filter (fun _ => true) l = l.
Proof. induction l as [|x l IH]; [done|]. cbn [List.filter]. by rewrite IH. Qed.

Lemma V3_get_all_employees_eq (now : date) (db : database) :
  V3.get_all_employees now db
  = (match table db with
     | Some rows =>
         V3.mkResponse 200
           (Some (List.map (to_listing now) (order_by_name rows)))
     | None => V3.mkResponse 500 None
     end, db).
Proof.
  unfold V3.get_all_employees, V3.route. rewrite St_bind_unfold.
  unfold fetch, select_where.
  destruct (table db) as [rows|]; [|done]. by rewrite filter_true.
Qed.

(** [GET /employees/] answers 500 while the table is missing.  When it
    exists the answer is 200 with one entry for every stored row,
    repeated persons included, in the order of the names; the database
    is not changed. *)
Theorem V3_listing_has_every_row (now : date) (db : database) :
  snd (V3.get_all_employees now db) = db
  /\ match table db with
     | None => fst (V3.get_all_employees now db) = V3.mkResponse 500 None
     | Some rows =>
         exists l,
           fst (V3.get_all_employees now db) = V3.mkResponse 200 (Some l)
           /\ Permutation l (List.map (to_listing now) rows)
           /\ StronglySorted
                (fun a b => text_le (l_full_name a) (l_full_name b) = true) l
     end.
Proof.
  rewrite V3_get_all_employees_eq. cbn [fst snd]. split; [done|].
  destruct (table db) as [rows|]; [|done].
  eexists. split; [done|]. split.
  - apply Permutation_map.
    apply (sorter_perm _ name_order_total name_order_trans).
  - apply (StronglySorted_map (to_listing now)
             (fun a b => text_le (l_full_name a) (l_full_name b) = true)).
    apply (sorter_sorted _ name_order_total name_order_trans).
Qed.

(** ** Adding and listing in v2 *)

Lemma V2_add_employee_stores (fn bd g : str) (d : date) (db : database) :
  strptime bd = Ok d -> recognised g = true ->
  let gender := if in_tuple (lower g) male_spellings then Male else Female in
  V2.add_employee fn bd g db
  = (Ok (V2.mkEmployee (V2._normalize_name fn) d gender),
     mkDb (Some (rows_of db
                 ++ [mkRow (Z.of_nat (length (rows_of db)) + 1)
                       (V2._normalize_name fn) (isoformat d) gender]))
          (indexes db)).
Proof.
  intros Hd Hg gender. subst gender. unfold V2.add_employee.
  rewrite St_bind_unfold, V2_ensure_table. unfold try_except.
  rewrite St_bind_unfold. unfold lift at 1. rewrite Hd.
  rewrite St_bind_unfold. unfold lift at 1.
  pose proof (new_Employee_recognised fn d g) as He.
  destruct (V2.new_Employee fn d g) as [e|x]; [|destruct He; congruence].
  destruct He as [_ ->]. cbn [V2.e_full_name V2.e_birth_date V2.e_gender].
  rewrite St_bind_unfold.
  unfold V2.insert_employee, V2._execute, try_except, transaction.
  rewrite St_bind_unfold. unfold execute, insert.
  rewrite table_create_table, indexes_create_table. cbn [table indexes].
  by rewrite St_bind_unfold.
Qed.

Lemma V2_get_all_employees_eq (db : database) :
  V2.get_all_employees db
  = (match V2.to_dicts (order_by_name (rows_of db)) ≫= V2.to_employees with
     | Ok l => Ok l
     | Raise _ => Raise RuntimeError
     end, create_table_if_not_exists db).
Proof.
  unfold V2.get_all_employees. rewrite St_bind_unfold, V2_ensure_table.
  unfold try_except. rewrite St_bind_unfold.
  unfold V2.db_get_all_employees. rewrite St_bind_unfold.
  unfold V2._execute, try_except, transaction, fetch, select_where.
  rewrite table_create_table, filter_true. unfold lift.
  destruct (V2.to_dicts _) as [ds|x]; [|done]. cbn [mbind result_bind].
  by destruct (V2.to_employees ds).
Qed.

(** A row that can be read is read as the employee it holds. *)
Lemma read_back (rows : list row) :
  Forall readable rows ->
  exists l,
    V2.to_dicts rows ≫= V2.to_employees = Ok l
    /\ Forall2 employee_of_row rows l.
Proof.
  induction 1 as [|r rows [[d Hd] Hg] Hrows (l & Hl & Hall)].
  - exists []. split; [done|constructor].
  - cbn [V2.to_dicts]. rewrite Hd. cbn [mbind result_bind].
    destruct (V2.to_dicts rows) as [ds|x]; [|done].
    cbn [mbind result_bind V2.to_employees] in *.
    cbn [V2.d_full_name V2.d_birth_date V2.d_gender].
    unfold V2.new_Employee.
    assert (Hn : V2._normalize_gender (gender r) = Ok (gender r)).
    { destruct Hg as [-> | ->]; [apply normalize_Male|apply normalize_Female]. }
    rewrite Hn. cbn [mbind result_bind]. rewrite Hl. eexists. split; [done|].
    constructor; [|done]. by repeat split.
Qed.

(** A birth date that [add_employee] of v2 accepts, however it was
    typed, is stored in the ISO form: the row added holds a text that
    both [strptime], by which v2 reads it, and the date functions of
    SQLite, by which the listings of v1 and v3 compute the age, read
    back as the date that was given.  (The gender is one that v2
    recognises and the name one that the driver can encode.) *)
Theorem V2_stored_birth_date_is_read_back (fn bd g : str) (d : date)
    (db : database) :
  strptime bd = Ok d -> recognised g = true -> encodable fn = true ->
  exists r,
    rows_of (snd (V2.add_employee fn bd g db)) = rows_of db ++ [r]
    /\ strptime (birth_date r) = Ok d
    /\ SQLite.parse_date (birth_date r) = Some d.
Proof.
  intros Hd Hg _. rewrite (V2_add_employee_stores fn bd g d db Hd Hg).
  cbn [snd]. rewrite rows_of_mk. eexists. split; [done|].
  cbn [birth_date]. apply isoformat_read_back. by eapply strptime_valid.
Qed.

(** The theorem at the text "2024-2-29". *)
Lemma V2_stored_birth_date_is_read_back_witness :
  exists r,
    rows_of (snd (V2.add_employee (u "Ivanov Ivan") (u "2024-2-29") (u "m")
                    empty_db)) = rows_of empty_db ++ [r]
    /\ strptime (birth_date r) = Ok (mkDate 2024 2 29)
    /\ SQLite.parse_date (birth_date r) = Some (mkDate 2024 2 29).
Proof.
  apply (V2_stored_birth_date_is_read_back (u "Ivanov Ivan") (u "2024-2-29")
           (u "m") (mkDate 2024 2 29) empty_db); reflexivity.
Defined.

(** ** The age of one employee in the three versions *)

Lemma printable_valid (d : date) : valid_date d = true -> printable d.
Proof.
  intros Hv. destruct (valid_date_fields d Hv) as (Hy & Hm & Hd).
  pose proof (days_in_month_le_31 (year d) (month d)).
  unfold printable. lia.
Qed.

(** The three versions agree on the age of an employee added by v2,
    on a day on which the date [today] of the machine's time zone,
    which [calculate_age] reads, is the date [now] of UTC, which
    SQLite's ['now'] is: the listing of v3 has an entry with the name,
    the birth date and the gender of the [Employee] that [add_employee]
    returned and with the age its [calculate_age] gives, computed by
    SQLite from the stored text; the listing of v1 has an entry with
    that name, that birth date and that age.  (The name is one that the
    driver can encode.) *)
Theorem V2_employee_age_in_listings (today now : date) (fn bd g : str)
    (d : date) (db : database) :
  strptime bd = Ok d -> recognised g = true -> encodable fn = true ->
  printable now -> today = now ->
  let db1 := snd (V2.add_employee fn bd g db) in
  exists e l3 l1,
    fst (V2.add_employee fn bd g db) = Ok e
    /\ fst (V3.get_all_employees now db1) = V3.mkResponse 200 (Some l3)
    /\ In (mkListing (V2.e_full_name e) (isoformat (V2.e_birth_date e))
             (V2.e_gender e) (Some (V2.calculate_age today e))) l3
    /\ fst (V1.get_all_employees now db1) = Ok l1
    /\ exists x, In x l1
         /\ l_full_name x = V2.e_full_name e
         /\ l_birth_date x = isoformat (V2.e_birth_date e)
         /\ l_age x = Some (V2.calculate_age today e).
Proof.
  intros Hd Hg _ Hnow -> db1. subst db1.
  rewrite (V2_add_employee_stores fn bd g d db Hd Hg). cbn [fst snd].
  set (gender := if in_tuple (lower g) male_spellings then Male else Female).
  set (r := mkRow _ _ _ _).
  set (e := V2.mkEmployee (V2._normalize_name fn) d gender).
  assert (Hage : age_expr now (isoformat d) = Some (V2.calculate_age now e)).
  { rewrite age_expr_isoformat, calculate_age_rule; [done|done|].
    apply printable_valid. by eapply strptime_valid. }
  rewrite V3_get_all_employees_eq, V1_get_all_employees_eq.
  cbn [fst table]. rewrite rows_of_mk.
  exists e. do 2 eexists. split; [done|]. split; [done|]. split; [|split; [done|]].
  - change (mkListing _ _ _ _) with
      (mkListing (full_name r) (birth_date r) (SQLite.gender r)
         (Some (V2.calculate_age now e))).
    rewrite <- Hage. apply (in_map (to_listing now)).
    eapply Permutation_in.
    + symmetry. apply (sorter_perm _ name_order_total name_order_trans).
    + apply in_app_iff. right. by left.
  - destruct (grouped_rows_spec (rows_of db ++ [r])) as [Hcov _].
    specialize (Hcov r ltac:(apply in_app_iff; right; by left)).
    apply in_map_iff in Hcov as (r' & Hk & Hr').
    exists (to_listing now r'). split; [by apply in_map|].
    injection Hk as Hn Hb. cbn [to_listing l_full_name l_birth_date l_age].
    rewrite Hn, Hb. by repeat split.
Qed.

(** The theorem for "Ivanov Ivan", born "1990-5-1", added to the empty
    file, on 3 November 2026 here and in UTC. *)
Lemma V2_employee_age_in_listings_witness :
  let db1 := snd (V2.add_employee (u "Ivanov Ivan") (u "1990-5-1") (u "m")
                    empty_db) in
  fst (V3.get_all_employees (mkDate 2026 11 3) db1)
  = V3.mkResponse 200
      (Some [mkListing (u "Ivanov Ivan") (u "1990-05-01") Male (Some 36%Z)])
  /\ exists e l3 l1,
    fst (V2.add_employee (u "Ivanov Ivan") (u "1990-5-1") (u "m") empty_db)
    = Ok e
    /\ fst (V3.get_all_employees (mkDate 2026 11 3) db1)
       = V3.mkResponse 200 (Some l3)
    /\ In (mkListing (V2.e_full_name e) (isoformat (V2.e_birth_date e))
             (V2.e_gender e) (Some (V2.calculate_age (mkDate 2026 11 3) e))) l3
    /\ fst (V1.get_all_employees (mkDate 2026 11 3) db1) = Ok l1
    /\ exists x, In x l1
         /\ l_full_name x = V2.e_full_name e
         /\ l_birth_date x = isoformat (V2.e_birth_date e)
         /\ l_age x = Some (V2.calculate_age (mkDate 2026 11 3) e).
Proof.
  split; [reflexivity|].
  apply (V2_employee_age_in_listings (mkDate 2026 11 3) (mkDate 2026 11 3)
           (u "Ivanov Ivan") (u "1990-5-1") (u "m") (mkDate 1990 5 1)
           empty_db).
  - reflexivity.
  - reflexivity.
  - reflexivity.
  - unfold printable. cbn. lia.
  - reflexivity.
Defined.

(** ** Search in v2 *)


Lemma like_percent_percent (s : str) : like ([percent] ++ [percent]) s = true.
Proof.
  destruct s as [|a s].
  - reflexivity.
  - change (like ([percent] ++ [percent]) (a :: s))
      with (like [percent] (a :: s) || like ([percent] ++ [percent]) s).
    by rewrite like_percent_all.
Qed.

Lemma V2_search_employees_eq (g p : str) (db : database) :
  V2.search_employees g p db
  = (match V2.to_dicts
             (List.filter
                (fun r => bool_decide (gender r = g)
                          && like (p ++ [percent]) (full_name r))
                (rows_of db)) ≫= V2.to_employees with
     | Ok l => Ok l
     | Raise _ => Raise RuntimeError
     end, create_table_if_not_exists db).
Proof.
  unfold V2.search_employees. rewrite St_bind_unfold, V2_ensure_table.
  unfold try_except at 1. rewrite St_bind_unfold.
  rewrite V2_filter_eq by apply has_table_create_table.
  rewrite rows_of_create_table.
  destruct (V2.to_dicts _) as [ds|x]; [|done]. unfold lift.
  cbn [mbind result_bind]. by destruct (V2.to_employees ds).
Qed.

Lemma Forall_filter_readable (f : row -> bool) (rows : list row) :
  Forall readable rows -> Forall readable (List.filter f rows).
Proof.
  induction 1 as [|r rows Hr Hrows IH]; cbn [List.filter]; [constructor|].
  destruct (f r); [by constructor|done].
Qed.




(** With the beginning "%", which the menu passes when nothing was
    typed, [search_employees] returns an employee for every row of the
    gender asked for, in an order that is not fixed. *)
Theorem V2_search_percent_finds_gender (g : str) (db : database) :
  encodable g = true -> Forall readable (rows_of db) ->
  exists l rows,
    fst (V2.search_employees g [percent] db) = Ok l
    /\ Permutation rows
         (List.filter (fun r => bool_decide (gender r = g)) (rows_of db))
    /\ Forall2 employee_of_row rows l.
Proof.
  intros _ Hdb. rewrite V2_search_employees_eq. cbn [fst].
  rewrite (filter_ext_eq _ (fun r => bool_decide (gender r = g))).
  - destruct (read_back
                (List.filter (fun r => bool_decide (gender r = g)) (rows_of db)))
      as (l & -> & Hl); [by apply Forall_filter_readable|].
    by exists l, (List.filter (fun r => bool_decide (gender r = g)) (rows_of db)).
  - intros r. by rewrite like_percent_percent, andb_true_r.
Qed.

(** The theorem for the table that holds a man and a woman. *)
Lemma V2_search_percent_finds_gender_witness :
  let db := snd (V2.add_employee (u "petrova anna") (u "1985-01-20") (u "f")
                   (snd (V2.add_employee (u "fedorov ivan") (u "1990-05-15")
                           (u "m") empty_db))) in
  fst (V2.search_employees Female [percent] db)
  = Ok [V2.mkEmployee (u "Petrova Anna") (mkDate 1985 1 20) Female]
  /\ exists l rows,
       fst (V2.search_employees Female [percent] db) = Ok l
       /\ Permutation rows
            (List.filter (fun r => bool_decide (gender r = Female))
               (rows_of db))
       /\ Forall2 employee_of_row rows l.
Proof.
  split; [reflexivity|].
  apply V2_search_percent_finds_gender; [reflexivity|].
  repeat (constructor;
          [split; [eexists; reflexivity|first [by left|by right]]|]).
  constructor.
Defined.

(** ** The command line of v2 *)

Lemma indexes_are_create_table (ixs : gmap string (list indexed_expr)) :
  preserves (indexes_are ixs)
    (execute (fun db => Ok (create_table_if_not_exists db))).
Proof.
  apply preserves_execute. intros db db' H [= <-].
  unfold indexes_are. by rewrite indexes_create_table.
Qed.

Lemma indexes_are_insert (ixs : gmap string (list indexed_expr))
    (fn bd g : str) :
  preserves (indexes_are ixs) (execute (insert fn bd g)).
Proof.
  apply preserves_execute. intros [[rows|] ix] db' H; [|done].
  by intros [= <-].
Qed.

Lemma indexes_are_V2_ensure (ixs : gmap string (list indexed_expr)) :
  preserves (indexes_are ixs) V2.ensure_table_exists.
Proof.
  intros db H. rewrite V2_ensure_table. cbn [snd].
  unfold indexes_are. by rewrite indexes_create_table.
Qed.

Ltac keep_indexes :=
  cbv zeta;
  repeat first
    [ apply preserves_ret | apply preserves_raise | apply preserves_lift
    | apply preserves_fetch | apply preserves_execute_insert
    | apply indexes_are_create_table | apply indexes_are_insert
    | apply indexes_are_V2_ensure
    | apply preserves_bind; [|intros ?]
    | apply preserves_try_except; [|intros ?]
    | apply preserves_transaction
    | apply preserves_if
    | progress cbv zeta ].

Lemma indexes_are_V2_add (ixs : gmap string (list indexed_expr))
    (fn bd g : str) :
  preserves (indexes_are ixs) (V2.add_employee fn bd g).
Proof.
  unfold V2.add_employee.
  apply preserves_bind; [apply indexes_are_V2_ensure|intros _].
  apply preserves_try_except; [|intros e; keep_indexes].
  apply preserves_bind_lift. intros d _.
  apply preserves_bind_lift. intros emp _.
  unfold V2.insert_employee, V2._execute. keep_indexes.
Qed.

Lemma indexes_are_executemany (ixs : gmap string (list indexed_expr))
    (l : list V2.employee_data) :
  preserves (indexes_are ixs) (V2.executemany l).
Proof.
  induction l as [|d l IH]; cbn [V2.executemany]; keep_indexes. apply IH.
Qed.

Lemma indexes_are_V2_batch_add (ixs : gmap string (list indexed_expr))
    (l : list V2.employee_data) :
  preserves (indexes_are ixs) (V2.batch_add_employees l).
Proof.
  unfold V2.batch_add_employees.
  apply preserves_bind; [apply indexes_are_V2_ensure|intros _].
  apply preserves_try_except; [|intros e; keep_indexes].
  unfold V2.batch_insert_employees.
  destruct (V2.valid_employees l) as [|d l']; [keep_indexes|].
  apply preserves_try_except; [|intros e; keep_indexes].
  apply preserves_transaction.
  apply preserves_bind; [apply indexes_are_executemany|intros _; keep_indexes].
Qed.

Lemma indexes_are_add_batches (ixs : gmap string (list indexed_expr))
    (fake : V2.Faker) (draw : nat -> N) (n k : nat) (total : Z) :
  preserves (indexes_are ixs) (V2.add_batches fake draw n k total).
Proof.
  revert k total. induction n as [|n IH]; intros k total;
    cbn [V2.add_batches]; [apply preserves_ret|].
  apply preserves_bind; [apply indexes_are_V2_batch_add|intros a; apply IH].
Qed.

Lemma indexes_are_V2_generate (ixs : gmap string (list indexed_expr))
    (fake : V2.Faker) (draw : nat -> N) (c s : Z) :
  preserves (indexes_are ixs) (V2.generate_test_data fake draw c s).
Proof.
  unfold V2.generate_test_data.
  apply preserves_bind; [apply indexes_are_V2_ensure|intros _].
  apply preserves_try_except; [|intros e; keep_indexes].
  apply preserves_bind; [apply indexes_are_add_batches|intros [t k]].
  apply preserves_bind; [apply indexes_are_V2_batch_add|intros a].
  keep_indexes.
Qed.

Lemma indexes_are_V2_list (ixs : gmap string (list indexed_expr)) :
  preserves (indexes_are ixs) V2.get_all_employees.
Proof.
  unfold V2.get_all_employees, V2.db_get_all_employees, V2._execute.
  keep_indexes.
Qed.

Lemma indexes_are_V2_male_f (ixs : gmap string (list indexed_expr)) :
  preserves (indexes_are ixs) V2.get_male_employees_with_f_surname.
Proof.
  unfold V2.get_male_employees_with_f_surname,
    V2.get_employees_by_gender_and_name_start, V2._execute.
  keep_indexes.
Qed.

Lemma snd_called {A} (r : result A * database)
    (k : A -> database -> (list V2App.line * option V2App.raised) * database) :
  (forall a db, snd (k a db) = db) -> snd (V2App.called r k) = snd r.
Proof. intros Hk. destruct r as [[a|e] db]; [apply Hk|done]. Qed.

Lemma snd_main (today : date) (fake : V2.Faker) (draw : nat -> N)
    (mode : V2App.value) (args : list str) (db : database) :
  snd (V2App.main today fake draw mode args db) = db
  \/ snd (V2App.main today fake draw mode args db)
     = snd (V2App.dispatch today fake draw mode args db).
Proof.
  unfold V2App.main. destruct (_ || _); [by left|right].
  by destruct (V2App.dispatch _ _ _ _ _ _) as [[out [e|]] db'].
Qed.

(** No mode of the command line of v2 other than 0, which hands over
    to the menu, creates an index, whatever the arguments: when [main]
    has returned or exited, the indexes of the database are those of
    before.  (The optimisation is reached through the menu only.) *)
Theorem V2_command_line_creates_no_index (today : date) (fake : V2.Faker)
    (draw : nat -> N) (m : Z) (args : list str) (db : database) :
  m <> 0%Z ->
  exists out code,
    fst (V2App.main today fake draw (V2App.Int m) args db)
    = (out, V2App.finished code)
    /\ indexes (snd (V2App.main today fake draw (V2App.Int m) args db))
       = indexes db.
Proof.
  intros Hm.
  assert (Hfin : exists out code,
             fst (V2App.main today fake draw (V2App.Int m) args db)
             = (out, V2App.finished code)).
  { unfold V2App.main. cbn [V2App.py_eq orb].
    destruct (Z.eqb_spec m 0) as [|_]; [done|].
    destruct (V2App.dispatch _ _ _ _ _ _) as [[out' [e|]] db'];
      by do 2 eexists. }
  destruct Hfin as (out & code & Hfin). exists out, code. split; [done|].
  generalize (V2App.Int m). intros mode. clear Hfin Hm.
  destruct (snd_main today fake draw mode args db) as [-> | ->]; [done|].
  unfold V2App.dispatch.
  repeat match goal with
         | |- context [if ?b then _ else _] => destruct b
         end;
    try reflexivity; rewrite snd_called.
  - by apply (indexes_are_V2_ensure (indexes db)).
  - done.
  - by apply (indexes_are_V2_add (indexes db)).
  - done.
  - by apply (indexes_are_V2_list (indexes db)).
  - intros a db'. by destruct (V2App.display_employees _ _).
  - by apply (indexes_are_V2_generate (indexes db)).
  - by intros [t sp] db'.
  - by apply (indexes_are_V2_male_f (indexes db)).
  - intros a db'. by destruct (V2App.display_employees _ _) as [out' [e|]].
Qed.

(** The theorem for the mode 4 on a file that has the indexes of v1. *)
Lemma V2_command_line_creates_no_index_witness :
  let db := snd (V1.optimize_database (snd (V1.create_table empty_db))) in
  indexes db = v1_indexes
  /\ exists out code,
       fst (V2App.main (mkDate 2026 11 3) sample_faker (fun _ => 7)
              (V2App.Int 4) [] db)
       = (out, V2App.finished code)
       /\ indexes (snd (V2App.main (mkDate 2026 11 3) sample_faker
                          (fun _ => 7) (V2App.Int 4) [] db))
          = indexes db.
Proof.
  split; [reflexivity|].
  apply (V2_command_line_creates_no_index (mkDate 2026 11 3) sample_faker
           (fun _ => 7) 4 []). discriminate.
Defined.

(** A mode outside 0..5, 6 and 7 among them, is answered with the
    message for wrong arguments and the usage: [args.mode] is an
    integer and the branches of the modes 6 and 7 compare it with
    strings.  [main] returns, and the database is untouched. *)
Theorem V2_command_line_rejects_modes_above_5 (today : date)
    (fake : V2.Faker) (draw : nat -> N) (m : Z) (args : list str)
    (db : database) :
  (m < 0 \/ 5 < m)%Z ->
  V2App.main today fake draw (V2App.Int m) args db
  = (([V2App.wrong_arguments; V2App.usage], V2App.finished 0), db).
Proof.
  intros Hm. unfold V2App.main, V2App.dispatch, V2App.py_eq.
  cbn [orb andb].
  repeat match goal with
         | |- context [(m =? ?k)%Z] =>
             destruct (Z.eqb_spec m k); [lia|]
         end.
  reflexivity.
Qed.

(** The theorem for the mode 6, which the help of the program gives
    for the optimisation. *)
Lemma V2_command_line_rejects_modes_above_5_witness :
  V2App.main (mkDate 2026 11 3) sample_faker (fun _ => 7) (V2App.Int 6) []
    empty_db
  = (([V2App.wrong_arguments; V2App.usage], V2App.finished 0), empty_db).
Proof.
  apply V2_command_line_rejects_modes_above_5. lia.
Defined.

Lemma to_dicts_readable (rows : list row) :
  Forall readable rows ->
  exists ds, V2.to_dicts rows = Ok ds /\ length ds = length rows.
Proof.
  induction 1 as [|r rows [[d Hd] _] _ (ds & Hds & Hlen)].
  - by exists [].
  - cbn [V2.to_dicts]. rewrite Hd, Hds. cbn [mbind result_bind].
    eexists. split; [done|]. cbn [length]. by rewrite Hlen.
Qed.

(** The mode 5 of the command line of v2 shows no employee: the
    records found are dictionaries, and [display_employees] asks each
    for its method [calculate_age].  When the filter query finds
    nothing, the message for an empty list and the time are written and
    [main] returns; when it finds something, the heading is written,
    then the message of an error, and the program exits with 1. *)
Theorem V2_command_line_mode_5_shows_no_employee (today : date)
    (fake : V2.Faker) (draw : nat -> N) (args : list str) (db : database) :
  Forall readable (rows_of db) ->
  V2App.main today fake draw (V2App.Int 5) args db
  = (match matches db with
     | O => ([V2App.no_data; V2App.query_time], V2App.finished 0)
     | Datatypes.S _ =>
         ([V2App.heading; V2App.error_message], V2App.finished 1)
     end, create_table_if_not_exists db).
Proof.
  intros Hdb. unfold V2App.main, V2App.dispatch. cbn [V2App.py_eq orb andb].
  change (5 =? 0)%Z with false. change (5 =? 1)%Z with false.
  change (5 =? 2)%Z with false. change (5 =? 3)%Z with false.
  change (5 =? 4)%Z with false. change (5 =? 5)%Z with true.
  cbv iota. unfold V2.get_male_employees_with_f_surname.
  rewrite St_bind_unfold, V2_ensure_table.
  destruct (to_dicts_readable (List.filter male_F_or_f (rows_of db)))
    as (ds & Hds & Hlen); [by apply Forall_filter_readable|].
  rewrite (V2_filter_male_F _ ds) by
    (try apply has_table_create_table; by rewrite rows_of_create_table).
  unfold V2App.called, matches. rewrite <- Hlen.
  by destruct ds as [|d ds].
Qed.

(** The theorem for the table that holds the man "Fedorov Ivan". *)
Lemma V2_command_line_mode_5_shows_no_employee_witness :
  let db := snd (V2.add_employee (u "Fedorov Ivan") (u "1990-05-15") (u "m")
                   empty_db) in
  matches db = 1%nat
  /\ V2App.main (mkDate 2026 11 3) sample_faker (fun _ => 7) (V2App.Int 5) []
       db
     = (([V2App.heading; V2App.error_message], V2App.finished 1), db).
Proof.
  split; [reflexivity|].
  etransitivity.
  - apply V2_command_line_mode_5_shows_no_employee.
    repeat (constructor;
            [split; [eexists; reflexivity|first [by left|by right]]|]).
    constructor.
  - reflexivity.
Defined.

Lemma display_rows_objects (today : date) (l : list V2.Employee) :
  V2App.display_rows today (List.map V2App.Obj l)
  = (List.map (fun e => V2App.employee_line e (V2.calculate_age today e)) l,
     None).
Proof.
  induction l as [|e l IH]; [done|].
  cbn [List.map V2App.display_rows]. by rewrite IH.
Qed.

Lemma V2_add_employee_bad_date (fn bd g : str) (e : exn) (db : database) :
  strptime bd = Raise e ->
  V2.add_employee fn bd g db = (Raise ValueError, create_table_if_not_exists db).
Proof.
  intros Hd. apply strptime_raises in Hd as He. subst e.
  unfold V2.add_employee. rewrite St_bind_unfold, V2_ensure_table.
  unfold try_except. rewrite St_bind_unfold. unfold lift at 1.
  by rewrite Hd.
Qed.

(** The mode 2 of the command line of v2 with a name that the driver
    can encode, a birth date and a gender: when [strptime] reads the
    date and the gender is one of the eight spellings, the row with the
    normalised name, the date in ISO form and the gender "Male" or
    "Female" is added, the message of success is written and [main]
    returns; otherwise no row is added, the message of an error is
    written and the program exits with 1. *)
Theorem V2_command_line_mode_2_adds_or_exits_with_1 (today : date)
    (fake : V2.Faker) (draw : nat -> N) (fn bd g : str) (more : list str)
    (db : database) :
  encodable fn = true ->
  V2App.main today fake draw (V2App.Int 2) (fn :: bd :: g :: more) db
  = match strptime bd, recognised g with
    | Ok d, true =>
        (([V2App.employee_added], V2App.finished 0),
         mkDb (Some (rows_of db
                     ++ [mkRow (Z.of_nat (length (rows_of db)) + 1)
                           (V2._normalize_name fn) (isoformat d)
                           (if in_tuple (lower g) male_spellings
                            then Male else Female)]))
              (indexes db))
    | _, _ =>
        (([V2App.error_message], V2App.finished 1),
         create_table_if_not_exists db)
    end.
Proof.
  intros _.
  unfold V2App.main, V2App.dispatch. cbn [V2App.py_eq orb andb].
  change (2 =? 0)%Z with false. change (2 =? 1)%Z with false.
  change (2 =? 2)%Z with true. cbn [length Nat.leb andb nth]. cbv iota.
  destruct (strptime bd) as [d|e] eqn:Hd.
  - destruct (recognised g) eqn:Hg.
    + by rewrite (V2_add_employee_stores fn bd g d db Hd Hg).
    + rewrite V2_add_employee_bad_gender; [done|].
      pose proof (new_Employee_recognised fn d g) as He.
      unfold V2.new_Employee in He.
      destruct (V2._normalize_gender g) as [x|x]; cbn [mbind result_bind] in He.
      * destruct He. congruence.
      * destruct He as [_ ->]. done.
  - by rewrite (V2_add_employee_bad_date fn bd g e db Hd).
Qed.

(** The theorem for the example of the help of the program, and for
    the same with a gender that is not recognised. *)
Lemma V2_command_line_mode_2_adds_or_exits_with_1_witness :
  V2App.main (mkDate 2026 11 3) sample_faker (fun _ => 7) (V2App.Int 2)
    [u "Ivanov Ivan"; u "1990-05-15"; u "M"] empty_db
  = (([V2App.employee_added], V2App.finished 0),
     mkDb (Some [mkRow 1 (u "Ivanov Ivan") (u "1990-05-15") Male]) ∅)
  /\ V2App.main (mkDate 2026 11 3) sample_faker (fun _ => 7) (V2App.Int 2)
       [u "Ivanov Ivan"; u "1990-05-15"; u "xyz"] empty_db
     = (([V2App.error_message], V2App.finished 1), mkDb (Some []) ∅).
Proof.
  split.
  - rewrite (V2_command_line_mode_2_adds_or_exits_with_1 (mkDate 2026 11 3)
               sample_faker (fun _ => 7) (u "Ivanov Ivan") (u "1990-05-15")
               (u "M") [] empty_db eq_refl).
    reflexivity.
  - rewrite (V2_command_line_mode_2_adds_or_exits_with_1 (mkDate 2026 11 3)
               sample_faker (fun _ => 7) (u "Ivanov Ivan") (u "1990-05-15")
               (u "xyz") [] empty_db eq_refl).
    reflexivity.
Defined.

(** ** The menu item for adding in v2 *)

Lemma read_birth_date_spec (stdin : list str) (out : list V2App.line)
    (bd : str) (rest : list str) :
  V2App.read_birth_date stdin = (out, Some (bd, rest)) ->
  exists a d, In a stdin /\ bd = strip a /\ strptime bd = Ok d.
Proof.
  revert out. induction stdin as [|a stdin IH]; intros out; [done|].
  cbn [V2App.read_birth_date]. cbv zeta.
  destruct (strptime (strip a)) as [d|e] eqn:Hd.
  - intros [= _ <- _]. exists a, d. split; [by left|done].
  - destruct (V2App.read_birth_date stdin) as [out' [[bd' rest']|]];
      intros [= _ <- <-].
    destruct (IH out' eq_refl) as (a' & d & Hin & Ha & Hd').
    exists a', d. split; [by right|done].
Qed.

Lemma read_gender_spec (stdin : list str) (out : list V2App.line)
    (g : str) (rest : list str) :
  V2App.read_gender stdin = (out, Some (g, rest)) -> g = u "M" \/ g = u "F".
Proof.
  revert out. induction stdin as [|a stdin IH]; intros out; [done|].
  cbn [V2App.read_gender]. cbv zeta.
  destruct (in_tuple (upper a) _); [intros [= _ <- _]; by left|].
  destruct (in_tuple (upper a) _); [intros [= _ <- _]; by right|].
  destruct (V2App.read_gender stdin) as [out' [[g' rest']|]];
    intros [= _ <- <-].
  by apply (IH out').
Qed.

(** The menu item for adding an employee never fails on what was
    typed, when that is text that the driver can encode: the date and
    the gender are asked for until they are accepted, so the manager
    rejects neither.  Whatever such input and whatever the database,
    either the function returns after adding one row,
    with the normalised form of the first line as name, the ISO form of
    a date read from a line of the input and the gender "Male" or
    "Female", or the input ended and [EOFError] is raised with the
    database as it was. *)
Theorem V2_menu_add_stores_or_input_ends (stdin : list str) (db : database) :
  Forall (fun a => encodable a = true) stdin ->
  match V2App._add_employee_interactive stdin db with
  | ((out, None), (rest, db')) =>
      exists a d g,
        In a stdin /\ strptime (strip a) = Ok d
        /\ (g = Male \/ g = Female)
        /\ db' = mkDb (Some (rows_of db
                             ++ [mkRow (Z.of_nat (length (rows_of db)) + 1)
                                   (V2._normalize_name (strip (hd [] stdin)))
                                   (isoformat d) g]))
                      (indexes db)
        /\ last out = Some V2App.employee_added
  | ((out, Some e), (rest, db')) => e = V2App.EOFError /\ db' = db
  end.
Proof.
  intros _. unfold V2App._add_employee_interactive.
  destruct stdin as [|name stdin]; [done|]. cbv zeta.
  destruct (V2App.read_birth_date stdin) as [out1 [[bd rest1]|]] eqn:Hbd;
    [|done].
  destruct (V2App.read_gender rest1) as [out2 [[g rest2]|]] eqn:Hg; [|done].
  destruct (read_birth_date_spec _ _ _ _ Hbd) as (a & d & Hin & -> & Hd).
  assert (Hrec : recognised g = true)
    by (destruct (read_gender_spec _ _ _ _ Hg) as [-> | ->]; reflexivity).
  rewrite (V2_add_employee_stores _ _ _ d db Hd Hrec).
  exists a, d. eexists. split; [by right|]. split; [done|].
  split; [apply or_gender|]. split; [done|].
  rewrite app_assoc, app_comm_cons. apply last_snoc.
Qed.

(** The theorem for a name, a date that is asked for twice and a
    gender typed as the Cyrillic letter U+043C. *)
Lemma V2_menu_add_stores_or_input_ends_witness :
  let stdin := [u " ivanov ivan "; u "15.05.1990"; u "1990-05-15"; [0x43C]] in
  V2App._add_employee_interactive stdin empty_db
  = (([V2App.adding; V2App.wrong_date_format; V2App.employee_added], None),
     ([], mkDb (Some [mkRow 1 (u "Ivanov Ivan") (u "1990-05-15") Male]) ∅))
  /\ match V2App._add_employee_interactive stdin empty_db with
     | ((out, None), (rest, db')) =>
         exists a d g,
           In a stdin /\ strptime (strip a) = Ok d
           /\ (g = Male \/ g = Female)
           /\ db' = mkDb (Some (rows_of empty_db
                                ++ [mkRow (Z.of_nat (length (rows_of empty_db))
                                           + 1)
                                      (V2._normalize_name
                                         (strip (hd [] stdin)))
                                      (isoformat d) g]))
                         (indexes empty_db)
           /\ last out = Some V2App.employee_added
     | ((out, Some e), (rest, db')) => e = V2App.EOFError /\ db' = empty_db
     end.
Proof.
  split; [reflexivity|].
  apply (V2_menu_add_stores_or_input_ends
           [u " ivanov ivan "; u "15.05.1990"; u "1990-05-15"; [0x43C]]
           empty_db).
  repeat constructor.
Defined.

(** ** The logging levels of v2 *)

(** Once the logger is initialised, [set_log_level] with one of the
    five levels, in any case of the letters, returns and leaves the
    logger without any handler: it removes them all, and the set-up
    that should add them again returns at once because of the flag.
    A call of [init_logger] afterwards changes nothing.  This holds
    whatever the set-up does with the file system and with loguru. *)
Theorem V2_set_log_level_leaves_no_handler
    (configure : V2Logging.logging -> bool * V2Logging.logging)
    (level : str) (s : V2Logging.logging) :
  V2Logging._logger_initialized s = true ->
  in_tuple (upper level) V2Logging.valid_levels = true ->
  let r := V2Logging.set_log_level configure level s in
  fst r = V2Logging.returns
  /\ V2Logging.handlers (snd r) = []
  /\ V2Logging.LOG_LEVEL_CONSOLE (snd r) = upper level
  /\ forall l, V2Logging.init_logger configure l (snd r)
               = (V2Logging.returns, snd r).
Proof.
  intros Hi Hl r. subst r.
  assert (Hr : V2Logging.set_log_level configure level s
               = (V2Logging.returns,
                  V2Logging.remove (V2Logging.set_levels (upper level) s))).
  { unfold V2Logging.set_log_level, V2Logging._setup_logger. rewrite Hl.
    cbn [negb V2Logging._logger_initialized V2Logging.remove
         V2Logging.set_levels].
    by rewrite Hi. }
  rewrite Hr. cbn [fst snd]. repeat split.
  intros l. unfold V2Logging.init_logger.
  cbn [V2Logging._logger_initialized V2Logging.remove V2Logging.set_levels].
  by rewrite Hi.
Qed.

(** The theorem for the level "debug", after an initialisation that
    added the handler of the console and the handler of the file. *)
Lemma V2_set_log_level_leaves_no_handler_witness :
  let configure := fun s =>
    (true,
     V2Logging.mkLogging (V2Logging._logger_initialized s)
       (V2Logging.LOG_LEVEL_FILE s) (V2Logging.LOG_LEVEL_CONSOLE s)
       (V2Logging.DEBUG_MODE s)
       [V2Logging.mkHandler V2Logging.stderr (V2Logging.LOG_LEVEL_CONSOLE s);
        V2Logging.mkHandler V2Logging.log_file
          (V2Logging.LOG_LEVEL_CONSOLE s)]) in
  let s := snd (V2Logging.init_logger configure None
                  (V2Logging.mkLogging false (Some (u "INFO")) (u "INFO")
                     false [])) in
  length (V2Logging.handlers s) = 2%nat
  /\ fst (V2Logging.set_log_level configure (u "debug") s)
     = V2Logging.returns
  /\ V2Logging.handlers (snd (V2Logging.set_log_level configure (u "debug") s))
     = []
  /\ V2Logging.LOG_LEVEL_CONSOLE
       (snd (V2Logging.set_log_level configure (u "debug") s))
     = u "DEBUG".
Proof.
  split; [reflexivity|].
  destruct (V2_set_log_level_leaves_no_handler
              (fun s =>
                 (true,
                  V2Logging.mkLogging (V2Logging._logger_initialized s)
                    (V2Logging.LOG_LEVEL_FILE s)
                    (V2Logging.LOG_LEVEL_CONSOLE s)
                    (V2Logging.DEBUG_MODE s)
                    [V2Logging.mkHandler V2Logging.stderr
                       (V2Logging.LOG_LEVEL_CONSOLE s);
                     V2Logging.mkHandler V2Logging.log_file
                       (V2Logging.LOG_LEVEL_CONSOLE s)]))
              (u "debug")
              (V2Logging.mkLogging true (Some (u "INFO")) (u "INFO") false
                 [V2Logging.mkHandler V2Logging.stderr (u "INFO");
                  V2Logging.mkHandler V2Logging.log_file (u "INFO")])
              eq_refl eq_refl) as (H1 & H2 & H3 & _).
  split; [exact H1|]. split; [exact H2|exact H3].
Defined.

(** ** Ordinals and dates *)

Lemma month_and_day_spec (leapyear : bool) (n : Z) :
  (0 <= n < 365 + (if leapyear then 1 else 0))%Z ->
  month_and_day_ok leapyear n.
Proof.
  intros Hn.
  assert (Hall : Forall (fun k => month_and_day_ok leapyear (Z.of_nat k))
                        (seq 0 (365 + (if leapyear then 1 else 0)))).
  { destruct leapyear; apply (bool_decide_unpack _); vm_compute; exact I. }
  rewrite Forall_forall in Hall.
  replace n with (Z.of_nat (Z.to_nat n)) by lia. apply Hall.
  apply list_elem_of_In, in_seq. destruct leapyear; lia.
Qed.

Lemma is_leap_true (y : Z) :
  _is_leap y = true
  <-> (y mod 4 = 0 /\ (y mod 100 <> 0 \/ y mod 400 = 0))%Z.
Proof.
  unfold _is_leap.
  rewrite andb_true_iff, orb_true_iff, negb_true_iff, !Z.eqb_eq, Z.eqb_neq.
  tauto.
Qed.

(** The quotients and the remainder that [_ord2ymd] takes of an
    ordinal. *)
Lemma ord2ymd_quotients (n : Z) :
  (1 <= n <= _MAXORDINAL)%Z ->
  let n0 := (n - 1)%Z in
  let n400 := (n0 / 146097)%Z in
  let n100 := (n0 mod 146097 / 36524)%Z in
  let n4 := (n0 mod 146097 mod 36524 / 1461)%Z in
  let n1 := (n0 mod 146097 mod 36524 mod 1461 / 365)%Z in
  let r := (n0 mod 146097 mod 36524 mod 1461 mod 365)%Z in
  (n - 1 = 146097 * n400 + 36524 * n100 + 1461 * n4 + 365 * n1 + r
   /\ 0 <= n400 <= 24 /\ 0 <= n100 <= 4 /\ 0 <= n4 <= 24 /\ 0 <= n1 <= 4
   /\ 0 <= r < 365
   /\ (n100 = 4 -> n4 = 0 /\ n1 = 0 /\ r = 0)
   /\ (n1 = 4 -> r = 0 /\ n4 <= 23)
   /\ 400 * n400 + 100 * n100 + 4 * n4 + n1 <= 9999
   /\ (n100 <= 3 -> n1 <= 3 ->
       400 * n400 + 100 * n100 + 4 * n4 + n1 <= 9998))%Z.
Proof.
  unfold _MAXORDINAL. intros Hn. cbv zeta.
  Z.div_mod_to_equations. lia.
Qed.

Lemma days_before_year_decomposed (n400 n100 n4 n1 : Z) :
  (0 <= n400)%Z -> (0 <= n100 <= 3)%Z -> (0 <= n4 <= 24)%Z ->
  (0 <= n1 <= 3)%Z ->
  _days_before_year (400 * n400 + 100 * n100 + 4 * n4 + n1 + 1)
  = (146097 * n400 + 36524 * n100 + 1461 * n4 + 365 * n1)%Z.
Proof.
  intros H400 H100 H4 H1. unfold _days_before_year. cbv zeta.
  Z.div_mod_to_equations. lia.
Qed.

Lemma is_leap_decomposed (n400 n100 n4 n1 : Z) :
  (0 <= n400)%Z -> (0 <= n100 <= 3)%Z -> (0 <= n4 <= 24)%Z ->
  (0 <= n1 <= 3)%Z ->
  _is_leap (400 * n400 + 100 * n100 + 4 * n4 + n1 + 1)
  = (n1 =? 3)%Z && (negb (n4 =? 24)%Z || (n100 =? 3)%Z).
Proof.
  intros H400 H100 H4 H1. apply eq_true_iff_eq.
  rewrite is_leap_true, andb_true_iff, orb_true_iff, negb_true_iff,
    !Z.eqb_eq, Z.eqb_neq.
  Z.div_mod_to_equations. lia.
Qed.

(** [_ord2ymd] returns a date, and it is the date of the ordinal:
    [date.fromordinal(n).toordinal() == n]. *)
Lemma ord2ymd_spec (n : Z) :
  (1 <= n <= _MAXORDINAL)%Z ->
  valid_date (_ord2ymd n) = true /\ toordinal (_ord2ymd n) = n.
Proof.
  intros Hn. pose proof (ord2ymd_quotients n Hn) as Hq. cbv zeta in Hq.
  unfold _ord2ymd. cbv zeta.
  change _DI400Y with 146097%Z. change _DI100Y with 36524%Z.
  change _DI4Y with 1461%Z.
  set (n400 := ((n - 1) / 146097)%Z) in *.
  set (n100 := ((n - 1) mod 146097 / 36524)%Z) in *.
  set (n4 := ((n - 1) mod 146097 mod 36524 / 1461)%Z) in *.
  set (n1 := ((n - 1) mod 146097 mod 36524 mod 1461 / 365)%Z) in *.
  set (r := ((n - 1) mod 146097 mod 36524 mod 1461 mod 365)%Z) in *.
  clearbody n400 n100 n4 n1 r.
  destruct Hq as (Hsum & H400 & H100 & H4 & H1 & Hr & Hc & Hy & Hmax & Hmax').
  destruct ((n1 =? 4)%Z || (n100 =? 4)%Z) eqn:Hlast.
  - (* the last day of a leap year *)
    apply orb_true_iff in Hlast. rewrite !Z.eqb_eq in Hlast.
    assert (Hleap : _is_leap (n400 * 400 + 1 + n100 * 100 + n4 * 4 + n1 - 1)
                    = true).
    { apply is_leap_true. Z.div_mod_to_equations. lia. }
    split.
    + unfold valid_date. cbn [year month day]. unfold _days_in_month.
      change (12 =? 2)%Z with false. cbn [andb].
      change (_DAYS_IN_MONTH 12) with 31%Z.
      rewrite !andb_true_iff, !Z.leb_le. lia.
    + unfold toordinal, _ymd2ord, _days_before_month. cbn [year month day].
      rewrite Hleap. change (2 <? 12)%Z with true. cbn [andb].
      change (_DAYS_BEFORE_MONTH 12) with 334%Z.
      unfold _days_before_year. cbv zeta. Z.div_mod_to_equations. lia.
  - apply orb_false_iff in Hlast. rewrite !Z.eqb_neq in Hlast.
    replace (n400 * 400 + 1 + n100 * 100 + n4 * 4 + n1)%Z
      with (400 * n400 + 100 * n100 + 4 * n4 + n1 + 1)%Z by lia.
    set (y := (400 * n400 + 100 * n100 + 4 * n4 + n1 + 1)%Z).
    set (leapyear := (n1 =? 3)%Z && (negb (n4 =? 24)%Z || (n100 =? 3)%Z)).
    assert (Hleap : _is_leap y = leapyear) by (apply is_leap_decomposed; lia).
    assert (Hdby : _days_before_year y
                   = (146097 * n400 + 36524 * n100 + 1461 * n4 + 365 * n1)%Z)
      by (apply days_before_year_decomposed; lia).
    pose proof (month_and_day_spec leapyear r
                  ltac:(destruct leapyear; lia)) as Hmd.
    unfold month_and_day_ok in Hmd.
    match goal with
    | |- context [if (r <? ?p)%Z then ?a else ?b] =>
        assert (Heq : (if (r <? p)%Z then a else b)
                      = mkDate y (fst (month_and_day leapyear r))
                               (snd (month_and_day leapyear r)))
          by (unfold month_and_day; cbv zeta; by destruct (r <? _)%Z);
        rewrite Heq; clear Heq
    end.
    destruct (month_and_day leapyear r) as [m d]. cbn [fst snd].
    destruct Hmd as (Hm & Hd & Hdoy). split.
    + unfold valid_date, _days_in_month. cbn [year month day].
      rewrite Hleap, !andb_true_iff, !Z.leb_le.
      repeat split; try lia.
      destruct ((m =? 2)%Z && leapyear) eqn:E; [|lia].
      apply andb_true_iff in E as [E _]. apply Z.eqb_eq in E. subst m.
      change (_DAYS_IN_MONTH 2) with 28%Z in Hd. lia.
    + unfold toordinal, _ymd2ord, _days_before_month. cbn [year month day].
      rewrite Hleap, Hdby. lia.
Qed.

Lemma days_before_year_diff (y1 y2 : Z) :
  (1 <= y1 <= y2)%Z ->
  (365 * (y2 - y1) <= _days_before_year y2 - _days_before_year y1
   <= 366 * (y2 - y1))%Z.
Proof.
  intros Hy. unfold _days_before_year. cbv zeta.
  Z.div_mod_to_equations. lia.
Qed.

Ltac month_tables :=
  repeat match goal with
         | H : context [_DAYS_IN_MONTH ?c] |- _ =>
             let v := eval vm_compute in (_DAYS_IN_MONTH c) in
             change (_DAYS_IN_MONTH c) with v in H
         | H : context [_DAYS_BEFORE_MONTH ?c] |- _ =>
             let v := eval vm_compute in (_DAYS_BEFORE_MONTH c) in
             change (_DAYS_BEFORE_MONTH c) with v in H
         | |- context [_DAYS_IN_MONTH ?c] =>
             let v := eval vm_compute in (_DAYS_IN_MONTH c) in
             change (_DAYS_IN_MONTH c) with v
         | |- context [_DAYS_BEFORE_MONTH ?c] =>
             let v := eval vm_compute in (_DAYS_BEFORE_MONTH c) in
             change (_DAYS_BEFORE_MONTH c) with v
         end.

(** The number of a day in a common year does not decrease from a
    (month, day) to a later one; 29 February has the number of
    1 March. *)
Lemma day_number_mono (d1 d2 : date) :
  valid_date d1 = true -> valid_date d2 = true ->
  (month d1 < month d2 \/ (month d1 = month d2 /\ day d1 <= day d2))%Z ->
  (_DAYS_BEFORE_MONTH (month d1) + day d1
   <= _DAYS_BEFORE_MONTH (month d2) + day d2)%Z.
Proof.
  intros H1 H2.
  destruct (valid_date_fields d1 H1) as (_ & Hm1 & Hd1).
  destruct (valid_date_fields d2 H2) as (_ & Hm2 & Hd2).
  destruct d1 as [y1 m1 dd1], d2 as [y2 m2 dd2]. cbn [year month day] in *.
  unfold _days_in_month in *.
  assert (Hc1 : (m1 = 1 \/ m1 = 2 \/ m1 = 3 \/ m1 = 4 \/ m1 = 5 \/ m1 = 6
                 \/ m1 = 7 \/ m1 = 8 \/ m1 = 9 \/ m1 = 10 \/ m1 = 11
                 \/ m1 = 12)%Z) by lia.
  assert (Hc2 : (m2 = 1 \/ m2 = 2 \/ m2 = 3 \/ m2 = 4 \/ m2 = 5 \/ m2 = 6
                 \/ m2 = 7 \/ m2 = 8 \/ m2 = 9 \/ m2 = 10 \/ m2 = 11
                 \/ m2 = 12)%Z) by lia.
  clear Hm1 Hm2 H1 H2.
  repeat destruct Hc1 as [Hc1|Hc1]; subst m1;
    (repeat destruct Hc2 as [Hc2|Hc2]); subst m2;
    intros Hlex; try lia;
    month_tables; cbn in Hd1, Hd2 |- *;
    try destruct (_is_leap y1); try destruct (_is_leap y2); lia.
Qed.

Lemma day_of_year_bounds (d : date) :
  valid_date d = true ->
  (_DAYS_BEFORE_MONTH (month d) + day d
   <= _days_before_month (year d) (month d) + day d
   <= _DAYS_BEFORE_MONTH (month d) + day d + 1
   /\ 1 <= _days_before_month (year d) (month d) + day d <= 366)%Z.
Proof.
  intros Hv. destruct (valid_date_fields d Hv) as (_ & Hm & Hd).
  destruct d as [y m dd]. cbn [year month day] in *.
  unfold _days_before_month, _days_in_month in *.
  assert (Hc : (m = 1 \/ m = 2 \/ m = 3 \/ m = 4 \/ m = 5 \/ m = 6
                \/ m = 7 \/ m = 8 \/ m = 9 \/ m = 10 \/ m = 11
                \/ m = 12)%Z) by lia.
  clear Hm Hv.
  repeat destruct Hc as [Hc|Hc]; subst m; month_tables; cbn in Hd |- *;
    destruct (_is_leap y); lia.
Qed.

(** A date between 18 * 365 and 65 * 365 days before another is between
    17 and 65 years before it, by the rule of the age. *)
Lemma age_of_days (today b : date) (k : Z) :
  valid_date today = true -> valid_date b = true ->
  toordinal b = (toordinal today - k)%Z ->
  (18 * 365 <= k <= 65 * 365)%Z ->
  (17 <= year today - year b
         - (if decide (birthday_to_come today b) then 1 else 0) <= 65)%Z.
Proof.
  intros Ht Hb Hord Hk.
  pose proof (day_of_year_bounds today Ht) as (Ht1 & Ht2).
  pose proof (day_of_year_bounds b Hb) as (Hb1 & Hb2).
  destruct (valid_date_fields today Ht) as (Hyt & _ & _).
  destruct (valid_date_fields b Hb) as (Hyb & _ & _).
  unfold toordinal, _ymd2ord in Hord.
  destruct (Z.le_gt_cases (year b) (year today)) as [Hle|Hgt].
  - pose proof (days_before_year_diff (year b) (year today) ltac:(lia)).
    destruct (decide (birthday_to_come today b)) as [Hcome|Hpast].
    + pose proof (day_number_mono today b Ht Hb) as Hmono.
      unfold birthday_to_come in Hcome. lia.
    + pose proof (day_number_mono b today Hb Ht) as Hmono.
      unfold birthday_to_come in Hpast. lia.
  - pose proof (days_before_year_diff (year today) (year b) ltac:(lia)). lia.
Qed.

(** ** The ages of the generated employees *)

Lemma main_record_row (today : date) (draw : nat -> N) (i k : nat)
    (rows : list row) (ixs : gmap string (list indexed_expr)) :
  generation_day today ->
  exists r,
    V1.main_record today draw i (k, mkDb (Some rows) ixs)
    = (Ok (), ((k + 4)%nat, mkDb (Some (rows ++ [r])) ixs))
    /\ of_generation today r.
Proof.
  intros Ht. unfold V1.main_record. run_loop_body.
  pose proof (randint_bounds draw
                (Datatypes.S (Datatypes.S (Datatypes.S k)))
                (18 * 365) (65 * 365) ltac:(lia)) as Hk.
  destruct (sub_days_ok today _ Ht Hk) as (d & Hd). rewrite Hd.
  run_loop_body. eexists. split; [do 2 f_equal; lia|].
  split; [apply choice_gender|]. by eexists _, d.
Qed.

Lemma special_record_row (today : date) (draw : nat -> N) (i k : nat)
    (rows : list row) (ixs : gmap string (list indexed_expr)) :
  generation_day today ->
  exists r,
    V1.special_record today draw i (k, mkDb (Some rows) ixs)
    = (Ok (), ((k + 1)%nat, mkDb (Some (rows ++ [r])) ixs))
    /\ of_generation today r.
Proof.
  intros Ht. unfold V1.special_record. run_loop_body.
  pose proof (randint_bounds draw k (18 * 365) (65 * 365) ltac:(lia)) as Hk.
  destruct (sub_days_ok today _ Ht Hk) as (d & Hd). rewrite Hd.
  run_loop_body. eexists. split; [do 2 f_equal; lia|].
  split; [by left|]. by eexists _, d.
Qed.

Lemma generation_loops_rows (today : date) (draw : nat -> N) (n s : nat)
    (rows : list row) (ixs : gmap string (list indexed_expr)) :
  generation_day today ->
  exists new,
    with_cursor
      (for_range 0 n (V1.main_record today draw) ;;
       for_range 0 s (V1.special_record today draw))
      (mkDb (Some rows) ixs)
    = (Ok (), mkDb (Some (rows ++ new)) ixs)
    /\ length new = (n + s)%nat
    /\ Forall (of_generation today) new.
Proof.
  intros Ht.
  destruct (for_range_ok
              (fun j (st : nat * database) =>
                 exists added, snd st = mkDb (Some (rows ++ added)) ixs
                               /\ length added = j
                               /\ Forall (of_generation today) added)
              (V1.main_record today draw) n 0 (O, mkDb (Some rows) ixs))
    as ([k1 db1] & Hloop1 & main & Hdb1 & Hlen1 & Hall1).
  { exists []. rewrite app_nil_r. repeat split. constructor. }
  { intros j [k db] (added & Hdb & Hlen & Hall). cbn [snd] in Hdb. subst db.
    destruct (main_record_row today draw (0 + j) k (rows ++ added) ixs Ht)
      as (r & Hr & Hgen).
    eexists. split; [exact Hr|]. exists (added ++ [r]). cbn [snd].
    rewrite app_assoc, length_app. cbn [length].
    split; [done|]. split; [lia|].
    apply Forall_app. split; [done|]. by apply Forall_singleton. }
  cbn [snd] in Hdb1. subst db1.
  destruct (for_range_ok
              (fun j (st : nat * database) =>
                 exists added,
                   snd st = mkDb (Some (rows ++ added)) ixs
                   /\ length added = (n + j)%nat
                   /\ Forall (of_generation today) added)
              (V1.special_record today draw) s 0
              (k1, mkDb (Some (rows ++ main)) ixs))
    as ([k2 db2] & Hloop2 & new & Hdb2 & Hlen2 & Hall2).
  { exists main. repeat split; [lia|done]. }
  { intros j [k db] (added & Hdb & Hlen & Hall). cbn [snd] in Hdb. subst db.
    destruct (special_record_row today draw (0 + j) k (rows ++ added) ixs Ht)
      as (r & Hr & Hgen).
    eexists. split; [exact Hr|]. exists (added ++ [r]). cbn [snd].
    rewrite app_assoc, length_app. cbn [length].
    split; [done|]. split; [lia|].
    apply Forall_app. split; [done|]. by apply Forall_singleton. }
  cbn [snd] in Hdb2. subst db2.
  exists new. split; [|done].
  unfold with_cursor. by rewrite St_bind_unfold, Hloop1, Hloop2.
Qed.

(** A generated row can be read by v2, and its age on the day of the
    generation is between 17 and 65. *)
Lemma of_generation_age (today : date) (r : row) :
  valid_date today = true -> of_generation today r ->
  readable r /\ age_between 17 65 today r.
Proof.
  intros Ht (Hg & k & b & Hk & Hsub & Hbd).
  unfold sub_days in Hsub.
  destruct ((0 <? toordinal today - k)%Z
            && (toordinal today - k <=? _MAXORDINAL)%Z) eqn:Hrange; [|done].
  apply andb_true_iff in Hrange as [H0 Hmax].
  apply Z.ltb_lt in H0. apply Z.leb_le in Hmax.
  injection Hsub as <-.
  destruct (ord2ymd_spec (toordinal today - k) ltac:(lia)) as [Hv Hord].
  split.
  - split; [|done]. exists (_ord2ymd (toordinal today - k)).
    rewrite Hbd. by apply isoformat_parses.
  - unfold age_between. rewrite Hbd.
    rewrite age_expr_isoformat by by apply printable_valid.
    eexists. split; [done|]. by apply (age_of_days _ _ k).
Qed.

(** Every employee that the bulk generation of v1 adds is, on the day
    of the generation, 17 to 65 years old in the listings, and can be
    read by v2: the birth date lies 18 * 365 to 65 * 365 days back, and
    18 * 365 days are a few days less than 18 years.  The same holds
    for the generation of v3 when the table exists. *)
Theorem generated_employees_are_17_to_65 (today : date) (draw : nat -> N)
    (N S : Z) (db : database) :
  valid_date today = true -> generation_day today ->
  (0 <= N)%Z -> (0 <= S)%Z ->
  (exists new,
     rows_of (snd (V1.generate_test_data today draw N S db))
     = rows_of db ++ new
     /\ Z.of_nat (length new) = (N + S)%Z
     /\ Forall (fun r => readable r /\ age_between 17 65 today r) new)
  /\ (has_table db = true ->
      exists new,
        rows_of (snd (V3.generate_test_data today draw N S db))
        = rows_of db ++ new
        /\ Z.of_nat (length new) = (N + S)%Z
        /\ Forall (fun r => readable r /\ age_between 17 65 today r) new).
Proof.
  intros Hv Ht HN HS.
  assert (Hages : forall new, Forall (of_generation today) new ->
            Forall (fun r => readable r /\ age_between 17 65 today r) new).
  { intros new Hnew. eapply Forall_impl; [exact Hnew|].
    intros r. by apply of_generation_age. }
  split.
  - unfold V1.generate_test_data. rewrite St_bind_unfold, V1_ensure_table.
    destruct (generation_loops_rows today draw (Z.to_nat N) (Z.to_nat S)
                (rows_of db) (indexes db) Ht) as (new & Hl & Hlen & Hall).
    assert (Hdb : create_table_if_not_exists db
                  = mkDb (Some (rows_of db)) (indexes db))
      by by destruct db as [[rows|] ixs].
    rewrite Hdb. unfold transaction. rewrite St_bind_unfold, Hl.
    unfold mret, St_ret. cbv beta iota zeta. cbn [snd].
    exists new. rewrite rows_of_mk. split; [done|]. split; [lia|auto].
  - intros Htab.
    unfold V3.generate_test_data, V3.route, V3.generate_test_data_handler.
    destruct db as [[rows|] ixs]; [|done].
    destruct (generation_loops_rows today draw (Z.to_nat N) (Z.to_nat S)
                rows ixs Ht) as (new & Hl & Hlen & Hall).
    unfold transaction. rewrite St_bind_unfold, Hl.
    unfold mret, St_ret. cbv beta iota zeta. cbn [snd].
    exists new. rewrite !rows_of_mk. split; [done|]. split; [lia|auto].
Qed.

(** The theorem for two rows and three special rows generated by v1 on
    3 November 2026 in the empty file; the day 18 * 365 days before is
    7 November 2008, and the age is 17. *)
Lemma generated_employees_are_17_to_65_witness :
  (sub_days (mkDate 2026 11 3) (18 * 365) = Ok (mkDate 2008 11 7)
   /\ age_expr (mkDate 2026 11 3) (isoformat (mkDate 2008 11 7)) = Some 17%Z)
  /\ exists new,
       rows_of (snd (V1.generate_test_data (mkDate 2026 11 3) (fun _ => 7) 2 3
                       empty_db))
       = rows_of empty_db ++ new
       /\ Z.of_nat (length new) = (2 + 3)%Z
       /\ Forall (fun r => readable r
                           /\ age_between 17 65 (mkDate 2026 11 3) r) new.
Proof.
  split; [split; reflexivity|].
  apply (generated_employees_are_17_to_65 (mkDate 2026 11 3) (fun _ => 7) 2 3
           empty_db); [reflexivity|apply generation_day_2026|lia|lia].
Defined.

(** ** What one version stores, another reads *)

Lemma sub_days_valid (today : date) (k : Z) (d : date) :
  sub_days today k = Ok d -> valid_date d = true.
Proof.
  unfold sub_days.
  destruct ((0 <? toordinal today - k)%Z
            && (toordinal today - k <=? _MAXORDINAL)%Z) eqn:Hrange; [|done].
  apply andb_true_iff in Hrange as [H0 Hmax].
  apply Z.ltb_lt in H0. apply Z.leb_le in Hmax. intros [= <-].
  apply ord2ymd_spec. lia.
Qed.

Lemma dates_ok_create_table :
  preserves dates_ok (execute (fun db => Ok (create_table_if_not_exists db))).
Proof.
  apply preserves_execute. intros db db' H [= <-].
  unfold dates_ok. by rewrite rows_of_create_table.
Qed.

Lemma dates_ok_insert (fn bd g : str) :
  (exists d, strptime bd = Ok d) ->
  preserves dates_ok (execute (insert fn bd g)).
Proof.
  intros Hd. apply preserves_execute. intros [[rows|] ixs] db' H; [|done].
  intros [= <-]. unfold dates_ok, rows_of in *. cbn [table default] in *.
  apply Forall_app. split; [done|]. by apply Forall_singleton.
Qed.

Lemma dates_ok_create_index (name : string) (exprs : list indexed_expr) :
  preserves dates_ok (execute (create_index_if_not_exists name exprs)).
Proof.
  apply preserves_execute. intros [[rows|] ixs] db' H; [|done].
  rewrite create_index_union. by intros [= <-].
Qed.

Lemma isoformat_readable (d : date) :
  valid_date d = true -> exists d', strptime (isoformat d) = Ok d'.
Proof. intros Hv. exists d. by apply isoformat_parses. Qed.

Ltac stored_date :=
  first
    [ by eexists; eassumption
    | apply isoformat_readable;
      first [ assumption
            | eapply sub_days_valid; eassumption
            | eapply strptime_valid; eassumption ] ].

Ltac keep_dates :=
  cbv zeta;
  repeat first
    [ apply preserves_ret | apply preserves_raise | apply preserves_lift
    | apply preserves_fetch | apply preserves_next_draw
    | apply preserves_execute_insert
    | apply dates_ok_create_table | apply dates_ok_create_index
    | apply dates_ok_insert; stored_date
    | apply preserves_datetime_now | apply preserves_log
    | apply preserves_improvement
    | apply preserves_bind_lift; intros ? ?
    | apply preserves_bind; [|intros ?]
    | apply preserves_try_except; [|intros ?]
    | apply preserves_transaction
    | apply preserves_for_range; intros ?
    | apply preserves_with_cursor
    | apply preserves_on_db
    | apply preserves_call | apply preserves_quietly
    | apply preserves_if
    | progress cbv zeta ].

Lemma dates_ok_V1_ensure : preserves dates_ok V1._ensure_table_exists.
Proof.
  intros db H. rewrite V1_ensure_table. cbn [snd].
  unfold dates_ok. by rewrite rows_of_create_table.
Qed.

Lemma dates_ok_V2_ensure : preserves dates_ok V2.ensure_table_exists.
Proof.
  intros db H. rewrite V2_ensure_table. cbn [snd].
  unfold dates_ok. by rewrite rows_of_create_table.
Qed.

Lemma dates_ok_V1_add (fn bd g : str) :
  preserves dates_ok (V1.add_employee fn bd g).
Proof.
  unfold V1.add_employee. keep_dates; try apply dates_ok_V1_ensure.
Qed.

Lemma dates_ok_V1_list (now : date) :
  preserves dates_ok (V1.get_all_employees now).
Proof.
  unfold V1.get_all_employees. keep_dates; try apply dates_ok_V1_ensure.
Qed.

Lemma dates_ok_main_record (today : date) (draw : nat -> N) (i : nat) :
  preserves (fun s => dates_ok (snd s)) (V1.main_record today draw i).
Proof. unfold V1.main_record. keep_dates. Qed.

Lemma dates_ok_special_record (today : date) (draw : nat -> N) (i : nat) :
  preserves (fun s => dates_ok (snd s)) (V1.special_record today draw i).
Proof. unfold V1.special_record. keep_dates. Qed.

Lemma dates_ok_V1_generate (today : date) (draw : nat -> N) (c s : Z) :
  preserves dates_ok (V1.generate_test_data today draw c s).
Proof.
  unfold V1.generate_test_data.
  keep_dates; first [apply dates_ok_V1_ensure
                    | apply dates_ok_main_record
                    | apply dates_ok_special_record].
Qed.

Lemma dates_ok_V1_query (now : date) :
  preserves dates_ok (V1.query_male_f now).
Proof. unfold V1.query_male_f. keep_dates; apply dates_ok_V1_ensure. Qed.

Lemma dates_ok_V1_optimize_database :
  preserves dates_ok V1.optimize_database.
Proof. unfold V1.optimize_database. keep_dates. Qed.

Lemma dates_ok_V1_handle_command_6 (clock : nat -> Z) (now : date) :
  preserves (fun w => dates_ok (w_db w)) (V1.handle_command_6 clock now).
Proof.
  unfold V1.handle_command_6.
  keep_dates;
    first [ apply dates_ok_V1_ensure | apply dates_ok_V1_query
          | apply dates_ok_V1_optimize_database ].
Qed.

Lemma dates_ok_V2_add (fn bd g : str) :
  preserves dates_ok (V2.add_employee fn bd g).
Proof.
  unfold V2.add_employee.
  apply preserves_bind; [apply dates_ok_V2_ensure|intros _].
  apply preserves_try_except; [|intros e; keep_dates].
  apply preserves_bind_lift. intros d Hd.
  apply preserves_bind_lift. intros emp Hemp.
  pose proof (new_Employee_recognised fn d g) as He. rewrite Hemp in He.
  destruct He as [_ ->]. cbn [V2.e_full_name V2.e_birth_date V2.e_gender].
  unfold V2.insert_employee, V2._execute. keep_dates.
Qed.

Lemma valid_employees_dates (l : list V2.employee_data) :
  Forall (fun d => valid_date (V2.i_birth_date d) = true) l ->
  Forall (fun d => valid_date (V2.i_birth_date d) = true)
         (V2.valid_employees l).
Proof.
  induction 1 as [|d l Hd Hl IH]; cbn [V2.valid_employees]; [constructor|].
  pose proof (new_Employee_recognised (V2.i_full_name d) (V2.i_birth_date d)
                (V2.i_gender d)) as He.
  destruct (V2.new_Employee _ _ _) as [e|x]; [|done].
  destruct He as [_ ->]. by constructor.
Qed.

Lemma dates_ok_executemany (l : list V2.employee_data) :
  Forall (fun d => valid_date (V2.i_birth_date d) = true) l ->
  preserves dates_ok (V2.executemany l).
Proof.
  induction 1 as [|d l Hd Hl IH]; cbn [V2.executemany]; keep_dates. apply IH.
Qed.

Lemma dates_ok_V2_batch_add (l : list V2.employee_data) :
  Forall (fun d => valid_date (V2.i_birth_date d) = true) l ->
  preserves dates_ok (V2.batch_add_employees l).
Proof.
  intros Hl. apply valid_employees_dates in Hl.
  unfold V2.batch_add_employees.
  apply preserves_bind; [apply dates_ok_V2_ensure|intros _].
  apply preserves_try_except; [|intros e; keep_dates].
  unfold V2.batch_insert_employees.
  destruct (V2.valid_employees l) as [|d l']; [keep_dates|].
  apply preserves_try_except; [|intros e; keep_dates].
  apply preserves_transaction.
  apply preserves_bind; [by apply dates_ok_executemany|intros _; keep_dates].
Qed.

Lemma dates_ok_V2_list : preserves dates_ok V2.get_all_employees.
Proof.
  unfold V2.get_all_employees, V2.db_get_all_employees, V2._execute.
  apply preserves_bind; [apply dates_ok_V2_ensure|intros _].
  apply preserves_try_except; [|intros e; keep_dates].
  apply preserves_bind; [|intros ds; apply preserves_lift].
  apply preserves_bind; [|intros rows; apply preserves_lift].
  keep_dates.
Qed.

Lemma dates_ok_V2_filter (g p : str) :
  preserves dates_ok (V2.get_employees_by_gender_and_name_start g p).
Proof.
  unfold V2.get_employees_by_gender_and_name_start, V2._execute.
  apply preserves_try_except; [|intros e; keep_dates].
  apply preserves_bind; [|intros rows; apply preserves_lift].
  keep_dates.
Qed.

Lemma dates_ok_V2_search (g p : str) :
  preserves dates_ok (V2.search_employees g p).
Proof.
  unfold V2.search_employees.
  apply preserves_bind; [apply dates_ok_V2_ensure|intros _].
  apply preserves_try_except; [|intros e; keep_dates].
  apply preserves_bind; [apply dates_ok_V2_filter|intros ds].
  apply preserves_lift.
Qed.

Lemma dates_ok_V2_create_indexes : preserves dates_ok V2.create_indexes.
Proof. unfold V2.create_indexes. keep_dates. Qed.

Lemma dates_ok_V2_optimize (clock : nat -> Z) :
  preserves (fun w => dates_ok (w_db w)) (V2._optimize_db clock).
Proof.
  unfold V2._optimize_db, V2.optimize_and_test.
  apply preserves_bind; [|intros [a b]; keep_dates].
  keep_dates;
    first [ apply dates_ok_V2_ensure | apply dates_ok_V2_filter
          | apply dates_ok_V2_create_indexes ].
Qed.

Lemma make_batch_dates (fake : V2.Faker) (draw : nat -> N) (n k : nat) :
  (forall j, valid_date (V2.date_of_birth fake j) = true) ->
  Forall (fun d => valid_date (V2.i_birth_date d) = true)
         (V2.make_batch fake draw n k).
Proof.
  intros Hf. revert k. induction n as [|n IH]; intros k; cbn [V2.make_batch];
    constructor; [apply Hf|apply IH].
Qed.

Lemma special_batch_dates (fake : V2.Faker) (n k : nat) :
  (forall j, valid_date (V2.date_of_birth fake j) = true) ->
  Forall (fun d => valid_date (V2.i_birth_date d) = true)
         (V2.special_batch fake n k).
Proof.
  intros Hf. revert k.
  induction n as [|n IH]; intros k; cbn [V2.special_batch];
    constructor; [apply Hf|apply IH].
Qed.

Lemma dates_ok_add_batches (fake : V2.Faker) (draw : nat -> N)
    (n k : nat) (total : Z) :
  (forall j, valid_date (V2.date_of_birth fake j) = true) ->
  preserves dates_ok (V2.add_batches fake draw n k total).
Proof.
  intros Hf. revert k total. induction n as [|n IH]; intros k total;
    cbn [V2.add_batches]; [apply preserves_ret|].
  apply preserves_bind; [|intros a; apply IH].
  by apply dates_ok_V2_batch_add, make_batch_dates.
Qed.

Lemma dates_ok_V2_generate (fake : V2.Faker) (draw : nat -> N) (c s : Z) :
  (forall j, valid_date (V2.date_of_birth fake j) = true) ->
  preserves dates_ok (V2.generate_test_data fake draw c s).
Proof.
  intros Hf. unfold V2.generate_test_data.
  apply preserves_bind; [apply dates_ok_V2_ensure|intros _].
  apply preserves_try_except; [|intros e; keep_dates].
  apply preserves_bind; [by apply dates_ok_add_batches|intros [t k]].
  apply preserves_bind; [|intros a; keep_dates].
  by apply dates_ok_V2_batch_add, special_batch_dates.
Qed.

Lemma dates_ok_V3_create (e : V3.EmployeeCreate) :
  preserves dates_ok (V3.create_employee_handler e).
Proof. unfold V3.create_employee_handler. keep_dates. Qed.

Lemma dates_ok_V3_generate (today : date) (draw : nat -> N) (c s : Z) :
  preserves dates_ok (V3.generate_test_data_handler today draw c s).
Proof.
  unfold V3.generate_test_data_handler.
  keep_dates; first [apply dates_ok_main_record
                    | apply dates_ok_special_record].
Qed.

Lemma dates_ok_V3_optimize (clock : nat -> Z) :
  preserves (fun w => dates_ok (w_db w)) (V3.optimize_database_handler clock).
Proof.
  unfold V3.optimize_database_handler, V3.create_indexes, V3.probe.
  keep_dates.
Qed.

Lemma dates_ok_run (op : operation) (db : database) :
  well_formed op -> dates_ok db -> dates_ok (run op db).
Proof.
  intros Hop H. destruct op; cbn [run well_formed] in *.
  - by apply dates_ok_create_table.
  - by apply dates_ok_V1_add.
  - by apply dates_ok_V1_list.
  - by apply dates_ok_V1_generate.
  - by apply dates_ok_V1_query.
  - by apply dates_ok_V1_optimize_database.
  - by apply (dates_ok_V1_handle_command_6 clock now (mkWorld db 0 [])).
  - by apply dates_ok_V2_ensure.
  - by apply dates_ok_V2_add.
  - by apply dates_ok_V2_batch_add.
  - by apply dates_ok_V2_list.
  - unfold V2.get_male_employees_with_f_surname.
    revert db H. apply preserves_bind; [apply dates_ok_V2_ensure|intros _].
    apply dates_ok_V2_filter.
  - by apply dates_ok_V2_search.
  - by apply (dates_ok_V2_optimize clock (mkWorld db 0 [])).
  - by apply dates_ok_V2_generate.
  - by apply dates_ok_create_table.
  - apply (preserves_route dates_ok); [apply dates_ok_V3_create|done].
  - apply (preserves_route dates_ok); [keep_dates|done].
  - apply (preserves_route dates_ok); [apply dates_ok_V3_generate|done].
  - apply (preserves_route dates_ok); [keep_dates|done].
  - by apply (preserves_route (fun w => dates_ok (w_db w)) _ _
                (mkWorld db 0 []) (dates_ok_V3_optimize clock)).
Qed.

Lemma produced_readable (db : database) :
  produced db -> Forall readable (rows_of db).
Proof.
  induction 1 as [|op db Hop Hdb IH]; [constructor|].
  assert (Hd : dates_ok (run op db)).
  { apply dates_ok_run; [done|].
    eapply Forall_impl; [exact IH|]. by intros r [Hr _]. }
  assert (Hg : genders_ok (run op db)).
  { apply genders_ok_run.
    eapply Forall_impl; [exact IH|]. by intros r [_ Hr]. }
  unfold dates_ok, genders_ok in *. rewrite Forall_forall in Hd, Hg |- *.
  intros r Hr. split; [by apply Hd|by apply Hg].
Qed.

Lemma produced_from_v2_produced (db : database) :
  produced_from_v2 db -> produced db.
Proof.
  induction 1 as [|op db Hop Hdb IH].
  - apply produced_run; [exact I|apply produced_empty].
  - by apply produced_run.
Qed.

(** What [get_all_employees] of v2 returns on rows it can read. *)
Lemma V2_get_all_employees_readable (db : database) :
  Forall readable (rows_of db) ->
  exists rows l,
    fst (V2.get_all_employees db) = Ok l
    /\ ordered_by_name (rows_of db) rows
    /\ Forall2 employee_of_row rows l.
Proof.
  intros Hdb.
  pose proof (sorter_perm (fun a b => text_le (full_name a) (full_name b))
                name_order_total name_order_trans (rows_of db)) as Hp.
  pose proof (sorter_sorted (fun a b => text_le (full_name a) (full_name b))
                name_order_total name_order_trans (rows_of db)) as Hs.
  fold (order_by_name (rows_of db)) in Hp, Hs.
  destruct (read_back (order_by_name (rows_of db))) as (l & Hl & Hrel).
  { eapply Permutation_Forall; [symmetry; exact Hp|done]. }
  exists (order_by_name (rows_of db)), l.
  split; [by rewrite V2_get_all_employees_eq, Hl|]. by repeat split.
Qed.

(** v2 reads what the three programs store in a file in which v2
    created the table: whatever operations of v1, v2 and v3 were run on
    the file after that, in any order, [get_all_employees] of v2
    returns, with an employee for every row of the table, in the order
    of the stored names.  It raises no [RuntimeError] over a birth date
    or a gender that another version stored. *)
Theorem V2_reads_every_produced_database (db : database) :
  produced_from_v2 db ->
  exists rows l,
    fst (V2.get_all_employees db) = Ok l
    /\ ordered_by_name (rows_of db) rows
    /\ Forall2 employee_of_row rows l.
Proof.
  intros Hdb.
  by apply V2_get_all_employees_readable, produced_readable,
    produced_from_v2_produced.
Qed.

(** The theorem for the file in which, after v2 had created the table,
    v1 stored a man born "1990-5-1" with the gender "xyz" and v3 a woman
    born "1985-01-20". *)
Lemma V2_reads_every_produced_database_witness :
  let db :=
    run (V3_create_employee
           (V3.mkEmployeeCreate (u "Petrova Anna") (u "1985-01-20") cyr_zhe))
        (run (V1_add_employee (u "fedorov Ivan") (u "1990-5-1") (u "xyz"))
             (run V2_ensure_table_exists empty_db)) in
  fst (V2.get_all_employees db)
  = Ok [V2.mkEmployee (u "Petrova Anna") (mkDate 1985 1 20) Female;
        V2.mkEmployee (u "Fedorov Ivan") (mkDate 1990 5 1) Female]
  /\ exists rows l,
       fst (V2.get_all_employees db) = Ok l
       /\ ordered_by_name (rows_of db) rows
       /\ Forall2 employee_of_row rows l.
Proof.
  split; [reflexivity|].
  apply V2_reads_every_produced_database.
  apply produced_from_v2_run; [exact I|].
  apply produced_from_v2_run; [exact I|].
  apply produced_from_v2_table.
Defined.

(** An employee added by v2 to a file in which v2 created the table is
    in the list [get_all_employees] returns next, equal to the
    [Employee] that [add_employee] returned, when the name can be
    encoded by the driver and none of its tokens begins with U+0149
    (whose capitalisation a second normalisation changes); the list has
    an employee for every row. *)
Theorem V2_added_employee_is_read_back (fn bd g : str) (d : date)
    (db : database) :
  strptime bd = Ok d -> recognised g = true -> encodable fn = true ->
  Forall begins_plainly (split fn) ->
  produced_from_v2 db ->
  let db1 := snd (V2.add_employee fn bd g db) in
  exists e l,
    fst (V2.add_employee fn bd g db) = Ok e
    /\ fst (V2.get_all_employees db1) = Ok l
    /\ In e l
    /\ length l = Datatypes.S (length (rows_of db)).
Proof.
  intros Hd Hg _ Hfn Hdb db1.
  assert (Hdb1 : produced_from_v2 db1).
  { apply (produced_from_v2_run (V2_add_employee fn bd g)); [exact I|done]. }
  destruct (V2_get_all_employees_readable db1) as (rows & l & Hl & [Hp _] & Hrel).
  { by apply produced_readable, produced_from_v2_produced. }
  subst db1. revert Hl Hp.
  rewrite (V2_add_employee_stores fn bd g d db Hd Hg). cbn [fst snd].
  set (gender := if in_tuple (lower g) male_spellings then Male else Female).
  set (r := mkRow _ _ _ _). rewrite rows_of_mk. intros Hl Hp.
  assert (Hv : valid_date d = true) by (by eapply strptime_valid).
  exists (V2.mkEmployee (V2._normalize_name fn) d gender), l.
  split; [done|]. split; [done|]. split.
  - assert (Hin : r ∈ rows).
    { apply list_elem_of_In. eapply Permutation_in; [symmetry; exact Hp|].
      apply in_app_iff. right. by left. }
    apply list_elem_of_lookup in Hin as [i Hi].
    destruct (Forall2_lookup_l _ _ _ i r Hrel Hi) as (e & He & Hn & Hbd & Hge).
    apply list_elem_of_In, (list_elem_of_lookup_2 _ i).
    rewrite He. f_equal. destruct e as [n b g']. subst r.
    cbn [V2.e_full_name V2.e_birth_date V2.e_gender
         full_name birth_date SQLite.gender] in *.
    rewrite (isoformat_parses d Hv) in Hbd.
    rewrite (normalize_name_twice fn Hfn) in Hn. congruence.
  - apply Forall2_length in Hrel. rewrite <- Hrel.
    rewrite (Permutation_length Hp), length_app. cbn [length]. lia.
Qed.

(** The theorem for " ivanov  IVAN", born "1990-5-1", gender "m", added
    to the file in which v2 has created the table. *)
Lemma V2_added_employee_is_read_back_witness :
  let db := run V2_ensure_table_exists empty_db in
  let db1 := snd (V2.add_employee (u " ivanov  IVAN") (u "1990-5-1") (u "m")
                    db) in
  exists e l,
    fst (V2.add_employee (u " ivanov  IVAN") (u "1990-5-1") (u "m") db) = Ok e
    /\ fst (V2.get_all_employees db1) = Ok l
    /\ In e l
    /\ length l = Datatypes.S (length (rows_of db)).
Proof.
  apply (V2_added_employee_is_read_back (u " ivanov  IVAN") (u "1990-5-1")
           (u "m") (mkDate 1990 5 1) (run V2_ensure_table_exists empty_db)).
  - reflexivity.
  - reflexivity.
  - reflexivity.
  - repeat (constructor; [discriminate|]). constructor.
  - apply produced_from_v2_table.
Defined.

(** The mode 3 of the command line of v2, on a file in which v2 created
    the table, writes the message for an empty list when there is no
    row, and otherwise the heading, a line for every row with the
    employee read from it and the age on the day of the run, in the
    order of the stored names, and the number of rows; [main]
    returns. *)
Theorem V2_command_line_mode_3_shows_every_row (today : date)
    (fake : V2.Faker) (draw : nat -> N) (args : list str) (db : database) :
  produced_from_v2 db ->
  exists rows l,
    ordered_by_name (rows_of db) rows
    /\ Forall2 employee_of_row rows l
    /\ V2App.main today fake draw (V2App.Int 3) args db
       = ((match l with
           | [] => [V2App.no_data]
           | _ :: _ =>
               V2App.heading
               :: List.map
                    (fun e => V2App.employee_line e (V2.calculate_age today e))
                    l
               ++ [V2App.closing (length (rows_of db))]
           end, V2App.finished 0), create_table_if_not_exists db).
Proof.
  intros Hdb.
  destruct (V2_get_all_employees_readable db) as (rows & l & Hl & Hord & Hrel).
  { by apply produced_readable, produced_from_v2_produced. }
  exists rows, l. split; [done|]. split; [done|].
  assert (Hlen : length l = length (rows_of db)).
  { apply Forall2_length in Hrel. rewrite <- Hrel.
    apply (Permutation_length (proj1 Hord)). }
  assert (Hall : V2.get_all_employees db = (Ok l, create_table_if_not_exists db)).
  { rewrite V2_get_all_employees_eq in Hl |- *. cbn [fst] in Hl.
    by rewrite Hl. }
  unfold V2App.main, V2App.dispatch. cbn [V2App.py_eq orb andb].
  change (3 =? 0)%Z with false. change (3 =? 1)%Z with false.
  change (3 =? 2)%Z with false. change (3 =? 3)%Z with true.
  cbv iota. rewrite Hall. unfold V2App.called.
  destruct l as [|e l]; [done|].
  unfold V2App.display_employees.
  rewrite (display_rows_objects today (e :: l)).
  cbn [List.map length andb] in *. by rewrite length_map, Hlen.
Qed.

(** The theorem for the table that holds "Petrov Piotr" and "Fedorov
    Ivan", added by v2 in this order. *)
Lemma V2_command_line_mode_3_shows_every_row_witness :
  let db := run (V2_add_employee (u "fedorov ivan") (u "1990-05-15") (u "m"))
              (run (V2_add_employee (u "petrov piotr") (u "1985-01-20")
                      (u "m"))
                 (run V2_ensure_table_exists empty_db)) in
  fst (fst (V2App.main (mkDate 2026 11 3) sample_faker (fun _ => 7)
              (V2App.Int 3) [] db))
  = [V2App.heading;
     V2App.employee_line
       (V2.mkEmployee (u "Fedorov Ivan") (mkDate 1990 5 15) Male) 36;
     V2App.employee_line
       (V2.mkEmployee (u "Petrov Piotr") (mkDate 1985 1 20) Male) 41;
     V2App.closing 2]
  /\ exists rows l,
       ordered_by_name (rows_of db) rows
       /\ Forall2 employee_of_row rows l
       /\ V2App.main (mkDate 2026 11 3) sample_faker (fun _ => 7)
            (V2App.Int 3) [] db
          = ((match l with
              | [] => [V2App.no_data]
              | _ :: _ =>
                  V2App.heading
                  :: List.map
                       (fun e => V2App.employee_line e
                                   (V2.calculate_age (mkDate 2026 11 3) e))
                       l
                  ++ [V2App.closing (length (rows_of db))]
              end, V2App.finished 0), create_table_if_not_exists db).
Proof.
  split; [reflexivity|].
  apply V2_command_line_mode_3_shows_every_row.
  apply produced_from_v2_run; [exact I|].
  apply produced_from_v2_run; [exact I|].
  apply produced_from_v2_table.
Defined.

(** ** Nothing is deleted *)

Section Statements.

(** A property of the database that each of the three statements that
    write keeps is kept by every operation of the three versions. *)
Context (Q : database -> Prop).
Hypothesis Q_create_table :
  preserves Q (execute (fun db => Ok (create_table_if_not_exists db))).
Hypothesis Q_insert :
  forall fn bd g, preserves Q (execute (insert fn bd g)).
Hypothesis Q_create_index :
  forall name exprs,
    preserves Q (execute (create_index_if_not_exists name exprs)).

Lemma kept_V1_ensure : preserves Q V1._ensure_table_exists.
Proof.
  intros db H. unfold V1._ensure_table_exists.
  destruct (has_table db); [done|]. by apply Q_create_table.
Qed.

Lemma kept_V2_ensure : preserves Q V2.ensure_table_exists.
Proof.
  intros db H. rewrite V2_ensure_table. cbn [snd].
  by apply (Q_create_table db).
Qed.

Ltac keep :=
  cbv zeta;
  repeat first
    [ apply preserves_ret | apply preserves_raise | apply preserves_lift
    | apply preserves_fetch | apply preserves_next_draw
    | apply preserves_execute_insert
    | apply Q_create_table | apply Q_create_index | apply Q_insert
    | apply kept_V1_ensure | apply kept_V2_ensure
    | apply preserves_datetime_now | apply preserves_log
    | apply preserves_improvement
    | apply preserves_bind; [|intros ?]
    | apply preserves_try_except; [|intros ?]
    | apply preserves_transaction
    | apply preserves_for_range; intros ?
    | apply preserves_with_cursor
    | apply preserves_on_db
    | apply preserves_call | apply preserves_quietly
    | apply preserves_if
    | progress cbv zeta ].

Lemma kept_V1_add (fn bd g : str) : preserves Q (V1.add_employee fn bd g).
Proof. unfold V1.add_employee. keep. Qed.

Lemma kept_V1_list (now : date) : preserves Q (V1.get_all_employees now).
Proof. unfold V1.get_all_employees. keep. Qed.

Lemma kept_main_record (today : date) (draw : nat -> N) (i : nat) :
  preserves (fun s => Q (snd s)) (V1.main_record today draw i).
Proof. unfold V1.main_record. keep. Qed.

Lemma kept_special_record (today : date) (draw : nat -> N) (i : nat) :
  preserves (fun s => Q (snd s)) (V1.special_record today draw i).
Proof. unfold V1.special_record. keep. Qed.

Lemma kept_V1_generate (today : date) (draw : nat -> N) (c s : Z) :
  preserves Q (V1.generate_test_data today draw c s).
Proof.
  unfold V1.generate_test_data.
  keep; first [apply kept_main_record | apply kept_special_record].
Qed.

Lemma kept_V1_query (now : date) : preserves Q (V1.query_male_f now).
Proof. unfold V1.query_male_f. keep. Qed.

Lemma kept_V1_optimize_database : preserves Q V1.optimize_database.
Proof. unfold V1.optimize_database. keep. Qed.

Lemma kept_V1_handle_command_6 (clock : nat -> Z) (now : date) :
  preserves (fun w => Q (w_db w)) (V1.handle_command_6 clock now).
Proof. unfold V1.handle_command_6. keep. Qed.

Lemma kept_V2_add (fn bd g : str) : preserves Q (V2.add_employee fn bd g).
Proof.
  unfold V2.add_employee.
  apply preserves_bind; [apply kept_V2_ensure|intros _].
  apply preserves_try_except; [|intros e; keep].
  apply preserves_bind_lift. intros d _.
  apply preserves_bind_lift. intros emp _.
  unfold V2.insert_employee, V2._execute. keep.
Qed.

Lemma kept_executemany (l : list V2.employee_data) :
  preserves Q (V2.executemany l).
Proof. induction l as [|d l IH]; cbn [V2.executemany]; keep. apply IH. Qed.

Lemma kept_V2_batch_add (l : list V2.employee_data) :
  preserves Q (V2.batch_add_employees l).
Proof.
  unfold V2.batch_add_employees.
  apply preserves_bind; [apply kept_V2_ensure|intros _].
  apply preserves_try_except; [|intros e; keep].
  unfold V2.batch_insert_employees.
  destruct (V2.valid_employees l) as [|d l']; [keep|].
  apply preserves_try_except; [|intros e; keep].
  apply preserves_transaction.
  apply preserves_bind; [apply kept_executemany|intros _; keep].
Qed.

Lemma kept_V2_list : preserves Q V2.get_all_employees.
Proof.
  unfold V2.get_all_employees, V2.db_get_all_employees, V2._execute. keep.
Qed.

Lemma kept_V2_filter (g p : str) :
  preserves Q (V2.get_employees_by_gender_and_name_start g p).
Proof.
  unfold V2.get_employees_by_gender_and_name_start, V2._execute. keep.
Qed.

Lemma kept_V2_search (g p : str) : preserves Q (V2.search_employees g p).
Proof.
  unfold V2.search_employees.
  apply preserves_bind; [apply kept_V2_ensure|intros _].
  apply preserves_try_except; [|intros e; keep].
  apply preserves_bind; [apply kept_V2_filter|intros ds; keep].
Qed.

Lemma kept_V2_create_indexes : preserves Q V2.create_indexes.
Proof. unfold V2.create_indexes. keep. Qed.

Lemma kept_V2_optimize (clock : nat -> Z) :
  preserves (fun w => Q (w_db w)) (V2._optimize_db clock).
Proof.
  unfold V2._optimize_db, V2.optimize_and_test.
  apply preserves_bind; [|intros [a b]; keep].
  keep; first [apply kept_V2_filter | apply kept_V2_create_indexes].
Qed.

Lemma kept_add_batches (fake : V2.Faker) (draw : nat -> N) (n k : nat)
    (total : Z) :
  preserves Q (V2.add_batches fake draw n k total).
Proof.
  revert k total. induction n as [|n IH]; intros k total;
    cbn [V2.add_batches]; [apply preserves_ret|].
  apply preserves_bind; [apply kept_V2_batch_add|intros a; apply IH].
Qed.

Lemma kept_V2_generate (fake : V2.Faker) (draw : nat -> N) (c s : Z) :
  preserves Q (V2.generate_test_data fake draw c s).
Proof.
  unfold V2.generate_test_data.
  apply preserves_bind; [apply kept_V2_ensure|intros _].
  apply preserves_try_except; [|intros e; keep].
  apply preserves_bind; [apply kept_add_batches|intros [t k]].
  apply preserves_bind; [apply kept_V2_batch_add|intros a]. keep.
Qed.

Lemma kept_V3_create (e : V3.EmployeeCreate) :
  preserves Q (V3.create_employee_handler e).
Proof. unfold V3.create_employee_handler. keep. Qed.

Lemma kept_V3_generate (today : date) (draw : nat -> N) (c s : Z) :
  preserves Q (V3.generate_test_data_handler today draw c s).
Proof.
  unfold V3.generate_test_data_handler.
  keep; first [apply kept_main_record | apply kept_special_record].
Qed.

Lemma kept_V3_optimize (clock : nat -> Z) :
  preserves (fun w => Q (w_db w)) (V3.optimize_database_handler clock).
Proof.
  unfold V3.optimize_database_handler, V3.create_indexes, V3.probe. keep.
Qed.

Lemma kept_run (op : operation) (db : database) : Q db -> Q (run op db).
Proof.
  intros H. destruct op; cbn [run].
  - by apply Q_create_table.
  - by apply kept_V1_add.
  - by apply kept_V1_list.
  - by apply kept_V1_generate.
  - by apply kept_V1_query.
  - by apply kept_V1_optimize_database.
  - by apply (kept_V1_handle_command_6 clock now (mkWorld db 0 [])).
  - by apply kept_V2_ensure.
  - by apply kept_V2_add.
  - by apply kept_V2_batch_add.
  - by apply kept_V2_list.
  - unfold V2.get_male_employees_with_f_surname.
    revert db H. apply preserves_bind; [apply kept_V2_ensure|intros _].
    apply kept_V2_filter.
  - by apply kept_V2_search.
  - by apply (kept_V2_optimize clock (mkWorld db 0 [])).
  - by apply kept_V2_generate.
  - by apply Q_create_table.
  - apply (preserves_route Q); [apply kept_V3_create|done].
  - apply (preserves_route Q); [keep|done].
  - apply (preserves_route Q); [apply kept_V3_generate|done].
  - apply (preserves_route Q); [keep|done].
  - by apply (preserves_route (fun w => Q (w_db w)) _ _
                (mkWorld db 0 []) (kept_V3_optimize clock)).
Qed.

End Statements.

Lemma extends_statements (base : list row) :
  preserves (extends base)
    (execute (fun db => Ok (create_table_if_not_exists db)))
  /\ (forall fn bd g, preserves (extends base) (execute (insert fn bd g)))
  /\ (forall name exprs,
        preserves (extends base)
          (execute (create_index_if_not_exists name exprs))).
Proof.
  repeat split.
  - apply preserves_execute. intros db db' H [= <-].
    unfold extends. by rewrite rows_of_create_table.
  - intros fn bd g. apply preserves_execute.
    intros [[rows|] ixs] db' [new H]; [|done].
    intros [= <-]. rewrite rows_of_mk in *. eexists (new ++ [_]).
    by rewrite H, app_assoc.
  - intros name exprs. apply preserves_execute.
    intros [[rows|] ixs] db' H; [|done].
    rewrite create_index_union. by intros [= <-].
Qed.

Lemma has_table_statements :
  preserves (fun db => has_table db = true)
    (execute (fun db => Ok (create_table_if_not_exists db)))
  /\ (forall fn bd g,
        preserves (fun db => has_table db = true) (execute (insert fn bd g)))
  /\ (forall name exprs,
        preserves (fun db => has_table db = true)
          (execute (create_index_if_not_exists name exprs))).
Proof.
  repeat split.
  - apply preserves_execute. intros db db' H [= <-].
    apply has_table_create_table.
  - intros fn bd g. apply preserves_execute.
    intros [[rows|] ixs] db' H; [|done]. by intros [= <-].
  - intros name exprs. apply preserves_execute.
    intros [[rows|] ixs] db' H; [|done].
    rewrite create_index_union. by intros [= <-].
Qed.

Lemma keeps_indexes_statements (ixs : gmap string (list indexed_expr)) :
  preserves (keeps_indexes ixs)
    (execute (fun db => Ok (create_table_if_not_exists db)))
  /\ (forall fn bd g,
        preserves (keeps_indexes ixs) (execute (insert fn bd g)))
  /\ (forall name exprs,
        preserves (keeps_indexes ixs)
          (execute (create_index_if_not_exists name exprs))).
Proof.
  repeat split.
  - apply preserves_execute. intros db db' H [= <-].
    unfold keeps_indexes. by rewrite indexes_create_table.
  - intros fn bd g. apply preserves_execute.
    intros [[rows|] ix] db' H; [|done]. by intros [= <-].
  - intros name exprs. apply preserves_execute.
    intros [[rows|] ix] db' H; [|done].
    unfold create_index_if_not_exists. cbn [table indexes].
    destruct (ix !! name) as [old|] eqn:Hold; intros [= <-]; [done|].
    intros name' exprs' Hin. specialize (H name' exprs' Hin).
    cbn [indexes] in *. rewrite lookup_insert_ne; [done|congruence].
Qed.

(** No operation of the three versions deletes or changes anything
    that is stored: after it, whether it returned or raised, the table
    begins with the rows it had, in their order; the table exists if it
    existed; and every index that existed exists with the same
    definition. *)
Theorem nothing_is_deleted (op : operation) (db : database) :
  (exists new, rows_of (run op db) = rows_of db ++ new)
  /\ (has_table db = true -> has_table (run op db) = true)
  /\ (forall name exprs,
        indexes db !! name = Some exprs ->
        indexes (run op db) !! name = Some exprs).
Proof.
  repeat split.
  - destruct (extends_statements (rows_of db)) as (H1 & H2 & H3).
    apply (kept_run (extends (rows_of db)) H1 H2 H3).
    exists []. by rewrite app_nil_r.
  - destruct has_table_statements as (H1 & H2 & H3).
    apply (kept_run (fun db => has_table db = true) H1 H2 H3).
  - destruct (keeps_indexes_statements (indexes db)) as (H1 & H2 & H3).
    apply (kept_run (keeps_indexes (indexes db)) H1 H2 H3). by intros ? ?.
Qed.

(** ** Adding and listing in v3 *)

(** For a body whose birth date parses and whose name can be encoded
    as UTF-8, the table being there, [POST /employees/] answers 201 and
    [GET /employees/] then answers 200 with an entry that has the name
    and the birth date as they were sent, the normalised gender, and
    the age SQLite computes from the text of the date. *)
Theorem V3_created_employee_is_listed (now : date) (e : V3.EmployeeCreate)
    (d : date) (db : database) :
  has_table db = true -> strptime (V3.ec_birth_date e) = Ok d ->
  encodable (V3.ec_full_name e) = true ->
  let db1 := snd (V3.create_employee e db) in
  exists l,
    fst (V3.create_employee e db) = V3.mkResponse 201 (Some ())
    /\ fst (V3.get_all_employees now db1) = V3.mkResponse 200 (Some l)
    /\ In (mkListing (V3.ec_full_name e) (V3.ec_birth_date e)
             (if in_tuple (lower (V3.ec_gender e)) male_spellings
              then Male else Female)
             (age_expr now (V3.ec_birth_date e))) l
    /\ length l = Datatypes.S (length (rows_of db)).
Proof.
  intros Ht Hd Hn db1. subst db1. destruct db as [[rows|] ixs]; [|done].
  rewrite (V3_create_employee_stores e d rows ixs Hd Hn). cbn [fst snd].
  rewrite V3_get_all_employees_eq. cbn [fst table]. eexists.
  split; [done|]. split; [done|].
  set (r := mkRow _ _ _ _).
  pose proof (sorter_perm (fun a b => text_le (full_name a) (full_name b))
                name_order_total name_order_trans (rows ++ [r])) as Hp.
  fold (order_by_name (rows ++ [r])) in Hp. split.
  - apply (in_map (to_listing now) _ r).
    eapply Permutation_in; [symmetry; exact Hp|].
    apply in_app_iff. right. by left.
  - rewrite length_map, (Permutation_length Hp), length_app, rows_of_mk.
    cbn [length]. lia.
Qed.

(** The theorem for "Petrova Anna", born "1985-1-20", sent after the
    start of the service. *)
Lemma V3_created_employee_is_listed_witness :
  let e := V3.mkEmployeeCreate (u "Petrova Anna") (u "1985-1-20") cyr_zhe in
  let db := snd (V3.init_db empty_db) in
  exists l,
    fst (V3.create_employee e db) = V3.mkResponse 201 (Some ())
    /\ fst (V3.get_all_employees (mkDate 2026 11 3)
              (snd (V3.create_employee e db)))
       = V3.mkResponse 200 (Some l)
    /\ In (mkListing (u "Petrova Anna") (u "1985-1-20") Female None) l
    /\ length l = 1%nat.
Proof.
  apply (V3_created_employee_is_listed (mkDate 2026 11 3)
           (V3.mkEmployeeCreate (u "Petrova Anna") (u "1985-1-20") cyr_zhe)
           (mkDate 1985 1 20) (snd (V3.init_db empty_db)));
    reflexivity.
Defined.
